(** * utcp: a userspace TCP over an unreliable datagram substrate

    A shallow embedding of the code of [utcp.c] (with the declarations of
    [utcp_priv.h]):
    the per-connection state machine ([utcp_recv]), the egress engine ([ack]),
    the public outbound operations ([utcp_send], [utcp_shutdown], [utcp_close],
    [utcp_abort]), retransmission and the timer sweep ([utcp_timeout]), and the
    host that owns the sorted connection table.

    Conventions of the embedding.
    - A C integer of width w is a [Z]; every place where the C code wraps is
      written out with [uint16], [uint32], [int32] or [usize].
    - A connection is a record; a function that receives a
      [struct utcp_connection *] and mutates it returns the updated record.
      Pointers to connections and to the host are taken to be valid.
    - Everything the library hands to the outside world (the [send] callback of
      the host, the [recv], [poll] and [accept] callbacks) is appended to a
      trace of events.  A callback does not re-enter the library while it
      runs, with one exception that the code itself relies on: the [accept]
      callback may call [utcp_accept] on the connection it is given.
    - [abort()] and a failed [assert] end the process: outcome [Aborted].
      A loop that never ends is outcome [Diverges].
    - What the C code leaves indeterminate (the clock, [rand()], the result of
      [realloc], uninitialised storage) is read from an [environ] record. *)

From Stdlib Require Import ZArith List Bool Lia Sorted.
Import ListNotations.
Local Open Scope Z_scope.

(** ** Machine integers *)

Definition uint16 (z : Z) : Z := z mod 2 ^ 16.
Definition uint32 (z : Z) : Z := z mod 2 ^ 32.
Definition usize (z : Z) : Z := z mod 2 ^ 64.

(** Conversion of a 32-bit pattern to [int32_t] (two's complement). *)
Definition int32 (z : Z) : Z := (z + 2 ^ 31) mod 2 ^ 32 - 2 ^ 31.

(** [static int32_t seqdiff(uint32_t a, uint32_t b) { return a - b; }] *)
Definition seqdiff (a b : Z) : Z := int32 (a - b).

(** ** Segment header ([struct hdr]) and control flags *)

Definition SYN : Z := 1.
Definition ACK : Z := 2.
Definition FIN : Z := 4.
Definition RST : Z := 8.

Record hdr := {
  hdr_src : Z;  (* uint16_t src: source port *)
  hdr_dst : Z;  (* uint16_t dst: destination port *)
  hdr_seq : Z;  (* uint32_t seq *)
  hdr_ack : Z;  (* uint32_t ack *)
  hdr_wnd : Z;  (* uint32_t wnd *)
  hdr_ctl : Z;  (* uint16_t ctl: flags *)
  hdr_aux : Z   (* uint16_t aux *)
}.

(** [sizeof (struct hdr)]: 2 + 2 + 4 + 4 + 4 + 2 + 2 bytes, no padding. *)
Definition sizeof_hdr : Z := 20.

(** [hdr.ctl & f], as a truth value. *)
Definition has_flag (f : Z) (h : hdr) : bool := negb (Z.land (hdr_ctl h) f =? 0).

(** ** Connection states ([enum state]) *)

Inductive enum_state :=
| CLOSED | LISTEN | SYN_SENT | SYN_RECEIVED | ESTABLISHED
| FIN_WAIT_1 | FIN_WAIT_2 | CLOSE_WAIT | CLOSING | LAST_ACK | TIME_WAIT.

Definition state_eq_dec (a b : enum_state) : {a = b} + {a <> b}.
Proof. decide equality. Defined.

Definition state_eqb (a b : enum_state) : bool :=
  if state_eq_dec a b then true else false.

(** ** Timers ([struct timeval] and the [timer*] macros) *)

Record timeval := { tv_sec : Z; tv_usec : Z }.

Definition timerclear : timeval := {| tv_sec := 0; tv_usec := 0 |}.

Definition timerisset (t : timeval) : bool :=
  negb (tv_sec t =? 0) || negb (tv_usec t =? 0).

(** [timercmp(a, b, <)] *)
Definition timer_lt (a b : timeval) : bool :=
  if tv_sec a =? tv_sec b then tv_usec a <? tv_usec b else tv_sec a <? tv_sec b.

Definition add_sec (t : timeval) (s : Z) : timeval :=
  {| tv_sec := tv_sec t + s; tv_usec := tv_usec t |}.

(** ** errno *)

Inductive errno_t :=
| E0 | EFAULT | EBADMSG | EBADF | ENOTCONN | EPIPE | EADDRINUSE | ENOMEM
| ECONNREFUSED | ECONNRESET | ETIMEDOUT | EWOULDBLOCK.

(** ** Connections ([struct utcp_connection])

    The fields are those the code of [utcp.c] reads and writes.  The
    declaration in [utcp_priv.h] is older than the code and lacks
    [snd.last], [snd.cwnd], [dupack], [maxsndbufsize], [poll], [nodelay] and
    [keepalive]: the first two and [maxsndbufsize] are taken to be
    [uint32_t] like the fields they are assigned from and compared with
    (where the width of [maxsndbufsize] decides a result, in
    [utcp_set_sndbuf], it is a parameter), [dupack] an integer that does
    not overflow.  The [recv] callback is the
    function giving the value the application returns for a payload; [poll]
    records whether a poll callback is installed. *)

Definition utcp_recv_t : Type := list Z -> Z.

Record utcp_connection := {
  priv : Z;
  reapable : bool;
  nodelay : bool;
  keepalive : bool;
  src : Z;                 (* uint16_t *)
  dst : Z;                 (* uint16_t *)
  state : enum_state;
  snd_una : Z;             (* uint32_t snd.una *)
  snd_nxt : Z;             (* uint32_t snd.nxt *)
  snd_wnd : Z;             (* uint32_t snd.wnd *)
  snd_iss : Z;             (* uint32_t snd.iss *)
  snd_last : Z;            (* uint32_t snd.last *)
  snd_cwnd : Z;            (* uint32_t snd.cwnd *)
  rcv_nxt : Z;             (* uint32_t rcv.nxt *)
  rcv_wnd : Z;             (* uint32_t rcv.wnd *)
  rcv_irs : Z;             (* uint32_t rcv.irs *)
  dupack : Z;
  recv : option utcp_recv_t;
  poll : bool;
  conn_timeout : timeval;
  rtrx_timeout : timeval;
  sndbuf : list Z;         (* the bytes of the allocation *)
  sndbufsize : Z;          (* uint32_t *)
  maxsndbufsize : Z        (* uint32_t *)
}.

(** Assignment to one field. *)

Definition with_priv (v : Z) (c : utcp_connection) : utcp_connection :=
  {| priv := v; reapable := reapable c; nodelay := nodelay c; keepalive := keepalive c;
     src := src c; dst := dst c; state := state c; snd_una := snd_una c; snd_nxt := snd_nxt c;
     snd_wnd := snd_wnd c; snd_iss := snd_iss c; snd_last := snd_last c;
     snd_cwnd := snd_cwnd c; rcv_nxt := rcv_nxt c; rcv_wnd := rcv_wnd c; rcv_irs := rcv_irs c;
     dupack := dupack c; recv := recv c; poll := poll c; conn_timeout := conn_timeout c;
     rtrx_timeout := rtrx_timeout c; sndbuf := sndbuf c; sndbufsize := sndbufsize c;
     maxsndbufsize := maxsndbufsize c |}.

Definition with_reapable (v : bool) (c : utcp_connection) : utcp_connection :=
  {| priv := priv c; reapable := v; nodelay := nodelay c; keepalive := keepalive c;
     src := src c; dst := dst c; state := state c; snd_una := snd_una c; snd_nxt := snd_nxt c;
     snd_wnd := snd_wnd c; snd_iss := snd_iss c; snd_last := snd_last c;
     snd_cwnd := snd_cwnd c; rcv_nxt := rcv_nxt c; rcv_wnd := rcv_wnd c; rcv_irs := rcv_irs c;
     dupack := dupack c; recv := recv c; poll := poll c; conn_timeout := conn_timeout c;
     rtrx_timeout := rtrx_timeout c; sndbuf := sndbuf c; sndbufsize := sndbufsize c;
     maxsndbufsize := maxsndbufsize c |}.

Definition with_nodelay (v : bool) (c : utcp_connection) : utcp_connection :=
  {| priv := priv c; reapable := reapable c; nodelay := v; keepalive := keepalive c;
     src := src c; dst := dst c; state := state c; snd_una := snd_una c; snd_nxt := snd_nxt c;
     snd_wnd := snd_wnd c; snd_iss := snd_iss c; snd_last := snd_last c;
     snd_cwnd := snd_cwnd c; rcv_nxt := rcv_nxt c; rcv_wnd := rcv_wnd c; rcv_irs := rcv_irs c;
     dupack := dupack c; recv := recv c; poll := poll c; conn_timeout := conn_timeout c;
     rtrx_timeout := rtrx_timeout c; sndbuf := sndbuf c; sndbufsize := sndbufsize c;
     maxsndbufsize := maxsndbufsize c |}.

Definition with_keepalive (v : bool) (c : utcp_connection) : utcp_connection :=
  {| priv := priv c; reapable := reapable c; nodelay := nodelay c; keepalive := v;
     src := src c; dst := dst c; state := state c; snd_una := snd_una c; snd_nxt := snd_nxt c;
     snd_wnd := snd_wnd c; snd_iss := snd_iss c; snd_last := snd_last c;
     snd_cwnd := snd_cwnd c; rcv_nxt := rcv_nxt c; rcv_wnd := rcv_wnd c; rcv_irs := rcv_irs c;
     dupack := dupack c; recv := recv c; poll := poll c; conn_timeout := conn_timeout c;
     rtrx_timeout := rtrx_timeout c; sndbuf := sndbuf c; sndbufsize := sndbufsize c;
     maxsndbufsize := maxsndbufsize c |}.

Definition with_state (v : enum_state) (c : utcp_connection) : utcp_connection :=
  {| priv := priv c; reapable := reapable c; nodelay := nodelay c; keepalive := keepalive c;
     src := src c; dst := dst c; state := v; snd_una := snd_una c; snd_nxt := snd_nxt c;
     snd_wnd := snd_wnd c; snd_iss := snd_iss c; snd_last := snd_last c;
     snd_cwnd := snd_cwnd c; rcv_nxt := rcv_nxt c; rcv_wnd := rcv_wnd c; rcv_irs := rcv_irs c;
     dupack := dupack c; recv := recv c; poll := poll c; conn_timeout := conn_timeout c;
     rtrx_timeout := rtrx_timeout c; sndbuf := sndbuf c; sndbufsize := sndbufsize c;
     maxsndbufsize := maxsndbufsize c |}.

Definition with_snd_una (v : Z) (c : utcp_connection) : utcp_connection :=
  {| priv := priv c; reapable := reapable c; nodelay := nodelay c; keepalive := keepalive c;
     src := src c; dst := dst c; state := state c; snd_una := v; snd_nxt := snd_nxt c;
     snd_wnd := snd_wnd c; snd_iss := snd_iss c; snd_last := snd_last c;
     snd_cwnd := snd_cwnd c; rcv_nxt := rcv_nxt c; rcv_wnd := rcv_wnd c; rcv_irs := rcv_irs c;
     dupack := dupack c; recv := recv c; poll := poll c; conn_timeout := conn_timeout c;
     rtrx_timeout := rtrx_timeout c; sndbuf := sndbuf c; sndbufsize := sndbufsize c;
     maxsndbufsize := maxsndbufsize c |}.

Definition with_snd_nxt (v : Z) (c : utcp_connection) : utcp_connection :=
  {| priv := priv c; reapable := reapable c; nodelay := nodelay c; keepalive := keepalive c;
     src := src c; dst := dst c; state := state c; snd_una := snd_una c; snd_nxt := v;
     snd_wnd := snd_wnd c; snd_iss := snd_iss c; snd_last := snd_last c;
     snd_cwnd := snd_cwnd c; rcv_nxt := rcv_nxt c; rcv_wnd := rcv_wnd c; rcv_irs := rcv_irs c;
     dupack := dupack c; recv := recv c; poll := poll c; conn_timeout := conn_timeout c;
     rtrx_timeout := rtrx_timeout c; sndbuf := sndbuf c; sndbufsize := sndbufsize c;
     maxsndbufsize := maxsndbufsize c |}.

Definition with_snd_wnd (v : Z) (c : utcp_connection) : utcp_connection :=
  {| priv := priv c; reapable := reapable c; nodelay := nodelay c; keepalive := keepalive c;
     src := src c; dst := dst c; state := state c; snd_una := snd_una c; snd_nxt := snd_nxt c;
     snd_wnd := v; snd_iss := snd_iss c; snd_last := snd_last c; snd_cwnd := snd_cwnd c;
     rcv_nxt := rcv_nxt c; rcv_wnd := rcv_wnd c; rcv_irs := rcv_irs c; dupack := dupack c;
     recv := recv c; poll := poll c; conn_timeout := conn_timeout c;
     rtrx_timeout := rtrx_timeout c; sndbuf := sndbuf c; sndbufsize := sndbufsize c;
     maxsndbufsize := maxsndbufsize c |}.

Definition with_snd_last (v : Z) (c : utcp_connection) : utcp_connection :=
  {| priv := priv c; reapable := reapable c; nodelay := nodelay c; keepalive := keepalive c;
     src := src c; dst := dst c; state := state c; snd_una := snd_una c; snd_nxt := snd_nxt c;
     snd_wnd := snd_wnd c; snd_iss := snd_iss c; snd_last := v; snd_cwnd := snd_cwnd c;
     rcv_nxt := rcv_nxt c; rcv_wnd := rcv_wnd c; rcv_irs := rcv_irs c; dupack := dupack c;
     recv := recv c; poll := poll c; conn_timeout := conn_timeout c;
     rtrx_timeout := rtrx_timeout c; sndbuf := sndbuf c; sndbufsize := sndbufsize c;
     maxsndbufsize := maxsndbufsize c |}.

Definition with_snd_cwnd (v : Z) (c : utcp_connection) : utcp_connection :=
  {| priv := priv c; reapable := reapable c; nodelay := nodelay c; keepalive := keepalive c;
     src := src c; dst := dst c; state := state c; snd_una := snd_una c; snd_nxt := snd_nxt c;
     snd_wnd := snd_wnd c; snd_iss := snd_iss c; snd_last := snd_last c; snd_cwnd := v;
     rcv_nxt := rcv_nxt c; rcv_wnd := rcv_wnd c; rcv_irs := rcv_irs c; dupack := dupack c;
     recv := recv c; poll := poll c; conn_timeout := conn_timeout c;
     rtrx_timeout := rtrx_timeout c; sndbuf := sndbuf c; sndbufsize := sndbufsize c;
     maxsndbufsize := maxsndbufsize c |}.

Definition with_rcv_nxt (v : Z) (c : utcp_connection) : utcp_connection :=
  {| priv := priv c; reapable := reapable c; nodelay := nodelay c; keepalive := keepalive c;
     src := src c; dst := dst c; state := state c; snd_una := snd_una c; snd_nxt := snd_nxt c;
     snd_wnd := snd_wnd c; snd_iss := snd_iss c; snd_last := snd_last c;
     snd_cwnd := snd_cwnd c; rcv_nxt := v; rcv_wnd := rcv_wnd c; rcv_irs := rcv_irs c;
     dupack := dupack c; recv := recv c; poll := poll c; conn_timeout := conn_timeout c;
     rtrx_timeout := rtrx_timeout c; sndbuf := sndbuf c; sndbufsize := sndbufsize c;
     maxsndbufsize := maxsndbufsize c |}.

Definition with_rcv_irs (v : Z) (c : utcp_connection) : utcp_connection :=
  {| priv := priv c; reapable := reapable c; nodelay := nodelay c; keepalive := keepalive c;
     src := src c; dst := dst c; state := state c; snd_una := snd_una c; snd_nxt := snd_nxt c;
     snd_wnd := snd_wnd c; snd_iss := snd_iss c; snd_last := snd_last c;
     snd_cwnd := snd_cwnd c; rcv_nxt := rcv_nxt c; rcv_wnd := rcv_wnd c; rcv_irs := v;
     dupack := dupack c; recv := recv c; poll := poll c; conn_timeout := conn_timeout c;
     rtrx_timeout := rtrx_timeout c; sndbuf := sndbuf c; sndbufsize := sndbufsize c;
     maxsndbufsize := maxsndbufsize c |}.

Definition with_dupack (v : Z) (c : utcp_connection) : utcp_connection :=
  {| priv := priv c; reapable := reapable c; nodelay := nodelay c; keepalive := keepalive c;
     src := src c; dst := dst c; state := state c; snd_una := snd_una c; snd_nxt := snd_nxt c;
     snd_wnd := snd_wnd c; snd_iss := snd_iss c; snd_last := snd_last c;
     snd_cwnd := snd_cwnd c; rcv_nxt := rcv_nxt c; rcv_wnd := rcv_wnd c; rcv_irs := rcv_irs c;
     dupack := v; recv := recv c; poll := poll c; conn_timeout := conn_timeout c;
     rtrx_timeout := rtrx_timeout c; sndbuf := sndbuf c; sndbufsize := sndbufsize c;
     maxsndbufsize := maxsndbufsize c |}.

Definition with_recv (v : option utcp_recv_t) (c : utcp_connection) : utcp_connection :=
  {| priv := priv c; reapable := reapable c; nodelay := nodelay c; keepalive := keepalive c;
     src := src c; dst := dst c; state := state c; snd_una := snd_una c; snd_nxt := snd_nxt c;
     snd_wnd := snd_wnd c; snd_iss := snd_iss c; snd_last := snd_last c;
     snd_cwnd := snd_cwnd c; rcv_nxt := rcv_nxt c; rcv_wnd := rcv_wnd c; rcv_irs := rcv_irs c;
     dupack := dupack c; recv := v; poll := poll c; conn_timeout := conn_timeout c;
     rtrx_timeout := rtrx_timeout c; sndbuf := sndbuf c; sndbufsize := sndbufsize c;
     maxsndbufsize := maxsndbufsize c |}.

Definition with_poll (v : bool) (c : utcp_connection) : utcp_connection :=
  {| priv := priv c; reapable := reapable c; nodelay := nodelay c; keepalive := keepalive c;
     src := src c; dst := dst c; state := state c; snd_una := snd_una c; snd_nxt := snd_nxt c;
     snd_wnd := snd_wnd c; snd_iss := snd_iss c; snd_last := snd_last c;
     snd_cwnd := snd_cwnd c; rcv_nxt := rcv_nxt c; rcv_wnd := rcv_wnd c; rcv_irs := rcv_irs c;
     dupack := dupack c; recv := recv c; poll := v; conn_timeout := conn_timeout c;
     rtrx_timeout := rtrx_timeout c; sndbuf := sndbuf c; sndbufsize := sndbufsize c;
     maxsndbufsize := maxsndbufsize c |}.

Definition with_conn_timeout (v : timeval) (c : utcp_connection) : utcp_connection :=
  {| priv := priv c; reapable := reapable c; nodelay := nodelay c; keepalive := keepalive c;
     src := src c; dst := dst c; state := state c; snd_una := snd_una c; snd_nxt := snd_nxt c;
     snd_wnd := snd_wnd c; snd_iss := snd_iss c; snd_last := snd_last c;
     snd_cwnd := snd_cwnd c; rcv_nxt := rcv_nxt c; rcv_wnd := rcv_wnd c; rcv_irs := rcv_irs c;
     dupack := dupack c; recv := recv c; poll := poll c; conn_timeout := v;
     rtrx_timeout := rtrx_timeout c; sndbuf := sndbuf c; sndbufsize := sndbufsize c;
     maxsndbufsize := maxsndbufsize c |}.

Definition with_rtrx_timeout (v : timeval) (c : utcp_connection) : utcp_connection :=
  {| priv := priv c; reapable := reapable c; nodelay := nodelay c; keepalive := keepalive c;
     src := src c; dst := dst c; state := state c; snd_una := snd_una c; snd_nxt := snd_nxt c;
     snd_wnd := snd_wnd c; snd_iss := snd_iss c; snd_last := snd_last c;
     snd_cwnd := snd_cwnd c; rcv_nxt := rcv_nxt c; rcv_wnd := rcv_wnd c; rcv_irs := rcv_irs c;
     dupack := dupack c; recv := recv c; poll := poll c; conn_timeout := conn_timeout c;
     rtrx_timeout := v; sndbuf := sndbuf c; sndbufsize := sndbufsize c;
     maxsndbufsize := maxsndbufsize c |}.

Definition with_sndbuf (v : list Z) (c : utcp_connection) : utcp_connection :=
  {| priv := priv c; reapable := reapable c; nodelay := nodelay c; keepalive := keepalive c;
     src := src c; dst := dst c; state := state c; snd_una := snd_una c; snd_nxt := snd_nxt c;
     snd_wnd := snd_wnd c; snd_iss := snd_iss c; snd_last := snd_last c;
     snd_cwnd := snd_cwnd c; rcv_nxt := rcv_nxt c; rcv_wnd := rcv_wnd c; rcv_irs := rcv_irs c;
     dupack := dupack c; recv := recv c; poll := poll c; conn_timeout := conn_timeout c;
     rtrx_timeout := rtrx_timeout c; sndbuf := v; sndbufsize := sndbufsize c;
     maxsndbufsize := maxsndbufsize c |}.

Definition with_sndbufsize (v : Z) (c : utcp_connection) : utcp_connection :=
  {| priv := priv c; reapable := reapable c; nodelay := nodelay c; keepalive := keepalive c;
     src := src c; dst := dst c; state := state c; snd_una := snd_una c; snd_nxt := snd_nxt c;
     snd_wnd := snd_wnd c; snd_iss := snd_iss c; snd_last := snd_last c;
     snd_cwnd := snd_cwnd c; rcv_nxt := rcv_nxt c; rcv_wnd := rcv_wnd c; rcv_irs := rcv_irs c;
     dupack := dupack c; recv := recv c; poll := poll c; conn_timeout := conn_timeout c;
     rtrx_timeout := rtrx_timeout c; sndbuf := sndbuf c; sndbufsize := v;
     maxsndbufsize := maxsndbufsize c |}.

Definition with_maxsndbufsize (v : Z) (c : utcp_connection) : utcp_connection :=
  {| priv := priv c; reapable := reapable c; nodelay := nodelay c; keepalive := keepalive c;
     src := src c; dst := dst c; state := state c; snd_una := snd_una c; snd_nxt := snd_nxt c;
     snd_wnd := snd_wnd c; snd_iss := snd_iss c; snd_last := snd_last c;
     snd_cwnd := snd_cwnd c; rcv_nxt := rcv_nxt c; rcv_wnd := rcv_wnd c; rcv_irs := rcv_irs c;
     dupack := dupack c; recv := recv c; poll := poll c; conn_timeout := conn_timeout c;
     rtrx_timeout := rtrx_timeout c; sndbuf := sndbuf c; sndbufsize := sndbufsize c;
     maxsndbufsize := v |}.

(** ** The host ([struct utcp])

    [accept] is the host's accept callback: given the local and remote port of
    the connection it is shown, it answers [Some (recv, priv)] when the
    application calls [utcp_accept (c, recv, priv)] from inside the callback
    and [None] when it does not.  [pre_accept] is the cheap filter on the
    local port.  The [send] callback is required by [utcp_init]; what is
    passed to it is the [EvSend] events of the trace. *)

Definition utcp_accept_t : Type := Z -> Z -> option (option utcp_recv_t * Z).
Definition utcp_pre_accept_t : Type := Z -> bool.

Record utcp := {
  u_priv : Z;
  accept : option utcp_accept_t;
  pre_accept : option utcp_pre_accept_t;
  mtu : Z;                              (* uint16_t *)
  timeout : Z;                          (* int, seconds *)
  connections : list utcp_connection;   (* sorted by (src, dst) *)
  nallocated : Z
}.

Definition nconnections (u : utcp) : Z := Z.of_nat (length (connections u)).

Definition with_connections (l : list utcp_connection) (u : utcp) : utcp :=
  {| u_priv := u_priv u; accept := accept u; pre_accept := pre_accept u; mtu := mtu u;
     timeout := timeout u; connections := l; nallocated := nallocated u |}.

Definition with_nallocated (n : Z) (u : utcp) : utcp :=
  {| u_priv := u_priv u; accept := accept u; pre_accept := pre_accept u; mtu := mtu u;
     timeout := timeout u; connections := connections u; nallocated := n |}.

Definition with_mtu (m : Z) (u : utcp) : utcp :=
  {| u_priv := u_priv u; accept := accept u; pre_accept := pre_accept u; mtu := m;
     timeout := timeout u; connections := connections u; nallocated := nallocated u |}.

Definition with_timeout (t : Z) (u : utcp) : utcp :=
  {| u_priv := u_priv u; accept := accept u; pre_accept := pre_accept u; mtu := mtu u;
     timeout := t; connections := connections u; nallocated := nallocated u |}.

(** ** Observable events, outcomes, environment *)

Inductive event :=
| EvSend (h : hdr) (data : list Z)       (* utcp->send (utcp, pkt, sizeof hdr + len) *)
| EvRecvData (s d : Z) (data : list Z)   (* c->recv (c, data, len) *)
| EvRecvNull (s d : Z) (e : errno_t)     (* c->recv (c, NULL, 0), with errno = e *)
| EvAccept (s d : Z)                     (* utcp->accept (c, c->src) *)
| EvPoll (s d : Z) (n : Z).              (* c->poll (c, n) *)

Inductive outcome (A : Type) :=
| Ret (a : A)
| Aborted
| Diverges.
Arguments Ret {A} a.
Arguments Aborted {A}.
Arguments Diverges {A}.

Definition bind {A B : Type} (m : outcome A) (k : A -> outcome B) : outcome B :=
  match m with
  | Ret a => k a
  | Aborted => Aborted
  | Diverges => Diverges
  end.

Notation "x <- m ;; k" := (bind m (fun x => k))
  (at level 61, m at next level, right associativity).
Notation "' p <- m ;; k" := (bind m (fun x => let p := x in k))
  (at level 61, p pattern, m at next level, right associativity).

Record environ := {
  now : timeval;          (* what gettimeofday stores *)
  rand_port : Z;          (* rand (), first call of allocate_connection *)
  rand_iss : Z;           (* rand (), second call of allocate_connection *)
  realloc_ok : bool;      (* whether realloc returns a buffer *)
  uninit_u32 : Z;         (* an uninitialised uint32_t automatic variable *)
  uninit_hdr : hdr        (* uninitialised header storage *)
}.

(** ** The send buffer

    [sndbuf] holds the bytes of the allocation, [sndbufsize] of them.  The
    three block operations below agree with [memcpy] and [memmove] whenever
    the C call stays inside the allocation. *)

(** The [n] bytes at offset [off]. *)
Definition buf_read (buf : list Z) (off n : Z) : list Z :=
  firstn (Z.to_nat n) (skipn (Z.to_nat off) buf).

(** [memcpy (buf + off, data, length data)] *)
Definition buf_write (buf : list Z) (off : Z) (data : list Z) : list Z :=
  firstn (Z.to_nat off) buf ++ data ++ skipn (Z.to_nat off + length data) buf.

(** [memmove (buf, buf + k, n)] *)
Definition buf_move_down (buf : list Z) (k n : Z) : list Z :=
  buf_write buf 0 (buf_read buf k n).

(** [realloc (buf, n)]: the old bytes up to [n], then fresh storage. *)
Definition buf_realloc (buf : list Z) (n : Z) : list Z :=
  firstn (Z.to_nat n) buf ++ repeat 0 (Z.to_nat n - length buf).

(** ** set_state *)

Definition set_state (c : utcp_connection) (s : enum_state) : utcp_connection :=
  let c := with_state s c in
  if state_eqb s ESTABLISHED then with_conn_timeout timerclear c else c.

(** ** utcp_accept *)

Definition utcp_accept (c : utcp_connection) (r : option utcp_recv_t) (p : Z)
  : utcp_connection :=
  if reapable c || negb (state_eqb (state c) SYN_RECEIVED) then c
  else set_state (with_priv p (with_recv r c)) ESTABLISHED.

(** ** The egress engine: ack

    [ack_loop] is the [do ... while (left)] loop.  [left] and [off] are the
    locals [left] and [data - c->sndbuf]; [ctl] is [pkt->hdr.ctl], which keeps
    the FIN bit once it is set.  The packet handed to [send] carries the
    [seglen] bytes left after the FIN adjustment. *)

Fixpoint ack_loop (fuel : nat) (u : utcp) (c : utcp_connection) (left off ctl : Z)
  : outcome (utcp_connection * list event) :=
  match fuel with
  | O => Diverges
  | S fuel' =>
      let seglen := if left >? mtu u then mtu u else left in
      let seq := snd_nxt c in
      let c' := with_snd_nxt (uint32 (snd_nxt c + seglen)) c in
      let left' := int32 (left - seglen) in
      let fin := negb (state_eqb (state c) ESTABLISHED) && (left' =? 0) && negb (seglen =? 0)
                 && match state c with FIN_WAIT_1 | CLOSING => true | _ => false end in
      let seglen' := if fin then uint32 (seglen - 1) else seglen in
      let ctl' := if fin then Z.lor ctl FIN else ctl in
      let pkt := EvSend {| hdr_src := src c; hdr_dst := dst c; hdr_seq := seq;
                           hdr_ack := rcv_nxt c; hdr_wnd := snd_wnd c;
                           hdr_ctl := ctl'; hdr_aux := 0 |}
                        (buf_read (sndbuf c) off seglen') in
      if left' =? 0 then Ret (c', [pkt])
      else '(c'', evs) <- ack_loop fuel' u c' left' (off + seglen) ctl' ;;
           Ret (c'', pkt :: evs)
  end.

Definition ack (u : utcp) (c : utcp_connection) (sendatleastone : bool)
  : outcome (utcp_connection * list event) :=
  let left := seqdiff (snd_last c) (snd_nxt c) in
  let cwndleft := int32 (snd_cwnd c - seqdiff (snd_nxt c) (snd_una c)) in
  let off := seqdiff (snd_nxt c) (snd_una c) in
  if left <? 0 then Aborted                                  (* assert (left >= 0) *)
  else
    let cwndleft := if cwndleft <=? 0 then 0 else cwndleft in
    let left := if cwndleft <? left then cwndleft else left in
    if (left =? 0) && negb sendatleastone then Ret (c, [])
    else ack_loop (S (Z.to_nat left)) u c left off ACK.

(** ** Results of the public operations

    [r_val] is the value returned, [r_errno] the last value assigned to
    [errno] during the call ([None] when [errno] is never assigned),
    [r_state] the state the call leaves and [r_trace] the callbacks invoked,
    in order. *)

Record result (S : Type) := {
  r_val : Z;
  r_errno : option errno_t;
  r_state : S;
  r_trace : list event
}.
Arguments r_val {S} r.
Arguments r_errno {S} r.
Arguments r_state {S} r.
Arguments r_trace {S} r.

Definition done {S : Type} (v : Z) (e : option errno_t) (s : S) (t : list event)
  : outcome (result S) :=
  Ret {| r_val := v; r_errno := e; r_state := s; r_trace := t |}.

(** ** utcp_send

    [data = None] is a NULL pointer; [len] is the [size_t] argument.  The
    statement [errno == EWOULDBLOCK;] of the full-buffer path is a comparison
    whose value is discarded: nothing is assigned. *)

Definition utcp_send (e : environ) (u : utcp) (c : utcp_connection)
  (data : option (list Z)) (len : Z) : outcome (result utcp_connection) :=
  if reapable c then done (-1) (Some EBADF) c []
  else
    match state c with
    | CLOSED | LISTEN | SYN_SENT | SYN_RECEIVED => done (-1) (Some ENOTCONN) c []
    | FIN_WAIT_1 | FIN_WAIT_2 | CLOSING | LAST_ACK | TIME_WAIT =>
        done (-1) (Some EPIPE) c []
    | ESTABLISHED | CLOSE_WAIT =>
        if len =? 0 then done 0 None c []
        else
          match data with
          | None => done (-1) (Some EFAULT) c []
          | Some bytes =>
              let bufused := uint32 (seqdiff (snd_nxt c) (snd_una c)) in
              let c1 :=
                if (len >? uint32 (sndbufsize c - bufused))
                   && (sndbufsize c <? maxsndbufsize c)
                then
                  let newbufsize :=
                    if sndbufsize c >? maxsndbufsize c / 2 then maxsndbufsize c
                    else uint32 (sndbufsize c * 2) in
                  let newbufsize :=
                    if usize (bufused + len) >? newbufsize then
                      if usize (bufused + len) >? maxsndbufsize c then maxsndbufsize c
                      else uint32 (bufused + len)
                    else newbufsize in
                  if realloc_ok e
                  then with_sndbufsize newbufsize
                         (with_sndbuf (buf_realloc (sndbuf c) newbufsize) c)
                  else c
                else c in
              let len1 :=
                if len >? uint32 (sndbufsize c1 - bufused)
                then uint32 (sndbufsize c1 - bufused) else len in
              if len1 =? 0 then done 0 None c1 []       (* errno == EWOULDBLOCK; *)
              else
                let c2 := with_sndbuf
                            (buf_write (sndbuf c1) bufused (firstn (Z.to_nat len1) bytes))
                            c1 in
                let c3 := with_snd_last (uint32 (snd_last c2 + len1)) c2 in
                '(c4, evs) <- ack u c3 false ;;
                done len1 None c4 evs
          end
    end.

(** ** utcp_shutdown, utcp_close, utcp_abort *)

Definition utcp_shutdown (u : utcp) (c : utcp_connection) (dir : Z)
  : outcome (result utcp_connection) :=
  if reapable c then done (-1) (Some EBADF) c []
  else
    let queue_fin (c : utcp_connection) :=
      let c := with_snd_last (uint32 (snd_last c + 1)) c in
      '(c', evs) <- ack u c false ;;
      done 0 None c' evs in
    match state c with
    | CLOSED => done 0 None c []
    | LISTEN | SYN_SENT => done 0 None (set_state c CLOSED) []
    | SYN_RECEIVED | ESTABLISHED => queue_fin (set_state c FIN_WAIT_1)
    | FIN_WAIT_1 | FIN_WAIT_2 => done 0 None c []
    | CLOSE_WAIT => queue_fin (set_state c CLOSING)
    | CLOSING | LAST_ACK | TIME_WAIT => done 0 None c []
    end.

Definition SHUT_RDWR : Z := 2.

Definition utcp_close (u : utcp) (c : utcp_connection)
  : outcome (result utcp_connection) :=
  r <- utcp_shutdown u c SHUT_RDWR ;;
  if r_val r =? 0
  then done 0 (r_errno r) (with_reapable true (r_state r)) (r_trace r)
  else done (-1) (r_errno r) (r_state r) (r_trace r).

(** The header of [utcp_abort] is an automatic variable whose [aux] field is
    never assigned. *)
Definition utcp_abort (e : environ) (c : utcp_connection) : result utcp_connection :=
  if reapable c then
    {| r_val := -1; r_errno := Some EBADF; r_state := c; r_trace := [] |}
  else
    let c := with_reapable true c in
    match state c with
    | CLOSED => {| r_val := 0; r_errno := None; r_state := c; r_trace := [] |}
    | LISTEN | SYN_SENT | CLOSING | LAST_ACK | TIME_WAIT =>
        {| r_val := 0; r_errno := None; r_state := set_state c CLOSED; r_trace := [] |}
    | SYN_RECEIVED | ESTABLISHED | FIN_WAIT_1 | FIN_WAIT_2 | CLOSE_WAIT =>
        let c := set_state c CLOSED in
        {| r_val := 0; r_errno := None; r_state := c;
           r_trace := [EvSend {| hdr_src := src c; hdr_dst := dst c; hdr_seq := snd_nxt c;
                                 hdr_ack := 0; hdr_wnd := 0; hdr_ctl := RST;
                                 hdr_aux := hdr_aux (uninit_hdr e) |} []] |}
    end.

(** ** retransmit

    The packet is fresh storage from [malloc]; the header fields a case does
    not assign keep whatever the storage held. *)

Definition retransmit (e : environ) (u : utcp) (c : utcp_connection)
  : outcome (list event) :=
  if state_eqb (state c) CLOSED || (snd_nxt c =? snd_una c) then Ret []
  else
    let j := uninit_hdr e in
    match state c with
    | LISTEN => Ret []
    | SYN_SENT =>
        Ret [EvSend {| hdr_src := src c; hdr_dst := dst c; hdr_seq := snd_iss c;
                       hdr_ack := 0; hdr_wnd := rcv_wnd c; hdr_ctl := SYN;
                       hdr_aux := hdr_aux j |} []]
    | SYN_RECEIVED =>
        Ret [EvSend {| hdr_src := src c; hdr_dst := dst c; hdr_seq := snd_nxt c;
                       hdr_ack := rcv_nxt c; hdr_wnd := hdr_wnd j;
                       hdr_ctl := Z.lor SYN ACK; hdr_aux := hdr_aux j |} []]
    | ESTABLISHED | FIN_WAIT_1 =>
        let fw1 := state_eqb (state c) FIN_WAIT_1 in
        let len := uint32 (seqdiff (snd_nxt c) (snd_una c)) in
        let len := if fw1 then uint32 (len - 1) else len in
        let big := len >? mtu u in
        let len := if big then mtu u else len in
        let ctl := if negb big && fw1 then Z.lor ACK FIN else ACK in
        Ret [EvSend {| hdr_src := src c; hdr_dst := dst c; hdr_seq := snd_una c;
                       hdr_ack := rcv_nxt c; hdr_wnd := hdr_wnd j; hdr_ctl := ctl;
                       hdr_aux := hdr_aux j |} (buf_read (sndbuf c) 0 len)]
    | _ => Aborted
    end.

(** ** utcp_recv, for a segment that matched a connection

    [utcp_recv_conn] is the body of [utcp_recv] from the test
    [c->state == CLOSED] on: [c] is the connection [find_connection]
    returned, [h] the header copied out of the datagram, [data] and [len] the
    payload behind it.  The result state is [None] when the code called
    [free_connection (c)].  The stages are defined last first, each taking
    the locals of the C function that are live at its entry. *)

Definition swap_ports (h : hdr) : hdr :=
  {| hdr_src := hdr_dst h; hdr_dst := hdr_src h; hdr_seq := hdr_seq h; hdr_ack := hdr_ack h;
     hdr_wnd := hdr_wnd h; hdr_ctl := hdr_ctl h; hdr_aux := hdr_aux h |}.

(** The header sent at the label [reset:]. *)
Definition reset_hdr (h : hdr) (len : Z) : hdr :=
  let h := swap_ports h in
  if has_flag ACK h then
    {| hdr_src := hdr_src h; hdr_dst := hdr_dst h; hdr_seq := hdr_ack h; hdr_ack := hdr_ack h;
       hdr_wnd := 0; hdr_ctl := RST; hdr_aux := hdr_aux h |}
  else
    {| hdr_src := hdr_src h; hdr_dst := hdr_dst h; hdr_seq := 0;
       hdr_ack := uint32 (hdr_seq h + len);
       hdr_wnd := 0; hdr_ctl := Z.lor RST ACK; hdr_aux := hdr_aux h |}.

Definition recv_result : Type := outcome (result (option utcp_connection)).

(** [reset:] *)
Definition goto_reset (c : utcp_connection) (h : hdr) (len : Z)
  (err : option errno_t) (evs : list event) : recv_result :=
  done 0 err (Some c) (evs ++ [EvSend (reset_hdr h len) []]).

(** [ack:] *)
Definition goto_ack (u : utcp) (c : utcp_connection) (prevrcvnxt : Z)
  (err : option errno_t) (evs : list event) : recv_result :=
  '(c', out) <- ack u c (negb (prevrcvnxt =? rcv_nxt c)) ;;
  done 0 err (Some c') (evs ++ out).

(** 7. Process FIN stuff.  ([len++] after a FIN is not modelled: [len] is
    not read again on that path.) *)
Definition recv_fin (e : environ) (u : utcp) (c : utcp_connection) (h : hdr) (len : Z)
  (prevrcvnxt : Z) (err : option errno_t) (evs : list event) : recv_result :=
  if has_flag FIN h then
    let after (c : utcp_connection) : recv_result :=
      let c := with_rcv_nxt (uint32 (rcv_nxt c + 1)) c in
      match recv c with
      | Some _ => goto_ack u c prevrcvnxt (Some E0) (evs ++ [EvRecvNull (src c) (dst c) E0])
      | None => goto_ack u c prevrcvnxt err evs
      end in
    match state c with
    | SYN_SENT | SYN_RECEIVED => Aborted
    | ESTABLISHED => after (set_state c CLOSE_WAIT)
    | FIN_WAIT_1 => after (set_state c CLOSING)
    | FIN_WAIT_2 => after (set_state (with_conn_timeout (add_sec (now e) 60) c) TIME_WAIT)
    | CLOSE_WAIT | CLOSING | LAST_ACK | TIME_WAIT => goto_reset c h len err evs
    | CLOSED | LISTEN => Aborted
    end
  else goto_ack u c prevrcvnxt err evs.

(** 6. Process new data, second half: the payload *)
Definition recv_data (e : environ) (u : utcp) (c : utcp_connection) (h : hdr)
  (data : list Z) (len : Z) (prevrcvnxt : Z) (err : option errno_t) (evs : list event)
  : recv_result :=
  if len =? 0 then recv_fin e u c h len prevrcvnxt err evs
  else
    match state c with
    | SYN_SENT | SYN_RECEIVED => Aborted
    | ESTABLISHED | FIN_WAIT_1 | FIN_WAIT_2 =>
        let c' := with_rcv_nxt (uint32 (rcv_nxt c + len)) c in
        match recv c with
        | Some f =>
            if usize (f data) =? len
            then recv_fin e u c' h len prevrcvnxt err (evs ++ [EvRecvData (src c) (dst c) data])
            else Aborted
        | None => recv_fin e u c' h len prevrcvnxt err evs
        end
    | CLOSE_WAIT | CLOSING | LAST_ACK | TIME_WAIT => goto_reset c h len err evs
    | CLOSED | LISTEN => Aborted
    end.

(** 6. Process new data, first half: the ACK that completes the handshake *)
Definition recv_handshake (e : environ) (u : utcp) (c : utcp_connection) (h : hdr)
  (data : list Z) (len : Z) (advanced prevrcvnxt : Z)
  (err : option errno_t) (evs : list event) : recv_result :=
  if state_eqb (state c) SYN_RECEIVED then
    if advanced =? 0 then goto_reset c h len err evs
    else
      let '(c, evs) :=
        match accept u with
        | Some f =>
            (match f (src c) (dst c) with
             | Some (r, p) => utcp_accept c r p
             | None => c
             end, evs ++ [EvAccept (src c) (dst c)])
        | None => (c, evs)
        end in
      if negb (state_eqb (state c) ESTABLISHED)
      then goto_reset (with_reapable true (set_state c CLOSED)) h len err evs
      else recv_data e u c h data len prevrcvnxt err evs
  else recv_data e u c h data len prevrcvnxt err evs.

(** 5. Process SYN stuff *)
Definition recv_syn (e : environ) (u : utcp) (c : utcp_connection) (h : hdr)
  (data : list Z) (len : Z) (advanced prevrcvnxt : Z)
  (err : option errno_t) (evs : list event) : recv_result :=
  if has_flag SYN h then
    match state c with
    | SYN_SENT =>
        if advanced =? 0 then goto_reset c h len err evs
        else
          let c := with_rcv_irs (hdr_seq h) c in
          let c := with_rcv_nxt (hdr_seq h) c in
          let c := set_state c ESTABLISHED in
          let c := with_rcv_nxt (uint32 (rcv_nxt c + 1)) c in
          recv_handshake e u c h data len advanced prevrcvnxt err evs
    | SYN_RECEIVED | ESTABLISHED | FIN_WAIT_1 | FIN_WAIT_2
    | CLOSE_WAIT | CLOSING | LAST_ACK | TIME_WAIT => goto_reset c h len err evs
    | CLOSED | LISTEN => Aborted
    end
  else recv_handshake e u c h data len advanced prevrcvnxt err evs.

(** 3. Advance snd.una, and 4. Update timers.  Decrementing [data_acked]
    when it is [INT32_MIN] is undefined in C; the model stops there. *)
Definition recv_advance (e : environ) (u : utcp) (c : utcp_connection) (h : hdr) (len : Z)
  : outcome utcp_connection :=
  let advanced := uint32 (seqdiff (hdr_ack h) (snd_una c)) in
  if negb (advanced =? 0) then
    let data_acked := int32 advanced in
    data_acked <- match state c with
                  | SYN_SENT | SYN_RECEIVED =>
                      if data_acked =? - 2 ^ 31 then Aborted else Ret (data_acked - 1)
                  | _ => Ret data_acked
                  end ;;
    if data_acked <? 0 then Aborted                    (* assert (data_acked >= 0) *)
    else
      let bufused := seqdiff (snd_last c) (snd_una c) in
      if data_acked >? bufused then Aborted            (* assert (data_acked <= bufused) *)
      else
        let left := uint32 (bufused - data_acked) in
        let c := if negb (data_acked =? 0) && negb (left =? 0)
                 then with_sndbuf (buf_move_down (sndbuf c) data_acked left) c else c in
        let c := with_snd_una (hdr_ack h) c in
        let c := with_dupack 0 c in
        let c := with_snd_cwnd (uint32 (snd_cwnd c + mtu u)) c in
        let c := if snd_cwnd c >? maxsndbufsize c
                 then with_snd_cwnd (maxsndbufsize c) c else c in
        let c := match state c with
                 | FIN_WAIT_1 =>
                     if snd_una c =? snd_last c then set_state c FIN_WAIT_2 else c
                 | CLOSING =>
                     if snd_una c =? snd_last c
                     then set_state (with_conn_timeout (add_sec (now e) 60) c) TIME_WAIT
                     else c
                 | _ => c
                 end in
        (* 4. Update timers *)
        let c := with_conn_timeout timerclear c in
        Ret (if snd_una c =? snd_nxt c then with_rtrx_timeout timerclear c else c)
  else
    Ret (if len =? 0 then with_dupack (dupack c + 1) c else c).

(** 2. Handle RST packets *)
Definition recv_rst (c : utcp_connection) (h : hdr) : recv_result :=
  let closed (err : errno_t) : recv_result :=
    let c := set_state c CLOSED in
    match recv c with
    | Some _ => done 0 (Some err) (Some c) [EvRecvNull (src c) (dst c) err]
    | None => done 0 (Some err) (Some c) []
    end in
  match state c with
  | SYN_SENT =>
      if negb (has_flag ACK h) then done 0 None (Some c) [] else closed ECONNREFUSED
  | SYN_RECEIVED =>
      if has_flag ACK h then done 0 None (Some c) [] else done 0 None None []
  | ESTABLISHED | FIN_WAIT_1 | FIN_WAIT_2 | CLOSE_WAIT =>
      if has_flag ACK h then done 0 None (Some c) [] else closed ECONNRESET
  | CLOSING | LAST_ACK | TIME_WAIT =>
      if has_flag ACK h then done 0 None (Some c) []
      else if reapable c then done 0 None None []
      else done 0 None (Some (set_state c CLOSED)) []
  | CLOSED | LISTEN => Aborted
  end.

(** 1b. Whether the sequence number is acceptable. *)
Definition acceptable (c : utcp_connection) (h : hdr) : bool :=
  if state_eqb (state c) SYN_SENT then true else hdr_seq h =? rcv_nxt c.

(** 1c. Whether an ACK is present and acknowledges something outside
    [snd.una, snd.nxt]. *)
Definition invalid_ack (c : utcp_connection) (h : hdr) : bool :=
  has_flag ACK h
  && ((seqdiff (hdr_ack h) (snd_nxt c) >? 0) || (seqdiff (hdr_ack h) (snd_una c) <? 0)).

(** On the path of an unacceptable segment, [goto ack] jumps over the
    initialisation of [prevrcvnxt]: the value compared with [c->rcv.nxt] at
    the label is the indeterminate [uninit_u32]. *)
Definition utcp_recv_conn (e : environ) (u : utcp) (c : utcp_connection) (h : hdr)
  (data : list Z) (len : Z) : recv_result :=
  match state c with
  | CLOSED => done 0 None (Some c) []
  | LISTEN => Aborted
  | _ =>
      if negb (acceptable c h) then
        if has_flag RST h then done 0 None (Some c) []
        else goto_ack u c (uninit_u32 e) None []
      else
        let c := with_snd_wnd (hdr_wnd h) c in
        if invalid_ack c h then
          if has_flag RST h then done 0 None (Some c) []
          else goto_reset c h len None []
        else if has_flag RST h then recv_rst c h
        else
          let advanced := uint32 (seqdiff (hdr_ack h) (snd_una c)) in
          let prevrcvnxt := rcv_nxt c in
          c <- recv_advance e u c h len ;;
          recv_syn e u c h data len advanced prevrcvnxt None []
  end.

(** ** The connection table

    [utcp->connections] is an array of pointers kept sorted by [compare]
    (source port, then destination port).  [bsearch] over it is a lookup by
    key; it calls [compare] at least once when the table is not empty, and
    [compare] asserts that neither source port is zero. *)

Definition same_key (s d : Z) (c : utcp_connection) : bool :=
  (src c =? s) && (dst c =? d).

(** [compare (a, b) < 0] *)
Definition conn_lt (a b : utcp_connection) : bool :=
  (src a <? src b) || ((src a =? src b) && (dst a <? dst b)).

Definition find_connection (u : utcp) (s d : Z) : outcome (option utcp_connection) :=
  if nconnections u =? 0 then Ret None
  else if s =? 0 then Aborted                       (* assert (a->src && b->src) *)
  else Ret (find (same_key s d) (connections u)).

(** The table after a connection was mutated through its pointer. *)
Fixpoint update_conn (c : utcp_connection) (l : list utcp_connection)
  : list utcp_connection :=
  match l with
  | [] => []
  | x :: r => if same_key (src c) (dst c) x then c :: r else x :: update_conn c r
  end.

(** The table after [free_connection (c)]. *)
Fixpoint remove_conn (c : utcp_connection) (l : list utcp_connection)
  : list utcp_connection :=
  match l with
  | [] => []
  | x :: r => if same_key (src c) (dst c) x then r else x :: remove_conn c r
  end.

(** The table after [connections[nconnections++] = c; qsort (...)]. *)
Fixpoint insert_conn (c : utcp_connection) (l : list utcp_connection)
  : list utcp_connection :=
  match l with
  | [] => [c]
  | x :: r => if conn_lt c x then c :: l else x :: insert_conn c r
  end.

Definition put_conn (c : utcp_connection) (u : utcp) : utcp :=
  with_connections (update_conn c (connections u)) u.

Definition free_connection (c : utcp_connection) (u : utcp) : utcp :=
  with_connections (remove_conn c (connections u)) u.

(** What a call on connection [c] leaves of the host. *)
Definition store (u : utcp) (c : utcp_connection) (c' : option utcp_connection) : utcp :=
  match c' with
  | Some c' => put_conn c' u
  | None => free_connection c u
  end.

(** ** Header codec

    [memcpy (&hdr, data, sizeof hdr)]: the fields are read in host byte
    order; the model is of a little-endian host. *)

Fixpoint le_decode (bs : list Z) : Z :=
  match bs with
  | [] => 0
  | b :: r => b mod 256 + 256 * le_decode r
  end.

Definition parse_hdr (bs : list Z) : hdr :=
  {| hdr_src := le_decode (buf_read bs 0 2);
     hdr_dst := le_decode (buf_read bs 2 2);
     hdr_seq := le_decode (buf_read bs 4 4);
     hdr_ack := le_decode (buf_read bs 8 4);
     hdr_wnd := le_decode (buf_read bs 12 4);
     hdr_ctl := le_decode (buf_read bs 16 2);
     hdr_aux := le_decode (buf_read bs 18 2) |}.

(** The bytes of a header as [send] is given them: the inverse of
    [parse_hdr], field by field. *)

Fixpoint le_encode (n : nat) (z : Z) : list Z :=
  match n with
  | O => []
  | S n' => z mod 256 :: le_encode n' (z / 256)
  end.

Definition hdr_bytes (h : hdr) : list Z :=
  le_encode 2 (hdr_src h) ++ le_encode 2 (hdr_dst h) ++ le_encode 4 (hdr_seq h)
  ++ le_encode 4 (hdr_ack h) ++ le_encode 4 (hdr_wnd h) ++ le_encode 2 (hdr_ctl h)
  ++ le_encode 2 (hdr_aux h).

(** The fields of a header fit their C types. *)
Definition hdr_in_range (h : hdr) : Prop :=
  0 <= hdr_src h < 2 ^ 16 /\ 0 <= hdr_dst h < 2 ^ 16 /\ 0 <= hdr_seq h < 2 ^ 32
  /\ 0 <= hdr_ack h < 2 ^ 32 /\ 0 <= hdr_wnd h < 2 ^ 32 /\ 0 <= hdr_ctl h < 2 ^ 16
  /\ 0 <= hdr_aux h < 2 ^ 16.

(** The datagrams a trace hands to [send], in order. *)
Fixpoint datagrams (evs : list event) : list (list Z) :=
  match evs with
  | [] => []
  | EvSend h data :: r => (hdr_bytes h ++ data) :: datagrams r
  | _ :: r => datagrams r
  end.

Section Host.

(** The two macros that size a new send buffer are defined in a part of the
    headers that is not in the repository. *)
Variable DEFAULT_SNDBUFSIZE : Z.
Variable DEFAULT_MAXSNDBUFSIZE : Z.

(** ** utcp_init *)

Definition utcp_init (a : option utcp_accept_t) (p : option utcp_pre_accept_t) (pr : Z)
  : utcp :=
  {| u_priv := pr; accept := a; pre_accept := p; mtu := 1000; timeout := 60;
     connections := []; nallocated := 0 |}.

(** ** allocate_connection

    [free_port] is the loop [while (find_connection (utcp, src, dst)) src++]
    over the [uint16_t] variable [src].  Allocation by [realloc], [calloc]
    and [malloc] succeeds; the bytes of the new send buffer are unspecified. *)

Fixpoint free_port (fuel : nat) (u : utcp) (s d : Z) : outcome Z :=
  match fuel with
  | O => Diverges
  | S fuel' =>
      f <- find_connection u s d ;;
      match f with
      | Some _ => free_port fuel' u (uint16 (s + 1)) d
      | None => Ret s
      end
  end.

Definition allocate_connection (e : environ) (u : utcp) (s d : Z)
  : outcome (option utcp_connection * option errno_t * utcp) :=
  s' <- (if negb (s =? 0) then
           f <- find_connection u s d ;;
           Ret (match f with Some _ => inl EADDRINUSE | None => inr s end)
         else if nconnections u >=? 32767 then Ret (inl ENOMEM)
         else
           s' <- free_port (Z.to_nat 65537) u (uint16 (Z.lor (rand_port e) 32768)) d ;;
           Ret (inr s')) ;;
  match s' with
  | inl err => Ret (None, Some err, u)
  | inr s =>
      let u := if nconnections u >=? nallocated u
               then with_nallocated (if nallocated u =? 0 then 4 else nallocated u * 2) u
               else u in
      let iss := uint32 (rand_iss e) in
      let c := {| priv := 0; reapable := false; nodelay := false; keepalive := false;
                  src := s; dst := d; state := CLOSED;
                  snd_una := iss; snd_nxt := uint32 (iss + 1); snd_wnd := 0; snd_iss := iss;
                  snd_last := uint32 (iss + 1); snd_cwnd := mtu u;
                  rcv_nxt := 0; rcv_wnd := mtu u; rcv_irs := 0; dupack := 0;
                  recv := None; poll := false;
                  conn_timeout := timerclear; rtrx_timeout := timerclear;
                  sndbuf := repeat 0 (Z.to_nat DEFAULT_SNDBUFSIZE);
                  sndbufsize := DEFAULT_SNDBUFSIZE;
                  maxsndbufsize := DEFAULT_MAXSNDBUFSIZE |} in
      Ret (Some c, None, with_connections (insert_conn c (connections u)) u)
  end.

(** ** utcp_connect: the value is the new connection, or [None] for NULL. *)

Definition utcp_connect (e : environ) (u : utcp) (d : Z) (r : option utcp_recv_t) (p : Z)
  : outcome (option utcp_connection * option errno_t * utcp * list event) :=
  '(c, err, u) <- allocate_connection e u 0 d ;;
  match c with
  | None => Ret (None, err, u, [])
  | Some c =>
      let c := with_priv p (with_recv r c) in
      let h := {| hdr_src := src c; hdr_dst := dst c; hdr_seq := snd_iss c; hdr_ack := 0;
                  hdr_wnd := rcv_wnd c; hdr_ctl := SYN; hdr_aux := 0 |} in
      let c := set_state c SYN_SENT in
      let c := with_conn_timeout (add_sec (now e) (timeout u)) c in
      Ret (Some c, err, put_conn c u, [EvSend h []])
  end.

(** ** utcp_recv

    [data = None] is a NULL pointer; otherwise the datagram is the first
    [len] bytes of [data]. *)

Definition known_flags (h : hdr) : bool :=
  Z.land (hdr_ctl h) (Z.lnot (Z.lor (Z.lor SYN ACK) (Z.lor RST FIN))) =? 0.

Definition utcp_recv (e : environ) (u : utcp) (data : option (list Z)) (len : Z)
  : outcome (result utcp) :=
  if len =? 0 then done 0 None u []
  else
    match data with
    | None => done (-1) (Some EFAULT) u []
    | Some bytes =>
        if len <? sizeof_hdr then done (-1) (Some EBADMSG) u []
        else
          let h := parse_hdr bytes in
          let len := len - sizeof_hdr in
          let payload := buf_read bytes sizeof_hdr len in
          if negb (known_flags h) then done (-1) (Some EBADMSG) u []
          else
            c <- find_connection u (hdr_dst h) (hdr_src h) ;;
            match c with
            | None =>
                let reset err u := done 0 err u [EvSend (reset_hdr h 1) []] in
                if has_flag RST h then done 0 None u []
                else if has_flag SYN h && negb (has_flag ACK h)
                        && match accept u with Some _ => true | None => false end
                then
                  if match pre_accept u with
                     | Some f => negb (f (hdr_dst h))
                     | None => false
                     end
                  then reset None u
                  else
                    '(c, err, u) <- allocate_connection e u (hdr_dst h) (hdr_src h) ;;
                    match c with
                    | None => reset err u
                    | Some c =>
                        let c := with_snd_wnd (hdr_wnd h) c in
                        let c := with_rcv_irs (hdr_seq h) c in
                        let c := with_rcv_nxt (uint32 (rcv_irs c + 1)) c in
                        let c := set_state c SYN_RECEIVED in
                        let h' := {| hdr_src := src c; hdr_dst := dst c;
                                     hdr_seq := snd_iss c;
                                     hdr_ack := uint32 (rcv_irs c + 1);
                                     hdr_wnd := hdr_wnd h; hdr_ctl := Z.lor SYN ACK;
                                     hdr_aux := hdr_aux h |} in
                        done 0 err (put_conn c u) [EvSend h' []]
                    end
                else reset None u
            | Some c =>
                r <- utcp_recv_conn e u c h payload len ;;
                done (r_val r) (r_errno r) (store u c (r_state r)) (r_trace r)
            end
    end.

(** ** utcp_timeout

    [timeout_conn] is one turn of the loop over the table: what becomes of
    the connection ([None] when it was reaped), the running minimum [next],
    [errno], and the callbacks made. *)

Definition timersub (a b : timeval) : timeval :=
  let s := tv_sec a - tv_sec b in
  let us := tv_usec a - tv_usec b in
  if us <? 0 then {| tv_sec := s - 1; tv_usec := us + 1000000 |}
  else {| tv_sec := s; tv_usec := us |}.

Definition expired (t now : timeval) : bool := timerisset t && timer_lt t now.

Definition polled (c : utcp_connection) : bool :=
  poll c && (sndbufsize c <? maxsndbufsize c / 2)
  && match state c with ESTABLISHED | CLOSE_WAIT => true | _ => false end.

Definition timeout_conn (e : environ) (u : utcp) (c : utcp_connection) (next : timeval)
  : outcome (option utcp_connection * timeval * option errno_t * list event) :=
  if state_eqb (state c) CLOSED then
    Ret (if reapable c then None else Some c, next, None, [])
  else if expired (conn_timeout c) (now e) then
    let c := with_state CLOSED c in
    Ret (Some c, next, Some ETIMEDOUT,
         match recv c with
         | Some _ => [EvRecvNull (src c) (dst c) ETIMEDOUT]
         | None => []
         end)
  else
    rtrx <- (if expired (rtrx_timeout c) (now e) then retransmit e u c else Ret []) ;;
    let polls := if polled c
                 then [EvPoll (src c) (dst c) (uint32 (maxsndbufsize c - sndbufsize c))]
                 else [] in
    let next := if timerisset (conn_timeout c) && timer_lt (conn_timeout c) next
                then conn_timeout c else next in
    let c := if negb (snd_nxt c =? snd_una c)
             then with_rtrx_timeout (add_sec (now e) 1) c
             else with_rtrx_timeout timerclear c in
    let next := if timerisset (rtrx_timeout c) && timer_lt (rtrx_timeout c) next
                then rtrx_timeout c else next in
    Ret (Some c, next, None, rtrx ++ polls).

Definition or_errno (a b : option errno_t) : option errno_t :=
  match b with Some _ => b | None => a end.

Fixpoint timeout_loop (e : environ) (u : utcp) (l : list utcp_connection) (next : timeval)
  : outcome (list utcp_connection * timeval * option errno_t * list event) :=
  match l with
  | [] => Ret ([], next, None, [])
  | c :: l' =>
      '(c', next, err, evs) <- timeout_conn e u c next ;;
      '(l'', next, err', evs') <- timeout_loop e u l' next ;;
      Ret (match c' with Some c' => c' :: l'' | None => l'' end,
           next, or_errno err err', evs ++ evs')
  end.

Definition utcp_timeout (e : environ) (u : utcp) : outcome (result utcp) :=
  let next := {| tv_sec := tv_sec (now e) + 3600; tv_usec := tv_usec (now e) |} in
  '(l, next, err, evs) <- timeout_loop e u (connections u) next ;;
  let diff := timersub next (now e) in
  done (if tv_sec diff <? 0 then 0 else tv_sec diff * 1000 + Z.quot (tv_usec diff) 1000)
       err (with_connections l u) evs.

(** ** Setters *)

Definition utcp_set_mtu (u : utcp) (m : Z) : utcp := with_mtu m u.
Definition utcp_set_user_timeout (u : utcp) (t : Z) : utcp := with_timeout t u.

Definition utcp_get_sndbuf_free (c : utcp_connection) : Z :=
  uint32 (maxsndbufsize c - sndbufsize c).

(** [utcp_priv.h] does not declare the member [maxsndbufsize], and in
    [utcp_set_sndbuf] its type decides what is stored: the member is an
    unsigned integer whose width in bits is the parameter [bits]; [size]
    is a [size_t].  The assignment converts [size] to the member's type,
    the test compares the member with [size], and [-1] converted to the
    member's type is its largest value. *)
Definition utcp_set_sndbuf (bits : Z) (c : utcp_connection) (size : Z)
  : utcp_connection :=
  let c := with_maxsndbufsize (size mod 2 ^ bits) c in
  if negb (maxsndbufsize c =? size) then with_maxsndbufsize ((-1) mod 2 ^ bits) c else c.

Definition utcp_set_nodelay (c : utcp_connection) (b : bool) := with_nodelay b c.
Definition utcp_set_keepalive (c : utcp_connection) (b : bool) := with_keepalive b c.
Definition utcp_set_recv_cb (c : utcp_connection) (r : option utcp_recv_t) := with_recv r c.
Definition utcp_set_poll_cb (c : utcp_connection) (p : bool) := with_poll p c.

(** ** The system: what an application and the network can do to a host

    A step is one call of the public interface.  A call that takes a
    connection is made on a connection of the table, and what it leaves of
    the connection is stored back under its key. *)

Inductive step (u : utcp) : utcp -> Prop :=
| step_connect e d r p c err u' evs :
    utcp_connect e u d r p = Ret (c, err, u', evs) -> step u u'
| step_accept c r p :
    In c (connections u) -> step u (put_conn (utcp_accept c r p) u)
| step_send e c data len res :
    In c (connections u) -> utcp_send e u c data len = Ret res ->
    step u (put_conn (r_state res) u)
| step_recv e data len res :
    utcp_recv e u data len = Ret res -> step u (r_state res)
| step_shutdown c dir res :
    In c (connections u) -> utcp_shutdown u c dir = Ret res ->
    step u (put_conn (r_state res) u)
| step_close c res :
    In c (connections u) -> utcp_close u c = Ret res ->
    step u (put_conn (r_state res) u)
| step_abort e c :
    In c (connections u) -> step u (put_conn (r_state (utcp_abort e c)) u)
| step_timeout e res :
    utcp_timeout e u = Ret res -> step u (r_state res)
| step_set_mtu m : step u (utcp_set_mtu u m)
| step_set_user_timeout t : step u (utcp_set_user_timeout u t)
| step_set_sndbuf bits c size :
    In c (connections u) -> step u (put_conn (utcp_set_sndbuf bits c size) u)
| step_set_nodelay c b :
    In c (connections u) -> step u (put_conn (utcp_set_nodelay c b) u)
| step_set_keepalive c b :
    In c (connections u) -> step u (put_conn (utcp_set_keepalive c b) u)
| step_set_recv_cb c r :
    In c (connections u) -> step u (put_conn (utcp_set_recv_cb c r) u)
| step_set_poll_cb c p :
    In c (connections u) -> step u (put_conn (utcp_set_poll_cb c p) u).

Inductive reachable : utcp -> Prop :=
| reach_init a p pr : reachable (utcp_init a p pr)
| reach_step u u' : reachable u -> step u u' -> reachable u'.

End Host.

(** ** Vocabulary of the properties *)

(** The number of sequence numbers [ack] sends: what is pending, clamped to
    what the congestion window leaves. *)
Definition pending (c : utcp_connection) : Z :=
  let left := seqdiff (snd_last c) (snd_nxt c) in
  let cwndleft := int32 (snd_cwnd c - seqdiff (snd_nxt c) (snd_una c)) in
  let cwndleft := if cwndleft <=? 0 then 0 else cwndleft in
  if cwndleft <? left then cwndleft else left.

Definition fin_state (c : utcp_connection) : bool :=
  match state c with FIN_WAIT_1 | CLOSING => true | _ => false end.

(** [emitted u c nxt evs final]: [evs] is a run of segments of connection
    [c], the first with sequence number [nxt], each starting where the one
    before it ended, the run ending at [final].  A segment occupies [seglen]
    sequence numbers, at most [mtu]; it carries FIN exactly when it is the
    last of the run, not empty, and the state is FIN_WAIT_1 or CLOSING, and
    then its payload is one byte shorter. *)
Fixpoint emitted (u : utcp) (c : utcp_connection) (nxt : Z) (evs : list event) (final : Z)
  : Prop :=
  match evs with
  | [] => final = nxt
  | ev :: rest =>
      exists seglen,
        0 <= seglen <= mtu u /\
        (let fin := fin_state c && match rest with [] => true | _ => false end
                    && (0 <? seglen) in
         ev = EvSend {| hdr_src := src c; hdr_dst := dst c; hdr_seq := nxt;
                        hdr_ack := rcv_nxt c; hdr_wnd := snd_wnd c;
                        hdr_ctl := if fin then Z.lor ACK FIN else ACK; hdr_aux := 0 |}
                     (buf_read (sndbuf c) (seqdiff nxt (snd_una c))
                               (if fin then seglen - 1 else seglen))) /\
        emitted u c (uint32 (nxt + seglen)) rest final
  end.

(** The segment that carries FIN for connection [c]: it starts at [s],
    occupies [seglen] sequence numbers and carries [seglen - 1] bytes. *)
Definition fin_segment (c : utcp_connection) (s seglen : Z) : event :=
  EvSend {| hdr_src := src c; hdr_dst := dst c; hdr_seq := s;
            hdr_ack := rcv_nxt c; hdr_wnd := snd_wnd c;
            hdr_ctl := Z.lor ACK FIN; hdr_aux := 0 |}
         (buf_read (sndbuf c) (seqdiff s (snd_una c)) (seglen - 1)).

(** The number of buffered bytes an acknowledgement releases: the advance,
    less the sequence number of the SYN while the handshake is open. *)
Definition data_acked (c : utcp_connection) (h : hdr) : Z :=
  match state c with
  | SYN_SENT | SYN_RECEIVED => seqdiff (hdr_ack h) (snd_una c) - 1
  | _ => seqdiff (hdr_ack h) (snd_una c)
  end.

(** The state after an acknowledgement that advances: our FIN is
    acknowledged when the acknowledgement reaches [snd.last]. *)
Definition acked_state (c : utcp_connection) (h : hdr) : enum_state :=
  match state c with
  | FIN_WAIT_1 => if hdr_ack h =? snd_last c then FIN_WAIT_2 else FIN_WAIT_1
  | CLOSING => if hdr_ack h =? snd_last c then TIME_WAIT else CLOSING
  | s => s
  end.

(** The connection after an acknowledgement that advances, field by field:
    the send buffer moved down by [data_acked], [snd.una] at [hdr.ack],
    [dupack] reset, [cwnd] grown by the MTU up to [maxsndbufsize], the state
    of [acked_state], the user timeout cleared, and the retransmission timer
    cleared when nothing is in flight any more. *)
Definition advanced_connection (u : utcp) (c : utcp_connection) (h : hdr)
  : utcp_connection :=
  let d := data_acked c h in
  let left := uint32 (seqdiff (snd_last c) (snd_una c) - d) in
  with_rtrx_timeout (if hdr_ack h =? snd_nxt c then timerclear else rtrx_timeout c)
    (with_conn_timeout timerclear
      (with_state (acked_state c h)
        (with_snd_cwnd (Z.min (uint32 (snd_cwnd c + mtu u)) (maxsndbufsize c))
          (with_dupack 0
            (with_snd_una (hdr_ack h)
              (with_sndbuf
                 (if negb (d =? 0) && negb (left =? 0)
                  then buf_move_down (sndbuf c) d left else sndbuf c)
                 c)))))).

(** An ACK segment of connection [c]: it acknowledges [rcv.nxt]. *)
Definition ack_segment (c : utcp_connection) (ev : event) : Prop :=
  exists h data,
    ev = EvSend h data /\ hdr_ack h = rcv_nxt c /\ has_flag ACK h = true
    /\ hdr_src h = src c /\ hdr_dst h = dst c.


(** [post P r]: if the call returned and left a connection, it satisfies [P]. *)
Definition post (P : utcp_connection -> Prop) (r : recv_result) : Prop :=
  match r with
  | Ret res => match r_state res with Some c' => P c' | None => True end
  | _ => True
  end.

(** The invariant of ESTABLISHED connections. *)
Definition no_user_timeout (c : utcp_connection) : Prop :=
  state c = ESTABLISHED -> conn_timeout c = timerclear.

(** [grows cond una r k c']: [snd.una] of [c'] is [una] and, when [cond]
    holds, [rcv.nxt] of [c'] is [r] advanced by at most [k] (as 32-bit
    sequence numbers). *)
Definition grows (cond : Prop) (una r k : Z) (c' : utcp_connection) : Prop :=
  snd_una c' = una
  /\ (cond -> exists j, 0 <= j <= k /\ uint32 (rcv_nxt c') = uint32 (r + j)).

(** Neither [snd.una] nor, when [cond] holds, [rcv.nxt] is before its value
    in [c], in the order of [seqdiff]. *)
Definition not_before (cond : Prop) (c c' : utcp_connection) : Prop :=
  0 <= seqdiff (snd_una c') (snd_una c)
  /\ (cond -> 0 <= seqdiff (rcv_nxt c') (rcv_nxt c)).

(** Every connection of the table satisfies [no_user_timeout]. *)
Definition table_ok (u : utcp) : Prop := Forall no_user_timeout (connections u).

(** No two connections of the table have the same (src, dst). *)
Definition unique_keys (u : utcp) : Prop :=
  forall c1 c2, In c1 (connections u) -> In c2 (connections u) ->
                src c1 = src c2 -> dst c1 = dst c2 -> c1 = c2.

(** The sweep of [utcp_timeout] reaches the poll test for [c] and calls the
    poll callback there. *)
Definition polls (e : environ) (c : utcp_connection) : Prop :=
  state c <> CLOSED /\ expired (conn_timeout c) (now e) = false /\ polled c = true.

(** ** Sample values

    A host with the default tunables, an environment, and connections of a
    client on port 32769 talking to port 7, as a handshake with initial
    sequence numbers 100 (ours) and 9000 (the peer's) leaves them. *)

Definition sample_env : environ :=
  {| now := {| tv_sec := 1000; tv_usec := 0 |};
     rand_port := 1; rand_iss := 100; realloc_ok := true; uninit_u32 := 9001;
     uninit_hdr := {| hdr_src := 0; hdr_dst := 0; hdr_seq := 0; hdr_ack := 0;
                      hdr_wnd := 0; hdr_ctl := 0; hdr_aux := 0 |} |}.

Definition sample_host : utcp :=
  utcp_init (Some (fun _ _ => Some (None, 0))) None 0.

Definition established : utcp_connection :=
  {| priv := 0; reapable := false; nodelay := false; keepalive := false;
     src := 32769; dst := 7; state := ESTABLISHED;
     snd_una := 101; snd_nxt := 101; snd_wnd := 1000; snd_iss := 100;
     snd_last := 101; snd_cwnd := 1000;
     rcv_nxt := 9001; rcv_wnd := 1000; rcv_irs := 9000; dupack := 0;
     recv := None; poll := false;
     conn_timeout := timerclear; rtrx_timeout := timerclear;
     sndbuf := repeat 0 4096; sndbufsize := 4096; maxsndbufsize := 131072 |}.

(** A segment header from the peer. *)
Definition from_peer (seq ack ctl : Z) : hdr :=
  {| hdr_src := 7; hdr_dst := 32769; hdr_seq := seq; hdr_ack := ack; hdr_wnd := 1000;
     hdr_ctl := ctl; hdr_aux := 0 |}.

(** [established] with 1000 bytes in flight, all acknowledged by a segment
    that was then reset (it carried SYN), and 500 more bytes queued: the
    congestion window has room for them. *)
Definition flushing : utcp_connection :=
  with_snd_cwnd 2000 (with_snd_last 1601 (with_snd_nxt 1101 (with_snd_una 1101 established))).

(** [established] after the application queued 1500 bytes and shut down:
    1500 bytes and the FIN are pending, the window has room for all. *)
Definition finishing : utcp_connection :=
  with_state FIN_WAIT_1 (with_snd_cwnd 4000 (with_snd_last 1602 established)).

(** A connection in FIN_WAIT_1 with 2500 bytes and the FIN pending, nothing
    in flight, and a congestion window of 2000: as when the application
    sent 3500 bytes and shut down, and the peer acknowledged the first
    1000. *)
Definition clamped : utcp_connection :=
  with_state FIN_WAIT_1
    (with_snd_cwnd 2000 (with_snd_last 3602 (with_snd_nxt 1101
      (with_snd_una 1101 established)))).

(** A connection that sent its FIN after the peer's: CLOSING, FIN in flight. *)
Definition closing : utcp_connection :=
  with_state CLOSING (with_snd_last 102 (with_snd_nxt 102 established)).

(** A connection whose send buffer is full and at its maximum size. *)
Definition full : utcp_connection :=
  with_maxsndbufsize 4096 (with_snd_last 4197 (with_snd_nxt 4197 established)).

(** A connection with a poll callback, a 4096-byte buffer and an odd
    maximum of 8193 bytes: 4097 bytes, more than half of the maximum, are
    free. *)
Definition odd_sized : utcp_connection :=
  with_poll true (with_maxsndbufsize 8193 established).

(** A connection with a poll callback and the default sizes. *)
Definition pollable : utcp_connection := with_poll true established.

(** A client that has just sent its SYN. *)
Definition connecting : utcp_connection :=
  with_state SYN_SENT
    (with_rcv_nxt 0 (with_rcv_irs 0 (with_snd_wnd 0
      (with_snd_last 101 (with_snd_nxt 101 (with_snd_una 100
        (with_conn_timeout {| tv_sec := 1060; tv_usec := 0 |} established))))))).

(** Two hosts for a handshake: a client, and a server that accepts every
    connection; and the server's environment (its initial sequence number is
    9000). *)
Definition client_host : utcp := utcp_init None None 0.
Definition server_host : utcp := sample_host.
Definition server_env : environ :=
  {| now := now sample_env; rand_port := 0; rand_iss := 9000; realloc_ok := true;
     uninit_u32 := 0; uninit_hdr := uninit_hdr sample_env |}.

(** The host of the samples with [c] as its only connection. *)
Definition host_of (c : utcp_connection) : utcp :=
  with_nallocated 4 (with_connections [c] sample_host).

(** The SYN+ACK of the peer as a datagram: src 7, dst 32769, seq 9000,
    ack 101, wnd 1000, ctl SYN|ACK, aux 0. *)
Definition synack_datagram : list Z :=
  [7; 0;  1; 128;  40; 35; 0; 0;  101; 0; 0; 0;  232; 3; 0; 0;  3; 0;  0; 0].

(** ** Getters *)

Definition utcp_get_mtu (u : utcp) : Z := mtu u.
Definition utcp_get_user_timeout (u : utcp) : Z := timeout u.
Definition utcp_get_sndbuf (c : utcp_connection) : Z := maxsndbufsize c.
Definition utcp_get_nodelay (c : utcp_connection) : bool := nodelay c.
Definition utcp_get_keepalive (c : utcp_connection) : bool := keepalive c.

(** [utcp_get_outq] returns the [int32_t] of [seqdiff] as a [size_t]. *)
Definition utcp_get_outq (c : utcp_connection) : Z :=
  usize (seqdiff (snd_nxt c) (snd_una c)).

(** ** Vocabulary of the table properties *)

(** The key [compare] orders the table by. *)
Definition key (c : utcp_connection) : Z * Z := (src c, dst c).

(** [compare] on keys. *)
Definition key_lt (a b : Z * Z) : bool :=
  (fst a <? fst b) || ((fst a =? fst b) && (snd a <? snd b)).

(** The table is in the strict order of [compare]. *)
Definition sorted_table (u : utcp) : Prop :=
  StronglySorted (fun a b => conn_lt a b = true) (connections u).

(** A connection the sweep of [utcp_timeout] frees. *)
Definition reaped (c : utcp_connection) : bool :=
  state_eqb (state c) CLOSED && reapable c.

(** What every operation keeps of a connection: its ports, and a state that
    is neither LISTEN nor LAST_ACK (no statement of the code enters these
    two). *)
Definition conn_inv (k : Z * Z) (c : utcp_connection) : Prop :=
  key c = k /\ state c <> LISTEN /\ state c <> LAST_ACK.

(** A connection as the table holds it: a source port that [compare]
    accepts, and a state the code enters. *)
Definition live (c : utcp_connection) : Prop :=
  src c <> 0 /\ state c <> LISTEN /\ state c <> LAST_ACK.

(** The invariant of the host. *)
Definition host_inv (u : utcp) : Prop :=
  sorted_table u /\ Forall live (connections u).

(** The connection [allocate_connection] creates for ports [s] and [d]:
    zeroed by [calloc], then the fields the code fills in. *)
Definition fresh_connection (sndbufsz maxsndbufsz : Z) (e : environ) (u : utcp) (s d : Z)
  : utcp_connection :=
  {| priv := 0; reapable := false; nodelay := false; keepalive := false;
     src := s; dst := d; state := CLOSED;
     snd_una := uint32 (rand_iss e); snd_nxt := uint32 (uint32 (rand_iss e) + 1);
     snd_wnd := 0; snd_iss := uint32 (rand_iss e);
     snd_last := uint32 (uint32 (rand_iss e) + 1); snd_cwnd := mtu u;
     rcv_nxt := 0; rcv_wnd := mtu u; rcv_irs := 0; dupack := 0;
     recv := None; poll := false;
     conn_timeout := timerclear; rtrx_timeout := timerclear;
     sndbuf := repeat 0 (Z.to_nat sndbufsz);
     sndbufsize := sndbufsz; maxsndbufsize := maxsndbufsz |}.

(** The first source port [allocate_connection] tries when it is given
    none: [rand () | 0x8000], as a [uint16_t]. *)
Definition first_port (e : environ) : Z := uint16 (Z.lor (rand_port e) 32768).

(** What the sweep of [utcp_timeout] at time [now e] leaves of a connection
    it does not free: a CLOSED connection as it is; one whose user timeout
    has expired CLOSED; any other with the retransmission timer set one
    second ahead when data is in flight and cleared when none is. *)
Definition swept (e : environ) (c : utcp_connection) : utcp_connection :=
  if state_eqb (state c) CLOSED then c
  else if expired (conn_timeout c) (now e) then with_state CLOSED c
  else with_rtrx_timeout
         (if snd_nxt c =? snd_una c then timerclear else add_sec (now e) 1) c.

(** The user timeout of an open connection has run out at [now e]. *)
Definition timed_out (e : environ) (c : utcp_connection) : bool :=
  negb (state_eqb (state c) CLOSED) && expired (conn_timeout c) (now e).

(** The sweep at [now e] reaches [retransmit] for [c] with data in flight. *)
Definition retransmits (e : environ) (c : utcp_connection) : bool :=
  negb (state_eqb (state c) CLOSED) && negb (expired (conn_timeout c) (now e))
  && expired (rtrx_timeout c) (now e) && negb (snd_nxt c =? snd_una c).

(** The sweep at [now e] reaches [retransmit] for [c] in a state that
    [retransmit] has no case for. *)
Definition stuck (e : environ) (c : utcp_connection) : bool :=
  retransmits e c
  && match state c with
     | FIN_WAIT_2 | CLOSE_WAIT | CLOSING | LAST_ACK | TIME_WAIT => true
     | _ => false
     end.

(** A [struct timeval] with its microseconds in range. *)
Definition normal (t : timeval) : Prop := 0 <= tv_usec t < 1000000.

(** [a] is not later than [b]. *)
Definition not_later (a b : timeval) : Prop :=
  tv_sec a < tv_sec b \/ (tv_sec a = tv_sec b /\ tv_usec a <= tv_usec b).

(** Nothing of the trace is handed to [send]. *)
Definition silent (evs : list event) : Prop := forall h d, ~ In (EvSend h d) evs.

(** ** More sample values *)

(** [established] after the peer's FIN, with 100 bytes sent a second ago
    and not acknowledged. *)
Definition half_closed : utcp_connection :=
  with_state CLOSE_WAIT
    (with_rtrx_timeout {| tv_sec := 999; tv_usec := 0 |}
      (with_snd_last 201 (with_snd_nxt 201 established))).

(** [established] with 1500 bytes in flight since a second ago. *)
Definition unacked : utcp_connection :=
  with_rtrx_timeout {| tv_sec := 999; tv_usec := 0 |}
    (with_snd_cwnd 2000 (with_snd_last 1601 (with_snd_nxt 1601 established))).

(** The SYN of the client of the samples, as a datagram. *)
Definition syn_datagram : list Z :=
  hdr_bytes {| hdr_src := 32769; hdr_dst := 7; hdr_seq := 100; hdr_ack := 0;
               hdr_wnd := 1000; hdr_ctl := SYN; hdr_aux := 0 |}.

(** The state stage 3 of [utcp_recv] leaves: that of [acked_state] when
    the acknowledgement advances, the old one when it does not. *)
Definition state_after_ack (c : utcp_connection) (h : hdr) : enum_state :=
  if uint32 (seqdiff (hdr_ack h) (snd_una c)) =? 0 then state c else acked_state c h.

(** An ACK segment of the connection with ports [s] and [d] that
    acknowledges [a]. *)
Definition acks (s d a : Z) (ev : event) : Prop :=
  exists h data,
    ev = EvSend h data /\ hdr_src h = s /\ hdr_dst h = d /\ hdr_ack h = a
    /\ has_flag ACK h = true.

(** The state a FIN leaves, from the state stage 3 left. *)
Definition fin_received (s : enum_state) : enum_state :=
  match s with
  | ESTABLISHED => CLOSE_WAIT
  | FIN_WAIT_1 => CLOSING
  | FIN_WAIT_2 => TIME_WAIT
  | s => s
  end.

(** The send sequence numbers of [c] are in order, [snd.una] not after
    [snd.nxt] and [snd.nxt] not after [snd.last], less than 2^31 apart. *)
Definition snd_ordered (c : utcp_connection) : Prop :=
  0 <= seqdiff (snd_nxt c) (snd_una c) /\ 0 <= seqdiff (snd_last c) (snd_nxt c)
  /\ seqdiff (snd_nxt c) (snd_una c) + seqdiff (snd_last c) (snd_nxt c) < 2 ^ 31.

(** [established] with a [recv] callback that takes everything it is
    given. *)
Definition receiving : utcp_connection :=
  with_recv (Some (fun data => Z.of_nat (length data))) established.

(** A connection whose FIN the peer has acknowledged. *)
Definition fin_wait_2 : utcp_connection :=
  with_state FIN_WAIT_2 (with_snd_last 102 (with_snd_nxt 102 (with_snd_una 102 established))).

(** A connection that has answered a SYN with its SYN+ACK, which is in
    flight. *)
Definition half_open : utcp_connection :=
  with_state SYN_RECEIVED (with_snd_una 100 established).

(** The other end of [established], with a [recv] callback that takes
    everything it is given. *)
Definition far_end : utcp_connection :=
  {| priv := 0; reapable := false; nodelay := false; keepalive := false;
     src := 7; dst := 32769; state := ESTABLISHED;
     snd_una := 9001; snd_nxt := 9001; snd_wnd := 1000; snd_iss := 9000;
     snd_last := 9001; snd_cwnd := 1000;
     rcv_nxt := 101; rcv_wnd := 1000; rcv_irs := 100; dupack := 0;
     recv := Some (fun data => Z.of_nat (length data)); poll := false;
     conn_timeout := timerclear; rtrx_timeout := timerclear;
     sndbuf := repeat 0 4096; sndbufsize := 4096; maxsndbufsize := 131072 |}.

(** ** Two hosts

    [deliver] hands the datagrams [ds] to the host [u] one after the other,
    as the application does with what it reads from the network; the result
    is the host afterwards and the datagrams it sent in reply. *)
Fixpoint deliver (sndbufsz maxsndbufsz : Z) (e : environ) (u : utcp) (ds : list (list Z))
  : outcome (utcp * list (list Z)) :=
  match ds with
  | [] => Ret (u, [])
  | d :: ds =>
      r <- utcp_recv sndbufsz maxsndbufsz e u (Some d) (Z.of_nat (length d)) ;;
      '(u', out) <- deliver sndbufsz maxsndbufsz e (r_state r) ds ;;
      Ret (u', datagrams (r_trace r) ++ out)
  end.

(** The client [uc] connects to port [d] of the server [us]; the datagrams
    go to the server, its replies to the client and the client's replies to
    the server.  The result is the client's connection, the two hosts and
    what the server sent last. *)
Definition handshake (sndbufsz maxsndbufsz : Z) (ec es : environ) (uc us : utcp) (d : Z)
  (r : option utcp_recv_t) (p : Z)
  : outcome (option utcp_connection * utcp * utcp * list (list Z)) :=
  '(c, _, uc, evs) <- utcp_connect sndbufsz maxsndbufsz ec uc d r p ;;
  '(us, d1) <- deliver sndbufsz maxsndbufsz es us (datagrams evs) ;;
  '(uc, d2) <- deliver sndbufsz maxsndbufsz ec uc d1 ;;
  '(us, d3) <- deliver sndbufsz maxsndbufsz es us d2 ;;
  Ret (c, uc, us, d3).

(** The application of host [u1] shuts its connection [c] down; what is
    sent goes to host [u2] and the replies of [u2] come back to [u1].  The
    result is the value of [utcp_shutdown], the two hosts and what [u1]
    sent last. *)
Definition shutdown_round (sndbufsz maxsndbufsz : Z) (e1 e2 : environ) (u1 u2 : utcp)
  (c : utcp_connection) (dir : Z) : outcome (Z * utcp * utcp * list (list Z)) :=
  r <- utcp_shutdown u1 c dir ;;
  '(u2, back) <- deliver sndbufsz maxsndbufsz e2 u2 (datagrams (r_trace r)) ;;
  '(u1, rest) <- deliver sndbufsz maxsndbufsz e1 (put_conn (r_state r) u1) back ;;
  Ret (r_val r, u1, u2, rest).

(** ** The two ends of a connection *)

(** The fields of [c] that go into a header hold values of their C
    types. *)
Definition in_range (c : utcp_connection) : Prop :=
  0 <= src c < 2 ^ 16 /\ 0 <= dst c < 2 ^ 16
  /\ 0 <= snd_nxt c < 2 ^ 32 /\ 0 <= rcv_nxt c < 2 ^ 32 /\ 0 <= snd_wnd c < 2 ^ 32.

(** An established connection with nothing queued and nothing in flight. *)
Definition idle (c : utcp_connection) : Prop :=
  state c = ESTABLISHED /\ reapable c = false
  /\ snd_una c = snd_nxt c /\ snd_last c = snd_nxt c.

(** A connection in use with nothing queued and nothing in flight. *)
Definition quiet (c : utcp_connection) : Prop :=
  reapable c = false /\ snd_una c = snd_nxt c /\ snd_last c = snd_nxt c.

(** [b] is the other end of [a]: the ports are mirrored and each end
    expects the sequence number the other sends next. *)
Definition peers (a b : utcp_connection) : Prop :=
  src b = dst a /\ dst b = src a /\ rcv_nxt b = snd_nxt a /\ rcv_nxt a = snd_nxt b.

(** * Properties *)

(** ** Modular arithmetic *)

Lemma int32_small (z : Z) : - 2 ^ 31 <= z < 2 ^ 31 -> int32 z = z.
Proof. intros H. unfold int32. rewrite Z.mod_small; lia. Qed.

Lemma int32_range (z : Z) : - 2 ^ 31 <= int32 z < 2 ^ 31.
Proof. unfold int32. pose proof (Z.mod_pos_bound (z + 2 ^ 31) (2 ^ 32)). lia. Qed.

Lemma int32_uint32 (z : Z) : int32 (uint32 z) = int32 z.
Proof.
  unfold int32, uint32.
  rewrite <- (Zplus_mod_idemp_l z). reflexivity.
Qed.

Lemma int32_shift (a b k : Z) : int32 (uint32 (a + k) - b) = int32 (a - b + k).
Proof.
  unfold int32, uint32. f_equal.
  replace ((a + k) mod 2 ^ 32 - b + 2 ^ 31) with ((a + k) mod 2 ^ 32 + (2 ^ 31 - b)) by lia.
  rewrite Zplus_mod_idemp_l. f_equal. lia.
Qed.

Lemma int32_int32_add (x k : Z) : int32 (x + k) = int32 (int32 x + k).
Proof.
  unfold int32. f_equal.
  replace ((x + 2 ^ 31) mod 2 ^ 32 - 2 ^ 31 + k + 2 ^ 31) with ((x + 2 ^ 31) mod 2 ^ 32 + k) by lia.
  rewrite Zplus_mod_idemp_l. f_equal. lia.
Qed.

Lemma seqdiff_refl (a : Z) : seqdiff a a = 0.
Proof. unfold seqdiff. rewrite Z.sub_diag. reflexivity. Qed.

Lemma seqdiff_advance (a b k : Z) :
  - 2 ^ 31 <= seqdiff a b + k < 2 ^ 31 ->
  seqdiff (uint32 (a + k)) b = seqdiff a b + k.
Proof.
  intros H. unfold seqdiff in *. rewrite int32_shift, int32_int32_add.
  apply int32_small, H.
Qed.

Lemma seqdiff_step (a k : Z) : 0 <= k < 2 ^ 31 -> seqdiff (uint32 (a + k)) a = k.
Proof.
  intros H. rewrite seqdiff_advance; rewrite seqdiff_refl; lia.
Qed.

Lemma uint32_add_l (a b : Z) : uint32 (uint32 a + b) = uint32 (a + b).
Proof. unfold uint32. apply Zplus_mod_idemp_l. Qed.

Lemma uint32_seqdiff (a b : Z) : uint32 (seqdiff a b) = uint32 (a - b).
Proof.
  unfold seqdiff, int32, uint32.
  rewrite Zminus_mod_idemp_l. f_equal. lia.
Qed.

Lemma uint32_idem (a : Z) : uint32 (uint32 a) = uint32 a.
Proof. unfold uint32. apply Z.mod_mod. lia. Qed.

(** ** The egress engine *)

Lemma state_eqb_eq (a b : enum_state) : state_eqb a b = true <-> a = b.
Proof. unfold state_eqb. destruct (state_eq_dec a b); split; congruence. Qed.

Lemma state_eqb_refl (a : enum_state) : state_eqb a a = true.
Proof. apply state_eqb_eq. reflexivity. Qed.

Lemma emitted_with_snd_nxt (u : utcp) (c : utcp_connection) (x : Z) (evs : list event) :
  forall nxt final,
    emitted u (with_snd_nxt x c) nxt evs final <-> emitted u c nxt evs final.
Proof.
  induction evs as [|ev rest IH]; intros nxt final; simpl.
  - reflexivity.
  - split; intros (seglen & Hs & Hev & Hrest); exists seglen;
      (split; [exact Hs | split; [exact Hev | apply IH; exact Hrest]]).
Qed.

Lemma fin_test (c : utcp_connection) (l s : Z) :
  negb (state_eqb (state c) ESTABLISHED) && (l =? 0) && negb (s =? 0)
  && match state c with FIN_WAIT_1 | CLOSING => true | _ => false end
  = fin_state c && (l =? 0) && negb (s =? 0).
Proof.
  unfold fin_state. destruct (state c); simpl; try reflexivity;
    destruct (l =? 0), (s =? 0); reflexivity.
Qed.

Lemma ack_loop_run (u : utcp) (fuel : nat) :
  0 < mtu u ->
  forall (c : utcp_connection) (left : Z),
    0 <= left < 2 ^ 31 ->
    (Z.to_nat left < fuel)%nat ->
    seqdiff (snd_nxt c) (snd_una c) + left < 2 ^ 31 ->
    exists evs,
      ack_loop fuel u c left (seqdiff (snd_nxt c) (snd_una c)) ACK
      = Ret (with_snd_nxt (uint32 (snd_nxt c + left)) c, evs)
      /\ evs <> []
      /\ emitted u c (snd_nxt c) evs (uint32 (snd_nxt c + left))
      /\ (fin_state c = true -> 0 < left ->
          exists evs0 s seglen,
            0 < seglen <= mtu u /\
            uint32 (s + seglen) = uint32 (snd_nxt c + left) /\
            evs = evs0 ++ [fin_segment c s seglen]).
Proof.
  intros Hmtu. induction fuel as [|fuel IH]; intros c left Hleft Hfuel Hspan.
  - lia.
  - cbn [ack_loop]. rewrite fin_test.
    set (seglen := if left >? mtu u then mtu u else left).
    assert (Hseg : 0 <= seglen <= mtu u /\ seglen <= left
                   /\ (0 < left -> 0 < seglen)).
    { subst seglen. destruct (Z.gtb_spec left (mtu u)); lia. }
    destruct Hseg as (Hseg & Hsl & Hpos).
    rewrite (int32_small (left - seglen)) by lia.
    pose proof (int32_range (snd_nxt c - snd_una c)) as Hoff.
    fold (seqdiff (snd_nxt c) (snd_una c)) in Hoff.
    replace (negb (seglen =? 0)) with (0 <? seglen)
      by (destruct (Z.eqb_spec seglen 0), (Z.ltb_spec 0 seglen); simpl; lia).
    destruct (Z.eqb_spec (left - seglen) 0) as [Hz|Hnz].
    + assert (Hsl' : seglen = left) by lia.
      rewrite andb_true_r.
      eexists. split; [|split; [|split]].
      * f_equal. f_equal. congruence.
      * discriminate.
      * cbn [emitted]. exists seglen. split; [exact Hseg|]. split.
        -- rewrite andb_true_r.
           destruct (fin_state c && (0 <? seglen)) eqn:Hfin.
           ++ rewrite andb_true_iff in Hfin. destruct Hfin as [_ Hfin].
              apply Z.ltb_lt in Hfin.
              unfold uint32. rewrite Z.mod_small by lia. reflexivity.
           ++ reflexivity.
        -- congruence.
      * intros Hfin Hl. exists [], (snd_nxt c), seglen.
        split; [lia|]. split; [congruence|].
        rewrite Hfin. destruct (Z.ltb_spec 0 seglen); [|lia].
        cbn [andb app]. unfold fin_segment.
        unfold uint32 at 1. rewrite Z.mod_small by lia. reflexivity.
    + destruct (IH (with_snd_nxt (uint32 (snd_nxt c + seglen)) c) (left - seglen))
        as (evs & Hrun & Hne & Hem & Hlast).
      * lia.
      * lia.
      * cbn [snd_nxt snd_una with_snd_nxt]. rewrite seqdiff_advance; lia.
      * cbn [snd_nxt snd_una with_snd_nxt] in Hrun, Hlast.
        rewrite seqdiff_advance in Hrun by lia.
        rewrite uint32_add_l in Hlast.
        replace (snd_nxt c + seglen + (left - seglen)) with (snd_nxt c + left) in Hlast by lia.
        rewrite andb_false_r. cbn [andb].
        rewrite Hrun. cbn [bind].
        eexists. split; [|split; [|split]].
        -- f_equal. f_equal.
           unfold with_snd_nxt. cbn. f_equal. rewrite uint32_add_l. f_equal. lia.
        -- discriminate.
        -- cbn [emitted]. exists seglen. split; [exact Hseg|]. split.
           ++ destruct evs as [|? ?]; [congruence|].
              rewrite andb_false_r. cbn [andb]. reflexivity.
           ++ apply emitted_with_snd_nxt in Hem. cbn [snd_nxt with_snd_nxt] in Hem.
              rewrite uint32_add_l in Hem.
              replace (snd_nxt c + seglen + (left - seglen)) with (snd_nxt c + left) in Hem by lia.
              exact Hem.
        -- intros Hfin Hl.
           destruct (Hlast Hfin ltac:(lia)) as (evs0 & s & sl & H1 & H2 & H3).
           eexists (_ :: evs0), s, sl. split; [exact H1|]. split; [exact H2|].
           rewrite H3. reflexivity.
Qed.

Lemma with_snd_nxt_same (c : utcp_connection) : with_snd_nxt (snd_nxt c) c = c.
Proof. destruct c; reflexivity. Qed.

Lemma pending_bounds (c : utcp_connection) :
  0 <= seqdiff (snd_last c) (snd_nxt c) ->
  0 <= pending c <= seqdiff (snd_last c) (snd_nxt c).
Proof.
  intros H. unfold pending.
  destruct (int32 (snd_cwnd c - seqdiff (snd_nxt c) (snd_una c)) <=? 0) eqn:E.
  - destruct (Z.ltb_spec 0 (seqdiff (snd_last c) (snd_nxt c))); lia.
  - apply Z.leb_gt in E.
    destruct (Z.ltb_spec (int32 (snd_cwnd c - seqdiff (snd_nxt c) (snd_una c)))
                         (seqdiff (snd_last c) (snd_nxt c))); lia.
Qed.

Lemma ack_unfold (u : utcp) (c : utcp_connection) (b : bool) :
  0 <= seqdiff (snd_last c) (snd_nxt c) ->
  ack u c b =
  if (pending c =? 0) && negb b then Ret (c, [])
  else ack_loop (S (Z.to_nat (pending c))) u c (pending c)
                (seqdiff (snd_nxt c) (snd_una c)) ACK.
Proof.
  intros H. unfold ack, pending.
  destruct (Z.ltb_spec (seqdiff (snd_last c) (snd_nxt c)) 0); [lia|]. reflexivity.
Qed.

Lemma buf_read_length (buf : list Z) (off n : Z) :
  0 <= n -> Z.of_nat (length (buf_read buf off n)) <= n.
Proof.
  intros H. unfold buf_read.
  pose proof (firstn_le_length (Z.to_nat n) (skipn (Z.to_nat off) buf)). lia.
Qed.

Lemma emitted_payload (u : utcp) (c : utcp_connection) (evs : list event) :
  forall nxt final,
    emitted u c nxt evs final ->
    Forall (fun ev => exists h data,
                ev = EvSend h data /\ Z.of_nat (length data) <= mtu u) evs.
Proof.
  induction evs as [|ev rest IH]; intros nxt final Hem; constructor.
  - cbn [emitted] in Hem. destruct Hem as (seglen & Hs & Hev & _).
    eexists _, _. split; [exact Hev|].
    destruct (fin_state c && match rest with [] => true | _ :: _ => false end && (0 <? seglen)) eqn:E.
    + rewrite !andb_true_iff in E. destruct E as [_ E]. apply Z.ltb_lt in E.
      pose proof (buf_read_length (sndbuf c) (seqdiff nxt (snd_una c)) (seglen - 1)). lia.
    + pose proof (buf_read_length (sndbuf c) (seqdiff nxt (snd_una c)) seglen). lia.
  - cbn [emitted] in Hem. destruct Hem as (seglen & _ & _ & Hrest). eapply IH, Hrest.
Qed.

(** C3.  What [ack] does under the conditions the code relies on (a
    positive MTU, the assertion [left >= 0], and a span from [snd.una] to
    [snd.last] of less than 2^31).  It returns, and the segments it hands to
    [send] form a run ([emitted]) that starts at [snd.nxt]: each has [seq]
    equal to [snd.nxt] as it stands when the segment is built,
    [ack = rcv.nxt], [wnd = snd.wnd], the ACK flag, a payload read from the
    send buffer at offset [seqdiff (seq, snd.una)] and of at most [mtu]
    bytes, and [snd.nxt] advances over each segment; no other field changes;
    with nothing to send and [sendatleastone] false nothing is emitted and
    the connection is unchanged.  In FIN_WAIT_1 or CLOSING the FIN flag goes
    on the segment that ends a non-empty run, with a payload one byte
    shorter than the sequence numbers it covers - whether the run ends at
    [snd.last] or was cut short by the congestion window. *)
Theorem C3_ack_segments (u : utcp) (c : utcp_connection) (sendatleastone : bool) :
  0 < mtu u ->
  0 <= seqdiff (snd_last c) (snd_nxt c) ->
  seqdiff (snd_nxt c) (snd_una c) + seqdiff (snd_last c) (snd_nxt c) < 2 ^ 31 ->
  exists c' evs,
    ack u c sendatleastone = Ret (c', evs) /\
    emitted u c (snd_nxt c) evs (snd_nxt c') /\
    Forall (fun ev => exists h data,
                ev = EvSend h data /\ Z.of_nat (length data) <= mtu u) evs /\
    c' = with_snd_nxt (snd_nxt c') c /\
    (pending c = 0 -> sendatleastone = false -> c' = c /\ evs = []) /\
    (pending c <> 0 \/ sendatleastone = true ->
     snd_nxt c' = uint32 (snd_nxt c + pending c) /\ evs <> []) /\
    (fin_state c = true -> 0 < pending c ->
     exists evs0 s seglen,
       0 < seglen <= mtu u /\
       uint32 (s + seglen) = snd_nxt c' /\
       evs = evs0 ++ [fin_segment c s seglen]).
Proof.
  intros Hmtu Hleft Hspan.
  pose proof (pending_bounds c Hleft) as Hp.
  pose proof (int32_range (snd_last c - snd_nxt c)) as Hr.
  fold (seqdiff (snd_last c) (snd_nxt c)) in Hr.
  rewrite ack_unfold by exact Hleft.
  destruct ((pending c =? 0) && negb sendatleastone) eqn:E.
  - rewrite andb_true_iff in E. destruct E as [E1 E2].
    apply Z.eqb_eq in E1. apply negb_true_iff in E2.
    exists c, []. split; [reflexivity|]. split; [reflexivity|].
    split; [constructor|]. split; [symmetry; apply with_snd_nxt_same|].
    split; [intros _ _; split; reflexivity|].
    split; [intros [Hx|Hx]; [lia | congruence] | intros _ Hx; lia].
  - destruct (ack_loop_run u (S (Z.to_nat (pending c))) Hmtu c (pending c))
      as (evs & Hrun & Hne & Hem & Hlast); try lia.
    rewrite Hrun. eexists _, evs. split; [reflexivity|].
    cbn [snd_nxt with_snd_nxt].
    split; [exact Hem|]. split; [eapply emitted_payload, Hem|].
    split; [reflexivity|]. split; [|split].
    + intros H0 Hb. rewrite H0, Hb in E. discriminate.
    + intros _. split; [reflexivity | exact Hne].
    + exact Hlast.
Qed.

(** Under the same conditions [ack] returns. *)
Lemma ack_returns (u : utcp) (c : utcp_connection) (sendatleastone : bool) :
  0 < mtu u ->
  0 <= seqdiff (snd_last c) (snd_nxt c) ->
  seqdiff (snd_nxt c) (snd_una c) + seqdiff (snd_last c) (snd_nxt c) < 2 ^ 31 ->
  exists c' evs, ack u c sendatleastone = Ret (c', evs).
Proof.
  intros Hmtu Hleft Hspan.
  pose proof (pending_bounds c Hleft) as Hp.
  pose proof (int32_range (snd_last c - snd_nxt c)) as Hr.
  fold (seqdiff (snd_last c) (snd_nxt c)) in Hr.
  rewrite ack_unfold by exact Hleft.
  destruct ((pending c =? 0) && negb sendatleastone).
  - eexists _, _. reflexivity.
  - destruct (ack_loop_run u (S (Z.to_nat (pending c))) Hmtu c (pending c))
      as (evs & Hrun & _); try lia.
    rewrite Hrun. eexists _, _. reflexivity.
Qed.

(** ** What [ack] leaves alone, whatever the state of the connection *)

Lemma ack_loop_frame (u : utcp) (fuel : nat) :
  forall c left off ctl c' evs,
    ctl = ACK \/ ctl = Z.lor ACK FIN ->
    ack_loop fuel u c left off ctl = Ret (c', evs) ->
    c' = with_snd_nxt (snd_nxt c') c /\ evs <> [] /\ Forall (ack_segment c) evs.
Proof.
  induction fuel as [|fuel IH]; intros c left off ctl c' evs Hctl Hrun.
  - discriminate.
  - cbn [ack_loop] in Hrun.
    match type of Hrun with
    | context [EvSend ?h ?d] => set (hd := h) in *; set (pl := d) in *
    end.
    assert (Hpkt : ack_segment c (EvSend hd pl)).
    { exists hd, pl. repeat split.
      unfold has_flag. subst hd. cbn [hdr_ctl].
      match goal with |- context [if ?b then _ else _] => destruct b end;
        destruct Hctl as [-> | ->]; reflexivity. }
    destruct (int32 (left - (if left >? mtu u then mtu u else left)) =? 0).
    + injection Hrun as <- <-. repeat split; [discriminate | constructor; [exact Hpkt | constructor]].
    + destruct (ack_loop fuel u _ _ _ _) as [[c'' evs'']| |] eqn:Hrec; try discriminate.
      cbn [bind] in Hrun. injection Hrun as <- <-.
      apply IH in Hrec.
      * destruct Hrec as (Hc & _ & Hall). split; [|split].
        -- rewrite Hc at 1. reflexivity.
        -- discriminate.
        -- constructor; [exact Hpkt|].
           eapply Forall_impl; [|exact Hall].
           intros ev (h & d & H1 & H2 & H3 & H4 & H5). exists h, d. auto.
      * match goal with |- context [if ?b then _ else _] => destruct b end;
          destruct Hctl as [-> | ->]; auto.
Qed.

Lemma ack_frame (u : utcp) (c : utcp_connection) (b : bool) (c' : utcp_connection)
  (evs : list event) :
  ack u c b = Ret (c', evs) ->
  c' = with_snd_nxt (snd_nxt c') c /\ Forall (ack_segment c) evs.
Proof.
  unfold ack. intros H.
  destruct (seqdiff (snd_last c) (snd_nxt c) <? 0); [discriminate|].
  match type of H with
  | (if ?t then _ else _) = _ => destruct t
  end.
  - injection H as <- <-. split; [symmetry; apply with_snd_nxt_same | constructor].
  - apply ack_loop_frame in H; [|left; reflexivity].
    destruct H as (H1 & _ & H2). split; assumption.
Qed.

(** ** utcp_send *)

(** C10.  On a connection that is not reapable and is ESTABLISHED or
    CLOSE_WAIT, [utcp_send (c, data, 0)] returns 0, assigns nothing to
    [errno], leaves the connection as it is and emits nothing, whether [data]
    is a buffer or NULL. *)
Theorem C10_send_zero_length (e : environ) (u : utcp) (c : utcp_connection)
  (data : option (list Z)) :
  reapable c = false ->
  state c = ESTABLISHED \/ state c = CLOSE_WAIT ->
  utcp_send e u c data 0
  = Ret {| r_val := 0; r_errno := None; r_state := c; r_trace := [] |}.
Proof.
  intros Hr Hs. unfold utcp_send. rewrite Hr.
  destruct Hs as [-> | ->]; reflexivity.
Qed.

(** C6.  The full-buffer path of [utcp_send]: a connection that accepts
    writes, whose buffer has no room left and cannot grow, takes zero bytes
    of a non-empty write and returns 0 - and [errno] is not assigned
    (the statement on that path compares [errno] with [EWOULDBLOCK]). *)
Theorem C6_full_buffer_sets_no_errno (e : environ) (u : utcp) (c : utcp_connection)
  (bytes : list Z) (len : Z) :
  reapable c = false ->
  state c = ESTABLISHED \/ state c = CLOSE_WAIT ->
  0 < len ->
  uint32 (sndbufsize c - uint32 (seqdiff (snd_nxt c) (snd_una c))) = 0 ->
  maxsndbufsize c <= sndbufsize c \/ realloc_ok e = false ->
  utcp_send e u c (Some bytes) len
  = Ret {| r_val := 0; r_errno := None; r_state := c; r_trace := [] |}.
Proof.
  intros Hr Hs Hlen Hfull Hgrow. unfold utcp_send. rewrite Hr.
  assert (Hgt : (len >? 0) = true) by (destruct (Z.gtb_spec len 0); [reflexivity | lia]).
  destruct Hs as [Hs | Hs]; rewrite Hs; cbv zeta;
    (destruct (Z.eqb_spec len 0); [lia|]);
    rewrite Hfull, Hgt; cbn [andb];
    (destruct Hgrow as [Hmax | Hre];
     [ destruct (Z.ltb_spec (sndbufsize c) (maxsndbufsize c)); [lia|]
     | rewrite Hre; destruct (sndbufsize c <? maxsndbufsize c) ]);
    rewrite Hfull, Hgt; reflexivity.
Qed.

(** ** utcp_shutdown *)




(** ** utcp_recv: segments that are not acceptable *)

(** [ack] called with [sendatleastone] set hands at least one segment to
    [send]. *)
Lemma ack_sends (u : utcp) (c c' : utcp_connection) (evs : list event) :
  ack u c true = Ret (c', evs) -> evs <> [].
Proof.
  unfold ack. intros H.
  destruct (seqdiff (snd_last c) (snd_nxt c) <? 0); [discriminate|].
  cbn [negb] in H. rewrite andb_false_r in H.
  apply ack_loop_frame in H; [|left; reflexivity]. tauto.
Qed.

(** What [ack] gives under the conditions the code relies on: the run of
    segments sent, and how far [snd.nxt] moves. *)
Lemma ack_run (u : utcp) (c : utcp_connection) (sendatleastone : bool) :
  0 < mtu u ->
  0 <= seqdiff (snd_last c) (snd_nxt c) ->
  seqdiff (snd_nxt c) (snd_una c) + seqdiff (snd_last c) (snd_nxt c) < 2 ^ 31 ->
  exists c' evs,
    ack u c sendatleastone = Ret (c', evs)
    /\ emitted u c (snd_nxt c) evs (snd_nxt c')
    /\ (sendatleastone = true \/ pending c <> 0 ->
        evs <> [] /\ snd_nxt c' = uint32 (snd_nxt c + pending c)).
Proof.
  intros Hmtu Hleft Hspan.
  pose proof (pending_bounds c Hleft) as Hp.
  pose proof (int32_range (snd_last c - snd_nxt c)) as Hr.
  fold (seqdiff (snd_last c) (snd_nxt c)) in Hr.
  rewrite ack_unfold by exact Hleft.
  destruct ((pending c =? 0) && negb sendatleastone) eqn:E.
  - rewrite andb_true_iff in E. destruct E as [E1 E2].
    apply Z.eqb_eq in E1. apply negb_true_iff in E2.
    exists c, []. split; [reflexivity|]. split; [reflexivity|].
    intros [Hx | Hx]; [congruence | lia].
  - destruct (ack_loop_run u (S (Z.to_nat (pending c))) Hmtu c (pending c))
      as (evs & Hrun & Hne & Hem & _); try lia.
    rewrite Hrun. eexists _, evs. split; [reflexivity|].
    cbn [snd_nxt with_snd_nxt].
    split; [exact Hem|]. intros _. split; [exact Hne | reflexivity].
Qed.

(** C1 (as amended).  For a segment matched to a live connection: it is
    acceptable exactly when the state is SYN_SENT or [hdr.seq = rcv.nxt]; an
    unacceptable segment with RST is dropped, with no change and no output;
    any other unacceptable segment is not processed further: the code goes
    straight to the call of [ack] at the label [ack:] and returns 0 without
    touching [errno].  Whenever that call returns, every segment emitted is
    an ACK segment of the connection carrying the current [rcv.nxt], at
    least one is emitted when the argument [sendatleastone] of [ack] is set,
    and no field of the connection other than [snd.nxt] changes.  Under the
    conditions [ack] relies on the call does return, the segments emitted
    are the run [ack] sends from [snd.nxt], and when [sendatleastone] is
    set or queued data fits the congestion window the run is not empty and
    [snd.nxt] advances over the queued data that fits.  (The jump to
    [ack:] skips the initialisation of [prevrcvnxt], so the value compared
    with [rcv.nxt] for [sendatleastone] is the indeterminate
    [uninit_u32 e].) *)
Theorem C1_unacceptable_segment (e : environ) (u : utcp) (c : utcp_connection)
  (h : hdr) (data : list Z) (len : Z) :
  state c <> CLOSED -> state c <> LISTEN ->
  (acceptable c h = true <-> state c = SYN_SENT \/ hdr_seq h = rcv_nxt c)
  /\ (acceptable c h = false -> has_flag RST h = true ->
      utcp_recv_conn e u c h data len
      = Ret {| r_val := 0; r_errno := None; r_state := Some c; r_trace := [] |})
  /\ (acceptable c h = false -> has_flag RST h = false ->
      utcp_recv_conn e u c h data len
      = ('(c', out) <- ack u c (negb (uninit_u32 e =? rcv_nxt c)) ;;
         done 0 None (Some c') out))
  /\ (acceptable c h = false -> has_flag RST h = false ->
      forall r, utcp_recv_conn e u c h data len = Ret r ->
        r_val r = 0 /\ r_errno r = None
        /\ Forall (ack_segment c) (r_trace r)
        /\ (uninit_u32 e <> rcv_nxt c -> r_trace r <> [])
        /\ exists c', r_state r = Some c' /\ c' = with_snd_nxt (snd_nxt c') c)
  /\ (acceptable c h = false -> has_flag RST h = false ->
      0 < mtu u -> 0 <= seqdiff (snd_last c) (snd_nxt c) ->
      seqdiff (snd_nxt c) (snd_una c) + seqdiff (snd_last c) (snd_nxt c) < 2 ^ 31 ->
      exists r c',
        utcp_recv_conn e u c h data len = Ret r
        /\ r_val r = 0 /\ r_errno r = None
        /\ r_state r = Some c' /\ c' = with_snd_nxt (snd_nxt c') c
        /\ Forall (ack_segment c) (r_trace r)
        /\ emitted u c (snd_nxt c) (r_trace r) (snd_nxt c')
        /\ (uninit_u32 e <> rcv_nxt c \/ pending c <> 0 ->
            r_trace r <> []
            /\ snd_nxt c' = uint32 (snd_nxt c + pending c))).
Proof.
  intros Hc Hl.
  assert (Hgo : acceptable c h = false -> has_flag RST h = false ->
                utcp_recv_conn e u c h data len
                = goto_ack u c (uninit_u32 e) None []).
  { intros Ha Hrst. unfold utcp_recv_conn. rewrite Ha, Hrst.
    destruct (state c); try congruence; reflexivity. }
  split; [|split; [|split; [|split]]].
  - unfold acceptable. destruct (state_eqb (state c) SYN_SENT) eqn:E.
    + apply state_eqb_eq in E. tauto.
    + assert (state c <> SYN_SENT).
      { intros H. apply state_eqb_eq in H. congruence. }
      rewrite Z.eqb_eq. tauto.
  - intros Ha Hrst. unfold utcp_recv_conn. rewrite Ha, Hrst.
    destruct (state c); try congruence; reflexivity.
  - intros Ha Hrst. rewrite (Hgo Ha Hrst). reflexivity.
  - intros Ha Hrst r Hrun. rewrite (Hgo Ha Hrst) in Hrun.
    unfold goto_ack in Hrun.
    destruct (ack u c _) as [[c' evs]| |] eqn:Hack; try discriminate.
    cbn in Hrun. injection Hrun as <-. cbn.
    split; [reflexivity|]. split; [reflexivity|].
    split; [apply (ack_frame _ _ _ _ _ Hack)|].
    split.
    + intros Hne. apply Z.eqb_neq in Hne. rewrite Hne in Hack.
      apply (ack_sends _ _ _ _ Hack).
    + exists c'. split; [reflexivity | apply (ack_frame _ _ _ _ _ Hack)].
  - intros Ha Hrst Hmtu Hleft Hspan.
    destruct (ack_run u c (negb (uninit_u32 e =? rcv_nxt c)) Hmtu Hleft Hspan)
      as (c' & evs & Hack & Hem & Hsent).
    rewrite (Hgo Ha Hrst). unfold goto_ack. rewrite Hack. cbn.
    eexists. exists c'. split; [reflexivity|]. cbn.
    split; [reflexivity|]. split; [reflexivity|]. split; [reflexivity|].
    split; [apply (ack_frame _ _ _ _ _ Hack)|].
    split; [apply (ack_frame _ _ _ _ _ Hack)|].
    split; [exact Hem|].
    intros [Hne | Hp]; apply Hsent.
    + left. apply Z.eqb_neq in Hne. rewrite Hne. reflexivity.
    + right. exact Hp.
Qed.

(** ** utcp_recv: advancing snd.una *)

Lemma seqdiff_range (a b : Z) : - 2 ^ 31 <= seqdiff a b < 2 ^ 31.
Proof. apply int32_range. Qed.

Lemma advanced_pos (a b : Z) :
  0 < seqdiff a b ->
  (uint32 (seqdiff a b) =? 0) = false /\ int32 (uint32 (seqdiff a b)) = seqdiff a b.
Proof.
  intros H. pose proof (seqdiff_range a b) as Hr. split.
  - apply Z.eqb_neq. unfold uint32. rewrite Z.mod_small; lia.
  - rewrite int32_uint32. apply int32_small. lia.
Qed.

(** Reduction of the projections of a connection through field assignments. *)
Ltac fields :=
  cbn [priv reapable nodelay keepalive src dst state snd_una snd_nxt snd_wnd snd_iss
       snd_last snd_cwnd rcv_nxt rcv_wnd rcv_irs dupack recv poll conn_timeout
       rtrx_timeout sndbuf sndbufsize maxsndbufsize
       with_priv with_reapable with_nodelay with_keepalive with_state with_snd_una
       with_snd_nxt with_snd_wnd with_snd_last with_snd_cwnd with_rcv_nxt with_rcv_irs
       with_dupack with_recv with_poll with_conn_timeout with_rtrx_timeout with_sndbuf
       with_sndbufsize with_maxsndbufsize].

Ltac destruct_conn c :=
  destruct c as [c_priv c_reap c_nodelay c_keep c_src c_dst c_state c_una c_nxt c_wnd
                 c_iss c_last c_cwnd c_rnxt c_rwnd c_irs c_dup c_recv c_poll c_ct c_rt
                 c_buf c_size c_max].

Lemma set_state_other (c : utcp_connection) (s : enum_state) :
  s <> ESTABLISHED -> set_state c s = with_state s c.
Proof.
  intros H. unfold set_state.
  destruct (state_eqb s ESTABLISHED) eqn:E; [apply state_eqb_eq in E; contradiction|].
  reflexivity.
Qed.

Lemma set_state_established (c : utcp_connection) :
  set_state c ESTABLISHED = with_conn_timeout timerclear (with_state ESTABLISHED c).
Proof. reflexivity. Qed.

Lemma min_as_test (x m : Z) : Z.min x m = if x >? m then m else x.
Proof. destruct (Z.gtb_spec x m); lia. Qed.

(** The first switch of stage 3. *)
Lemma data_acked_switch (c : utcp_connection) (h : hdr) :
  0 < seqdiff (hdr_ack h) (snd_una c) ->
  match state c with
  | SYN_SENT | SYN_RECEIVED =>
      if int32 (uint32 (seqdiff (hdr_ack h) (snd_una c))) =? - 2 ^ 31 then Aborted
      else Ret (int32 (uint32 (seqdiff (hdr_ack h) (snd_una c))) - 1)
  | _ => Ret (int32 (uint32 (seqdiff (hdr_ack h) (snd_una c))))
  end = Ret (data_acked c h) /\ 0 <= data_acked c h.
Proof.
  intros H. destruct (advanced_pos _ _ H) as [_ Hi]. rewrite Hi. unfold data_acked.
  destruct (Z.eqb_spec (seqdiff (hdr_ack h) (snd_una c)) (- 2 ^ 31)); [lia|].
  destruct (state c); split; (reflexivity || lia).
Qed.

(** Conditional assignments as assignments of conditional values. *)

Lemma with_sndbuf_if (b : bool) (x : list Z) (c : utcp_connection) :
  (if b then with_sndbuf x c else c) = with_sndbuf (if b then x else sndbuf c) c.
Proof. destruct b; [reflexivity | destruct c; reflexivity]. Qed.

Lemma with_rtrx_timeout_if (b : bool) (t : timeval) (c : utcp_connection) :
  (if b then with_rtrx_timeout t c else c)
  = with_rtrx_timeout (if b then t else rtrx_timeout c) c.
Proof. destruct b; [reflexivity | destruct c; reflexivity]. Qed.

Lemma with_snd_cwnd_clamp (x m : Z) (c : utcp_connection) :
  (if x >? m then with_snd_cwnd m (with_snd_cwnd x c) else with_snd_cwnd x c)
  = with_snd_cwnd (Z.min x m) c.
Proof. rewrite min_as_test. destruct (x >? m); reflexivity. Qed.

(** The second switch of stage 3 followed by the first assignment of stage 4. *)
Lemma fin_acked_switch (t : timeval) (b : bool) (c : utcp_connection) :
  with_conn_timeout timerclear
    match state c with
    | FIN_WAIT_1 => if b then set_state c FIN_WAIT_2 else c
    | CLOSING => if b then set_state (with_conn_timeout t c) TIME_WAIT else c
    | _ => c
    end
  = with_conn_timeout timerclear
      (with_state
         match state c with
         | FIN_WAIT_1 => if b then FIN_WAIT_2 else FIN_WAIT_1
         | CLOSING => if b then TIME_WAIT else CLOSING
         | s => s
         end c).
Proof. destruct_conn c. cbn [state]. destruct c_state, b; reflexivity. Qed.

(** Stages 3 and 4 for an acknowledgement that advances: the code computes
    [advanced_connection]. *)
Lemma recv_advance_advanced (e : environ) (u : utcp) (c : utcp_connection) (h : hdr)
  (len : Z) :
  0 < seqdiff (hdr_ack h) (snd_una c) ->
  data_acked c h <= seqdiff (snd_last c) (snd_una c) ->
  recv_advance e u c h len = Ret (advanced_connection u c h).
Proof.
  intros Hadv Hacked.
  destruct (advanced_pos _ _ Hadv) as [Hnz _].
  destruct (data_acked_switch c h Hadv) as [Hsw Hd0].
  unfold recv_advance. rewrite Hnz. cbn [negb]. rewrite Hsw. cbn [bind].
  destruct (Z.ltb_spec (data_acked c h) 0); [lia|].
  destruct (Z.gtb_spec (data_acked c h) (seqdiff (snd_last c) (snd_una c))); [lia|].
  cbv zeta. f_equal. unfold advanced_connection, acked_state.
  generalize (data_acked c h) as d. intros d. clear.
  rewrite fin_acked_switch, with_rtrx_timeout_if, with_snd_cwnd_clamp, with_sndbuf_if.
  fields. reflexivity.
Qed.

(** Stages 3 and 4, read backwards: when they return, either the
    acknowledgement advanced and the result is [advanced_connection], or it
    did not and at most [dupack] was counted up. *)
Lemma recv_advance_inv (e : environ) (u : utcp) (c : utcp_connection) (h : hdr) (len : Z)
  (c' : utcp_connection) :
  recv_advance e u c h len = Ret c' ->
  (0 < seqdiff (hdr_ack h) (snd_una c)
   /\ data_acked c h <= seqdiff (snd_last c) (snd_una c)
   /\ c' = advanced_connection u c h)
  \/ (uint32 (seqdiff (hdr_ack h) (snd_una c)) = 0
      /\ c' = if len =? 0 then with_dupack (dupack c + 1) c else c).
Proof.
  intros H.
  destruct (Z.eqb_spec (uint32 (seqdiff (hdr_ack h) (snd_una c))) 0) as [Hz|Hnz].
  - right. split; [exact Hz|].
    unfold recv_advance in H. rewrite Hz in H. cbn [Z.eqb negb] in H. congruence.
  - left.
    pose proof (seqdiff_range (hdr_ack h) (snd_una c)) as Hr.
    assert (Hpos : 0 < seqdiff (hdr_ack h) (snd_una c)).
    { destruct (Z.ltb_spec 0 (seqdiff (hdr_ack h) (snd_una c))) as [|Hle]; [assumption|].
      exfalso.
      assert (Hneg : seqdiff (hdr_ack h) (snd_una c) < 0).
      { destruct (Z.eq_dec (seqdiff (hdr_ack h) (snd_una c)) 0) as [E|E]; [|lia].
        rewrite E in Hnz. contradiction Hnz. reflexivity. }
      assert (Hsw : forall d,
                 match state c with
                 | SYN_SENT | SYN_RECEIVED =>
                     if int32 (uint32 (seqdiff (hdr_ack h) (snd_una c))) =? - 2 ^ 31
                     then Aborted
                     else Ret (int32 (uint32 (seqdiff (hdr_ack h) (snd_una c))) - 1)
                 | _ => Ret (int32 (uint32 (seqdiff (hdr_ack h) (snd_una c))))
                 end = Ret d -> d < 0).
      { intros d. rewrite int32_uint32, (int32_small (seqdiff _ _)) by exact Hr.
        destruct (state c);
          try (destruct (Z.eqb_spec (seqdiff (hdr_ack h) (snd_una c)) (- 2 ^ 31));
               [discriminate|]);
          intros [= <-]; lia. }
      unfold recv_advance in H.
      destruct (Z.eqb_spec (uint32 (seqdiff (hdr_ack h) (snd_una c))) 0); [contradiction|].
      cbn [negb] in H.
      destruct (match state c with SYN_SENT | SYN_RECEIVED => _ | _ => _ end)
        as [d| |]; try discriminate.
      specialize (Hsw d eq_refl). cbn [bind] in H.
      destruct (Z.ltb_spec d 0); [discriminate | lia]. }
    split; [exact Hpos|].
    assert (Hle : data_acked c h <= seqdiff (snd_last c) (snd_una c)).
    { destruct (data_acked_switch c h Hpos) as [Hsw Hd0].
      destruct (advanced_pos _ _ Hpos) as [Hnz' _].
      unfold recv_advance in H. rewrite Hnz' in H. cbn [negb] in H.
      rewrite Hsw in H. cbn [bind] in H.
      destruct (data_acked c h <? 0); [discriminate|].
      destruct (Z.gtb_spec (data_acked c h) (seqdiff (snd_last c) (snd_una c)));
        [discriminate | assumption]. }
    split; [exact Hle|].
    rewrite (recv_advance_advanced e u c h len Hpos Hle) in H. congruence.
Qed.

(** C2 (the timer of TIME_WAIT).  In CLOSING, an acknowledgement that
    reaches [snd.last] moves the connection to TIME_WAIT, and stages 3 and 4
    leave it there with [conn_timeout] cleared: the deadline stage 3 arms
    ([now] + 60 s) is overwritten by stage 4 in the same call. *)
Theorem C2_time_wait_timer_cleared (e : environ) (u : utcp) (c : utcp_connection)
  (h : hdr) (len : Z) :
  state c = CLOSING ->
  hdr_ack h = snd_last c ->
  0 < seqdiff (snd_last c) (snd_una c) ->
  exists c',
    recv_advance e u c h len = Ret c'
    /\ snd_una c' = snd_last c
    /\ state c' = TIME_WAIT
    /\ conn_timeout c' = timerclear
    /\ timerisset (conn_timeout c') = false
    /\ (0 <= tv_sec (now e) -> conn_timeout c' <> add_sec (now e) 60).
Proof.
  intros Hs Hack Hpos.
  assert (Hd : data_acked c h = seqdiff (snd_last c) (snd_una c)).
  { unfold data_acked. rewrite Hs, Hack. reflexivity. }
  exists (advanced_connection u c h). split.
  - apply recv_advance_advanced; [rewrite Hack; exact Hpos | lia].
  - unfold advanced_connection, acked_state. fields. rewrite Hs, Hack, Z.eqb_refl.
    repeat split. intros Hnow Heq. apply (f_equal tv_sec) in Heq. cbn in Heq. lia.
Qed.

(** ** ESTABLISHED connections have no user timeout pending *)

Ltac nut :=
  unfold no_user_timeout in *;
  rewrite ?set_state_established; rewrite ?set_state_other by discriminate;
  fields; intros; try discriminate; try reflexivity; auto.

Lemma set_state_nut (c : utcp_connection) (s : enum_state) :
  no_user_timeout (set_state c s).
Proof. destruct s; nut. Qed.

Lemma ack_nut (u : utcp) (c c' : utcp_connection) (b : bool) (evs : list event) :
  ack u c b = Ret (c', evs) -> no_user_timeout c -> no_user_timeout c'.
Proof.
  intros H Hc. apply ack_frame in H. destruct H as [-> _]. nut.
Qed.

Lemma goto_ack_nut (u : utcp) (c : utcp_connection) (p : Z) (err : option errno_t)
  (evs : list event) :
  no_user_timeout c -> post no_user_timeout (goto_ack u c p err evs).
Proof.
  intros Hc. unfold goto_ack.
  destruct (ack u c _) as [[c' out]| |] eqn:Hack; cbn; auto.
  eapply ack_nut; eassumption.
Qed.

Lemma goto_reset_nut (c : utcp_connection) (h : hdr) (len : Z) (err : option errno_t)
  (evs : list event) :
  no_user_timeout c -> post no_user_timeout (goto_reset c h len err evs).
Proof. intros Hc. exact Hc. Qed.

Lemma recv_fin_nut (e : environ) (u : utcp) (c : utcp_connection) (h : hdr) (len p : Z)
  (err : option errno_t) (evs : list event) :
  no_user_timeout c -> post no_user_timeout (recv_fin e u c h len p err evs).
Proof.
  intros Hc. unfold recv_fin.
  destruct (has_flag FIN h); [|apply goto_ack_nut; exact Hc].
  destruct (state c); try exact I; try (apply goto_reset_nut; exact Hc);
    fields; match goal with |- context [match ?r with Some _ => _ | None => _ end] =>
      destruct r end; apply goto_ack_nut; nut.
Qed.

Lemma recv_data_nut (e : environ) (u : utcp) (c : utcp_connection) (h : hdr)
  (data : list Z) (len p : Z) (err : option errno_t) (evs : list event) :
  no_user_timeout c -> post no_user_timeout (recv_data e u c h data len p err evs).
Proof.
  intros Hc. unfold recv_data.
  destruct (len =? 0); [apply recv_fin_nut; exact Hc|].
  destruct (state c) eqn:Hs; try exact I; try (apply goto_reset_nut; exact Hc);
    (destruct (recv c) as [f|]; [destruct (usize (f data) =? len); [|exact I]|]);
    apply recv_fin_nut; nut.
Qed.

Lemma utcp_accept_nut (c : utcp_connection) (r : option utcp_recv_t) (p : Z) :
  no_user_timeout c -> no_user_timeout (utcp_accept c r p).
Proof.
  intros Hc. unfold utcp_accept.
  destruct (reapable c || negb (state_eqb (state c) SYN_RECEIVED)); [exact Hc|].
  apply set_state_nut.
Qed.

Lemma recv_handshake_nut (e : environ) (u : utcp) (c : utcp_connection) (h : hdr)
  (data : list Z) (len adv p : Z) (err : option errno_t) (evs : list event) :
  no_user_timeout c ->
  post no_user_timeout (recv_handshake e u c h data len adv p err evs).
Proof.
  intros Hc. unfold recv_handshake.
  destruct (state_eqb (state c) SYN_RECEIVED); [|apply recv_data_nut; exact Hc].
  destruct (adv =? 0); [apply goto_reset_nut; exact Hc|].
  assert (Hk : forall c1 evs1, no_user_timeout c1 ->
             post no_user_timeout
               (if negb (state_eqb (state c1) ESTABLISHED)
                then goto_reset (with_reapable true (set_state c1 CLOSED)) h len err evs1
                else recv_data e u c1 h data len p err evs1)).
  { intros c1 evs1 H1. destruct (negb (state_eqb (state c1) ESTABLISHED)).
    - apply goto_reset_nut. nut.
    - apply recv_data_nut. exact H1. }
  destruct (accept u) as [f|]; [|apply Hk; exact Hc].
  destruct (f (src c) (dst c)) as [[r pr]|]; apply Hk;
    [apply utcp_accept_nut|]; exact Hc.
Qed.

Lemma recv_syn_nut (e : environ) (u : utcp) (c : utcp_connection) (h : hdr)
  (data : list Z) (len adv p : Z) (err : option errno_t) (evs : list event) :
  no_user_timeout c ->
  post no_user_timeout (recv_syn e u c h data len adv p err evs).
Proof.
  intros Hc. unfold recv_syn.
  destruct (has_flag SYN h); [|apply recv_handshake_nut; exact Hc].
  destruct (state c); try exact I; try (apply goto_reset_nut; exact Hc).
  destruct (adv =? 0); [apply goto_reset_nut; exact Hc|].
  apply recv_handshake_nut. nut.
Qed.

Lemma recv_advance_nut (e : environ) (u : utcp) (c c' : utcp_connection) (h : hdr)
  (len : Z) :
  recv_advance e u c h len = Ret c' -> no_user_timeout c -> no_user_timeout c'.
Proof.
  intros H Hc. apply recv_advance_inv in H.
  destruct H as [(_ & _ & ->) | (_ & ->)].
  - unfold advanced_connection. nut.
  - destruct (len =? 0); nut.
Qed.

Lemma recv_rst_nut (c : utcp_connection) (h : hdr) :
  no_user_timeout c -> post no_user_timeout (recv_rst c h).
Proof.
  intros Hc. unfold recv_rst.
  destruct (state c); try exact I; cbv zeta;
    repeat match goal with
      | |- context [if ?b then _ else _] => destruct b
      | |- context [match recv ?x with Some _ => _ | None => _ end] => destruct (recv x)
      end; cbn [post done r_state]; auto; nut.
Qed.

(** Whatever a segment does to the connection it matched, an ESTABLISHED
    connection is left without a user timeout. *)
Lemma utcp_recv_conn_nut (e : environ) (u : utcp) (c : utcp_connection) (h : hdr)
  (data : list Z) (len : Z) :
  no_user_timeout c -> post no_user_timeout (utcp_recv_conn e u c h data len).
Proof.
  intros Hc. unfold utcp_recv_conn.
  assert (Hbody :
    post no_user_timeout
      (if negb (acceptable c h) then
         if has_flag RST h then done 0 None (Some c) []
         else goto_ack u c (uninit_u32 e) None []
       else
         let c0 := with_snd_wnd (hdr_wnd h) c in
         if invalid_ack c0 h then
           if has_flag RST h then done 0 None (Some c0) []
           else goto_reset c0 h len None []
         else if has_flag RST h then recv_rst c0 h
         else
           let advanced := uint32 (seqdiff (hdr_ack h) (snd_una c0)) in
           let prevrcvnxt := rcv_nxt c0 in
           c1 <- recv_advance e u c0 h len ;;
           recv_syn e u c1 h data len advanced prevrcvnxt None [])).
  { destruct (negb (acceptable c h)).
    - destruct (has_flag RST h); [exact Hc | apply goto_ack_nut; exact Hc].
    - cbv zeta.
      assert (H0 : no_user_timeout (with_snd_wnd (hdr_wnd h) c)) by nut.
      destruct (invalid_ack _ h).
      + destruct (has_flag RST h); [exact H0 | apply goto_reset_nut; exact H0].
      + destruct (has_flag RST h); [apply recv_rst_nut; exact H0|].
        destruct (recv_advance e u _ h len) as [c1| |] eqn:Hadv; try exact I.
        cbn [bind]. apply recv_syn_nut.
        eapply recv_advance_nut; eassumption. }
  destruct (state c); try exact Hbody; try exact I. exact Hc.
Qed.

(** ** The connection table *)

Section Table.

Variable P : utcp_connection -> Prop.

Lemma Forall_update_conn (c : utcp_connection) (l : list utcp_connection) :
  P c -> Forall P l -> Forall P (update_conn c l).
Proof.
  intros Hc Hl. induction Hl as [|x r Hx Hr IH]; cbn [update_conn].
  - constructor.
  - destruct (same_key (src c) (dst c) x); constructor; assumption.
Qed.

Lemma Forall_remove_conn (c : utcp_connection) (l : list utcp_connection) :
  Forall P l -> Forall P (remove_conn c l).
Proof.
  intros Hl. induction Hl as [|x r Hx Hr IH]; cbn [remove_conn].
  - constructor.
  - destruct (same_key (src c) (dst c) x); [assumption | constructor; assumption].
Qed.

Lemma Forall_insert_conn (c : utcp_connection) (l : list utcp_connection) :
  P c -> Forall P l -> Forall P (insert_conn c l).
Proof.
  intros Hc Hl. induction Hl as [|x r Hx Hr IH]; cbn [insert_conn].
  - constructor; [assumption | constructor].
  - destruct (conn_lt c x); repeat (constructor; try assumption).
Qed.

Lemma Forall_store (u : utcp) (c : utcp_connection) (c' : option utcp_connection) :
  Forall P (connections u) ->
  match c' with Some c' => P c' | None => True end ->
  Forall P (connections (store u c c')).
Proof.
  intros Hu Hc. destruct c' as [c'|]; cbn.
  - apply Forall_update_conn; assumption.
  - apply Forall_remove_conn; assumption.
Qed.

End Table.

Lemma find_connection_In (u : utcp) (s d : Z) (c : utcp_connection) :
  find_connection u s d = Ret (Some c) -> In c (connections u).
Proof.
  unfold find_connection. destruct (nconnections u =? 0); [discriminate|].
  destruct (s =? 0); [discriminate|].
  intros [= H]. apply find_some in H. tauto.
Qed.

Section Invariant.

Variable DEFAULT_SNDBUFSIZE : Z.
Variable DEFAULT_MAXSNDBUFSIZE : Z.

Local Abbreviation allocate_connection :=
  (allocate_connection DEFAULT_SNDBUFSIZE DEFAULT_MAXSNDBUFSIZE).
Local Abbreviation utcp_connect := (utcp_connect DEFAULT_SNDBUFSIZE DEFAULT_MAXSNDBUFSIZE).
Local Abbreviation utcp_recv := (utcp_recv DEFAULT_SNDBUFSIZE DEFAULT_MAXSNDBUFSIZE).
Local Abbreviation step := (step DEFAULT_SNDBUFSIZE DEFAULT_MAXSNDBUFSIZE).
Local Abbreviation reachable := (reachable DEFAULT_SNDBUFSIZE DEFAULT_MAXSNDBUFSIZE).

Lemma allocate_connection_ok (e : environ) (u : utcp) (s d : Z)
  (c : option utcp_connection) (err : option errno_t) (u' : utcp) :
  allocate_connection e u s d = Ret (c, err, u') ->
  table_ok u ->
  table_ok u' /\ match c with Some c => state c = CLOSED | None => True end.
Proof.
  unfold allocate_connection. intros H Hu.
  match type of H with bind ?m _ = _ => destruct m as [[er|s']| |] end;
    try discriminate; cbn [bind] in H; injection H as <- <- <-.
  - split; [exact Hu | exact I].
  - split; [|reflexivity].
    unfold table_ok. cbn [connections with_connections].
    apply Forall_insert_conn.
    + intros Hs. discriminate Hs.
    + destruct (nconnections u >=? nallocated u); exact Hu.
Qed.

Lemma utcp_connect_ok (e : environ) (u : utcp) (d : Z) (r : option utcp_recv_t) (p : Z)
  (c : option utcp_connection) (err : option errno_t) (u' : utcp) (evs : list event) :
  utcp_connect e u d r p = Ret (c, err, u', evs) -> table_ok u -> table_ok u'.
Proof.
  unfold utcp_connect. intros H Hu.
  destruct (allocate_connection e u 0 d) as [[[c0 err0] u0]| |] eqn:Ha; try discriminate.
  apply allocate_connection_ok in Ha; [|exact Hu]. destruct Ha as [Hu0 _].
  cbn [bind] in H. destruct c0 as [c0|]; injection H as <- <- <- <-; [|exact Hu0].
  apply Forall_update_conn; [|exact Hu0]. nut.
Qed.

Lemma utcp_send_ok (e : environ) (u : utcp) (c : utcp_connection)
  (data : option (list Z)) (len : Z) (res : result utcp_connection) :
  utcp_send e u c data len = Ret res -> no_user_timeout c -> no_user_timeout (r_state res).
Proof.
  unfold utcp_send, done. intros H Hc.
  destruct (reapable c); [injection H as <-; exact Hc|].
  assert (Hbody : forall k : outcome (result utcp_connection),
             k = Ret res ->
             (forall res', k = Ret res' -> no_user_timeout (r_state res')) ->
             no_user_timeout (r_state res)) by auto.
  destruct (state c) eqn:Hs; try (injection H as <-; exact Hc);
    (destruct (len =? 0); [injection H as <-; exact Hc|]);
    (destruct data as [bytes|]; [|injection H as <-; exact Hc]);
    cbv zeta in H;
    match type of H with
    | (if ?l =? 0 then _ else _) = _ => destruct (l =? 0)
    end;
    try (injection H as <-; cbn [r_state];
         repeat match goal with |- context [if ?b then _ else _] => destruct b end;
         nut);
    match type of H with
    | bind (ack ?u0 ?c0 ?b0) _ = _ =>
        destruct (ack u0 c0 b0) as [[c4 evs]| |] eqn:Hack; try discriminate;
          cbn [bind] in H; injection H as <-; cbn [r_state];
          apply (ack_nut _ _ _ _ _ Hack);
          repeat match goal with |- context [if ?b then _ else _] => destruct b end;
          nut
    end.
Qed.

Lemma utcp_shutdown_ok (u : utcp) (c : utcp_connection) (dir : Z)
  (res : result utcp_connection) :
  utcp_shutdown u c dir = Ret res -> no_user_timeout c -> no_user_timeout (r_state res).
Proof.
  unfold utcp_shutdown, done. intros H Hc.
  destruct (reapable c); [injection H as <-; exact Hc|].
  destruct (state c) eqn:Hs; try (injection H as <-; cbn [r_state]; nut; fail);
    match type of H with
    | bind (ack ?u0 ?c0 ?b0) _ = _ =>
        destruct (ack u0 c0 b0) as [[c4 evs]| |] eqn:Hack; try discriminate;
          cbn [bind] in H; injection H as <-; cbn [r_state];
          apply (ack_nut _ _ _ _ _ Hack); nut
    end.
Qed.

Lemma utcp_close_ok (u : utcp) (c : utcp_connection) (res : result utcp_connection) :
  utcp_close u c = Ret res -> no_user_timeout c -> no_user_timeout (r_state res).
Proof.
  unfold utcp_close, done. intros H Hc.
  destruct (utcp_shutdown u c SHUT_RDWR) as [r| |] eqn:Hsh; try discriminate.
  apply utcp_shutdown_ok in Hsh; [|exact Hc].
  cbn [bind] in H. destruct (r_val r =? 0); injection H as <-; cbn [r_state]; nut.
Qed.

Lemma utcp_abort_ok (e : environ) (c : utcp_connection) :
  no_user_timeout c -> no_user_timeout (r_state (utcp_abort e c)).
Proof.
  intros Hc. unfold utcp_abort.
  destruct (reapable c); [exact Hc|]. fields.
  destruct (state c) eqn:Hs; cbn [r_state]; nut.
Qed.

Lemma utcp_recv_ok (e : environ) (u : utcp) (data : option (list Z)) (len : Z)
  (res : result utcp) :
  utcp_recv e u data len = Ret res -> table_ok u -> table_ok (r_state res).
Proof.
  unfold utcp_recv, done. intros H Hu.
  destruct (len =? 0); [injection H as <-; exact Hu|].
  destruct data as [bytes|]; [|injection H as <-; exact Hu].
  destruct (len <? sizeof_hdr); [injection H as <-; exact Hu|].
  cbv zeta in H.
  destruct (negb (known_flags (parse_hdr bytes))); [injection H as <-; exact Hu|].
  destruct (find_connection u _ _) as [[c|]| |] eqn:Hf; try discriminate; cbn [bind] in H.
  - destruct (utcp_recv_conn e u c (parse_hdr bytes) _ _) as [r| |] eqn:Hr;
      try discriminate.
    cbn [bind] in H. injection H as <-. cbn [r_state].
    apply Forall_store; [exact Hu|].
    apply find_connection_In in Hf.
    assert (Hc : no_user_timeout c).
    { unfold table_ok in Hu. rewrite Forall_forall in Hu. apply Hu, Hf. }
    pose proof (utcp_recv_conn_nut e u c (parse_hdr bytes)
                  (buf_read bytes sizeof_hdr (len - sizeof_hdr)) (len - sizeof_hdr) Hc)
      as Hp.
    rewrite Hr in Hp. exact Hp.
  - destruct (has_flag RST _); [injection H as <-; exact Hu|].
    destruct (_ && _); [|injection H as <-; exact Hu].
    destruct (match pre_accept u with Some f => _ | None => _ end);
      [injection H as <-; exact Hu|].
    destruct (allocate_connection e u _ _) as [[[c0 err0] u0]| |] eqn:Ha;
      try discriminate.
    apply allocate_connection_ok in Ha; [|exact Hu]. destruct Ha as [Hu0 _].
    cbn [bind] in H. destruct c0 as [c0|]; injection H as <-; [|exact Hu0].
    cbn [r_state]. apply Forall_update_conn; [|exact Hu0]. nut.
Qed.

Lemma timeout_conn_ok (e : environ) (u : utcp) (c : utcp_connection) (next : timeval)
  (c' : option utcp_connection) (next' : timeval) (err : option errno_t)
  (evs : list event) :
  timeout_conn e u c next = Ret (c', next', err, evs) ->
  no_user_timeout c ->
  match c' with Some c' => no_user_timeout c' | None => True end.
Proof.
  unfold timeout_conn. intros H Hc.
  destruct (state_eqb (state c) CLOSED).
  - injection H as <- _ _ _. destruct (reapable c); [exact I | exact Hc].
  - destruct (expired (conn_timeout c) (now e)).
    + injection H as <- _ _ _. nut.
    + match type of H with bind ?m _ = _ => destruct m as [rt| |] end; try discriminate.
      cbn [bind] in H. injection H as <- _ _ _.
      destruct (negb (snd_nxt c =? snd_una c)); nut.
Qed.

Lemma timeout_loop_ok (e : environ) (u : utcp) (l : list utcp_connection) :
  forall next l' next' err evs,
    timeout_loop e u l next = Ret (l', next', err, evs) ->
    Forall no_user_timeout l -> Forall no_user_timeout l'.
Proof.
  induction l as [|c l IH]; intros next l' next' err evs H Hl; cbn [timeout_loop] in H.
  - injection H as <- _ _ _. constructor.
  - inversion Hl as [|? ? Hc Hl']; subst.
    destruct (timeout_conn e u c next) as [[[[c1 n1] e1] ev1]| |] eqn:Hc1; try discriminate.
    cbn [bind] in H.
    destruct (timeout_loop e u l n1) as [[[[l2 n2] e2] ev2]| |] eqn:Hl2; try discriminate.
    cbn [bind] in H. injection H as <- _ _ _.
    apply timeout_conn_ok in Hc1; [|exact Hc].
    apply IH in Hl2; [|exact Hl'].
    destruct c1; [constructor|]; assumption.
Qed.

Lemma utcp_timeout_ok (e : environ) (u : utcp) (res : result utcp) :
  utcp_timeout e u = Ret res -> table_ok u -> table_ok (r_state res).
Proof.
  unfold utcp_timeout, done. intros H Hu. cbv zeta in H.
  destruct (timeout_loop e u (connections u) _) as [[[[l n] er] ev]| |] eqn:Hl;
    try discriminate.
  cbn [bind] in H. injection H as <-. cbn [r_state].
  eapply timeout_loop_ok; eassumption.
Qed.

Lemma put_conn_ok (u : utcp) (c : utcp_connection) :
  table_ok u -> no_user_timeout c -> table_ok (put_conn c u).
Proof. intros Hu Hc. apply Forall_update_conn; assumption. Qed.

Lemma table_ok_In (u : utcp) (c : utcp_connection) :
  table_ok u -> In c (connections u) -> no_user_timeout c.
Proof. unfold table_ok. rewrite Forall_forall. auto. Qed.

Lemma step_ok (u u' : utcp) : step u u' -> table_ok u -> table_ok u'.
Proof.
  intros Hstep Hu.
  destruct Hstep;
    try (match goal with Hin : In _ (connections _) |- _ =>
           pose proof (table_ok_In _ _ Hu Hin) end).
  - eapply utcp_connect_ok; eassumption.
  - apply put_conn_ok; [exact Hu | apply utcp_accept_nut; assumption].
  - apply put_conn_ok; [exact Hu | eapply utcp_send_ok; eassumption].
  - eapply utcp_recv_ok; eassumption.
  - apply put_conn_ok; [exact Hu | eapply utcp_shutdown_ok; eassumption].
  - apply put_conn_ok; [exact Hu | eapply utcp_close_ok; eassumption].
  - apply put_conn_ok; [exact Hu | apply utcp_abort_ok; assumption].
  - eapply utcp_timeout_ok; eassumption.
  - exact Hu.
  - exact Hu.
  - apply put_conn_ok; [exact Hu|].
    unfold utcp_set_sndbuf. cbv zeta.
    match goal with |- context [if ?b then _ else _] => destruct b end; nut.
  - apply put_conn_ok; [exact Hu | unfold utcp_set_nodelay; nut].
  - apply put_conn_ok; [exact Hu | unfold utcp_set_keepalive; nut].
  - apply put_conn_ok; [exact Hu | unfold utcp_set_recv_cb; nut].
  - apply put_conn_ok; [exact Hu | unfold utcp_set_poll_cb; nut].
Qed.

Lemma reachable_ok (u : utcp) : reachable u -> table_ok u.
Proof.
  induction 1 as [a p pr | u u' Hu IH Hstep].
  - constructor.
  - eapply step_ok; eassumption.
Qed.

(** C9.  [set_state (c, ESTABLISHED)] clears [conn_timeout], and so every
    connection of a reachable host that is ESTABLISHED has [conn_timeout]
    clear: no user timeout is pending on it. *)
Theorem C9_established_has_no_user_timeout (u : utcp) :
  reachable u ->
  (forall c, state (set_state c ESTABLISHED) = ESTABLISHED
             /\ conn_timeout (set_state c ESTABLISHED) = timerclear)
  /\ (forall c, In c (connections u) -> state c = ESTABLISHED ->
                conn_timeout c = timerclear /\ timerisset (conn_timeout c) = false).
Proof.
  intros Hu. split.
  - intros c. split; reflexivity.
  - intros c Hin Hs.
    pose proof (table_ok_In u c (reachable_ok u Hu) Hin Hs) as Hc.
    rewrite Hc. split; reflexivity.
Qed.

End Invariant.

(** ** Accepted segments never move snd.una or rcv.nxt backwards *)

Section Growth.

Variable cond : Prop.
Variables una r : Z.

Lemma grows_le (k k' : Z) (c : utcp_connection) :
  k <= k' -> grows cond una r k c -> grows cond una r k' c.
Proof.
  intros Hk [H1 H2]. split; [exact H1|].
  intros Hc. destruct (H2 Hc) as (j & Hj & E). exists j. split; [lia | exact E].
Qed.

Lemma grows_frame (k : Z) (c c' : utcp_connection) :
  snd_una c' = snd_una c -> rcv_nxt c' = rcv_nxt c ->
  grows cond una r k c -> grows cond una r k c'.
Proof. unfold grows. intros -> ->. auto. Qed.

Lemma grows_add (k n : Z) (c c' : utcp_connection) :
  0 <= n -> snd_una c' = snd_una c -> rcv_nxt c' = uint32 (rcv_nxt c + n) ->
  grows cond una r k c -> grows cond una r (k + n) c'.
Proof.
  unfold grows. intros Hn -> -> [H1 H2]. split; [exact H1|].
  intros Hc. destruct (H2 Hc) as (j & Hj & E). exists (j + n). split; [lia|].
  rewrite uint32_idem, <- uint32_add_l, E, uint32_add_l. f_equal. lia.
Qed.

Lemma post_le (k k' : Z) (x : recv_result) :
  k <= k' -> post (grows cond una r k) x -> post (grows cond una r k') x.
Proof.
  intros Hk. unfold post. destruct x as [res| |]; auto.
  destruct (r_state res); auto. apply grows_le, Hk.
Qed.

Lemma goto_ack_grows (k : Z) (u : utcp) (c : utcp_connection) (p : Z)
  (err : option errno_t) (evs : list event) :
  grows cond una r k c -> post (grows cond una r k) (goto_ack u c p err evs).
Proof.
  intros Hc. unfold goto_ack.
  destruct (ack u c _) as [[c' out]| |] eqn:Hack; cbn; auto.
  apply ack_frame in Hack. destruct Hack as [-> _].
  eapply grows_frame; [| |exact Hc]; reflexivity.
Qed.

Lemma recv_fin_grows (k : Z) (e : environ) (u : utcp) (c : utcp_connection) (h : hdr)
  (len p : Z) (err : option errno_t) (evs : list event) :
  grows cond una r k c -> post (grows cond una r (k + 1)) (recv_fin e u c h len p err evs).
Proof.
  intros Hc. unfold recv_fin.
  destruct (has_flag FIN h);
    [|apply post_le with k; [lia | apply goto_ack_grows; exact Hc]].
  destruct (state c); try exact I;
    try (apply (grows_le k); [lia | exact Hc]);
    fields; match goal with |- context [match ?x with Some _ => _ | None => _ end] =>
      destruct x end;
    apply goto_ack_grows;
    (eapply grows_add; [| | |exact Hc]; [lia | |];
     rewrite ?set_state_other by discriminate; reflexivity).
Qed.

Lemma recv_data_grows (k : Z) (e : environ) (u : utcp) (c : utcp_connection) (h : hdr)
  (data : list Z) (len p : Z) (err : option errno_t) (evs : list event) :
  0 <= len ->
  grows cond una r k c ->
  post (grows cond una r (k + len + 1)) (recv_data e u c h data len p err evs).
Proof.
  intros Hlen Hc. unfold recv_data.
  destruct (len =? 0).
  - apply post_le with (k + 1); [lia | apply recv_fin_grows; exact Hc].
  - destruct (state c) eqn:Hs; try exact I;
      try (apply (grows_le k); [lia | exact Hc]);
      (destruct (recv c) as [f|]; [destruct (usize (f data) =? len); [|exact I]|]);
      apply recv_fin_grows;
      (eapply grows_add; [| | |exact Hc]; [lia | |]; reflexivity).
Qed.

Lemma utcp_accept_grows (k : Z) (c : utcp_connection) (rc : option utcp_recv_t) (p : Z) :
  grows cond una r k c -> grows cond una r k (utcp_accept c rc p).
Proof.
  intros Hc. unfold utcp_accept.
  destruct (reapable c || negb (state_eqb (state c) SYN_RECEIVED)); [exact Hc|].
  eapply grows_frame; [| |exact Hc]; reflexivity.
Qed.

Lemma recv_handshake_grows (k : Z) (e : environ) (u : utcp) (c : utcp_connection)
  (h : hdr) (data : list Z) (len adv p : Z) (err : option errno_t) (evs : list event) :
  0 <= len ->
  grows cond una r k c ->
  post (grows cond una r (k + len + 1)) (recv_handshake e u c h data len adv p err evs).
Proof.
  intros Hlen Hc. unfold recv_handshake.
  destruct (state_eqb (state c) SYN_RECEIVED); [|apply recv_data_grows; assumption].
  destruct (adv =? 0); [apply (grows_le k); [lia | exact Hc]|].
  assert (Hk : forall c1 evs1, grows cond una r k c1 ->
             post (grows cond una r (k + len + 1))
               (if negb (state_eqb (state c1) ESTABLISHED)
                then goto_reset (with_reapable true (set_state c1 CLOSED)) h len err evs1
                else recv_data e u c1 h data len p err evs1)).
  { intros c1 evs1 H1. destruct (negb (state_eqb (state c1) ESTABLISHED)).
    - apply (grows_le k); [lia|]. eapply grows_frame; [| |exact H1]; reflexivity.
    - apply recv_data_grows; assumption. }
  destruct (accept u) as [f|]; [|apply Hk; exact Hc].
  destruct (f (src c) (dst c)) as [[rc pr]|]; apply Hk;
    [apply utcp_accept_grows|]; exact Hc.
Qed.

Lemma recv_syn_grows (k : Z) (e : environ) (u : utcp) (c : utcp_connection) (h : hdr)
  (data : list Z) (len adv p : Z) (err : option errno_t) (evs : list event) :
  0 <= len ->
  (cond -> state c <> SYN_SENT \/ has_flag SYN h = false) ->
  grows cond una r k c ->
  post (grows cond una r (k + len + 1)) (recv_syn e u c h data len adv p err evs).
Proof.
  intros Hlen Hcond Hc. unfold recv_syn.
  destruct (has_flag SYN h) eqn:Hsyn; [|apply recv_handshake_grows; assumption].
  destruct (state c) eqn:Hs; try exact I; try (apply (grows_le k); [lia | exact Hc]).
  destruct (adv =? 0); [apply (grows_le k); [lia | exact Hc]|].
  apply recv_handshake_grows; [exact Hlen|].
  split; [destruct Hc as [Hc _]; exact Hc|].
  intros H. destruct (Hcond H); congruence.
Qed.

Lemma recv_rst_grows (k : Z) (c : utcp_connection) (h : hdr) :
  grows cond una r k c -> post (grows cond una r k) (recv_rst c h).
Proof.
  intros Hc. unfold recv_rst.
  destruct (state c); try exact I; cbv zeta;
    repeat match goal with
      | |- context [if ?b then _ else _] => destruct b
      | |- context [match recv ?x with Some _ => _ | None => _ end] => destruct (recv x)
      end; cbn [post done r_state]; auto;
    (eapply grows_frame; [| |exact Hc]; reflexivity).
Qed.

End Growth.

Lemma post_impl (P Q : utcp_connection -> Prop) (x : recv_result) :
  (forall c, P c -> Q c) -> post P x -> post Q x.
Proof.
  intros H. unfold post. destruct x as [res| |]; auto. destruct (r_state res); auto.
Qed.

Lemma int32_of_uint32 (a b : Z) : int32 (a - b) = int32 (uint32 a - b).
Proof.
  rewrite <- (Z.add_0_r a) at 2. rewrite int32_shift. f_equal. lia.
Qed.

Lemma grows_not_before (cond : Prop) (una k : Z) (c c' : utcp_connection) :
  0 <= seqdiff una (snd_una c) -> k < 2 ^ 31 ->
  grows cond una (rcv_nxt c) k c' -> not_before cond c c'.
Proof.
  intros Huna Hk [H1 H2]. split; [rewrite H1; exact Huna|].
  intros Hc. destruct (H2 Hc) as (j & Hj & E).
  unfold seqdiff. rewrite int32_of_uint32, E, int32_shift.
  rewrite Z.sub_diag, Z.add_0_l, int32_small; lia.
Qed.

Lemma grows_start (cond : Prop) (c c0 : utcp_connection) :
  rcv_nxt c0 = rcv_nxt c ->
  grows cond (snd_una c0) (rcv_nxt c) 0 c0.
Proof.
  intros E. split; [reflexivity|]. intros _. exists 0. split; [lia|].
  rewrite E, Z.add_0_r. reflexivity.
Qed.

(** The whole of [utcp_recv_conn]. *)
Lemma utcp_recv_conn_not_before (e : environ) (u : utcp) (c : utcp_connection) (h : hdr)
  (data : list Z) (len : Z) :
  0 <= len < 2 ^ 31 - 1 ->
  post (not_before (state c <> SYN_SENT \/ has_flag SYN h = false) c)
       (utcp_recv_conn e u c h data len).
Proof.
  intros Hlen.
  set (cond := state c <> SYN_SENT \/ has_flag SYN h = false).
  assert (Hsame : forall k c0, 0 <= k < 2 ^ 31 ->
             snd_una c0 = snd_una c -> rcv_nxt c0 = rcv_nxt c ->
             forall x, post (grows cond (snd_una c0) (rcv_nxt c) k) x ->
                       post (not_before cond c) x).
  { intros k c0 Hk E1 E2 x. apply post_impl. intros c'.
    apply grows_not_before; [rewrite E1, seqdiff_refl; lia | lia]. }
  assert (Hc : post (not_before cond c) (done 0 None (Some c) [])).
  { split; [|intros _]; rewrite seqdiff_refl; lia. }
  unfold utcp_recv_conn.
  assert (Hbody :
    post (not_before cond c)
      (if negb (acceptable c h) then
         if has_flag RST h then done 0 None (Some c) []
         else goto_ack u c (uninit_u32 e) None []
       else
         let c0 := with_snd_wnd (hdr_wnd h) c in
         if invalid_ack c0 h then
           if has_flag RST h then done 0 None (Some c0) []
           else goto_reset c0 h len None []
         else if has_flag RST h then recv_rst c0 h
         else
           let advanced := uint32 (seqdiff (hdr_ack h) (snd_una c0)) in
           let prevrcvnxt := rcv_nxt c0 in
           c1 <- recv_advance e u c0 h len ;;
           recv_syn e u c1 h data len advanced prevrcvnxt None [])).
  { destruct (negb (acceptable c h)).
    - destruct (has_flag RST h); [exact Hc|].
      apply (Hsame 0 c); try reflexivity; try lia.
      apply goto_ack_grows, grows_start. reflexivity.
    - cbv zeta. set (c0 := with_snd_wnd (hdr_wnd h) c).
      assert (Hc0 : post (not_before cond c) (done 0 None (Some c0) [])).
      { split; [|intros _]; subst c0; fields; rewrite seqdiff_refl; lia. }
      destruct (invalid_ack c0 h).
      + destruct (has_flag RST h); exact Hc0.
      + destruct (has_flag RST h).
        * apply (Hsame 0 c0); try reflexivity; try lia.
          apply recv_rst_grows, grows_start. reflexivity.
        * destruct (recv_advance e u c0 h len) as [c1| |] eqn:Hadv; try exact I.
          cbn [bind].
          assert (Hc1 : rcv_nxt c1 = rcv_nxt c
                        /\ 0 <= seqdiff (snd_una c1) (snd_una c)
                        /\ (state c1 = SYN_SENT -> state c = SYN_SENT)).
          { apply recv_advance_inv in Hadv.
            destruct Hadv as [(Hp & _ & ->) | (_ & ->)].
            - split; [reflexivity|]. split.
              + change (snd_una (advanced_connection u c0 h)) with (hdr_ack h).
                change (snd_una c) with (snd_una c0). lia.
              + unfold advanced_connection, acked_state. subst c0. fields.
                destruct (state c); try discriminate; try tauto;
                  destruct (hdr_ack h =? snd_last c); discriminate.
            - destruct (len =? 0); subst c0; fields; rewrite seqdiff_refl;
                repeat split; auto; lia. }
          destruct Hc1 as (Hr1 & Hu1 & Hs1).
          eapply post_impl;
            [|apply (recv_syn_grows cond (snd_una c1) (rcv_nxt c) 0);
              [lia | | apply grows_start; exact Hr1]].
          -- intros c'. apply grows_not_before; [exact Hu1 | lia].
          -- intros [Hne | Hsyn]; [left | right; exact Hsyn].
             intros Hs. apply Hne, Hs1, Hs. }
  destruct (state c); try exact Hbody; try exact I. exact Hc.
Qed.

(** C4 (as amended).  Processing a segment never moves [snd.una] backwards,
    and never moves [rcv.nxt] backwards unless the segment is a SYN taken in
    SYN_SENT (which sets [rcv.nxt] from the peer's sequence number): when
    [utcp_recv_conn] returns and leaves the connection, the new values are
    not before the old ones in the order of [seqdiff].  The payload is
    shorter than 2^31 - 1 bytes. *)
Theorem C4_accepted_segment_monotone (e : environ) (u : utcp) (c : utcp_connection)
  (h : hdr) (data : list Z) (len : Z) (res : result (option utcp_connection))
  (c' : utcp_connection) :
  0 <= len < 2 ^ 31 - 1 ->
  acceptable c h = true ->
  utcp_recv_conn e u c h data len = Ret res ->
  r_state res = Some c' ->
  0 <= seqdiff (snd_una c') (snd_una c)
  /\ (state c <> SYN_SENT \/ has_flag SYN h = false ->
      0 <= seqdiff (rcv_nxt c') (rcv_nxt c)).
Proof.
  intros Hlen _ Hrun Hst.
  pose proof (utcp_recv_conn_not_before e u c h data len Hlen) as Hp.
  rewrite Hrun in Hp. cbn [post] in Hp. rewrite Hst in Hp. exact Hp.
Qed.

(** ** utcp_recv: datagrams that are not segments *)


(** ** utcp_timeout: the poll callback *)

Lemma retransmit_sends (e : environ) (u : utcp) (c : utcp_connection) (evs : list event) :
  retransmit e u c = Ret evs ->
  forall s d n, ~ In (EvPoll s d n) evs.
Proof.
  unfold retransmit. intros H s d n Hin.
  destruct (state_eqb (state c) CLOSED || (snd_nxt c =? snd_una c));
    [injection H as <-; exact Hin|].
  destruct (state c); try discriminate; injection H as <-;
    try exact Hin; destruct Hin as [Hin | []]; discriminate.
Qed.

Lemma timeout_conn_polls (e : environ) (u : utcp) (c : utcp_connection) (next : timeval)
  (c' : option utcp_connection) (next' : timeval) (err : option errno_t)
  (evs : list event) (s d n : Z) :
  timeout_conn e u c next = Ret (c', next', err, evs) ->
  In (EvPoll s d n) evs
  <-> polls e c /\ s = src c /\ d = dst c /\ n = utcp_get_sndbuf_free c.
Proof.
  unfold timeout_conn, polls. intros H.
  destruct (state_eqb (state c) CLOSED) eqn:Hcl.
  - apply state_eqb_eq in Hcl. injection H as _ _ _ <-. cbn [In]. tauto.
  - assert (Hncl : state c <> CLOSED).
    { intros Hs. apply state_eqb_eq in Hs. congruence. }
    destruct (expired (conn_timeout c) (now e)).
    + injection H as _ _ _ <-. split.
      * destruct (recv _); cbn [In]; intros Hin;
          [destruct Hin as [Hin | []]; discriminate | contradiction].
      * intros ((_ & Hx & _) & _). discriminate.
    + match type of H with bind ?m _ = _ => destruct m as [rt| |] eqn:Hrt end;
        try discriminate.
      cbn [bind] in H. injection H as _ _ _ <-.
      assert (Hno : ~ In (EvPoll s d n) rt).
      { destruct (expired (rtrx_timeout c) (now e)).
        - eapply retransmit_sends; eassumption.
        - injection Hrt as <-. intros []. }
      rewrite in_app_iff. unfold utcp_get_sndbuf_free.
      destruct (polled c); cbn [In].
      * split.
        -- intros [Hin | [Hin | []]]; [contradiction|].
           injection Hin as <- <- <-. tauto.
        -- intros (_ & -> & -> & ->). right. left. reflexivity.
      * split.
        -- intros [Hin | []]; contradiction.
        -- intros ((_ & _ & Hx) & _). discriminate.
Qed.

Lemma timeout_loop_polls (e : environ) (u : utcp) (l : list utcp_connection) :
  forall next l' next' err evs s d n,
    timeout_loop e u l next = Ret (l', next', err, evs) ->
    In (EvPoll s d n) evs
    <-> exists c, In c l /\ polls e c /\ s = src c /\ d = dst c
                  /\ n = utcp_get_sndbuf_free c.
Proof.
  induction l as [|c l IH]; intros next l' next' err evs s d n H;
    cbn [timeout_loop] in H.
  - injection H as _ _ _ <-. cbn [In]. split; [tauto | intros (c & [] & _)].
  - destruct (timeout_conn e u c next) as [[[[c1 n1] e1] ev1]| |] eqn:Hc1; try discriminate.
    cbn [bind] in H.
    destruct (timeout_loop e u l n1) as [[[[l2 n2] e2] ev2]| |] eqn:Hl2; try discriminate.
    cbn [bind] in H. injection H as _ _ _ <-.
    rewrite in_app_iff, (timeout_conn_polls _ _ _ _ _ _ _ _ s d n Hc1),
      (IH _ _ _ _ _ s d n Hl2).
    split.
    + intros [Hc | (c2 & Hin & Hc2)].
      * exists c. split; [left; reflexivity | exact Hc].
      * exists c2. split; [right; exact Hin | exact Hc2].
    + intros (c2 & [<- | Hin] & Hc2); [left; exact Hc2 | right; exists c2; tauto].
Qed.

Lemma polls_iff (e : environ) (c : utcp_connection) :
  polls e c
  <-> poll c = true
      /\ (state c = ESTABLISHED \/ state c = CLOSE_WAIT)
      /\ expired (conn_timeout c) (now e) = false
      /\ sndbufsize c < maxsndbufsize c / 2.
Proof.
  unfold polls, polled.
  destruct (poll c); cbn [andb];
    [|split; intros Hx; decompose [and] Hx; discriminate].
  destruct (Z.ltb_spec (sndbufsize c) (maxsndbufsize c / 2));
    destruct (state c); cbn [andb]; split; intros Hx; decompose [and or] Hx;
    try discriminate; try lia; try congruence;
    repeat split; auto; try discriminate.
Qed.

(** C8 (as amended).  In a sweep of [utcp_timeout] that returns, for a
    connection of the table with a poll callback installed (connections
    having distinct keys), the poll callback of the connection is called
    exactly when the connection is ESTABLISHED or CLOSE_WAIT, its user
    timeout has not just expired, and [sndbufsize < maxsndbufsize / 2] with
    the division of C (rounding down); its argument is then the number of
    free send-buffer bytes, [maxsndbufsize - sndbufsize], and no other.
    Every call of a poll callback in the sweep is such a call: it is made
    for a connection of the table that has a callback installed and meets
    the three conditions, with that connection's free bytes. *)
Theorem C8_poll_in_sweep (e : environ) (u : utcp) (res : result utcp)
  (c : utcp_connection) :
  utcp_timeout e u = Ret res ->
  unique_keys u ->
  In c (connections u) ->
  poll c = true ->
  (forall n,
      In (EvPoll (src c) (dst c) n) (r_trace res)
      <-> ((state c = ESTABLISHED \/ state c = CLOSE_WAIT)
           /\ expired (conn_timeout c) (now e) = false
           /\ sndbufsize c < maxsndbufsize c / 2)
          /\ n = utcp_get_sndbuf_free c)
  /\ (forall s d n,
        In (EvPoll s d n) (r_trace res) ->
        exists c', In c' (connections u) /\ s = src c' /\ d = dst c'
                   /\ poll c' = true
                   /\ (state c' = ESTABLISHED \/ state c' = CLOSE_WAIT)
                   /\ expired (conn_timeout c') (now e) = false
                   /\ sndbufsize c' < maxsndbufsize c' / 2
                   /\ n = utcp_get_sndbuf_free c').
Proof.
  intros H Huniq Hin Hpoll. unfold utcp_timeout in H. cbv zeta in H.
  destruct (timeout_loop e u (connections u) _) as [[[[l nx] er] ev]| |] eqn:Hl;
    try discriminate.
  cbn [bind done] in H. injection H as <-. cbn [r_trace].
  split.
  - intros n.
    rewrite (timeout_loop_polls _ _ _ _ _ _ _ _ _ _ _ Hl).
    split.
    + intros (c2 & Hin2 & Hc2 & Hs & Hd & Hn).
      rewrite (Huniq c c2 Hin Hin2 Hs Hd).
      apply polls_iff in Hc2. tauto.
    + intros (Hc & Hn). exists c.
      assert (Hp : polls e c) by (apply polls_iff; tauto).
      tauto.
  - intros s d n Hev.
    apply (timeout_loop_polls _ _ _ _ _ _ _ _ _ _ _ Hl) in Hev.
    destruct Hev as (c2 & Hin2 & Hc2 & Hs & Hd & Hn).
    apply polls_iff in Hc2. exists c2. tauto.
Qed.

(** ** The properties at the sample values *)

(** How [flushing] arises from [established]: the application sends 1500
    bytes, of which the congestion window lets 1000 out, and the peer
    acknowledges them in a segment that also carries SYN, which is answered
    with a reset after the acknowledgement was taken. *)
Example flushing_arises :
  exists r1 r2,
    utcp_send sample_env sample_host established (Some (repeat 65 1500)) 1500 = Ret r1
    /\ utcp_recv_conn sample_env sample_host (r_state r1)
         (from_peer 9001 1101 (Z.lor SYN ACK)) [] 0 = Ret r2
    /\ option_map (fun c => (state c, snd_una c, snd_nxt c, snd_last c, snd_cwnd c)) (r_state r2)
       = Some (state flushing, snd_una flushing, snd_nxt flushing, snd_last flushing,
               snd_cwnd flushing).
Proof.
  eexists. eexists. split; [vm_compute; reflexivity|].
  split; [vm_compute; reflexivity|]. vm_compute. reflexivity.
Qed.

(** C1, counterexample.  An unacceptable segment without RST reaches
    [flushing]: it is not acceptable, and processing it sends the 500 queued
    bytes, which moves [snd.nxt] from 1101 to 1601.  And the same segment
    reaching [established], with the uninitialised local equal to [rcv.nxt],
    is answered by no segment at all. *)
Lemma C1_counterexample :
  state flushing = ESTABLISHED
  /\ acceptable flushing (from_peer 8000 1101 ACK) = false
  /\ has_flag RST (from_peer 8000 1101 ACK) = false
  /\ (exists r c',
        utcp_recv_conn sample_env sample_host flushing (from_peer 8000 1101 ACK) [] 0 = Ret r
        /\ r_state r = Some c'
        /\ snd_nxt flushing = 1101 /\ snd_nxt c' = 1601)
  /\ acceptable established (from_peer 8000 101 ACK) = false
  /\ utcp_recv_conn sample_env sample_host established (from_peer 8000 101 ACK) [] 0
     = Ret {| r_val := 0; r_errno := None; r_state := Some established; r_trace := [] |}.
Proof.
  split; [reflexivity|]. split; [reflexivity|]. split; [reflexivity|]. split.
  - eexists. eexists. split; [vm_compute; reflexivity|].
    split; [vm_compute; reflexivity|]. split; reflexivity.
  - split; vm_compute; reflexivity.
Qed.

(** C1, witness: a stray segment reaching [established] when the value
    compared with [rcv.nxt] differs from it: the call returns 0, at least one
    segment is sent, every segment sent is an ACK segment carrying [rcv.nxt],
    and [snd.nxt] stays at 101, nothing being queued. *)
Lemma C1_witness :
  exists r c',
    utcp_recv_conn server_env sample_host established (from_peer 8000 101 ACK) [] 0 = Ret r
    /\ r_val r = 0
    /\ r_state r = Some c'
    /\ r_trace r <> []
    /\ Forall (ack_segment established) (r_trace r)
    /\ snd_nxt c' = 101.
Proof.
  assert (H1 : state established <> CLOSED) by discriminate.
  assert (H2 : state established <> LISTEN) by discriminate.
  assert (Ha : acceptable established (from_peer 8000 101 ACK) = false) by reflexivity.
  assert (Hr : has_flag RST (from_peer 8000 101 ACK) = false) by reflexivity.
  assert (Hm : 0 < mtu sample_host) by reflexivity.
  assert (Hl : 0 <= seqdiff (snd_last established) (snd_nxt established))
    by (vm_compute; discriminate).
  assert (Hs : seqdiff (snd_nxt established) (snd_una established)
               + seqdiff (snd_last established) (snd_nxt established) < 2 ^ 31)
    by (vm_compute; reflexivity).
  assert (Hu : uninit_u32 server_env <> rcv_nxt established) by discriminate.
  destruct (C1_unacceptable_segment server_env sample_host established
              (from_peer 8000 101 ACK) [] 0 H1 H2) as (_ & _ & _ & _ & K).
  destruct (K Ha Hr Hm Hl Hs) as (r & c' & K1 & K2 & _ & K3 & _ & K4 & _ & K5).
  destruct (K5 (or_introl Hu)) as (K6 & K7).
  exists r, c'. split; [exact K1|]. split; [exact K2|]. split; [exact K3|].
  split; [exact K6|]. split; [exact K4|]. rewrite K7. reflexivity.
Defined.

(** The same call in full: the one segment sent is an empty ACK with
    [seq = snd.nxt = 101] and [ack = rcv.nxt = 9001], and the connection is
    left as it was. *)
Example stray_segment_acked :
  utcp_recv_conn server_env sample_host established (from_peer 8000 101 ACK) [] 0
  = Ret {| r_val := 0; r_errno := None; r_state := Some established;
           r_trace := [EvSend {| hdr_src := 32769; hdr_dst := 7; hdr_seq := 101;
                                 hdr_ack := 9001; hdr_wnd := 1000; hdr_ctl := ACK;
                                 hdr_aux := 0 |} []] |}.
Proof. vm_compute. reflexivity. Qed.

(** C2, witness: the acknowledgement of our FIN reaching [closing]. *)
Lemma C2_witness :
  exists c',
    recv_advance sample_env sample_host closing (from_peer 9001 102 ACK) 0 = Ret c'
    /\ state c' = TIME_WAIT
    /\ timerisset (conn_timeout c') = false.
Proof.
  destruct (C2_time_wait_timer_cleared sample_env sample_host closing
              (from_peer 9001 102 ACK) 0)
    as (c' & H1 & _ & H2 & _ & H3 & _); try reflexivity.
  exists c'. repeat split; assumption.
Defined.

(** C2, at the failing input, through the whole of [utcp_recv_conn]: the
    connection ends in TIME_WAIT with no timer armed. *)
Example closing_acked :
  exists r c',
    utcp_recv_conn sample_env sample_host closing (from_peer 9001 102 ACK) [] 0 = Ret r
    /\ r_state r = Some c'
    /\ state c' = TIME_WAIT
    /\ conn_timeout c' = timerclear
    /\ add_sec (now sample_env) 60 = {| tv_sec := 1060; tv_usec := 0 |}.
Proof.
  eexists. eexists. split; [vm_compute; reflexivity|].
  split; [vm_compute; reflexivity|]. repeat split.
Qed.

(** [ack] on [finishing]: 1000 bytes, then the last 500 bytes with FIN. *)
Example finishing_sends :
  ack sample_host finishing false
  = Ret (with_snd_nxt 1602 finishing,
         [EvSend {| hdr_src := 32769; hdr_dst := 7; hdr_seq := 101; hdr_ack := 9001;
                    hdr_wnd := 1000; hdr_ctl := ACK; hdr_aux := 0 |} (repeat 0 1000);
          fin_segment finishing 1101 501]).
Proof. vm_compute. reflexivity. Qed.

(** C3, witness, at the failing input: [ack] on [clamped] sends 2000 of the
    2501 pending sequence numbers, and the second segment, which covers
    2101 to 3100 and so stops 501 short of [snd.last], carries FIN and 999
    bytes: the byte at sequence number 3100 is never sent. *)
Lemma C3_witness :
  snd_last clamped = 3602
  /\ exists c' evs,
       ack sample_host clamped false = Ret (c', evs)
       /\ emitted sample_host clamped 1101 evs (snd_nxt c')
       /\ snd_nxt c' = 3101
       /\ evs = [EvSend {| hdr_src := 32769; hdr_dst := 7; hdr_seq := 1101;
                           hdr_ack := 9001; hdr_wnd := 1000; hdr_ctl := ACK;
                           hdr_aux := 0 |} (repeat 0 1000);
                 fin_segment clamped 2101 1000].
Proof.
  split; [reflexivity|].
  assert (Hm : 0 < mtu sample_host) by reflexivity.
  assert (Hl : 0 <= seqdiff (snd_last clamped) (snd_nxt clamped))
    by (vm_compute; discriminate).
  assert (Hs : seqdiff (snd_nxt clamped) (snd_una clamped)
               + seqdiff (snd_last clamped) (snd_nxt clamped) < 2 ^ 31)
    by (vm_compute; reflexivity).
  assert (Hp : pending clamped = 2000) by (vm_compute; reflexivity).
  destruct (C3_ack_segments sample_host clamped false Hm Hl Hs)
    as (c' & evs & H1 & H2 & _ & _ & _ & H3 & _).
  destruct H3 as [H3 _]; [left; rewrite Hp; discriminate|].
  exists c', evs. split; [exact H1|]. split; [exact H2|].
  split; [rewrite H3, Hp; reflexivity|].
  assert (E : ack sample_host clamped false
              = Ret (with_snd_nxt 3101 clamped,
                     [EvSend {| hdr_src := 32769; hdr_dst := 7; hdr_seq := 1101;
                                hdr_ack := 9001; hdr_wnd := 1000; hdr_ctl := ACK;
                                hdr_aux := 0 |} (repeat 0 1000);
                      fin_segment clamped 2101 1000]))
    by (vm_compute; reflexivity).
  rewrite E in H1. congruence.
Defined.

(** C4, counterexample.  A SYN+ACK with sequence number 2^31 is accepted in
    SYN_SENT by a client whose [rcv.nxt] is 0: afterwards [rcv.nxt] is
    2^31 + 1, which is before 0 in the order of [seqdiff]. *)
Lemma C4_counterexample :
  acceptable connecting (from_peer (2 ^ 31) 101 (Z.lor SYN ACK)) = true
  /\ exists r c',
       utcp_recv_conn sample_env sample_host connecting
         (from_peer (2 ^ 31) 101 (Z.lor SYN ACK)) [] 0 = Ret r
       /\ r_state r = Some c'
       /\ state c' = ESTABLISHED
       /\ rcv_nxt connecting = 0 /\ rcv_nxt c' = 2 ^ 31 + 1
       /\ seqdiff (rcv_nxt c') (rcv_nxt connecting) < 0.
Proof.
  split; [reflexivity|].
  eexists. eexists. split; [vm_compute; reflexivity|].
  split; [vm_compute; reflexivity|]. repeat split.
Qed.

(** C4, witness: five bytes of data, in order, with an acknowledgement,
    reaching [established]. *)
Lemma C4_witness :
  exists r c',
    utcp_recv_conn sample_env sample_host established (from_peer 9001 101 ACK)
      [104; 101; 108; 108; 111] 5 = Ret r
    /\ r_state r = Some c'
    /\ 0 <= seqdiff (snd_una c') (snd_una established)
    /\ 0 <= seqdiff (rcv_nxt c') (rcv_nxt established).
Proof.
  assert (H : { r : result (option utcp_connection) & { c' : utcp_connection |
                utcp_recv_conn sample_env sample_host established (from_peer 9001 101 ACK)
                  [104; 101; 108; 108; 111] 5 = Ret r
                /\ r_state r = Some c' } }).
  { eexists. eexists. split; vm_compute; reflexivity. }
  destruct H as (r & c' & H1 & H2).
  exists r, c'. split; [exact H1|]. split; [exact H2|].
  destruct (C4_accepted_segment_monotone sample_env sample_host established
              (from_peer 9001 101 ACK) [104; 101; 108; 108; 111] 5 r c')
    as [Hu Hr]; [split; [discriminate | reflexivity] | reflexivity | exact H1 | exact H2 |].
  split; [exact Hu|]. apply Hr. left. discriminate.
Defined.



(** C6, witness: one byte written to [full]. *)
Lemma C6_witness :
  utcp_send sample_env sample_host full (Some [120]) 1
  = Ret {| r_val := 0; r_errno := None; r_state := full; r_trace := [] |}.
Proof.
  apply (C6_full_buffer_sets_no_errno sample_env sample_host full [120] 1);
    [reflexivity | left; reflexivity | reflexivity | reflexivity
    | left; vm_compute; discriminate].
Defined.


Lemma unique_keys_single (c : utcp_connection) : unique_keys (host_of c).
Proof.
  intros c1 c2 [<- | []] [<- | []] _ _. reflexivity.
Qed.

(** C8, counterexample.  [odd_sized] is ESTABLISHED with a poll callback,
    and 4097 of its 8193 bytes of maximum send buffer are free, which is
    more than half; the sweep does not call the poll callback. *)
Lemma C8_counterexample :
  state odd_sized = ESTABLISHED /\ poll odd_sized = true
  /\ utcp_get_sndbuf_free odd_sized = 4097 /\ maxsndbufsize odd_sized = 8193
  /\ 2 * utcp_get_sndbuf_free odd_sized > maxsndbufsize odd_sized
  /\ exists r, utcp_timeout sample_env (host_of odd_sized) = Ret r /\ r_trace r = [].
Proof.
  repeat (split; [reflexivity|]).
  eexists. split; vm_compute; reflexivity.
Qed.

(** C8, witness: the sweep polls [pollable] with its 126976 free bytes, and
    with no other argument. *)
Lemma C8_witness :
  exists r,
    utcp_timeout sample_env (host_of pollable) = Ret r
    /\ forall n, In (EvPoll 32769 7 n) (r_trace r) <-> n = 126976.
Proof.
  assert (H : { r : result utcp | utcp_timeout sample_env (host_of pollable) = Ret r }).
  { eexists. vm_compute. reflexivity. }
  destruct H as (r & H1). exists r. split; [exact H1|].
  assert (Hin : In pollable (connections (host_of pollable))) by (left; reflexivity).
  assert (Hpoll : poll pollable = true) by reflexivity.
  assert (Hfree : utcp_get_sndbuf_free pollable = 126976) by (vm_compute; reflexivity).
  assert (Hc : (state pollable = ESTABLISHED \/ state pollable = CLOSE_WAIT)
               /\ expired (conn_timeout pollable) (now sample_env) = false
               /\ sndbufsize pollable < maxsndbufsize pollable / 2).
  { split; [left; reflexivity|]. split; [reflexivity | vm_compute; reflexivity]. }
  destruct (C8_poll_in_sweep sample_env (host_of pollable) r pollable H1
              (unique_keys_single pollable) Hin Hpoll) as (K & _).
  intros n. change 32769 with (src pollable). change 7 with (dst pollable).
  rewrite (K n), Hfree. tauto.
Defined.

(** C9, witness: a client connects to port 7 (which arms the user timeout)
    and receives the SYN+ACK; the host reached has one connection, which is
    ESTABLISHED with no timer pending. *)
Lemma C9_witness :
  exists u c,
    reachable 4096 131072 u
    /\ connections u = [c]
    /\ state c = ESTABLISHED
    /\ timerisset (conn_timeout c) = false.
Proof.
  assert (H : { u : utcp & { c : utcp_connection |
                reachable 4096 131072 u /\ connections u = [c]
                /\ state c = ESTABLISHED } }).
  { eexists. eexists. split; [|split].
    - eapply reach_step.
      + eapply reach_step.
        * apply (reach_init 4096 131072 (Some (fun _ _ => Some (None, 0))) None 0).
        * eapply (step_connect 4096 131072 _ sample_env 7 None 0).
          vm_compute. reflexivity.
      + eapply (step_recv 4096 131072 _ sample_env (Some synack_datagram) 20).
        vm_compute. reflexivity.
    - vm_compute. reflexivity.
    - reflexivity. }
  destruct H as (u & c & H1 & H2 & H3). exists u, c.
  split; [exact H1|]. split; [exact H2|]. split; [exact H3|].
  apply (C9_established_has_no_user_timeout 4096 131072 u H1); [|exact H3].
  rewrite H2. left. reflexivity.
Defined.

(** C10, witness: a write of no bytes from a NULL pointer on [established]. *)
Lemma C10_witness :
  utcp_send sample_env sample_host established None 0
  = Ret {| r_val := 0; r_errno := None; r_state := established; r_trace := [] |}.
Proof.
  apply (C10_send_zero_length sample_env sample_host established None);
    [reflexivity | left; reflexivity].
Defined.

(** ** Further properties of the same functions *)

(** The sweep returns unless [retransmit] aborts on one of the connections
    whose retransmission timer expired. *)
Lemma timeout_loop_returns (e : environ) (u : utcp) (l : list utcp_connection) :
  (forall c, In c l -> retransmit e u c <> Aborted) ->
  forall next, exists r, timeout_loop e u l next = Ret r.
Proof.
  induction l as [|c l IH]; intros Hl next; cbn [timeout_loop].
  - eexists. reflexivity.
  - assert (Hc : exists r, timeout_conn e u c next = Ret r).
    { unfold timeout_conn.
      destruct (state_eqb (state c) CLOSED); [eexists; reflexivity|].
      destruct (expired (conn_timeout c) (now e)); [eexists; reflexivity|].
      destruct (expired (rtrx_timeout c) (now e)); [|eexists; reflexivity].
      destruct (retransmit e u c) as [rt| |] eqn:Hrt.
      - eexists. reflexivity.
      - exfalso. apply (Hl c); [left; reflexivity | exact Hrt].
      - exfalso. revert Hrt. unfold retransmit.
        destruct (_ || _); [discriminate|]. destruct (state c); discriminate. }
    destruct Hc as ([[[c1 n1] e1] ev1] & Hc). rewrite Hc. cbn [bind].
    destruct (IH (fun c0 H => Hl c0 (or_intror H)) n1) as ([[[l2 n2] e2] ev2] & Hl2).
    rewrite Hl2. cbn [bind]. eexists. reflexivity.
Qed.

Lemma utcp_timeout_returns (e : environ) (u : utcp) :
  (forall c, In c (connections u) -> retransmit e u c <> Aborted) ->
  exists r, utcp_timeout e u = Ret r.
Proof.
  intros H. unfold utcp_timeout. cbv zeta.
  destruct (timeout_loop_returns e u (connections u) H
              {| tv_sec := tv_sec (now e) + 3600; tv_usec := tv_usec (now e) |})
    as ([[[l n] er] ev] & Hl).
  rewrite Hl. cbn [bind]. eexists. reflexivity.
Qed.

(** When an acknowledgement advances and releases no more than is buffered,
    stages 3 and 4 of [utcp_recv] return [advanced_connection]: the buffer
    moved down by the bytes acknowledged, [snd.una = hdr.ack], [dupack = 0],
    [cwnd] grown by the MTU and clamped to [maxsndbufsize], FIN_WAIT_1 to
    FIN_WAIT_2 and CLOSING to TIME_WAIT when [hdr.ack = snd.last], the user
    timeout cleared, the retransmission timer cleared when
    [hdr.ack = snd.nxt]; every other field as before. *)
Theorem advance_computes_advanced_connection (e : environ) (u : utcp)
  (c : utcp_connection) (h : hdr) (len : Z) :
  0 < seqdiff (hdr_ack h) (snd_una c) ->
  data_acked c h <= seqdiff (snd_last c) (snd_una c) ->
  recv_advance e u c h len = Ret (advanced_connection u c h)
  /\ snd_una (advanced_connection u c h) = hdr_ack h
  /\ dupack (advanced_connection u c h) = 0
  /\ snd_cwnd (advanced_connection u c h)
     = Z.min (uint32 (snd_cwnd c + mtu u)) (maxsndbufsize c)
  /\ (state c = FIN_WAIT_1 -> hdr_ack h = snd_last c ->
      state (advanced_connection u c h) = FIN_WAIT_2)
  /\ (state c = CLOSING -> hdr_ack h = snd_last c ->
      state (advanced_connection u c h) = TIME_WAIT).
Proof.
  intros Hadv Hle. split; [apply recv_advance_advanced; assumption|].
  unfold advanced_connection, acked_state. fields.
  repeat split; intros -> ->; rewrite Z.eqb_refl; reflexivity.
Qed.

Lemma advance_computes_advanced_connection_witness :
  recv_advance sample_env sample_host (with_snd_last 1601 (with_snd_nxt 1101 established))
    (from_peer 9001 1101 ACK) 0
  = Ret (advanced_connection sample_host
           (with_snd_last 1601 (with_snd_nxt 1101 established)) (from_peer 9001 1101 ACK))
  /\ snd_una (advanced_connection sample_host
                (with_snd_last 1601 (with_snd_nxt 1101 established))
                (from_peer 9001 1101 ACK)) = 1101.
Proof.
  destruct (advance_computes_advanced_connection sample_env sample_host
              (with_snd_last 1601 (with_snd_nxt 1101 established))
              (from_peer 9001 1101 ACK) 0) as (H1 & H2 & _).
  - vm_compute. reflexivity.
  - vm_compute. discriminate.
  - split; [exact H1 | exact H2].
Defined.

(** The errors of [utcp_send]: a reapable connection gives [EBADF] whatever
    its state; otherwise a connection whose handshake is not complete gives
    [ENOTCONN] and one that was shut down gives [EPIPE]; in each case -1 is
    returned, nothing changes and nothing is emitted. *)
Theorem utcp_send_errors (e : environ) (u : utcp) (c : utcp_connection)
  (data : option (list Z)) (len : Z) :
  (reapable c = true ->
   utcp_send e u c data len
   = Ret {| r_val := -1; r_errno := Some EBADF; r_state := c; r_trace := [] |})
  /\ (reapable c = false ->
      state c = CLOSED \/ state c = LISTEN \/ state c = SYN_SENT
      \/ state c = SYN_RECEIVED ->
      utcp_send e u c data len
      = Ret {| r_val := -1; r_errno := Some ENOTCONN; r_state := c; r_trace := [] |})
  /\ (reapable c = false ->
      state c = FIN_WAIT_1 \/ state c = FIN_WAIT_2 \/ state c = CLOSING
      \/ state c = LAST_ACK \/ state c = TIME_WAIT ->
      utcp_send e u c data len
      = Ret {| r_val := -1; r_errno := Some EPIPE; r_state := c; r_trace := [] |}).
Proof.
  unfold utcp_send. repeat split; intros Hr; rewrite Hr; try reflexivity;
    intros Hs; decompose [or] Hs; clear Hs;
    match goal with H : state c = _ |- _ => rewrite H end; reflexivity.
Qed.

Lemma utcp_send_errors_witness :
  utcp_send sample_env sample_host closing (Some [120]) 1
  = Ret {| r_val := -1; r_errno := Some EPIPE; r_state := closing; r_trace := [] |}.
Proof.
  apply (utcp_send_errors sample_env sample_host closing (Some [120]) 1);
    [reflexivity | right; right; left; reflexivity].
Defined.

(** An acceptable segment without RST whose ACK is outside
    [snd.una, snd.nxt] is answered by one reset with [seq = hdr.ack] and
    [ctl = RST]; of the connection only [snd.wnd] has changed. *)
Theorem invalid_ack_is_reset (e : environ) (u : utcp) (c : utcp_connection) (h : hdr)
  (data : list Z) (len : Z) :
  state c <> CLOSED -> state c <> LISTEN ->
  acceptable c h = true ->
  has_flag ACK h = true ->
  0 < seqdiff (hdr_ack h) (snd_nxt c) \/ seqdiff (hdr_ack h) (snd_una c) < 0 ->
  has_flag RST h = false ->
  utcp_recv_conn e u c h data len
  = Ret {| r_val := 0; r_errno := None;
           r_state := Some (with_snd_wnd (hdr_wnd h) c);
           r_trace := [EvSend {| hdr_src := hdr_dst h; hdr_dst := hdr_src h;
                                 hdr_seq := hdr_ack h; hdr_ack := hdr_ack h;
                                 hdr_wnd := 0; hdr_ctl := RST; hdr_aux := hdr_aux h |}
                              []] |}.
Proof.
  intros Hc Hl Ha Hack Hout Hrst.
  assert (Hinv : invalid_ack (with_snd_wnd (hdr_wnd h) c) h = true).
  { unfold invalid_ack. rewrite Hack. fields. cbn [andb].
    destruct Hout as [Hout | Hout].
    - destruct (Z.gtb_spec (seqdiff (hdr_ack h) (snd_nxt c)) 0); [reflexivity | lia].
    - destruct (Z.ltb_spec (seqdiff (hdr_ack h) (snd_una c)) 0);
        [apply orb_true_r | lia]. }
  unfold utcp_recv_conn. rewrite Ha. cbn [negb]. cbv zeta. rewrite Hinv, Hrst.
  unfold goto_reset, reset_hdr, done.
  assert (Hack' : has_flag ACK (swap_ports h) = true) by exact Hack.
  rewrite Hack'.
  destruct (state c); try congruence; reflexivity.
Qed.

Lemma invalid_ack_is_reset_witness :
  exists r,
    utcp_recv_conn sample_env sample_host established (from_peer 9001 5000 ACK) [] 0 = Ret r
    /\ r_trace r = [EvSend {| hdr_src := 32769; hdr_dst := 7; hdr_seq := 5000;
                              hdr_ack := 5000; hdr_wnd := 0; hdr_ctl := RST;
                              hdr_aux := 0 |} []].
Proof.
  eexists. split.
  - apply (invalid_ack_is_reset sample_env sample_host established
             (from_peer 9001 5000 ACK) [] 0);
      [discriminate | discriminate | reflexivity | reflexivity
      | left; vm_compute; reflexivity | reflexivity].
  - reflexivity.
Defined.

(** ** Sequence arithmetic, the codec, and a handshake *)

(** [seqdiff (a, b)] is the representative of [a - b] modulo 2^32 in the
    range of [int32_t], and it is antisymmetric away from - 2^31. *)
Theorem seqdiff_signed_difference (a b : Z) :
  - 2 ^ 31 <= seqdiff a b < 2 ^ 31
  /\ (seqdiff a b - (a - b)) mod 2 ^ 32 = 0
  /\ (seqdiff a b <> - 2 ^ 31 -> seqdiff b a = - seqdiff a b).
Proof.
  pose proof (seqdiff_range a b) as Hr. split; [exact Hr|].
  unfold seqdiff, int32 in *. split.
  - Z.div_mod_to_equations. lia.
  - intros Hne. Z.div_mod_to_equations. lia.
Qed.

Lemma le_decode_encode (n : nat) :
  forall z, 0 <= z < 256 ^ Z.of_nat n -> le_decode (le_encode n z) = z.
Proof.
  induction n as [|n IH]; intros z Hz.
  - cbn in *. lia.
  - cbn [le_encode le_decode]. rewrite Z.mod_mod by lia.
    rewrite IH.
    + pose proof (Z.div_mod z 256). lia.
    + rewrite Nat2Z.inj_succ, Z.pow_succ_r in Hz by lia.
      split; [apply Z.div_pos; lia | apply Z.div_lt_upper_bound; lia].
Qed.

Lemma le_encode_length (n : nat) (z : Z) : length (le_encode n z) = n.
Proof. revert z. induction n as [|n IH]; intros z; cbn; [|rewrite IH]; reflexivity. Qed.

(** Packing a header whose fields fit their types and unpacking the
    datagram gives the header back, whatever the payload. *)
Theorem parse_hdr_bytes (h : hdr) (payload : list Z) :
  hdr_in_range h -> parse_hdr (hdr_bytes h ++ payload) = h.
Proof.
  intros (H1 & H2 & H3 & H4 & H5 & H6 & H7).
  destruct h as [s d sq ak wn ct ax]. cbn [hdr_src hdr_dst hdr_seq hdr_ack hdr_wnd hdr_ctl hdr_aux] in *.
  unfold parse_hdr, hdr_bytes.
  cbn [hdr_src hdr_dst hdr_seq hdr_ack hdr_wnd hdr_ctl hdr_aux].
  change (buf_read (le_encode 2 s ++ le_encode 2 d ++ le_encode 4 sq ++ le_encode 4 ak
                    ++ le_encode 4 wn ++ le_encode 2 ct ++ le_encode 2 ax ++ payload) 0 2)
    with (le_encode 2 s).
  repeat rewrite <- app_assoc.
  change (buf_read (le_encode 2 s ++ le_encode 2 d ++ le_encode 4 sq ++ le_encode 4 ak
                    ++ le_encode 4 wn ++ le_encode 2 ct ++ le_encode 2 ax ++ payload) 0 2)
    with (le_encode 2 s).
  change (buf_read (le_encode 2 s ++ le_encode 2 d ++ le_encode 4 sq ++ le_encode 4 ak
                    ++ le_encode 4 wn ++ le_encode 2 ct ++ le_encode 2 ax ++ payload) 2 2)
    with (le_encode 2 d).
  change (buf_read (le_encode 2 s ++ le_encode 2 d ++ le_encode 4 sq ++ le_encode 4 ak
                    ++ le_encode 4 wn ++ le_encode 2 ct ++ le_encode 2 ax ++ payload) 4 4)
    with (le_encode 4 sq).
  change (buf_read (le_encode 2 s ++ le_encode 2 d ++ le_encode 4 sq ++ le_encode 4 ak
                    ++ le_encode 4 wn ++ le_encode 2 ct ++ le_encode 2 ax ++ payload) 8 4)
    with (le_encode 4 ak).
  change (buf_read (le_encode 2 s ++ le_encode 2 d ++ le_encode 4 sq ++ le_encode 4 ak
                    ++ le_encode 4 wn ++ le_encode 2 ct ++ le_encode 2 ax ++ payload) 12 4)
    with (le_encode 4 wn).
  change (buf_read (le_encode 2 s ++ le_encode 2 d ++ le_encode 4 sq ++ le_encode 4 ak
                    ++ le_encode 4 wn ++ le_encode 2 ct ++ le_encode 2 ax ++ payload) 16 2)
    with (le_encode 2 ct).
  change (buf_read (le_encode 2 s ++ le_encode 2 d ++ le_encode 4 sq ++ le_encode 4 ak
                    ++ le_encode 4 wn ++ le_encode 2 ct ++ le_encode 2 ax ++ payload) 18 2)
    with (le_encode 2 ax).
  rewrite !le_decode_encode by (cbn; lia). reflexivity.
Qed.

Lemma parse_hdr_bytes_witness :
  hdr_in_range (from_peer 9000 101 (SYN + ACK))
  /\ parse_hdr (hdr_bytes (from_peer 9000 101 (SYN + ACK)) ++ [1; 2; 3])
     = from_peer 9000 101 (SYN + ACK).
Proof.
  assert (H : hdr_in_range (from_peer 9000 101 (SYN + ACK)))
    by (unfold hdr_in_range, from_peer, SYN, ACK; cbn; lia).
  split; [exact H | exact (parse_hdr_bytes _ [1; 2; 3] H)].
Defined.

(** ** The order of the connection table *)

Lemma conn_lt_key (a b : utcp_connection) : conn_lt a b = key_lt (key a) (key b).
Proof. reflexivity. Qed.

Lemma key_lt_trans (a b c : Z * Z) :
  key_lt a b = true -> key_lt b c = true -> key_lt a c = true.
Proof.
  unfold key_lt. destruct a as [a1 a2], b as [b1 b2], c as [c1 c2]. cbn [fst snd].
  rewrite !orb_true_iff, !andb_true_iff, !Z.ltb_lt, !Z.eqb_eq. lia.
Qed.

Lemma key_lt_irrefl (a : Z * Z) : key_lt a a = false.
Proof.
  unfold key_lt. rewrite Z.ltb_irrefl, Z.ltb_irrefl, andb_false_r. reflexivity.
Qed.

Lemma key_lt_total (a b : Z * Z) : key_lt a b = false -> a <> b -> key_lt b a = true.
Proof.
  unfold key_lt. destruct a as [a1 a2], b as [b1 b2]. cbn [fst snd].
  rewrite orb_false_iff, andb_false_iff, orb_true_iff, andb_true_iff,
    !Z.ltb_ge, !Z.ltb_lt, Z.eqb_neq, Z.eqb_eq.
  intros H Hne.
  assert (a1 <> b1 \/ a2 <> b2) by (destruct (Z.eq_dec a1 b1); [right; congruence | left; assumption]).
  lia.
Qed.

Lemma same_key_key (s d : Z) (c : utcp_connection) :
  same_key s d c = true <-> key c = (s, d).
Proof.
  unfold same_key, key. rewrite andb_true_iff, !Z.eqb_eq.
  split; [intros [-> ->]; reflexivity | intros [= -> ->]; auto].
Qed.

Lemma same_key_false (s d : Z) (c : utcp_connection) :
  same_key s d c = false <-> key c <> (s, d).
Proof.
  rewrite <- same_key_key. destruct (same_key s d c); split; congruence.
Qed.

Lemma find_absent (s d : Z) (l : list utcp_connection) :
  find (same_key s d) l = None <-> Forall (fun x => key x <> (s, d)) l.
Proof.
  induction l as [|x r IH]; cbn [find].
  - split; [constructor | reflexivity].
  - destruct (same_key s d x) eqn:E.
    + apply same_key_key in E. split; [discriminate|].
      intros H. inversion H; subst. contradiction.
    + apply same_key_false in E. rewrite IH. split.
      * intros H. constructor; assumption.
      * intros H. inversion H; assumption.
Qed.

Lemma find_present (s d : Z) (l : list utcp_connection) (c : utcp_connection) :
  find (same_key s d) l = Some c -> In c l /\ key c = (s, d).
Proof.
  intros H. apply find_some in H. rewrite same_key_key in H. exact H.
Qed.

Section Sorted.

Local Abbreviation before := (fun a b : utcp_connection => conn_lt a b = true).

Lemma Forall_update_conn_key (P : utcp_connection -> Prop) (c : utcp_connection)
  (l : list utcp_connection) :
  (forall y, key y = key c -> P y -> P c) -> Forall P l -> Forall P (update_conn c l).
Proof.
  intros Hc Hl. induction Hl as [|x r Hx Hr IH]; cbn [update_conn].
  - constructor.
  - destruct (same_key (src c) (dst c) x) eqn:E.
    + constructor; [|exact Hr]. apply same_key_key in E. exact (Hc x E Hx).
    + constructor; assumption.
Qed.

Lemma sorted_update (c : utcp_connection) (l : list utcp_connection) :
  StronglySorted before l -> StronglySorted before (update_conn c l).
Proof.
  intros Hl. induction Hl as [|x r Hr IH Hx]; cbn [update_conn].
  - constructor.
  - destruct (same_key (src c) (dst c) x) eqn:E.
    + apply same_key_key in E. constructor; [exact Hr|].
      eapply Forall_impl; [|exact Hx]. cbv beta. intros y Hy.
      change (key x = key c) in E. rewrite conn_lt_key in *. rewrite <- E. exact Hy.
    + constructor; [exact IH|].
      apply Forall_update_conn_key; [|exact Hx].
      cbv beta. intros y Hy H. rewrite conn_lt_key in *. rewrite <- Hy. exact H.
Qed.

Lemma sorted_remove (c : utcp_connection) (l : list utcp_connection) :
  StronglySorted before l -> StronglySorted before (remove_conn c l).
Proof.
  intros Hl. induction Hl as [|x r Hr IH Hx]; cbn [remove_conn].
  - constructor.
  - destruct (same_key (src c) (dst c) x); [exact Hr|].
    constructor; [exact IH|]. apply Forall_remove_conn. exact Hx.
Qed.

Lemma sorted_insert (c : utcp_connection) (l : list utcp_connection) :
  StronglySorted before l -> Forall (fun x => key x <> key c) l ->
  StronglySorted before (insert_conn c l).
Proof.
  intros Hl. induction Hl as [|x r Hr IH Hx]; intros Hk; cbn [insert_conn].
  - constructor; constructor.
  - inversion Hk as [|? ? Hkx Hkr]; subst.
    destruct (conn_lt c x) eqn:E.
    + constructor; [constructor; assumption|].
      constructor; [exact E|].
      eapply Forall_impl; [|exact Hx]. cbv beta. intros y Hy.
      rewrite conn_lt_key in *. eapply key_lt_trans; eassumption.
    + constructor; [apply IH; exact Hkr|].
      apply Forall_insert_conn; [|exact Hx].
      rewrite conn_lt_key in *. apply key_lt_total; [exact E | congruence].
Qed.

Lemma sorted_unique (l : list utcp_connection) :
  StronglySorted before l ->
  forall a b, In a l -> In b l -> key a = key b -> a = b.
Proof.
  intros Hl. induction Hl as [|x r Hr IH Hx]; intros a b Ha Hb Hk.
  - destruct Ha.
  - rewrite Forall_forall in Hx.
    destruct Ha as [<- | Ha], Hb as [<- | Hb].
    + reflexivity.
    + specialize (Hx b Hb). cbv beta in Hx.
      rewrite conn_lt_key, Hk, key_lt_irrefl in Hx. discriminate.
    + specialize (Hx a Ha). cbv beta in Hx.
      rewrite conn_lt_key, Hk, key_lt_irrefl in Hx. discriminate.
    + apply IH; assumption.
Qed.

End Sorted.

(** ** What every operation keeps of a connection *)

Ltac ci :=
  unfold conn_inv, key in *;
  rewrite ?set_state_established; rewrite ?set_state_other by discriminate;
  fields; intuition (try discriminate; try congruence).

Section Kept.

Variable k : Z * Z.

Lemma ack_ci (u : utcp) (c c' : utcp_connection) (b : bool) (evs : list event) :
  ack u c b = Ret (c', evs) -> conn_inv k c -> conn_inv k c'.
Proof.
  intros H Hc. apply ack_frame in H. destruct H as [-> _]. ci.
Qed.

Lemma goto_ack_ci (u : utcp) (c : utcp_connection) (p : Z) (err : option errno_t)
  (evs : list event) :
  conn_inv k c -> post (conn_inv k) (goto_ack u c p err evs).
Proof.
  intros Hc. unfold goto_ack.
  destruct (ack u c _) as [[c' out]| |] eqn:Hack; cbn; auto.
  eapply ack_ci; eassumption.
Qed.

Lemma goto_reset_ci (c : utcp_connection) (h : hdr) (len : Z) (err : option errno_t)
  (evs : list event) :
  conn_inv k c -> post (conn_inv k) (goto_reset c h len err evs).
Proof. intros Hc. exact Hc. Qed.

Lemma recv_fin_ci (e : environ) (u : utcp) (c : utcp_connection) (h : hdr) (len p : Z)
  (err : option errno_t) (evs : list event) :
  conn_inv k c -> post (conn_inv k) (recv_fin e u c h len p err evs).
Proof.
  intros Hc. unfold recv_fin.
  destruct (has_flag FIN h); [|apply goto_ack_ci; exact Hc].
  destruct (state c); try exact I; try (apply goto_reset_ci; exact Hc);
    fields; match goal with |- context [match ?r with Some _ => _ | None => _ end] =>
      destruct r end; apply goto_ack_ci; ci.
Qed.

Lemma recv_data_ci (e : environ) (u : utcp) (c : utcp_connection) (h : hdr)
  (data : list Z) (len p : Z) (err : option errno_t) (evs : list event) :
  conn_inv k c -> post (conn_inv k) (recv_data e u c h data len p err evs).
Proof.
  intros Hc. unfold recv_data.
  destruct (len =? 0); [apply recv_fin_ci; exact Hc|].
  destruct (state c) eqn:Hs; try exact I; try (apply goto_reset_ci; exact Hc);
    (destruct (recv c) as [f|]; [destruct (usize (f data) =? len); [|exact I]|]);
    apply recv_fin_ci; ci.
Qed.

Lemma utcp_accept_ci (c : utcp_connection) (r : option utcp_recv_t) (p : Z) :
  conn_inv k c -> conn_inv k (utcp_accept c r p).
Proof.
  intros Hc. unfold utcp_accept.
  destruct (reapable c || negb (state_eqb (state c) SYN_RECEIVED)); [exact Hc|]. ci.
Qed.

Lemma recv_handshake_ci (e : environ) (u : utcp) (c : utcp_connection) (h : hdr)
  (data : list Z) (len adv p : Z) (err : option errno_t) (evs : list event) :
  conn_inv k c ->
  post (conn_inv k) (recv_handshake e u c h data len adv p err evs).
Proof.
  intros Hc. unfold recv_handshake.
  destruct (state_eqb (state c) SYN_RECEIVED); [|apply recv_data_ci; exact Hc].
  destruct (adv =? 0); [apply goto_reset_ci; exact Hc|].
  assert (Hk : forall c1 evs1, conn_inv k c1 ->
             post (conn_inv k)
               (if negb (state_eqb (state c1) ESTABLISHED)
                then goto_reset (with_reapable true (set_state c1 CLOSED)) h len err evs1
                else recv_data e u c1 h data len p err evs1)).
  { intros c1 evs1 H1. destruct (negb (state_eqb (state c1) ESTABLISHED)).
    - apply goto_reset_ci. ci.
    - apply recv_data_ci. exact H1. }
  destruct (accept u) as [f|]; [|apply Hk; exact Hc].
  destruct (f (src c) (dst c)) as [[r pr]|]; apply Hk;
    [apply utcp_accept_ci|]; exact Hc.
Qed.

Lemma recv_syn_ci (e : environ) (u : utcp) (c : utcp_connection) (h : hdr)
  (data : list Z) (len adv p : Z) (err : option errno_t) (evs : list event) :
  conn_inv k c ->
  post (conn_inv k) (recv_syn e u c h data len adv p err evs).
Proof.
  intros Hc. unfold recv_syn.
  destruct (has_flag SYN h); [|apply recv_handshake_ci; exact Hc].
  destruct (state c); try exact I; try (apply goto_reset_ci; exact Hc).
  destruct (adv =? 0); [apply goto_reset_ci; exact Hc|].
  apply recv_handshake_ci. ci.
Qed.

Lemma acked_state_ci (c : utcp_connection) (h : hdr) :
  state c <> LISTEN /\ state c <> LAST_ACK ->
  acked_state c h <> LISTEN /\ acked_state c h <> LAST_ACK.
Proof.
  unfold acked_state. destruct (state c); try (intros; assumption);
    destruct (hdr_ack h =? snd_last c); split; discriminate.
Qed.

Lemma recv_advance_ci (e : environ) (u : utcp) (c c' : utcp_connection) (h : hdr)
  (len : Z) :
  recv_advance e u c h len = Ret c' -> conn_inv k c -> conn_inv k c'.
Proof.
  intros H Hc. apply recv_advance_inv in H.
  destruct H as [(_ & _ & ->) | (_ & ->)].
  - unfold advanced_connection, conn_inv, key in *. fields.
    destruct Hc as (Hk & Hs). split; [exact Hk | apply acked_state_ci; exact Hs].
  - destruct (len =? 0); ci.
Qed.

Lemma recv_rst_ci (c : utcp_connection) (h : hdr) :
  conn_inv k c -> post (conn_inv k) (recv_rst c h).
Proof.
  intros Hc. unfold recv_rst.
  destruct (state c) eqn:Hs; try exact I; cbv zeta;
    repeat match goal with
      | |- context [if ?b then _ else _] => destruct b
      | |- context [match recv ?x with Some _ => _ | None => _ end] => destruct (recv x)
      end; cbn [post done r_state]; auto; ci.
Qed.

(** Whatever a segment does to the connection it matched, the connection
    keeps its ports and does not enter LISTEN or LAST_ACK. *)
Lemma utcp_recv_conn_ci (e : environ) (u : utcp) (c : utcp_connection) (h : hdr)
  (data : list Z) (len : Z) :
  conn_inv k c -> post (conn_inv k) (utcp_recv_conn e u c h data len).
Proof.
  intros Hc. unfold utcp_recv_conn.
  assert (Hbody :
    post (conn_inv k)
      (if negb (acceptable c h) then
         if has_flag RST h then done 0 None (Some c) []
         else goto_ack u c (uninit_u32 e) None []
       else
         let c0 := with_snd_wnd (hdr_wnd h) c in
         if invalid_ack c0 h then
           if has_flag RST h then done 0 None (Some c0) []
           else goto_reset c0 h len None []
         else if has_flag RST h then recv_rst c0 h
         else
           let advanced := uint32 (seqdiff (hdr_ack h) (snd_una c0)) in
           let prevrcvnxt := rcv_nxt c0 in
           c1 <- recv_advance e u c0 h len ;;
           recv_syn e u c1 h data len advanced prevrcvnxt None [])).
  { destruct (negb (acceptable c h)).
    - destruct (has_flag RST h); [exact Hc | apply goto_ack_ci; exact Hc].
    - cbv zeta.
      assert (H0 : conn_inv k (with_snd_wnd (hdr_wnd h) c)) by ci.
      destruct (invalid_ack _ h).
      + destruct (has_flag RST h); [exact H0 | apply goto_reset_ci; exact H0].
      + destruct (has_flag RST h); [apply recv_rst_ci; exact H0|].
        destruct (recv_advance e u _ h len) as [c1| |] eqn:Hadv; try exact I.
        cbn [bind]. apply recv_syn_ci.
        eapply recv_advance_ci; eassumption. }
  destruct (state c); try exact Hbody; try exact I. exact Hc.
Qed.

Lemma utcp_send_ci (e : environ) (u : utcp) (c : utcp_connection)
  (data : option (list Z)) (len : Z) (res : result utcp_connection) :
  utcp_send e u c data len = Ret res -> conn_inv k c -> conn_inv k (r_state res).
Proof.
  unfold utcp_send, done. intros H Hc.
  destruct (reapable c); [injection H as <-; exact Hc|].
  destruct (state c) eqn:Hs; try (injection H as <-; exact Hc);
    (destruct (len =? 0); [injection H as <-; exact Hc|]);
    (destruct data as [bytes|]; [|injection H as <-; exact Hc]);
    cbv zeta in H;
    match type of H with
    | (if ?l =? 0 then _ else _) = _ => destruct (l =? 0)
    end;
    try (injection H as <-; cbn [r_state];
         repeat match goal with |- context [if ?b then _ else _] => destruct b end;
         ci);
    match type of H with
    | bind (ack ?u0 ?c0 ?b0) _ = _ =>
        destruct (ack u0 c0 b0) as [[c4 evs]| |] eqn:Hack; try discriminate;
          cbn [bind] in H; injection H as <-; cbn [r_state];
          apply (ack_ci _ _ _ _ _ Hack);
          repeat match goal with |- context [if ?b then _ else _] => destruct b end;
          ci
    end.
Qed.

Lemma utcp_shutdown_ci (u : utcp) (c : utcp_connection) (dir : Z)
  (res : result utcp_connection) :
  utcp_shutdown u c dir = Ret res -> conn_inv k c -> conn_inv k (r_state res).
Proof.
  unfold utcp_shutdown, done. intros H Hc.
  destruct (reapable c); [injection H as <-; exact Hc|].
  destruct (state c) eqn:Hs; try (injection H as <-; cbn [r_state]; first [exact Hc | ci]);
    match type of H with
    | bind (ack ?u0 ?c0 ?b0) _ = _ =>
        destruct (ack u0 c0 b0) as [[c4 evs]| |] eqn:Hack; try discriminate;
          cbn [bind] in H; injection H as <-; cbn [r_state];
          apply (ack_ci _ _ _ _ _ Hack); ci
    end.
Qed.

Lemma utcp_close_ci (u : utcp) (c : utcp_connection) (res : result utcp_connection) :
  utcp_close u c = Ret res -> conn_inv k c -> conn_inv k (r_state res).
Proof.
  unfold utcp_close, done. intros H Hc.
  destruct (utcp_shutdown u c SHUT_RDWR) as [r| |] eqn:Hsh; try discriminate.
  apply utcp_shutdown_ci in Hsh; [|exact Hc]. cbn [bind] in H.
  destruct (r_val r =? 0); injection H as <-; cbn [r_state]; [ci | exact Hsh].
Qed.

Lemma utcp_abort_ci (e : environ) (c : utcp_connection) :
  conn_inv k c -> conn_inv k (r_state (utcp_abort e c)).
Proof.
  intros Hc. unfold utcp_abort.
  destruct (reapable c); [exact Hc|]. fields.
  destruct (state c) eqn:Hs; cbn [r_state]; ci.
Qed.

Lemma timeout_conn_ci (e : environ) (u : utcp) (c : utcp_connection) (next : timeval)
  (c' : utcp_connection) (next' : timeval) (err : option errno_t) (evs : list event) :
  timeout_conn e u c next = Ret (Some c', next', err, evs) ->
  conn_inv k c -> conn_inv k c'.
Proof.
  unfold timeout_conn. intros H Hc.
  destruct (state_eqb (state c) CLOSED).
  - destruct (reapable c); [discriminate|]. injection H as <- _ _ _. exact Hc.
  - destruct (expired (conn_timeout c) (now e)).
    + injection H as <- _ _ _. ci.
    + destruct (if expired (rtrx_timeout c) (now e) then retransmit e u c else Ret [])
        as [rt| |]; try discriminate.
      cbn [bind] in H. injection H as <- _ _ _.
      destruct (negb (snd_nxt c =? snd_una c)); ci.
Qed.

End Kept.

(** ** Lookup and allocation *)

Lemma first_port_range (e : environ) : 32768 <= first_port e < 65536.
Proof.
  unfold first_port, uint16.
  assert (Hb : Z.testbit (Z.lor (rand_port e) 32768) 15 = true).
  { rewrite Z.lor_spec. change 32768 with (2 ^ 15).
    rewrite Z.pow2_bits_true by lia. apply orb_true_r. }
  apply Z.testbit_true in Hb; [|lia].
  change (2 ^ 16) with (2 ^ 15 * 2).
  rewrite Z.rem_mul_r by lia. rewrite Hb.
  pose proof (Z.mod_pos_bound (Z.lor (rand_port e) 32768) (2 ^ 15)). lia.
Qed.

Lemma nconnections_zero (u : utcp) : nconnections u = 0 <-> connections u = [].
Proof.
  unfold nconnections. destruct (connections u); cbn [length]; split;
    (reflexivity || discriminate || lia).
Qed.

Lemma find_connection_none (u : utcp) (s d : Z) :
  find_connection u s d = Ret None -> Forall (fun x => key x <> (s, d)) (connections u).
Proof.
  unfold find_connection.
  destruct (Z.eqb_spec (nconnections u) 0) as [E|E].
  - intros _. apply nconnections_zero in E. rewrite E. constructor.
  - destruct (s =? 0); [discriminate|]. intros [= H]. apply find_absent. exact H.
Qed.

Lemma find_connection_some (u : utcp) (s d : Z) (c : utcp_connection) :
  find_connection u s d = Ret (Some c) ->
  In c (connections u) /\ key c = (s, d) /\ s <> 0.
Proof.
  unfold find_connection.
  destruct (nconnections u =? 0); [discriminate|].
  destruct (Z.eqb_spec s 0); [discriminate|].
  intros [= H]. apply find_present in H. tauto.
Qed.

(** Looking up a key of the table. *)
Lemma find_connection_found (u : utcp) (s d : Z) :
  s <> 0 -> find_connection u s d = Ret (find (same_key s d) (connections u)).
Proof.
  intros Hs. unfold find_connection.
  destruct (Z.eqb_spec (nconnections u) 0) as [E|E].
  - apply nconnections_zero in E. rewrite E. reflexivity.
  - destruct (Z.eqb_spec s 0); [contradiction | reflexivity].
Qed.

(** The loop over the source ports stops at the first port, from [s] on,
    that is free for [d]; it does not get past port 65535. *)
Lemma free_port_spec (u : utcp) (d : Z) (fuel : nat) :
  forall s s',
    0 < s < 65536 ->
    free_port fuel u s d = Ret s' ->
    s <= s' < 65536
    /\ Forall (fun x => key x <> (s', d)) (connections u)
    /\ forall p, s <= p < s' -> exists x, In x (connections u) /\ key x = (p, d).
Proof.
  induction fuel as [|fuel IH]; intros s s' Hs H; [discriminate|].
  cbn [free_port] in H.
  destruct (find_connection u s d) as [[x|]| |] eqn:Hf; try discriminate; cbn [bind] in H.
  - apply find_connection_some in Hf. destruct Hf as (Hin & Hk & _).
    destruct (Z.eq_dec s 65535) as [->|Hne].
    + exfalso. change (uint16 (65535 + 1)) with 0 in H.
      destruct fuel as [|fuel]; [discriminate|]. cbn [free_port] in H.
      unfold find_connection in H.
      destruct (Z.eqb_spec (nconnections u) 0) as [E|E].
      * apply nconnections_zero in E. rewrite E in Hin. destruct Hin.
      * discriminate.
    + assert (Hw : uint16 (s + 1) = s + 1) by (unfold uint16; apply Z.mod_small; lia).
      rewrite Hw in H. apply IH in H; [|lia].
      destruct H as (Hr & Ha & Hu). split; [lia|]. split; [exact Ha|].
      intros p Hp. destruct (Z.eq_dec p s) as [->|Hps].
      * exists x. split; assumption.
      * apply Hu. lia.
  - injection H as <-. apply find_connection_none in Hf.
    split; [lia|]. split; [exact Hf|]. intros p Hp. lia.
Qed.

Section Allocation.

Variable DEFAULT_SNDBUFSIZE : Z.
Variable DEFAULT_MAXSNDBUFSIZE : Z.

Local Abbreviation allocate_connection :=
  (allocate_connection DEFAULT_SNDBUFSIZE DEFAULT_MAXSNDBUFSIZE).

(** What a successful allocation gives. *)
Lemma allocate_connection_spec (e : environ) (u : utcp) (s d : Z)
  (c : utcp_connection) (err : option errno_t) (u' : utcp) :
  allocate_connection e u s d = Ret (Some c, err, u') ->
  err = None
  /\ c = fresh_connection DEFAULT_SNDBUFSIZE DEFAULT_MAXSNDBUFSIZE e u (src c) d
  /\ connections u' = insert_conn c (connections u)
  /\ accept u' = accept u /\ pre_accept u' = pre_accept u /\ mtu u' = mtu u
  /\ timeout u' = timeout u /\ u_priv u' = u_priv u
  /\ Forall (fun x => key x <> key c) (connections u)
  /\ src c <> 0
  /\ (s <> 0 -> src c = s)
  /\ (s = 0 ->
      nconnections u < 32767 /\ first_port e <= src c < 65536
      /\ forall p, first_port e <= p < src c ->
                   exists x, In x (connections u) /\ key x = (p, d)).
Proof.
  unfold allocate_connection. intros H.
  match type of H with bind ?m _ = _ => destruct m as [[er|s']| |] eqn:Hm end;
    try discriminate; cbn [bind] in H; injection H as <- <- <-.
  assert (Hu : forall v, mtu (if nconnections u >=? nallocated u
                              then with_nallocated v u else u) = mtu u)
    by (intros v; destruct (nconnections u >=? nallocated u); reflexivity).
  assert (Hc : forall v, connections (if nconnections u >=? nallocated u
                                      then with_nallocated v u else u) = connections u)
    by (intros v; destruct (nconnections u >=? nallocated u); reflexivity).
  split; [reflexivity|]. cbn [src dst key].
  split; [unfold fresh_connection; rewrite !Hu; reflexivity|].
  split; [cbn [connections with_connections]; rewrite Hc, !Hu; reflexivity|].
  repeat (split; [cbn; destruct (nconnections u >=? nallocated u); reflexivity|]).
  unfold key. cbn [src dst].
  destruct (Z.eqb_spec s 0) as [->|Hs]; cbn [negb] in Hm.
  - destruct (Z.geb_spec (nconnections u) 32767) as [Hn|Hn]; [discriminate|].
    destruct (free_port _ u _ d) as [p| |] eqn:Hp; try discriminate.
    cbn [bind] in Hm. injection Hm as ->.
    fold (first_port e) in Hp. pose proof (first_port_range e) as Hr.
    apply free_port_spec in Hp; [|lia]. destruct Hp as (H1 & H2 & H3).
    split; [exact H2|]. split; [lia|]. split; [intros Hne; contradiction|].
    intros _. split; [lia|]. split; [exact H1 | exact H3].
  - destruct (find_connection u s d) as [[x|]| |] eqn:Hf; try discriminate.
    cbn [bind] in Hm. injection Hm as ->.
    apply find_connection_none in Hf.
    split; [exact Hf|]. split; [exact Hs|]. split; [reflexivity|].
    intros E. contradiction.
Qed.

(** When no connection comes back, nothing was changed. *)
Lemma allocate_connection_fails (e : environ) (u : utcp) (s d : Z)
  (err : option errno_t) (u' : utcp) :
  allocate_connection e u s d = Ret (None, err, u') ->
  u' = u
  /\ ((err = Some EADDRINUSE /\ s <> 0
       /\ exists x, In x (connections u) /\ key x = (s, d))
      \/ (err = Some ENOMEM /\ s = 0 /\ 32767 <= nconnections u)).
Proof.
  unfold allocate_connection. intros H.
  match type of H with bind ?m _ = _ => destruct m as [[er|s']| |] eqn:Hm end;
    try discriminate; cbn [bind] in H; injection H as <- <-.
  split; [reflexivity|].
  destruct (Z.eqb_spec s 0) as [->|Hs]; cbn [negb] in Hm.
  - destruct (Z.geb_spec (nconnections u) 32767) as [Hn|Hn].
    + injection Hm as <-. right. repeat split. lia.
    + destruct (free_port _ u _ d); discriminate.
  - destruct (find_connection u s d) as [[x|]| |] eqn:Hf; try discriminate.
    cbn [bind] in Hm. injection Hm as <-.
    apply find_connection_some in Hf. left. split; [reflexivity|]. split; [exact Hs|].
    exists x. tauto.
Qed.

End Allocation.

(** ** The sweep, connection by connection *)

Lemma swept_key (e : environ) (c : utcp_connection) : key (swept e c) = key c.
Proof.
  unfold swept. destruct (state_eqb (state c) CLOSED); [reflexivity|].
  destruct (expired (conn_timeout c) (now e)); reflexivity.
Qed.

Lemma swept_live (e : environ) (c : utcp_connection) : live c -> live (swept e c).
Proof.
  unfold swept, live. intros H.
  destruct (state_eqb (state c) CLOSED); [exact H|].
  destruct (expired (conn_timeout c) (now e)); fields; intuition discriminate.
Qed.

Lemma timeout_conn_swept (e : environ) (u : utcp) (c : utcp_connection) (next : timeval)
  (c' : option utcp_connection) (next' : timeval) (err : option errno_t)
  (evs : list event) :
  timeout_conn e u c next = Ret (c', next', err, evs) ->
  c' = if reaped c then None else Some (swept e c).
Proof.
  unfold timeout_conn, reaped, swept. intros H.
  destruct (state_eqb (state c) CLOSED).
  - injection H as <- _ _ _. destruct (reapable c); reflexivity.
  - cbn [andb]. destruct (expired (conn_timeout c) (now e)).
    + injection H as <- _ _ _. reflexivity.
    + match type of H with bind ?m _ = _ => destruct m as [rt| |] end; try discriminate.
      cbn [bind] in H. injection H as <- _ _ _.
      destruct (snd_nxt c =? snd_una c); reflexivity.
Qed.

Lemma timeout_loop_swept (e : environ) (u : utcp) (l : list utcp_connection) :
  forall next l' next' err evs,
    timeout_loop e u l next = Ret (l', next', err, evs) ->
    l' = map (swept e) (filter (fun c => negb (reaped c)) l).
Proof.
  induction l as [|c l IH]; intros next l' next' err evs H; cbn [timeout_loop] in H.
  - injection H as <- _ _ _. reflexivity.
  - destruct (timeout_conn e u c next) as [[[[c1 n1] e1] ev1]| |] eqn:Hc1; try discriminate.
    cbn [bind] in H.
    destruct (timeout_loop e u l n1) as [[[[l2 n2] e2] ev2]| |] eqn:Hl2; try discriminate.
    cbn [bind] in H. injection H as <- _ _ _.
    apply timeout_conn_swept in Hc1. apply IH in Hl2. subst c1 l2.
    cbn [filter]. destruct (reaped c); reflexivity.
Qed.

Section Order.

Local Abbreviation before := (fun a b : utcp_connection => conn_lt a b = true).

Lemma sorted_swept (e : environ) (l : list utcp_connection) :
  StronglySorted before l ->
  StronglySorted before (map (swept e) (filter (fun c => negb (reaped c)) l)).
Proof.
  intros Hl. induction Hl as [|x r Hr IH Hx]; cbn [filter map].
  - constructor.
  - destruct (negb (reaped x)); [|exact IH].
    cbn [map]. constructor; [exact IH|].
    rewrite Forall_forall in *. intros y Hy.
    apply in_map_iff in Hy. destruct Hy as (y0 & <- & Hy0).
    apply filter_In in Hy0. destruct Hy0 as [Hy0 _].
    specialize (Hx y0 Hy0). cbv beta in Hx.
    rewrite conn_lt_key in *. rewrite !swept_key. exact Hx.
Qed.

End Order.

Lemma live_swept (e : environ) (l : list utcp_connection) :
  Forall live l -> Forall live (map (swept e) (filter (fun c => negb (reaped c)) l)).
Proof.
  rewrite !Forall_forall. intros Hl y Hy.
  apply in_map_iff in Hy. destruct Hy as (y0 & <- & Hy0).
  apply filter_In in Hy0. apply swept_live, Hl, Hy0.
Qed.

(** ** The invariant of the host *)

Lemma host_inv_In (u : utcp) (c : utcp_connection) :
  host_inv u -> In c (connections u) -> live c.
Proof. intros [_ H]. rewrite Forall_forall in H. apply H. Qed.

Lemma conn_inv_live (c c' : utcp_connection) :
  live c -> conn_inv (key c) c' -> live c'.
Proof.
  unfold live, conn_inv, key. intros (H1 & _) (Hk & H2). injection Hk as Hk _.
  split; [congruence | exact H2].
Qed.

Lemma conn_inv_start (c : utcp_connection) : live c -> conn_inv (key c) c.
Proof. unfold live, conn_inv. tauto. Qed.

Lemma put_conn_inv (u : utcp) (c : utcp_connection) :
  host_inv u -> live c -> host_inv (put_conn c u).
Proof.
  intros [Hs Hl] Hc. split.
  - apply sorted_update. exact Hs.
  - apply Forall_update_conn; assumption.
Qed.

Lemma store_inv (u : utcp) (c : utcp_connection) (c' : option utcp_connection) :
  host_inv u -> match c' with Some c' => live c' | None => True end ->
  host_inv (store u c c').
Proof.
  intros Hu Hc. destruct c' as [c'|]; [apply put_conn_inv; assumption|].
  destruct Hu as [Hs Hl]. split.
  - apply sorted_remove. exact Hs.
  - apply Forall_remove_conn. exact Hl.
Qed.

Section Invariant.

Variable DEFAULT_SNDBUFSIZE : Z.
Variable DEFAULT_MAXSNDBUFSIZE : Z.

Local Abbreviation allocate_connection :=
  (allocate_connection DEFAULT_SNDBUFSIZE DEFAULT_MAXSNDBUFSIZE).
Local Abbreviation utcp_connect := (utcp_connect DEFAULT_SNDBUFSIZE DEFAULT_MAXSNDBUFSIZE).
Local Abbreviation utcp_recv := (utcp_recv DEFAULT_SNDBUFSIZE DEFAULT_MAXSNDBUFSIZE).
Local Abbreviation step := (step DEFAULT_SNDBUFSIZE DEFAULT_MAXSNDBUFSIZE).
Local Abbreviation reachable := (reachable DEFAULT_SNDBUFSIZE DEFAULT_MAXSNDBUFSIZE).

Lemma allocate_connection_inv (e : environ) (u : utcp) (s d : Z)
  (c : option utcp_connection) (err : option errno_t) (u' : utcp) :
  allocate_connection e u s d = Ret (c, err, u') ->
  host_inv u ->
  host_inv u' /\ match c with Some c => live c | None => True end.
Proof.
  intros H Hu. destruct c as [c|].
  - apply allocate_connection_spec in H.
    destruct H as (_ & Hc & Hl & _ & _ & _ & _ & _ & Habs & Hsrc & _).
    assert (Hlive : live c).
    { split; [exact Hsrc|]. rewrite Hc. split; discriminate. }
    split; [|exact Hlive]. destruct Hu as [Hs Hf]. split.
    + unfold sorted_table. rewrite Hl. apply sorted_insert; assumption.
    + rewrite Hl. apply Forall_insert_conn; assumption.
  - apply allocate_connection_fails in H. destruct H as [-> _]. split; [exact Hu | exact I].
Qed.

Lemma utcp_connect_inv (e : environ) (u : utcp) (d : Z) (r : option utcp_recv_t) (p : Z)
  (c : option utcp_connection) (err : option errno_t) (u' : utcp) (evs : list event) :
  utcp_connect e u d r p = Ret (c, err, u', evs) -> host_inv u -> host_inv u'.
Proof.
  unfold utcp_connect. intros H Hu.
  destruct (allocate_connection e u 0 d) as [[[c0 err0] u0]| |] eqn:Ha; try discriminate.
  apply allocate_connection_inv in Ha; [|exact Hu]. destruct Ha as [Hu0 Hc0].
  cbn [bind] in H. destruct c0 as [c0|]; injection H as <- <- <- <-; [|exact Hu0].
  apply put_conn_inv; [exact Hu0|].
  unfold live in *. rewrite set_state_other by discriminate. fields.
  intuition discriminate.
Qed.

Lemma utcp_recv_inv (e : environ) (u : utcp) (data : option (list Z)) (len : Z)
  (res : result utcp) :
  utcp_recv e u data len = Ret res -> host_inv u -> host_inv (r_state res).
Proof.
  unfold utcp_recv, done. intros H Hu.
  destruct (len =? 0); [injection H as <-; exact Hu|].
  destruct data as [bytes|]; [|injection H as <-; exact Hu].
  destruct (len <? sizeof_hdr); [injection H as <-; exact Hu|].
  cbv zeta in H.
  destruct (negb (known_flags (parse_hdr bytes))); [injection H as <-; exact Hu|].
  destruct (find_connection u _ _) as [[c|]| |] eqn:Hf; try discriminate; cbn [bind] in H.
  - destruct (utcp_recv_conn e u c (parse_hdr bytes) _ _) as [r| |] eqn:Hr;
      try discriminate.
    cbn [bind] in H. injection H as <-. cbn [r_state].
    apply store_inv; [exact Hu|].
    apply find_connection_In in Hf.
    pose proof (host_inv_In _ _ Hu Hf) as Hc.
    pose proof (utcp_recv_conn_ci (key c) e u c (parse_hdr bytes)
                  (buf_read bytes sizeof_hdr (len - sizeof_hdr)) (len - sizeof_hdr)
                  (conn_inv_start c Hc)) as Hp.
    rewrite Hr in Hp. cbn [post] in Hp.
    destruct (r_state r) as [c'|]; [|exact I].
    eapply conn_inv_live; eassumption.
  - destruct (has_flag RST _); [injection H as <-; exact Hu|].
    destruct (_ && _); [|injection H as <-; exact Hu].
    destruct (match pre_accept u with Some f => _ | None => _ end);
      [injection H as <-; exact Hu|].
    destruct (allocate_connection e u _ _) as [[[c0 err0] u0]| |] eqn:Ha;
      try discriminate.
    apply allocate_connection_inv in Ha; [|exact Hu]. destruct Ha as [Hu0 Hc0].
    cbn [bind] in H. destruct c0 as [c0|]; injection H as <-; [|exact Hu0].
    cbn [r_state]. apply put_conn_inv; [exact Hu0|].
    unfold live in *. rewrite set_state_other by discriminate. fields.
    intuition discriminate.
Qed.

Lemma utcp_timeout_inv (e : environ) (u : utcp) (res : result utcp) :
  utcp_timeout e u = Ret res -> host_inv u -> host_inv (r_state res).
Proof.
  unfold utcp_timeout, done. intros H [Hs Hl]. cbv zeta in H.
  destruct (timeout_loop e u (connections u) _) as [[[[l n] er] ev]| |] eqn:Hloop;
    try discriminate.
  cbn [bind] in H. injection H as <-. cbn [r_state].
  apply timeout_loop_swept in Hloop. subst l. split.
  - apply sorted_swept. exact Hs.
  - apply live_swept. exact Hl.
Qed.

Lemma step_inv (u u' : utcp) : step u u' -> host_inv u -> host_inv u'.
Proof.
  intros Hstep Hu.
  destruct Hstep;
    try (match goal with Hin : In _ (connections _) |- _ =>
           pose proof (host_inv_In _ _ Hu Hin) as Hlive;
           pose proof (conn_inv_start _ Hlive) as Hci end).
  - eapply utcp_connect_inv; eassumption.
  - apply put_conn_inv; [exact Hu|]. eapply conn_inv_live; [exact Hlive|].
    apply utcp_accept_ci; assumption.
  - apply put_conn_inv; [exact Hu|]. eapply conn_inv_live; [exact Hlive|].
    eapply utcp_send_ci; eassumption.
  - eapply utcp_recv_inv; eassumption.
  - apply put_conn_inv; [exact Hu|]. eapply conn_inv_live; [exact Hlive|].
    eapply utcp_shutdown_ci; eassumption.
  - apply put_conn_inv; [exact Hu|]. eapply conn_inv_live; [exact Hlive|].
    eapply utcp_close_ci; eassumption.
  - apply put_conn_inv; [exact Hu|]. eapply conn_inv_live; [exact Hlive|].
    apply utcp_abort_ci; assumption.
  - eapply utcp_timeout_inv; eassumption.
  - exact Hu.
  - exact Hu.
  - apply put_conn_inv; [exact Hu|]. eapply conn_inv_live; [exact Hlive|].
    unfold utcp_set_sndbuf. cbv zeta.
    match goal with |- context [if ?b then _ else _] => destruct b end; ci.
  - apply put_conn_inv; [exact Hu|]. eapply conn_inv_live; [exact Hlive|].
    unfold utcp_set_nodelay; ci.
  - apply put_conn_inv; [exact Hu|]. eapply conn_inv_live; [exact Hlive|].
    unfold utcp_set_keepalive; ci.
  - apply put_conn_inv; [exact Hu|]. eapply conn_inv_live; [exact Hlive|].
    unfold utcp_set_recv_cb; ci.
  - apply put_conn_inv; [exact Hu|]. eapply conn_inv_live; [exact Hlive|].
    unfold utcp_set_poll_cb; ci.
Qed.

Lemma reachable_inv (u : utcp) : reachable u -> host_inv u.
Proof.
  induction 1 as [a p pr | u u' Hu IH Hstep].
  - split; constructor.
  - eapply step_inv; eassumption.
Qed.

(** The connection table of a reachable host is in the strict order of
    [compare], so no two connections have the same ports; no connection has
    source port 0, which [compare] asserts; and no connection is in LISTEN
    or LAST_ACK. *)
Theorem reachable_table_sorted (u : utcp) :
  reachable u ->
  sorted_table u
  /\ unique_keys u
  /\ forall c, In c (connections u) ->
               src c <> 0 /\ state c <> LISTEN /\ state c <> LAST_ACK.
Proof.
  intros Hu. apply reachable_inv in Hu. destruct Hu as [Hs Hl].
  split; [exact Hs|]. split.
  - intros a b Ha Hb H1 H2. eapply sorted_unique; try eassumption.
    unfold key. congruence.
  - rewrite Forall_forall in Hl. exact Hl.
Qed.

End Invariant.

(** ** Lookup after insertion, update and removal *)

Lemma find_insert_same (c : utcp_connection) (l : list utcp_connection) :
  Forall (fun x => key x <> key c) l ->
  find (same_key (src c) (dst c)) (insert_conn c l) = Some c.
Proof.
  assert (Hc : same_key (src c) (dst c) c = true) by (apply same_key_key; reflexivity).
  intros Hl. induction Hl as [|x r Hx Hr IH]; cbn [insert_conn].
  - cbn [find]. rewrite Hc. reflexivity.
  - destruct (conn_lt c x).
    + cbn [find]. rewrite Hc. reflexivity.
    + cbn [find]. apply same_key_false in Hx. rewrite Hx. exact IH.
Qed.

Lemma find_insert_other (s d : Z) (c : utcp_connection) (l : list utcp_connection) :
  key c <> (s, d) ->
  find (same_key s d) (insert_conn c l) = find (same_key s d) l.
Proof.
  intros Hc. apply same_key_false in Hc.
  induction l as [|x r IH]; cbn [insert_conn].
  - cbn [find]. rewrite Hc. reflexivity.
  - destruct (conn_lt c x); cbn [find].
    + rewrite Hc. reflexivity.
    + rewrite IH. reflexivity.
Qed.

Lemma find_update_same (c x : utcp_connection) (l : list utcp_connection) :
  find (same_key (src c) (dst c)) l = Some x ->
  find (same_key (src c) (dst c)) (update_conn c l) = Some c.
Proof.
  assert (Hc : same_key (src c) (dst c) c = true) by (apply same_key_key; reflexivity).
  induction l as [|y r IH]; cbn [find update_conn]; [discriminate|].
  destruct (same_key (src c) (dst c) y) eqn:E; cbn [find].
  - intros _. rewrite Hc. reflexivity.
  - rewrite E. exact IH.
Qed.

Lemma find_update_other (s d : Z) (c : utcp_connection) (l : list utcp_connection) :
  key c <> (s, d) ->
  find (same_key s d) (update_conn c l) = find (same_key s d) l.
Proof.
  intros Hc. pose proof Hc as Hc'. apply same_key_false in Hc.
  induction l as [|y r IH]; cbn [find update_conn]; [reflexivity|].
  destruct (same_key (src c) (dst c) y) eqn:E; cbn [find].
  - rewrite Hc. apply same_key_key in E.
    assert (Hy : same_key s d y = false) by (apply same_key_false; unfold key in *; congruence).
    rewrite Hy. reflexivity.
  - rewrite IH. reflexivity.
Qed.

Lemma find_remove_other (s d : Z) (c : utcp_connection) (l : list utcp_connection) :
  key c <> (s, d) ->
  find (same_key s d) (remove_conn c l) = find (same_key s d) l.
Proof.
  intros Hc. induction l as [|y r IH]; cbn [find remove_conn]; [reflexivity|].
  destruct (same_key (src c) (dst c) y) eqn:E; cbn [find].
  - apply same_key_key in E.
    assert (Hy : same_key s d y = false) by (apply same_key_false; unfold key in *; congruence).
    rewrite Hy. reflexivity.
  - rewrite IH. reflexivity.
Qed.

Lemma In_update_other (c x : utcp_connection) (l : list utcp_connection) :
  In x l -> key x <> key c -> In x (update_conn c l).
Proof.
  intros Hx Hk. induction l as [|y r IH]; cbn [update_conn]; [exact Hx|].
  destruct (same_key (src c) (dst c) y) eqn:E.
  - destruct Hx as [-> | Hx]; [|right; exact Hx].
    apply same_key_key in E. contradiction.
  - destruct Hx as [-> | Hx]; [left; reflexivity | right; apply IH; exact Hx].
Qed.

Lemma In_remove_other (c x : utcp_connection) (l : list utcp_connection) :
  In x l -> key x <> key c -> In x (remove_conn c l).
Proof.
  intros Hx Hk. induction l as [|y r IH]; cbn [remove_conn]; [exact Hx|].
  destruct (same_key (src c) (dst c) y) eqn:E.
  - destruct Hx as [-> | Hx]; [|exact Hx].
    apply same_key_key in E. contradiction.
  - destruct Hx as [-> | Hx]; [left; reflexivity | right; apply IH; exact Hx].
Qed.

Lemma In_insert (c x : utcp_connection) (l : list utcp_connection) :
  In x (insert_conn c l) <-> x = c \/ In x l.
Proof.
  induction l as [|y r IH]; cbn [insert_conn].
  - cbn [In]. intuition congruence.
  - destruct (conn_lt c y); cbn [In]; [intuition congruence|].
    rewrite IH. intuition congruence.
Qed.

Lemma length_insert (c : utcp_connection) (l : list utcp_connection) :
  length (insert_conn c l) = S (length l).
Proof.
  induction l as [|y r IH]; cbn [insert_conn]; [reflexivity|].
  destruct (conn_lt c y); cbn [length]; [reflexivity | rewrite IH; reflexivity].
Qed.

Lemma length_update (c : utcp_connection) (l : list utcp_connection) :
  length (update_conn c l) = length l.
Proof.
  induction l as [|y r IH]; cbn [update_conn]; [reflexivity|].
  destruct (same_key (src c) (dst c) y); cbn [length]; [reflexivity | rewrite IH; reflexivity].
Qed.

(** ** utcp_connect *)

Lemma nconnections_insert (c : utcp_connection) (u : utcp) :
  nconnections (with_connections (insert_conn c (connections u)) u) = nconnections u + 1.
Proof.
  unfold nconnections. cbn [connections with_connections]. rewrite length_insert. lia.
Qed.

Lemma nconnections_put (c : utcp_connection) (u : utcp) :
  nconnections (put_conn c u) = nconnections u.
Proof.
  unfold nconnections, put_conn. cbn [connections with_connections].
  rewrite length_update. reflexivity.
Qed.

(** What [utcp_connect] returns, read off its code: the connection
    [allocate_connection] made, with the callback, the state and the timer
    assigned, entered in the table. *)
Lemma utcp_connect_result (sndbufsz maxsndbufsz : Z) (e : environ) (u : utcp) (d : Z)
  (r : option utcp_recv_t) (p : Z) (c : utcp_connection) (err : option errno_t)
  (u' : utcp) (evs : list event) :
  utcp_connect sndbufsz maxsndbufsz e u d r p = Ret (Some c, err, u', evs) ->
  err = None
  /\ c = with_conn_timeout (add_sec (now e) (timeout u))
           (with_state SYN_SENT
              (with_priv p
                 (with_recv r (fresh_connection sndbufsz maxsndbufsz e u (src c) d))))
  /\ evs = [EvSend {| hdr_src := src c; hdr_dst := d; hdr_seq := uint32 (rand_iss e);
                      hdr_ack := 0; hdr_wnd := mtu u; hdr_ctl := SYN; hdr_aux := 0 |} []]
  /\ find_connection u' (src c) d = Ret (Some c)
  /\ nconnections u' = nconnections u + 1 /\ nconnections u < 32767
  /\ first_port e <= src c < 65536
  /\ (forall q, first_port e <= q < src c ->
                exists x, In x (connections u) /\ key x = (q, d))
  /\ (forall x, In x (connections u) -> key x <> (src c, d))
  /\ accept u' = accept u /\ pre_accept u' = pre_accept u /\ mtu u' = mtu u.
Proof.
  unfold utcp_connect. intros H.
  destruct (allocate_connection _ _ e u 0 d) as [[[c0 err0] u0]| |] eqn:Ha; try discriminate.
  cbn [bind] in H. destruct c0 as [c0|]; [|discriminate].
  injection H as <- <- <- <-.
  apply allocate_connection_spec in Ha.
  destruct Ha as (-> & Hc & Hl & Hacc & Hpre & Hmtu & Hto & _ & Habs & Hsrc & _ & H0).
  destruct (H0 eq_refl) as (Hn & Hr & Hused). clear H0.
  rewrite set_state_other by discriminate. fields.
  assert (Hd : dst c0 = d) by (rewrite Hc; reflexivity).
  split; [reflexivity|].
  split; [rewrite Hto; rewrite Hc at 1; reflexivity|].
  split.
  { assert (Hiss : snd_iss c0 = uint32 (rand_iss e)) by (rewrite Hc; reflexivity).
    assert (Hwnd : rcv_wnd c0 = mtu u) by (rewrite Hc; reflexivity).
    rewrite Hd, Hiss, Hwnd. reflexivity. }
  split.
  { rewrite find_connection_found by exact Hsrc.
    unfold put_conn. cbn [connections with_connections]. rewrite Hl.
    rewrite <- Hd. f_equal.
    match goal with |- find _ (update_conn ?c2 _) = _ =>
      apply (find_update_same c2 c0) end.
    fields. apply find_insert_same. exact Habs. }
  split.
  { rewrite nconnections_put.
    destruct u0 as [a1 a2 a3 a4 a5 a6 a7]. cbn [connections] in Hl. subst a6.
    unfold nconnections. cbn [connections]. rewrite length_insert. lia. }
  split; [exact Hn|]. split; [exact Hr|]. split; [exact Hused|].
  split.
  { rewrite Forall_forall in Habs. unfold key in Habs at 2. rewrite Hd in Habs. exact Habs. }
  split; [exact Hacc|]. split; [exact Hpre | exact Hmtu].
Qed.

(** It returns NULL only for a full table. *)
Lemma utcp_connect_full (sndbufsz maxsndbufsz : Z) (e : environ) (u : utcp) (d : Z)
  (r : option utcp_recv_t) (p : Z) (err : option errno_t) (u' : utcp) (evs : list event) :
  utcp_connect sndbufsz maxsndbufsz e u d r p = Ret (None, err, u', evs) ->
  32767 <= nconnections u /\ err = Some ENOMEM /\ u' = u /\ evs = [].
Proof.
  unfold utcp_connect. intros H.
  destruct (allocate_connection _ _ e u 0 d) as [[[c0 err0] u0]| |] eqn:Ha; try discriminate.
  cbn [bind] in H. destruct c0 as [c0|]; [discriminate|].
  injection H as <- <- <-.
  apply allocate_connection_fails in Ha.
  destruct Ha as (-> & [(_ & Hne & _) | (-> & _ & Hn)]); [contradiction|].
  repeat split. exact Hn.
Qed.

(** The loop over the source ports returns when a port from where it
    starts is free. *)
Lemma free_port_returns (u : utcp) (d q : Z) :
  (forall x, In x (connections u) -> key x <> (q, d)) -> q < 65536 ->
  forall fuel s, 0 < s <= q -> (Z.to_nat (q - s) < fuel)%nat ->
  exists s', free_port fuel u s d = Ret s'.
Proof.
  intros Hfree Hq. induction fuel as [|fuel IH]; intros s Hs Hf; [lia|].
  cbn [free_port]. rewrite find_connection_found by lia. cbn [bind].
  destruct (find (same_key s d) (connections u)) as [x|] eqn:E; [|eexists; reflexivity].
  apply find_present in E. destruct E as [Hin Hk].
  assert (s <> q) by (intros ->; exact (Hfree x Hin Hk)).
  assert (Hu : uint16 (s + 1) = s + 1).
  { unfold uint16. apply Z.mod_small. change (2 ^ 16) with 65536. lia. }
  rewrite Hu. apply IH; lia.
Qed.

Lemma utcp_connect_returns (sndbufsz maxsndbufsz : Z) (e : environ) (u : utcp) (d : Z)
  (r : option utcp_recv_t) (p q : Z) :
  nconnections u < 32767 -> first_port e <= q < 65536 ->
  (forall x, In x (connections u) -> key x <> (q, d)) ->
  exists c u' evs,
    utcp_connect sndbufsz maxsndbufsz e u d r p = Ret (Some c, None, u', evs).
Proof.
  intros Hn Hq Hfree. pose proof (first_port_range e) as Hfp.
  destruct (free_port_returns u d q Hfree (proj2 Hq) (Z.to_nat 65537) (first_port e))
    as [s' Hs']; [lia | lia |].
  unfold utcp_connect, allocate_connection. change (0 =? 0) with true. cbn [negb].
  destruct (Z.geb_spec (nconnections u) 32767); [lia|].
  fold (first_port e). rewrite Hs'. cbn [bind]. eexists _, _, _. reflexivity.
Qed.

(** [utcp_connect] on a table that holds 32767 connections or more returns
    NULL with ENOMEM and changes and sends nothing.  On a smaller table,
    when one of the ports from [rand () | 0x8000] up to 65535 is free for
    [dst], it returns a new connection in SYN_SENT on the first such port;
    its user timeout is armed [timeout] seconds ahead, [snd.una] is the
    initial sequence number and [snd.nxt = snd.last] the one after it; the
    table finds it under its ports, and exactly one segment is sent: the
    SYN with the initial sequence number and the MTU as the window. *)
Theorem utcp_connect_opens (sndbufsz maxsndbufsz : Z) (e : environ) (u : utcp) (d : Z)
  (r : option utcp_recv_t) (p : Z) :
  (32767 <= nconnections u ->
   utcp_connect sndbufsz maxsndbufsz e u d r p = Ret (None, Some ENOMEM, u, []))
  /\ (nconnections u < 32767 ->
      forall q, first_port e <= q < 65536 ->
      (forall x, In x (connections u) -> key x <> (q, d)) ->
      exists c u',
        utcp_connect sndbufsz maxsndbufsz e u d r p
        = Ret (Some c, None, u',
               [EvSend {| hdr_src := src c; hdr_dst := d; hdr_seq := snd_una c;
                          hdr_ack := 0; hdr_wnd := mtu u; hdr_ctl := SYN;
                          hdr_aux := 0 |} []])
        /\ state c = SYN_SENT /\ reapable c = false /\ dst c = d
        /\ first_port e <= src c <= q
        /\ (forall q', first_port e <= q' < src c ->
                       exists x, In x (connections u) /\ key x = (q', d))
        /\ (forall x, In x (connections u) -> key x <> (src c, d))
        /\ recv c = r /\ priv c = p
        /\ conn_timeout c = add_sec (now e) (timeout u)
        /\ snd_una c = uint32 (rand_iss e)
        /\ snd_nxt c = uint32 (snd_una c + 1) /\ snd_last c = snd_nxt c
        /\ find_connection u' (src c) d = Ret (Some c)
        /\ nconnections u' = nconnections u + 1).
Proof.
  split.
  - intros Hn. unfold utcp_connect, allocate_connection.
    change (0 =? 0) with true. cbn [negb].
    destruct (Z.geb_spec (nconnections u) 32767); [reflexivity | lia].
  - intros Hn q Hq Hq_free.
    destruct (utcp_connect_returns sndbufsz maxsndbufsz e u d r p q Hn Hq Hq_free)
      as (c & u' & evs & H).
    exists c, u'. pose proof H as H'. apply utcp_connect_result in H'.
    destruct H' as (_ & Hc & Hevs & Hfind & Hn' & _ & Hport & Hused & Hfree & _).
    assert (Hd : dst c = d) by (rewrite Hc; reflexivity).
    assert (Huna : snd_una c = uint32 (rand_iss e)) by (rewrite Hc; reflexivity).
    split; [rewrite H, Hevs, Huna; reflexivity|].
    split; [rewrite Hc; reflexivity|]. split; [rewrite Hc; reflexivity|].
    split; [exact Hd|].
    split.
    { split; [apply Hport|]. destruct (Z.le_gt_cases (src c) q) as [Hle|Hgt]; [exact Hle|].
      destruct (Hused q) as (x & Hx & Hk); [lia|]. destruct (Hq_free x Hx Hk). }
    split; [exact Hused|]. split; [exact Hfree|].
    split; [rewrite Hc; reflexivity|]. split; [rewrite Hc; reflexivity|].
    split; [rewrite Hc; reflexivity|]. split; [exact Huna|].
    split; [rewrite Huna; rewrite Hc; reflexivity|].
    split; [rewrite Hc; reflexivity|].
    split; [exact Hfind | exact Hn'].
Qed.

(** A client connects to port 7: the connection takes port 32769. *)
Lemma utcp_connect_opens_witness :
  exists c u' evs,
    utcp_connect 4096 131072 sample_env client_host 7 None 0 = Ret (Some c, None, u', evs)
    /\ src c = 32769 /\ state c = SYN_SENT
    /\ find_connection u' (src c) 7 = Ret (Some c).
Proof.
  destruct (proj2 (utcp_connect_opens 4096 131072 sample_env client_host 7 None 0))
    with (q := 32769) as (c & u' & H & Hs & _ & _ & Hp & _ & _ & _ & _ & _ & _ & _ & _ & Hf & _).
  - reflexivity.
  - split; [vm_compute; discriminate | reflexivity].
  - intros x [].
  - exists c, u'. eexists. split; [exact H|].
    split; [|split; [exact Hs | exact Hf]].
    assert (Hfp : first_port sample_env = 32769) by reflexivity.
    rewrite Hfp in Hp. lia.
Defined.

(** ** What a datagram leaves alone *)

(** A datagram changes at most the connection it is addressed to: every
    other connection of a reachable host is in the table afterwards, as it
    was. *)
Theorem utcp_recv_leaves_others (sndbufsz maxsndbufsz : Z) (e : environ) (u : utcp)
  (bytes : list Z) (len : Z) (res : result utcp) :
  reachable sndbufsz maxsndbufsz u ->
  utcp_recv sndbufsz maxsndbufsz e u (Some bytes) len = Ret res ->
  forall x, In x (connections u) ->
            key x <> (hdr_dst (parse_hdr bytes), hdr_src (parse_hdr bytes)) ->
            In x (connections (r_state res)).
Proof.
  intros Hreach H x Hx Hk. apply reachable_inv in Hreach. rename Hreach into Hu.
  unfold utcp_recv, done in H.
  destruct (len =? 0); [injection H as <-; exact Hx|].
  destruct (len <? sizeof_hdr); [injection H as <-; exact Hx|].
  cbv zeta in H.
  destruct (negb (known_flags (parse_hdr bytes))); [injection H as <-; exact Hx|].
  destruct (find_connection u _ _) as [[c|]| |] eqn:Hf; try discriminate; cbn [bind] in H.
  - destruct (utcp_recv_conn e u c (parse_hdr bytes) _ _) as [r| |] eqn:Hr;
      try discriminate.
    cbn [bind] in H. injection H as <-. cbn [r_state].
    apply find_connection_some in Hf. destruct Hf as (Hin & Hkc & _).
    pose proof (host_inv_In _ _ Hu Hin) as Hc.
    pose proof (utcp_recv_conn_ci (key c) e u c (parse_hdr bytes)
                  (buf_read bytes sizeof_hdr (len - sizeof_hdr)) (len - sizeof_hdr)
                  (conn_inv_start c Hc)) as Hp.
    rewrite Hr in Hp. cbn [post] in Hp.
    destruct (r_state r) as [c'|]; cbn [store put_conn free_connection connections
                                         with_connections].
    + apply In_update_other; [exact Hx|]. destruct Hp as [Hp _]. congruence.
    + apply In_remove_other; [exact Hx|]. congruence.
  - destruct (has_flag RST _); [injection H as <-; exact Hx|].
    destruct (_ && _); [|injection H as <-; exact Hx].
    destruct (match pre_accept u with Some f => _ | None => _ end);
      [injection H as <-; exact Hx|].
    destruct (allocate_connection _ _ e u _ _) as [[[c0 err0] u0]| |] eqn:Ha;
      try discriminate.
    cbn [bind] in H. destruct c0 as [c0|]; injection H as <-; cbn [r_state].
    + apply allocate_connection_spec in Ha.
      destruct Ha as (_ & _ & Hl & _ & _ & _ & _ & _ & Habs & _).
      unfold put_conn. cbn [connections with_connections]. rewrite Hl.
      rewrite Forall_forall in Habs.
      apply In_update_other; [apply In_insert; right; exact Hx|].
      rewrite set_state_other by discriminate. unfold key at 2. fields.
      apply Habs. exact Hx.
    + apply allocate_connection_fails in Ha. destruct Ha as [-> _]. exact Hx.
Qed.

(** A client with a connection to port 7 is handed a stray datagram from
    port 9. *)
Lemma utcp_recv_leaves_others_witness :
  exists u c res,
    reachable 4096 131072 u /\ connections u = [c]
    /\ utcp_recv 4096 131072 sample_env u
         (Some (hdr_bytes {| hdr_src := 9; hdr_dst := 32769; hdr_seq := 1; hdr_ack := 0;
                             hdr_wnd := 0; hdr_ctl := ACK; hdr_aux := 0 |})) 20 = Ret res
    /\ In c (connections (r_state res)).
Proof.
  assert (H : { x : utcp * utcp_connection * result utcp |
                let '(u, c, res) := x in
                reachable 4096 131072 u /\ connections u = [c]
                /\ utcp_recv 4096 131072 sample_env u
                     (Some (hdr_bytes {| hdr_src := 9; hdr_dst := 32769; hdr_seq := 1;
                                         hdr_ack := 0; hdr_wnd := 0; hdr_ctl := ACK;
                                         hdr_aux := 0 |})) 20 = Ret res
                /\ key c <> (32769, 9) }).
  { eexists (_, _, _). split; [|split; [|split]].
    - eapply reach_step.
      + apply (reach_init 4096 131072 None None 0).
      + eapply (step_connect 4096 131072 _ sample_env 7 None 0).
        vm_compute. reflexivity.
    - vm_compute. reflexivity.
    - vm_compute. reflexivity.
    - vm_compute. discriminate. }
  destruct H as ([[u c] res] & H1 & H2 & H3 & H4). exists u, c, res.
  split; [exact H1|]. split; [exact H2|]. split; [exact H3|].
  apply (utcp_recv_leaves_others 4096 131072 sample_env u _ 20 res H1 H3 c).
  - rewrite H2. left. reflexivity.
  - exact H4.
Defined.

(** A host that has opened one connection. *)
Lemma reachable_table_sorted_witness :
  exists u c,
    reachable 4096 131072 u /\ connections u = [c]
    /\ sorted_table u /\ src c <> 0.
Proof.
  assert (H : { x : utcp * utcp_connection |
                reachable 4096 131072 (fst x) /\ connections (fst x) = [snd x] }).
  { eexists (_, _). cbn [fst snd]. split.
    - eapply reach_step.
      + apply (reach_init 4096 131072 None None 0).
      + eapply (step_connect 4096 131072 _ sample_env 7 None 0).
        vm_compute. reflexivity.
    - vm_compute. reflexivity. }
  destruct H as ([u c] & H1 & H2). cbn [fst snd] in *. exists u, c.
  split; [exact H1|]. split; [exact H2|].
  destruct (reachable_table_sorted 4096 131072 u H1) as (Hs & _ & Hl).
  split; [exact Hs|]. apply Hl. rewrite H2. left. reflexivity.
Defined.

(** ** utcp_timeout: what the sweep does *)

Lemma timeout_conn_errno (e : environ) (u : utcp) (c : utcp_connection) (next : timeval)
  (c' : option utcp_connection) (next' : timeval) (err : option errno_t)
  (evs : list event) :
  timeout_conn e u c next = Ret (c', next', err, evs) ->
  err = (if timed_out e c then Some ETIMEDOUT else None)
  /\ (timed_out e c = true ->
      evs = match recv c with
            | Some _ => [EvRecvNull (src c) (dst c) ETIMEDOUT]
            | None => []
            end).
Proof.
  unfold timeout_conn, timed_out. intros H.
  destruct (state_eqb (state c) CLOSED); cbn [negb andb].
  - injection H as _ _ <- _. split; [reflexivity | discriminate].
  - destruct (expired (conn_timeout c) (now e)).
    + injection H as _ _ <- <-. split; reflexivity.
    + match type of H with bind ?m _ = _ => destruct m as [rt| |] end; try discriminate.
      cbn [bind] in H. injection H as _ _ <- _. split; [reflexivity | discriminate].
Qed.

Lemma timeout_loop_errno (e : environ) (u : utcp) (l : list utcp_connection) :
  forall next l' next' err evs,
    timeout_loop e u l next = Ret (l', next', err, evs) ->
    err = (if existsb (timed_out e) l then Some ETIMEDOUT else None).
Proof.
  induction l as [|c l IH]; intros next l' next' err evs H; cbn [timeout_loop] in H.
  - injection H as _ _ <- _. reflexivity.
  - destruct (timeout_conn e u c next) as [[[[c1 n1] e1] ev1]| |] eqn:Hc1; try discriminate.
    cbn [bind] in H.
    destruct (timeout_loop e u l n1) as [[[[l2 n2] e2] ev2]| |] eqn:Hl2; try discriminate.
    cbn [bind] in H. injection H as _ _ <- _.
    apply timeout_conn_errno in Hc1. destruct Hc1 as [-> _].
    apply IH in Hl2. subst e2. cbn [existsb].
    destruct (timed_out e c), (existsb (timed_out e) l); reflexivity.
Qed.

(** What the loop did for one connection of the table. *)
Lemma timeout_loop_In (e : environ) (u : utcp) (l : list utcp_connection)
  (c : utcp_connection) :
  In c l ->
  forall next l' next' err evs,
    timeout_loop e u l next = Ret (l', next', err, evs) ->
    exists nx c' nx' er ev,
      timeout_conn e u c nx = Ret (c', nx', er, ev) /\ incl ev evs.
Proof.
  induction l as [|x l IH]; intros Hin next l' next' err evs H; [destruct Hin|].
  cbn [timeout_loop] in H.
  destruct (timeout_conn e u x next) as [[[[c1 n1] e1] ev1]| |] eqn:Hc1; try discriminate.
  cbn [bind] in H.
  destruct (timeout_loop e u l n1) as [[[[l2 n2] e2] ev2]| |] eqn:Hl2; try discriminate.
  cbn [bind] in H. injection H as _ _ _ <-.
  destruct Hin as [-> | Hin].
  - exists next, c1, n1, e1, ev1. split; [exact Hc1 | apply incl_appl, incl_refl].
  - destruct (IH Hin _ _ _ _ _ Hl2) as (nx & c' & nx' & er & ev & Hc & Hincl).
    exists nx, c', nx', er, ev. split; [exact Hc | apply incl_appr; exact Hincl].
Qed.

Lemma utcp_timeout_table (e : environ) (u : utcp) (res : result utcp) :
  utcp_timeout e u = Ret res ->
  r_state res
  = with_connections (map (swept e) (filter (fun c => negb (reaped c)) (connections u))) u.
Proof.
  unfold utcp_timeout, done. intros H. cbv zeta in H.
  destruct (timeout_loop e u (connections u) _) as [[[[l n] er] ev]| |] eqn:Hloop;
    try discriminate.
  cbn [bind] in H. injection H as <-. cbn [r_state].
  f_equal. eapply timeout_loop_swept. exact Hloop.
Qed.

(** ** utcp_timeout returns unless [retransmit] aborts *)

Lemma timeout_conn_unstuck (e : environ) (u : utcp) (c : utcp_connection) (nx : timeval) :
  stuck e c = false -> exists r, timeout_conn e u c nx = Ret r.
Proof.
  unfold stuck, retransmits, timeout_conn. intros H.
  destruct (state_eqb (state c) CLOSED) eqn:Hcl; [eexists; reflexivity|].
  destruct (expired (conn_timeout c) (now e)); [eexists; reflexivity|].
  destruct (expired (rtrx_timeout c) (now e)); [|eexists; reflexivity].
  unfold retransmit. rewrite Hcl. cbn [negb andb orb] in *.
  destruct (snd_nxt c =? snd_una c); [eexists; reflexivity|].
  cbn [negb andb] in H.
  destruct (state c); try discriminate H; try discriminate Hcl; eexists; reflexivity.
Qed.

Lemma timeout_loop_unstuck (e : environ) (u : utcp) (l : list utcp_connection) :
  (forall c, In c l -> stuck e c = false) ->
  forall nx, exists r, timeout_loop e u l nx = Ret r.
Proof.
  induction l as [|c l IH]; intros H nx; cbn [timeout_loop]; [eexists; reflexivity|].
  destruct (timeout_conn_unstuck e u c nx (H c (or_introl eq_refl))) as ([[[c1 n1] e1] ev1] & ->).
  cbn [bind].
  destruct (IH (fun x Hx => H x (or_intror Hx)) n1) as ([[[l2 n2] e2] ev2] & ->).
  cbn [bind]. eexists. reflexivity.
Qed.

Lemma utcp_timeout_unstuck (e : environ) (u : utcp) :
  (forall c, In c (connections u) -> stuck e c = false) ->
  exists res, utcp_timeout e u = Ret res.
Proof.
  intros H. unfold utcp_timeout, done. cbv zeta.
  destruct (timeout_loop_unstuck e u (connections u) H
              {| tv_sec := tv_sec (now e) + 3600; tv_usec := tv_usec (now e) |})
    as ([[[l n] er] ev] & ->).
  cbn [bind]. eexists. reflexivity.
Qed.

Lemma utcp_timeout_result (e : environ) (u : utcp) (res : result utcp) :
  utcp_timeout e u = Ret res ->
  r_state res
  = with_connections (map (swept e) (filter (fun c => negb (reaped c)) (connections u))) u
  /\ r_errno res = (if existsb (timed_out e) (connections u)
                    then Some ETIMEDOUT else None)
  /\ forall c, In c (connections u) -> timed_out e c = true -> recv c <> None ->
               In (EvRecvNull (src c) (dst c) ETIMEDOUT) (r_trace res).
Proof.
  intros H. split; [apply utcp_timeout_table; exact H|].
  unfold utcp_timeout, done in H. cbv zeta in H.
  destruct (timeout_loop e u (connections u) _) as [[[[l n] er] ev]| |] eqn:Hloop;
    try discriminate.
  cbn [bind] in H. injection H as <-. cbn [r_state r_errno r_trace].
  split.
  - eapply timeout_loop_errno. exact Hloop.
  - intros c Hin Hto Hrecv.
    destruct (timeout_loop_In e u _ c Hin _ _ _ _ _ Hloop)
      as (nx & c' & nx' & er' & ev' & Hc & Hincl).
    apply timeout_conn_errno in Hc. destruct Hc as [_ Hev].
    specialize (Hev Hto). apply Hincl. rewrite Hev.
    destruct (recv c); [left; reflexivity | contradiction].
Qed.

(** Unless [retransmit] aborts (see [stuck]), [utcp_timeout] returns.  Its
    sweep frees exactly the connections that are CLOSED and reapable and
    keeps the others in their order, each as [swept] describes; it touches
    nothing else of the host; [errno] is set, to ETIMEDOUT, exactly when the
    user timeout of some open connection has expired; and the [recv]
    callback of such a connection is called with NULL. *)
Theorem utcp_timeout_sweeps (e : environ) (u : utcp) :
  (forall c, In c (connections u) -> stuck e c = false) ->
  exists res,
    utcp_timeout e u = Ret res
    /\ r_state res
       = with_connections
           (map (swept e) (filter (fun c => negb (reaped c)) (connections u))) u
    /\ r_errno res = (if existsb (timed_out e) (connections u)
                      then Some ETIMEDOUT else None)
    /\ forall c, In c (connections u) -> timed_out e c = true -> recv c <> None ->
                 In (EvRecvNull (src c) (dst c) ETIMEDOUT) (r_trace res).
Proof.
  intros Hok. destruct (utcp_timeout_unstuck e u Hok) as [res H].
  exists res. split; [exact H|]. apply utcp_timeout_result. exact H.
Qed.

(** A connecting client whose user timeout ran out: the sweep closes it. *)
Lemma utcp_timeout_sweeps_witness :
  exists res,
    utcp_timeout {| now := {| tv_sec := 2000; tv_usec := 0 |}; rand_port := 0;
                    rand_iss := 0; realloc_ok := true; uninit_u32 := 0;
                    uninit_hdr := uninit_hdr sample_env |} (host_of connecting) = Ret res
    /\ map state (connections (r_state res)) = [CLOSED]
    /\ r_errno res = Some ETIMEDOUT.
Proof.
  destruct (utcp_timeout_sweeps
              {| now := {| tv_sec := 2000; tv_usec := 0 |}; rand_port := 0;
                 rand_iss := 0; realloc_ok := true; uninit_u32 := 0;
                 uninit_hdr := uninit_hdr sample_env |} (host_of connecting))
    as (res & H & H1 & H2 & _).
  - intros c [<- | []]. reflexivity.
  - exists res. split; [exact H|]. rewrite H1, H2. split; reflexivity.
Defined.

(** ** utcp_timeout: retransmission *)

Lemma retransmit_no_loop (e : environ) (u : utcp) (c : utcp_connection) :
  retransmit e u c <> Diverges.
Proof.
  unfold retransmit. destruct (_ || _); [discriminate|].
  destruct (state c); discriminate.
Qed.

Lemma timeout_conn_no_loop (e : environ) (u : utcp) (c : utcp_connection)
  (next : timeval) : timeout_conn e u c next <> Diverges.
Proof.
  unfold timeout_conn.
  destruct (state_eqb (state c) CLOSED); [discriminate|].
  destruct (expired (conn_timeout c) (now e)); [discriminate|].
  destruct (expired (rtrx_timeout c) (now e)); [|discriminate].
  pose proof (retransmit_no_loop e u c).
  destruct (retransmit e u c); [discriminate | discriminate | contradiction].
Qed.

Lemma timeout_loop_aborts (e : environ) (u : utcp) (l : list utcp_connection)
  (c : utcp_connection) :
  In c l -> (forall nx, timeout_conn e u c nx = Aborted) ->
  forall next, timeout_loop e u l next = Aborted.
Proof.
  induction l as [|x l IH]; intros Hin Hc next; [destruct Hin|].
  cbn [timeout_loop].
  pose proof (timeout_conn_no_loop e u x next) as Hno.
  destruct Hin as [-> | Hin].
  - rewrite Hc. reflexivity.
  - destruct (timeout_conn e u x next) as [[[[c1 n1] e1] ev1]| |];
      [|reflexivity | contradiction].
    cbn [bind]. rewrite (IH Hin Hc). reflexivity.
Qed.

Lemma retransmits_reaches (e : environ) (u : utcp) (c : utcp_connection) (nx : timeval) :
  retransmits e c = true ->
  timeout_conn e u c nx
  = (rtrx <- retransmit e u c ;;
     let polls := if polled c
                  then [EvPoll (src c) (dst c) (uint32 (maxsndbufsize c - sndbufsize c))]
                  else [] in
     let next := if timerisset (conn_timeout c) && timer_lt (conn_timeout c) nx
                 then conn_timeout c else nx in
     let c := with_rtrx_timeout (add_sec (now e) 1) c in
     let next := if timerisset (rtrx_timeout c) && timer_lt (rtrx_timeout c) next
                 then rtrx_timeout c else next in
     Ret (Some c, next, None, rtrx ++ polls)).
Proof.
  unfold retransmits, timeout_conn. rewrite !andb_true_iff, !negb_true_iff.
  intros (((-> & ->) & ->) & ->). reflexivity.
Qed.

Lemma stuck_aborts (e : environ) (u : utcp) (c : utcp_connection) :
  In c (connections u) -> stuck e c = true -> utcp_timeout e u = Aborted.
Proof.
  intros Hin Hst. unfold stuck in Hst. apply andb_true_iff in Hst.
  destruct Hst as [Hr Hs]. unfold utcp_timeout. cbv zeta.
  rewrite (timeout_loop_aborts e u (connections u) c Hin); [reflexivity|].
  intros nx. rewrite (retransmits_reaches e u c nx Hr).
  assert (Hab : retransmit e u c = Aborted).
  { unfold retransmit. unfold retransmits in Hr.
    rewrite !andb_true_iff, !negb_true_iff in Hr. destruct Hr as (((H1 & _) & _) & H2).
    rewrite H1, H2. cbn [orb].
    destruct (state c); try discriminate Hs; reflexivity. }
  rewrite Hab. reflexivity.
Qed.

(** [retransmit] is not implemented for FIN_WAIT_2, CLOSE_WAIT, CLOSING,
    LAST_ACK and TIME_WAIT: [utcp_timeout] ends the process with
    [abort ()] exactly when the table holds a connection in one of these
    states whose retransmission timer has expired with data in flight (and
    whose user timeout has not).  In every other case it returns. *)
Theorem utcp_timeout_aborts (e : environ) (u : utcp) :
  (utcp_timeout e u = Aborted
   <-> exists c, In c (connections u) /\ retransmits e c = true
                 /\ (state c = FIN_WAIT_2 \/ state c = CLOSE_WAIT \/ state c = CLOSING
                     \/ state c = LAST_ACK \/ state c = TIME_WAIT))
  /\ ((exists res, utcp_timeout e u = Ret res)
      <-> forall c, In c (connections u) -> stuck e c = false).
Proof.
  assert (Hdec : (exists c, In c (connections u) /\ stuck e c = true)
                 \/ (forall c, In c (connections u) -> stuck e c = false)).
  { destruct (existsb (stuck e) (connections u)) eqn:E.
    - left. apply existsb_exists in E. exact E.
    - right. intros c Hin. destruct (stuck e c) eqn:Hc; [|reflexivity].
      assert (existsb (stuck e) (connections u) = true)
        by (apply existsb_exists; exists c; split; assumption).
      congruence. }
  split; split.
  - intros Hab. destruct Hdec as [(c & Hin & Hst) | Hok].
    + exists c. split; [exact Hin|]. unfold stuck in Hst. apply andb_true_iff in Hst.
      destruct Hst as [Hr Hs]. split; [exact Hr|].
      destruct (state c); try discriminate Hs; tauto.
    + destruct (utcp_timeout_unstuck e u Hok) as [res H]. congruence.
  - intros (c & Hin & Hr & Hs). apply (stuck_aborts e u c Hin).
    unfold stuck. rewrite Hr.
    destruct Hs as [-> | [-> | [-> | [-> | ->]]]]; reflexivity.
  - intros [res H]. destruct Hdec as [(c & Hin & Hst) | Hok]; [|exact Hok].
    rewrite (stuck_aborts e u c Hin Hst) in H. discriminate.
  - apply utcp_timeout_unstuck.
Qed.

(** A connection in CLOSE_WAIT with unacknowledged data, swept a second
    after the data went out. *)
Lemma utcp_timeout_aborts_witness :
  utcp_timeout sample_env (host_of half_closed) = Aborted.
Proof.
  apply (proj1 (utcp_timeout_aborts sample_env (host_of half_closed))).
  exists half_closed. split; [left; reflexivity|].
  split; [vm_compute; reflexivity|]. right. left. reflexivity.
Defined.

Lemma utcp_timeout_resends (e : environ) (u : utcp) (c : utcp_connection)
  (res : result utcp) :
  In c (connections u) ->
  retransmits e c = true ->
  state c = ESTABLISHED ->
  utcp_timeout e u = Ret res ->
  In (EvSend {| hdr_src := src c; hdr_dst := dst c; hdr_seq := snd_una c;
                hdr_ack := rcv_nxt c; hdr_wnd := hdr_wnd (uninit_hdr e);
                hdr_ctl := ACK; hdr_aux := hdr_aux (uninit_hdr e) |}
             (buf_read (sndbuf c) 0
                (Z.min (uint32 (seqdiff (snd_nxt c) (snd_una c))) (mtu u))))
     (r_trace res)
  /\ swept e c = with_rtrx_timeout (add_sec (now e) 1) c
  /\ In (swept e c) (connections (r_state res)).
Proof.
  intros Hin Hr Hs H.
  pose proof Hr as Hr'. unfold retransmits in Hr'.
  rewrite !andb_true_iff, !negb_true_iff in Hr'.
  destruct Hr' as (((H1 & H2) & H3) & H4).
  assert (Hsw : swept e c = with_rtrx_timeout (add_sec (now e) 1) c).
  { unfold swept. rewrite H1, H2, H4. reflexivity. }
  split; [|split; [exact Hsw|]].
  - unfold utcp_timeout, done in H. cbv zeta in H.
    destruct (timeout_loop e u (connections u) _) as [[[[l n] er] ev]| |] eqn:Hloop;
      try discriminate.
    cbn [bind] in H. injection H as <-. cbn [r_trace].
    destruct (timeout_loop_In e u _ c Hin _ _ _ _ _ Hloop)
      as (nx & c' & nx' & er' & ev' & Hc & Hincl).
    rewrite (retransmits_reaches e u c nx Hr) in Hc.
    unfold retransmit in Hc. rewrite H1, H4, Hs in Hc. cbn [orb state_eqb] in Hc.
    cbv zeta in Hc. cbn [bind] in Hc.
    change (state_eqb ESTABLISHED FIN_WAIT_1) with false in Hc.
    cbn [negb andb] in Hc. rewrite andb_false_r in Hc.
    injection Hc as _ _ _ <-. apply Hincl. cbn [app]. left.
    f_equal. rewrite min_as_test. reflexivity.
  - rewrite (utcp_timeout_table e u res H). cbn [connections with_connections].
    apply in_map. apply filter_In. split; [exact Hin|].
    unfold reaped. rewrite H1. reflexivity.
Qed.

(** In ESTABLISHED, when the retransmission timer has expired with data in
    flight, the segments sent in the sweep include the retransmission for
    the connection: the oldest unacknowledged bytes, from the start of the
    send buffer and at most an MTU of them, under sequence number
    [snd.una].  Its window and
    aux fields are never assigned.  [snd.nxt] stays where it was and the
    timer is set a second ahead. *)
Theorem utcp_timeout_retransmits (e : environ) (u : utcp) (c : utcp_connection) :
  In c (connections u) ->
  retransmits e c = true ->
  state c = ESTABLISHED ->
  (forall x, In x (connections u) -> stuck e x = false) ->
  exists res,
    utcp_timeout e u = Ret res
    /\ In (EvSend {| hdr_src := src c; hdr_dst := dst c; hdr_seq := snd_una c;
                     hdr_ack := rcv_nxt c; hdr_wnd := hdr_wnd (uninit_hdr e);
                     hdr_ctl := ACK; hdr_aux := hdr_aux (uninit_hdr e) |}
                  (buf_read (sndbuf c) 0
                     (Z.min (uint32 (seqdiff (snd_nxt c) (snd_una c))) (mtu u))))
          (r_trace res)
    /\ swept e c = with_rtrx_timeout (add_sec (now e) 1) c
    /\ In (swept e c) (connections (r_state res)).
Proof.
  intros Hin Hr Hs Hok. destruct (utcp_timeout_unstuck e u Hok) as [res H].
  exists res. split; [exact H|]. apply utcp_timeout_resends; assumption.
Qed.

(** 1500 bytes in flight and the timer expired: the first 1000 go out
    again. *)
Lemma utcp_timeout_retransmits_witness :
  exists res,
    utcp_timeout sample_env (host_of unacked) = Ret res
    /\ In (EvSend {| hdr_src := 32769; hdr_dst := 7; hdr_seq := 101; hdr_ack := 9001;
                     hdr_wnd := 0; hdr_ctl := ACK; hdr_aux := 0 |} (repeat 0 1000))
          (r_trace res).
Proof.
  assert (Hin : In unacked (connections (host_of unacked))) by (left; reflexivity).
  assert (Hr : retransmits sample_env unacked = true) by (vm_compute; reflexivity).
  assert (Hok : forall x, In x (connections (host_of unacked)) -> stuck sample_env x = false)
    by (intros x [<- | []]; reflexivity).
  destruct (utcp_timeout_retransmits sample_env (host_of unacked) unacked Hin Hr eq_refl Hok)
    as (res & H & Hsent & _).
  exists res. split; [exact H | exact Hsent].
Defined.

(** ** utcp_timeout: the value returned *)

Lemma timer_lt_not_later (a b : timeval) : timer_lt a b = true -> not_later a b.
Proof.
  unfold timer_lt, not_later.
  destruct (Z.eqb_spec (tv_sec a) (tv_sec b)); rewrite Z.ltb_lt; lia.
Qed.

Lemma not_later_refl (a : timeval) : not_later a a.
Proof. unfold not_later. lia. Qed.

Lemma not_later_trans (a b c : timeval) : not_later a b -> not_later b c -> not_later a c.
Proof. unfold not_later. lia. Qed.

Lemma timeout_conn_next (e : environ) (u : utcp) (c : utcp_connection) (next : timeval)
  (c' : option utcp_connection) (next' : timeval) (err : option errno_t)
  (evs : list event) :
  0 <= tv_sec (now e) -> normal (now e) -> normal (conn_timeout c) -> normal next ->
  timeout_conn e u c next = Ret (c', next', err, evs) ->
  normal next' /\ not_later next' next
  /\ (state c <> CLOSED -> expired (conn_timeout c) (now e) = false ->
      snd_nxt c <> snd_una c -> not_later next' (add_sec (now e) 1)).
Proof.
  unfold timeout_conn. intros Hsec Hnow Hct Hnext H.
  destruct (state_eqb (state c) CLOSED) eqn:Hcl.
  - apply state_eqb_eq in Hcl. injection H as _ <- _ _.
    split; [exact Hnext|]. split; [apply not_later_refl | contradiction].
  - destruct (expired (conn_timeout c) (now e)).
    + injection H as _ <- _ _.
      split; [exact Hnext|]. split; [apply not_later_refl | discriminate].
    + match type of H with bind ?m _ = _ => destruct m as [rt| |] end; try discriminate.
      cbn [bind] in H. injection H as _ <- _ _.
      set (n1 := if timerisset (conn_timeout c) && timer_lt (conn_timeout c) next
                 then conn_timeout c else next).
      assert (Hn1 : normal n1 /\ not_later n1 next).
      { subst n1. destruct (timerisset (conn_timeout c)); cbn [andb];
          [|split; [exact Hnext | apply not_later_refl]].
        destruct (timer_lt (conn_timeout c) next) eqn:E;
          [|split; [exact Hnext | apply not_later_refl]].
        split; [exact Hct | apply timer_lt_not_later; exact E]. }
      destruct Hn1 as [Hn1 Hle1].
      destruct (Z.eqb_spec (snd_nxt c) (snd_una c)) as [Heq|Hne]; cbn [negb]; fields.
      * change (timerisset timerclear) with false. cbn [andb].
        split; [exact Hn1|]. split; [exact Hle1 | contradiction].
      * assert (Hset : timerisset (add_sec (now e) 1) = true).
        { unfold timerisset, add_sec. cbn [tv_sec tv_usec].
          destruct (Z.eqb_spec (tv_sec (now e) + 1) 0); [lia | reflexivity]. }
        rewrite Hset. cbn [andb].
        destruct (timer_lt (add_sec (now e) 1) n1) eqn:E.
        -- split; [exact Hnow|]. split; [|intros; apply not_later_refl].
           eapply not_later_trans; [apply timer_lt_not_later; exact E | exact Hle1].
        -- split; [exact Hn1|]. split; [exact Hle1|]. intros _ _ _.
           revert E. unfold timer_lt, not_later, add_sec. cbn [tv_sec tv_usec].
           destruct (Z.eqb_spec (tv_sec (now e) + 1) (tv_sec n1)); rewrite Z.ltb_ge; lia.
Qed.

Lemma timeout_loop_next (e : environ) (u : utcp) (l : list utcp_connection) :
  0 <= tv_sec (now e) -> normal (now e) ->
  Forall (fun c => normal (conn_timeout c)) l ->
  forall next l' next' err evs,
    normal next ->
    timeout_loop e u l next = Ret (l', next', err, evs) ->
    normal next' /\ not_later next' next
    /\ ((exists c, In c l /\ state c <> CLOSED /\ expired (conn_timeout c) (now e) = false
                   /\ snd_nxt c <> snd_una c) ->
        not_later next' (add_sec (now e) 1)).
Proof.
  intros Hsec Hnow Hl. induction Hl as [|c l Hc Hl IH];
    intros next l' next' err evs Hnext H; cbn [timeout_loop] in H.
  - injection H as _ <- _ _. split; [exact Hnext|]. split; [apply not_later_refl|].
    intros (c & [] & _).
  - destruct (timeout_conn e u c next) as [[[[c1 n1] e1] ev1]| |] eqn:Hc1; try discriminate.
    cbn [bind] in H.
    destruct (timeout_loop e u l n1) as [[[[l2 n2] e2] ev2]| |] eqn:Hl2; try discriminate.
    cbn [bind] in H. injection H as _ <- _ _.
    apply timeout_conn_next in Hc1; try assumption. destruct Hc1 as (Hn1 & Hle1 & Hin1).
    apply IH in Hl2; [|exact Hn1]. destruct Hl2 as (Hn2 & Hle2 & Hin2).
    split; [exact Hn2|]. split; [eapply not_later_trans; eassumption|].
    intros (x & [<- | Hx] & H1 & H2 & H3).
    + eapply not_later_trans; [exact Hle2 | apply Hin1; assumption].
    + apply Hin2. exists x. tauto.
Qed.

Lemma interval_bound (t now0 : timeval) (b : Z) :
  normal t -> normal now0 -> 0 <= b -> not_later t (add_sec now0 b) ->
  0 <= (if tv_sec (timersub t now0) <? 0 then 0
        else tv_sec (timersub t now0) * 1000 + Z.quot (tv_usec (timersub t now0)) 1000)
    <= b * 1000.
Proof.
  unfold normal, not_later, add_sec, timersub. cbn [tv_sec tv_usec].
  intros Ht Hn Hb Hle.
  destruct (Z.ltb_spec (tv_usec t - tv_usec now0) 0) as [Hu|Hu]; cbn [tv_sec tv_usec].
  - destruct (Z.ltb_spec (tv_sec t - tv_sec now0 - 1) 0); [lia|].
    rewrite Z.quot_div_nonneg by lia.
    assert (0 <= (tv_usec t - tv_usec now0 + 1000000) / 1000 < 1000)
      by (split; [apply Z.div_pos; lia | apply Z.div_lt_upper_bound; lia]).
    lia.
  - destruct (Z.ltb_spec (tv_sec t - tv_sec now0) 0); [lia|].
    rewrite Z.quot_div_nonneg by lia.
    assert (0 <= (tv_usec t - tv_usec now0) / 1000 < 1000)
      by (split; [apply Z.div_pos; lia | apply Z.div_lt_upper_bound; lia]).
    destruct Hle as [Hle | [Hle1 Hle2]]; [lia|].
    assert (tv_usec t - tv_usec now0 = 0) by lia.
    replace (tv_usec t - tv_usec now0) with 0 by lia. cbn. lia.
Qed.

Lemma utcp_timeout_value (e : environ) (u : utcp) (res : result utcp) :
  0 <= tv_sec (now e) -> normal (now e) ->
  (forall c, In c (connections u) -> normal (conn_timeout c)) ->
  utcp_timeout e u = Ret res ->
  0 <= r_val res <= 3600000
  /\ ((exists c, In c (connections u) /\ state c <> CLOSED
                 /\ expired (conn_timeout c) (now e) = false
                 /\ snd_nxt c <> snd_una c) -> r_val res <= 1000)
  /\ (connections u = [] -> r_val res = 3600000).
Proof.
  intros Hsec Hnow Hl H. unfold utcp_timeout, done in H. cbv zeta in H.
  destruct (timeout_loop e u (connections u) _) as [[[[l n] er] ev]| |] eqn:Hloop;
    try discriminate.
  cbn [bind] in H. injection H as <-. cbn [r_val].
  assert (Hl' : Forall (fun c => normal (conn_timeout c)) (connections u))
    by (apply Forall_forall; exact Hl).
  assert (Hinit : normal {| tv_sec := tv_sec (now e) + 3600; tv_usec := tv_usec (now e) |})
    by exact Hnow.
  pose proof (timeout_loop_next e u (connections u) Hsec Hnow Hl' _ _ _ _ _ Hinit Hloop)
    as (Hn & Hle & Hle1).
  split; [|split].
  - apply (interval_bound n (now e) 3600 Hn Hnow); [lia | exact Hle].
  - intros Hex. specialize (Hle1 Hex).
    apply (interval_bound n (now e) 1 Hn Hnow); [lia | exact Hle1].
  - intros Hempty. rewrite Hempty in Hloop. cbn [timeout_loop] in Hloop.
    injection Hloop as _ <- _ _. unfold timersub. cbn [tv_sec tv_usec].
    rewrite Z.sub_diag. cbn [Z.ltb Z.compare tv_sec tv_usec].
    replace (tv_sec (now e) + 3600 - tv_sec (now e)) with 3600 by lia. reflexivity.
Qed.

(** With the clock and the user timeouts of the table in range,
    [utcp_timeout], when [retransmit] does not abort, returns a number of
    milliseconds between 0 and 3600000; it is at most 1000 when an open
    connection whose user timeout has not expired has data in flight, and
    3600000 when the table is empty. *)
Theorem utcp_timeout_interval (e : environ) (u : utcp) :
  0 <= tv_sec (now e) -> normal (now e) ->
  (forall c, In c (connections u) -> normal (conn_timeout c)) ->
  (forall c, In c (connections u) -> stuck e c = false) ->
  exists res,
    utcp_timeout e u = Ret res
    /\ 0 <= r_val res <= 3600000
    /\ ((exists c, In c (connections u) /\ state c <> CLOSED
                   /\ expired (conn_timeout c) (now e) = false
                   /\ snd_nxt c <> snd_una c) -> r_val res <= 1000)
    /\ (connections u = [] -> r_val res = 3600000).
Proof.
  intros Hsec Hnow Hl Hok. destruct (utcp_timeout_unstuck e u Hok) as [res H].
  exists res. split; [exact H|]. apply utcp_timeout_value; assumption.
Qed.

(** The sweep of a host with unacknowledged data asks to be run again
    within a second. *)
Lemma utcp_timeout_interval_witness :
  exists res,
    utcp_timeout sample_env (host_of unacked) = Ret res /\ 0 <= r_val res <= 1000.
Proof.
  assert (Hsec : 0 <= tv_sec (now sample_env)) by (vm_compute; discriminate).
  assert (Hnow : normal (now sample_env)) by (unfold normal; cbn; lia).
  assert (Hl : forall c, In c (connections (host_of unacked)) -> normal (conn_timeout c)).
  { intros c [<- | []]. unfold normal. cbn. lia. }
  assert (Hok : forall x, In x (connections (host_of unacked)) -> stuck sample_env x = false)
    by (intros x [<- | []]; reflexivity).
  destruct (utcp_timeout_interval sample_env (host_of unacked) Hsec Hnow Hl Hok)
    as (res & H & H1 & H2 & _).
  exists res. split; [exact H|].
  split; [tauto|]. apply H2. exists unacked.
  split; [left; reflexivity|]. split; [discriminate|].
  split; [reflexivity | vm_compute; discriminate].
Defined.

(** ** utcp_recv: segments that carry RST *)

Lemma silent_nil : silent [].
Proof. intros h d []. Qed.

Lemma recv_rst_silent (c : utcp_connection) (h : hdr) :
  match recv_rst c h with Ret r => silent (r_trace r) | _ => True end.
Proof.
  unfold recv_rst. cbv zeta.
  destruct (state c); try exact I;
    repeat match goal with
      | |- context [if ?b then _ else _] => destruct b
      | |- context [match recv ?x with Some _ => _ | None => _ end] => destruct (recv x)
      end; cbn [done r_trace]; try apply silent_nil;
    intros h' d' [Hin | []]; discriminate.
Qed.

Lemma utcp_recv_conn_rst_silent (e : environ) (u : utcp) (c : utcp_connection) (h : hdr)
  (data : list Z) (len : Z) (r : result (option utcp_connection)) :
  has_flag RST h = true ->
  utcp_recv_conn e u c h data len = Ret r -> silent (r_trace r).
Proof.
  intros Hrst. unfold utcp_recv_conn. rewrite Hrst.
  assert (Hbody :
    (if negb (acceptable c h) then done 0 None (Some c) []
     else
       let c0 := with_snd_wnd (hdr_wnd h) c in
       if invalid_ack c0 h then done 0 None (Some c0) [] else recv_rst c0 h) = Ret r ->
    silent (r_trace r)).
  { destruct (negb (acceptable c h)); [intros [= <-]; apply silent_nil|].
    cbv zeta. destruct (invalid_ack _ h); [intros [= <-]; apply silent_nil|].
    intros H. pose proof (recv_rst_silent (with_snd_wnd (hdr_wnd h) c) h) as Hs.
    rewrite H in Hs. exact Hs. }
  destruct (state c); try exact Hbody; try discriminate.
  intros [= <-]. apply silent_nil.
Qed.

(** A datagram that carries RST is never answered: whatever the host and
    the connection it matches or does not match, nothing is handed to
    [send]. *)
Theorem utcp_recv_rst_silent (sndbufsz maxsndbufsz : Z) (e : environ) (u : utcp)
  (bytes : list Z) (len : Z) (res : result utcp) :
  has_flag RST (parse_hdr bytes) = true ->
  utcp_recv sndbufsz maxsndbufsz e u (Some bytes) len = Ret res ->
  silent (r_trace res).
Proof.
  intros Hrst H. unfold utcp_recv, done in H.
  destruct (len =? 0); [injection H as <-; apply silent_nil|].
  destruct (len <? sizeof_hdr); [injection H as <-; apply silent_nil|].
  cbv zeta in H.
  destruct (negb (known_flags (parse_hdr bytes))); [injection H as <-; apply silent_nil|].
  destruct (find_connection u _ _) as [[c|]| |] eqn:Hf; try discriminate; cbn [bind] in H.
  - destruct (utcp_recv_conn e u c (parse_hdr bytes) _ _) as [r| |] eqn:Hr;
      try discriminate.
    cbn [bind] in H. injection H as <-. cbn [r_trace].
    eapply utcp_recv_conn_rst_silent; eassumption.
  - rewrite Hrst in H. injection H as <-. apply silent_nil.
Qed.

(** The peer resets [established]: the connection is closed and nothing is
    sent back. *)
Lemma utcp_recv_rst_silent_witness :
  exists res,
    utcp_recv 4096 131072 sample_env (host_of established)
      (Some (hdr_bytes (from_peer 9001 0 RST))) 20 = Ret res
    /\ map state (connections (r_state res)) = [CLOSED]
    /\ silent (r_trace res).
Proof.
  assert (H : { res : result utcp |
                utcp_recv 4096 131072 sample_env (host_of established)
                  (Some (hdr_bytes (from_peer 9001 0 RST))) 20 = Ret res
                /\ map state (connections (r_state res)) = [CLOSED] }).
  { eexists. split; vm_compute; reflexivity. }
  destruct H as (res & H1 & H2). exists res. split; [exact H1|]. split; [exact H2|].
  apply (utcp_recv_rst_silent 4096 131072 sample_env (host_of established)
           (hdr_bytes (from_peer 9001 0 RST)) 20 res); [vm_compute; reflexivity | exact H1].
Defined.

(** ** utcp_recv: datagrams that match no connection *)

(** A datagram without RST that matches no connection, on a host that is
    not listening or for a segment that is not a plain SYN or that
    [pre_accept] refuses, is answered by exactly one reset and leaves the
    host as it is.  The reset has the ports swapped and window 0; for a
    segment with ACK it is a RST with the sequence number the segment
    acknowledged; for one without, a RST|ACK with sequence number 0 that
    acknowledges [hdr.seq + 1], whatever the length of the payload. *)
Theorem utcp_recv_refuses (sndbufsz maxsndbufsz : Z) (e : environ) (u : utcp)
  (bytes : list Z) (len : Z) :
  sizeof_hdr <= len ->
  known_flags (parse_hdr bytes) = true ->
  has_flag RST (parse_hdr bytes) = false ->
  find_connection u (hdr_dst (parse_hdr bytes)) (hdr_src (parse_hdr bytes)) = Ret None ->
  has_flag SYN (parse_hdr bytes) = false \/ has_flag ACK (parse_hdr bytes) = true
  \/ accept u = None
  \/ (exists f, pre_accept u = Some f /\ f (hdr_dst (parse_hdr bytes)) = false) ->
  utcp_recv sndbufsz maxsndbufsz e u (Some bytes) len
  = Ret {| r_val := 0; r_errno := None; r_state := u;
           r_trace :=
             [EvSend
                (let h := parse_hdr bytes in
                 if has_flag ACK h then
                   {| hdr_src := hdr_dst h; hdr_dst := hdr_src h; hdr_seq := hdr_ack h;
                      hdr_ack := hdr_ack h; hdr_wnd := 0; hdr_ctl := RST;
                      hdr_aux := hdr_aux h |}
                 else
                   {| hdr_src := hdr_dst h; hdr_dst := hdr_src h; hdr_seq := 0;
                      hdr_ack := uint32 (hdr_seq h + 1); hdr_wnd := 0;
                      hdr_ctl := Z.lor RST ACK; hdr_aux := hdr_aux h |}) []] |}.
Proof.
  intros Hlen Hk Hrst Hf Hno. unfold utcp_recv, done, sizeof_hdr in *.
  destruct (Z.eqb_spec len 0); [lia|].
  destruct (Z.ltb_spec len 20); [lia|].
  cbv zeta. rewrite Hk. cbn [negb]. rewrite Hf. cbn [bind]. rewrite Hrst.
  assert (Hreset : reset_hdr (parse_hdr bytes) 1
                   = (if has_flag ACK (parse_hdr bytes) then
                        {| hdr_src := hdr_dst (parse_hdr bytes);
                           hdr_dst := hdr_src (parse_hdr bytes);
                           hdr_seq := hdr_ack (parse_hdr bytes);
                           hdr_ack := hdr_ack (parse_hdr bytes); hdr_wnd := 0;
                           hdr_ctl := RST; hdr_aux := hdr_aux (parse_hdr bytes) |}
                      else
                        {| hdr_src := hdr_dst (parse_hdr bytes);
                           hdr_dst := hdr_src (parse_hdr bytes); hdr_seq := 0;
                           hdr_ack := uint32 (hdr_seq (parse_hdr bytes) + 1); hdr_wnd := 0;
                           hdr_ctl := Z.lor RST ACK;
                           hdr_aux := hdr_aux (parse_hdr bytes) |})) by reflexivity.
  rewrite Hreset.
  destruct Hno as [-> | [-> | [-> | (f & -> & ->)]]].
  - reflexivity.
  - rewrite andb_false_r. reflexivity.
  - rewrite andb_false_r. reflexivity.
  - destruct (_ && _); reflexivity.
Qed.

(** A stray data segment for a client that knows no such peer. *)
Lemma utcp_recv_refuses_witness :
  utcp_recv 4096 131072 sample_env client_host
    (Some (hdr_bytes {| hdr_src := 9; hdr_dst := 32769; hdr_seq := 500; hdr_ack := 0;
                        hdr_wnd := 0; hdr_ctl := 0; hdr_aux := 0 |} ++ [1; 2; 3])) 23
  = Ret {| r_val := 0; r_errno := None; r_state := client_host;
           r_trace := [EvSend {| hdr_src := 32769; hdr_dst := 9; hdr_seq := 0;
                                 hdr_ack := 501; hdr_wnd := 0; hdr_ctl := 10;
                                 hdr_aux := 0 |} []] |}.
Proof.
  apply (utcp_recv_refuses 4096 131072 sample_env client_host
           (hdr_bytes {| hdr_src := 9; hdr_dst := 32769; hdr_seq := 500; hdr_ack := 0;
                         hdr_wnd := 0; hdr_ctl := 0; hdr_aux := 0 |} ++ [1; 2; 3]) 23).
  - vm_compute. discriminate.
  - vm_compute. reflexivity.
  - vm_compute. reflexivity.
  - reflexivity.
  - left. vm_compute. reflexivity.
Defined.

Lemma allocate_connection_free (sndbufsz maxsndbufsz : Z) (e : environ) (u : utcp)
  (s d : Z) :
  s <> 0 -> find_connection u s d = Ret None ->
  exists c u', allocate_connection sndbufsz maxsndbufsz e u s d = Ret (Some c, None, u').
Proof.
  intros Hs Hf. unfold allocate_connection.
  destruct (Z.eqb_spec s 0); [contradiction|]. cbn [negb]. rewrite Hf. cbn [bind].
  eexists _, _. reflexivity.
Qed.

(** The passive open, read off the code of [utcp_recv]. *)
Lemma utcp_recv_passive_open (sndbufsz maxsndbufsz : Z) (e : environ) (u : utcp)
  (bytes : list Z) (len : Z) :
  let h := parse_hdr bytes in
  sizeof_hdr <= len ->
  known_flags h = true ->
  has_flag RST h = false -> has_flag SYN h = true -> has_flag ACK h = false ->
  accept u <> None ->
  (forall f, pre_accept u = Some f -> f (hdr_dst h) = true) ->
  hdr_dst h <> 0 ->
  find_connection u (hdr_dst h) (hdr_src h) = Ret None ->
  exists res,
    utcp_recv sndbufsz maxsndbufsz e u (Some bytes) len = Ret res
    /\ r_val res = 0 /\ r_errno res = None
    /\ find_connection (r_state res) (hdr_dst h) (hdr_src h)
       = Ret (Some (with_state SYN_RECEIVED
                     (with_rcv_nxt (uint32 (hdr_seq h + 1))
                       (with_rcv_irs (hdr_seq h)
                         (with_snd_wnd (hdr_wnd h)
                           (fresh_connection sndbufsz maxsndbufsz e u
                              (hdr_dst h) (hdr_src h)))))))
    /\ nconnections (r_state res) = nconnections u + 1
    /\ r_trace res
       = [EvSend {| hdr_src := hdr_dst h; hdr_dst := hdr_src h;
                    hdr_seq := uint32 (rand_iss e); hdr_ack := uint32 (hdr_seq h + 1);
                    hdr_wnd := hdr_wnd h; hdr_ctl := Z.lor SYN ACK;
                    hdr_aux := hdr_aux h |} []]
    /\ accept (r_state res) = accept u /\ mtu (r_state res) = mtu u.
Proof.
  intros h Hlen Hk Hrst Hsyn Hack Hacc Hpre Hdst Hf.
  destruct (allocate_connection_free sndbufsz maxsndbufsz e u _ _ Hdst Hf)
    as (c0 & u0 & Ha).
  pose proof (allocate_connection_spec _ _ _ _ _ _ _ _ _ Ha)
    as (_ & Hc & Hl & Hacc0 & _ & Hmtu0 & _ & _ & Habs & Hsrc & Hs & _).
  specialize (Hs Hdst). rewrite Hs in Hc.
  unfold utcp_recv, done, sizeof_hdr in *.
  destruct (Z.eqb_spec len 0); [lia|].
  destruct (Z.ltb_spec len 20); [lia|].
  cbv zeta. fold h. rewrite Hk. cbn [negb]. rewrite Hf. cbn [bind].
  rewrite Hrst, Hsyn, Hack. cbn [negb andb].
  destruct (accept u) as [fa|]; [|contradiction].
  assert (Hp : match pre_accept u with
               | Some f => negb (f (hdr_dst h))
               | None => false
               end = false).
  { destruct (pre_accept u) as [g|]; [|reflexivity]. rewrite (Hpre g eq_refl). reflexivity. }
  rewrite Hp, Ha. cbn [bind]. rewrite set_state_other by discriminate.
  eexists. split; [reflexivity|]. cbn [r_val r_errno r_state r_trace].
  split; [reflexivity|]. split; [reflexivity|].
  assert (Hd : dst c0 = hdr_src h) by (rewrite Hc; reflexivity).
  split; [|split; [|split; [|split]]]; [| | |exact Hacc0|exact Hmtu0].
  - rewrite find_connection_found by exact Hdst.
    unfold put_conn. cbn [connections with_connections]. rewrite Hl. f_equal.
    rewrite <- Hc.
    match goal with |- find _ (update_conn ?c2 _) = _ =>
      change (find (same_key (src c2) (dst c2))
                (update_conn c2 (insert_conn c0 (connections u))) = Some c2)
      || (rewrite <- Hs, <- Hd;
          apply (find_update_same c2 c0); fields; apply find_insert_same; exact Habs)
    end.
  - rewrite nconnections_put.
    destruct u0 as [a1 a2 a3 a4 a5 a6 a7]. cbn [connections] in Hl. subst a6.
    unfold nconnections. cbn [connections]. rewrite length_insert. lia.
  - fields. rewrite Hs, Hd.
    assert (Hiss : snd_iss c0 = uint32 (rand_iss e)) by (rewrite Hc; reflexivity).
    rewrite Hiss. reflexivity.
Qed.

(** A plain SYN for ports no connection has and a destination port other
    than 0, on a host with an [accept] callback whose [pre_accept] (if any)
    lets the port pass, opens a connection: it is entered in the table under (hdr.dst, hdr.src) in
    SYN_RECEIVED with [rcv.nxt = hdr.seq + 1] and no user timeout, and one
    segment is sent, the SYN|ACK with the new initial sequence number that
    acknowledges [hdr.seq + 1].  The window and aux fields of the reply are
    those of the SYN; a payload of the SYN is not delivered. *)
Theorem utcp_recv_listens (sndbufsz maxsndbufsz : Z) (e : environ) (u : utcp)
  (bytes : list Z) (len : Z) :
  let h := parse_hdr bytes in
  sizeof_hdr <= len ->
  known_flags h = true ->
  has_flag RST h = false -> has_flag SYN h = true -> has_flag ACK h = false ->
  accept u <> None ->
  (forall f, pre_accept u = Some f -> f (hdr_dst h) = true) ->
  hdr_dst h <> 0 ->
  find_connection u (hdr_dst h) (hdr_src h) = Ret None ->
  exists res,
    utcp_recv sndbufsz maxsndbufsz e u (Some bytes) len = Ret res
    /\ r_val res = 0 /\ r_errno res = None
    /\ find_connection (r_state res) (hdr_dst h) (hdr_src h)
       = Ret (Some (with_state SYN_RECEIVED
                     (with_rcv_nxt (uint32 (hdr_seq h + 1))
                       (with_rcv_irs (hdr_seq h)
                         (with_snd_wnd (hdr_wnd h)
                           (fresh_connection sndbufsz maxsndbufsz e u
                              (hdr_dst h) (hdr_src h)))))))
    /\ nconnections (r_state res) = nconnections u + 1
    /\ r_trace res
       = [EvSend {| hdr_src := hdr_dst h; hdr_dst := hdr_src h;
                    hdr_seq := uint32 (rand_iss e); hdr_ack := uint32 (hdr_seq h + 1);
                    hdr_wnd := hdr_wnd h; hdr_ctl := Z.lor SYN ACK;
                    hdr_aux := hdr_aux h |} []].
Proof.
  intros h Hlen Hk Hrst Hsyn Hack Hacc Hpre Hdst Hf.
  destruct (utcp_recv_passive_open sndbufsz maxsndbufsz e u bytes len
              Hlen Hk Hrst Hsyn Hack Hacc Hpre Hdst Hf)
    as (res & H1 & H2 & H3 & H4 & H5 & H6 & _).
  exists res. split; [exact H1|]. split; [exact H2|]. split; [exact H3|].
  split; [exact H4|]. split; [exact H5 | exact H6].
Qed.

(** The server of the samples is handed the client's SYN. *)
Lemma utcp_recv_listens_witness :
  exists res,
    utcp_recv 4096 131072 server_env server_host (Some syn_datagram) 20 = Ret res
    /\ map state (connections (r_state res)) = [SYN_RECEIVED]
    /\ datagrams (r_trace res) = [synack_datagram].
Proof.
  destruct (utcp_recv_listens 4096 131072 server_env server_host syn_datagram 20)
    as (res & H & _ & _ & _ & _ & Ht).
  - vm_compute. discriminate.
  - vm_compute. reflexivity.
  - vm_compute. reflexivity.
  - vm_compute. reflexivity.
  - vm_compute. reflexivity.
  - cbv. discriminate.
  - intros f Hf. cbv in Hf. discriminate Hf.
  - vm_compute. discriminate.
  - reflexivity.
  - exists res. split; [exact H|]. split.
    + assert (E : Ret res = Ret res) by reflexivity. rewrite <- H in E at 1.
      vm_compute in E. injection E as <-. reflexivity.
    + rewrite Ht. vm_compute. reflexivity.
Defined.

(** ** utcp_recv: a valid segment for a connection *)

Ltac fields_in H :=
  cbn [priv reapable nodelay keepalive src dst state snd_una snd_nxt snd_wnd snd_iss
       snd_last snd_cwnd rcv_nxt rcv_wnd rcv_irs dupack recv poll conn_timeout
       rtrx_timeout sndbuf sndbufsize maxsndbufsize
       with_priv with_reapable with_nodelay with_keepalive with_state with_snd_una
       with_snd_nxt with_snd_wnd with_snd_last with_snd_cwnd with_rcv_nxt with_rcv_irs
       with_dupack with_recv with_poll with_conn_timeout with_rtrx_timeout with_sndbuf
       with_sndbufsize with_maxsndbufsize] in H.

(** The path of a segment that passes the checks of stage 1 and carries no
    RST. *)
Lemma utcp_recv_conn_valid (e : environ) (u : utcp) (c : utcp_connection) (h : hdr)
  (data : list Z) (len : Z) :
  state c <> CLOSED -> state c <> LISTEN ->
  acceptable c h = true -> invalid_ack c h = false -> has_flag RST h = false ->
  utcp_recv_conn e u c h data len
  = (c1 <- recv_advance e u (with_snd_wnd (hdr_wnd h) c) h len ;;
     recv_syn e u c1 h data len (uint32 (seqdiff (hdr_ack h) (snd_una c)))
              (rcv_nxt c) None []).
Proof.
  intros Hc Hl Ha Hi Hr. unfold utcp_recv_conn. rewrite Ha. cbn [negb]. cbv zeta.
  change (invalid_ack (with_snd_wnd (hdr_wnd h) c) h) with (invalid_ack c h).
  rewrite Hi, Hr. destruct (state c); try contradiction; reflexivity.
Qed.

(** What stages 3 and 4 keep. *)
Lemma recv_advance_keeps (e : environ) (u : utcp) (c c1 : utcp_connection) (h : hdr)
  (len : Z) :
  recv_advance e u c h len = Ret c1 ->
  src c1 = src c /\ dst c1 = dst c /\ rcv_nxt c1 = rcv_nxt c /\ recv c1 = recv c
  /\ reapable c1 = reapable c /\ snd_wnd c1 = snd_wnd c /\ snd_nxt c1 = snd_nxt c
  /\ snd_last c1 = snd_last c
  /\ state c1 = state_after_ack c h.
Proof.
  intros H. apply recv_advance_inv in H. unfold state_after_ack.
  destruct H as [(Hpos & _ & ->) | (Hz & ->)].
  - destruct (advanced_pos _ _ Hpos) as [-> _].
    unfold advanced_connection. fields. repeat split.
  - rewrite Hz. cbn [Z.eqb]. destruct (len =? 0); fields; repeat split.
Qed.

Lemma ack_segment_acks (c : utcp_connection) (evs : list event) :
  Forall (ack_segment c) evs -> Forall (acks (src c) (dst c) (rcv_nxt c)) evs.
Proof.
  apply Forall_impl. intros ev (h & d & H1 & H2 & H3 & H4 & H5).
  exists h, d. tauto.
Qed.

(** What the label [ack:] gives when [rcv.nxt] has moved. *)
Lemma goto_ack_moved (u : utcp) (c : utcp_connection) (prev : Z) (err : option errno_t)
  (evs : list event) (res : result (option utcp_connection)) :
  prev <> rcv_nxt c ->
  goto_ack u c prev err evs = Ret res ->
  r_val res = 0 /\ r_errno res = err
  /\ exists c' out,
       r_state res = Some c' /\ c' = with_snd_nxt (snd_nxt c') c
       /\ r_trace res = evs ++ out /\ out <> []
       /\ Forall (acks (src c) (dst c) (rcv_nxt c)) out.
Proof.
  intros Hne H. unfold goto_ack in H.
  destruct (Z.eqb_spec prev (rcv_nxt c)); [contradiction|]. cbn [negb] in H.
  destruct (ack u c true) as [[c' out]| |] eqn:Hack; try discriminate.
  cbn [bind] in H. injection H as <-. cbn [r_val r_errno r_state r_trace].
  split; [reflexivity|]. split; [reflexivity|].
  exists c', out. pose proof (ack_sends _ _ _ _ Hack) as Hne'.
  apply ack_frame in Hack. destruct Hack as [Hc' Hall].
  split; [reflexivity|]. split; [exact Hc'|]. split; [reflexivity|].
  split; [exact Hne' | apply ack_segment_acks; exact Hall].
Qed.

Lemma uint32_moves (a k : Z) : 0 <= a < 2 ^ 32 -> 0 < k < 2 ^ 32 -> a <> uint32 (a + k).
Proof.
  intros Ha Hk. unfold uint32.
  destruct (Z.lt_ge_cases (a + k) (2 ^ 32)).
  - rewrite Z.mod_small by lia. lia.
  - replace (a + k) with (a + k - 2 ^ 32 + 1 * 2 ^ 32) by lia.
    rewrite Z.mod_add by lia. rewrite Z.mod_small by lia. lia.
Qed.

(** ** The stages a segment without SYN passes untouched *)

Lemma recv_syn_pass (e : environ) (u : utcp) (c : utcp_connection) (h : hdr)
  (data : list Z) (len adv p : Z) (err : option errno_t) (evs : list event) :
  has_flag SYN h = false ->
  recv_syn e u c h data len adv p err evs = recv_handshake e u c h data len adv p err evs.
Proof. intros H. unfold recv_syn. rewrite H. reflexivity. Qed.

Lemma recv_syn_synack (e : environ) (u : utcp) (c : utcp_connection) (h : hdr)
  (data : list Z) (len adv p : Z) (err : option errno_t) (evs : list event) :
  has_flag SYN h = true -> state c = SYN_SENT -> adv <> 0 ->
  recv_syn e u c h data len adv p err evs
  = recv_handshake e u
      (with_rcv_nxt (uint32 (hdr_seq h + 1))
         (with_conn_timeout timerclear
            (with_state ESTABLISHED
               (with_rcv_nxt (hdr_seq h) (with_rcv_irs (hdr_seq h) c)))))
      h data len adv p err evs.
Proof.
  intros H Hs Ha. unfold recv_syn. rewrite H, Hs.
  destruct (Z.eqb_spec adv 0); [contradiction|]. reflexivity.
Qed.

Lemma recv_handshake_pass (e : environ) (u : utcp) (c : utcp_connection) (h : hdr)
  (data : list Z) (len adv p : Z) (err : option errno_t) (evs : list event) :
  state c <> SYN_RECEIVED ->
  recv_handshake e u c h data len adv p err evs = recv_data e u c h data len p err evs.
Proof.
  intros H. unfold recv_handshake.
  destruct (state_eqb (state c) SYN_RECEIVED) eqn:E; [|reflexivity].
  apply state_eqb_eq in E. contradiction.
Qed.

(** ** When the path of a valid segment returns *)

Lemma ordered_after_ack (una nxt last ak : Z) :
  0 <= seqdiff nxt una -> 0 <= seqdiff last nxt ->
  seqdiff nxt una + seqdiff last nxt < 2 ^ 31 ->
  0 <= seqdiff ak una -> seqdiff ak nxt <= 0 ->
  seqdiff ak una <= seqdiff last una
  /\ 0 <= seqdiff nxt ak
  /\ seqdiff nxt ak + seqdiff last nxt < 2 ^ 31.
Proof.
  unfold seqdiff, int32.
  change (2 ^ 31) with 2147483648. change (2 ^ 32) with 4294967296.
  intros. Z.div_mod_to_equations. lia.
Qed.

Lemma invalid_ack_false (c : utcp_connection) (h : hdr) :
  has_flag ACK h = true -> invalid_ack c h = false ->
  seqdiff (hdr_ack h) (snd_nxt c) <= 0 /\ 0 <= seqdiff (hdr_ack h) (snd_una c).
Proof.
  unfold invalid_ack. intros ->. cbn [andb]. rewrite orb_false_iff.
  intros [H1 H2]. split.
  - destruct (Z.gtb_spec (seqdiff (hdr_ack h) (snd_nxt c)) 0); [discriminate | lia].
  - destruct (Z.ltb_spec (seqdiff (hdr_ack h) (snd_una c)) 0); [discriminate | lia].
Qed.

(** Stages 3 and 4 return for an acknowledgement in range, and keep the
    send sequence numbers in order. *)
Lemma recv_advance_returns (e : environ) (u : utcp) (c : utcp_connection) (h : hdr)
  (len : Z) :
  snd_ordered c -> has_flag ACK h = true -> invalid_ack c h = false ->
  state c <> SYN_SENT -> state c <> SYN_RECEIVED ->
  exists c1, recv_advance e u c h len = Ret c1 /\ snd_ordered c1.
Proof.
  intros (H1 & H2 & H3) Hack Hinv Hs1 Hs2.
  destruct (invalid_ack_false c h Hack Hinv) as [Hle Hge].
  destruct (ordered_after_ack _ _ _ _ H1 H2 H3 Hge Hle) as (G1 & G2 & G3).
  destruct (Z.eq_dec (seqdiff (hdr_ack h) (snd_una c)) 0) as [Hz|Hnz].
  - exists (if len =? 0 then with_dupack (dupack c + 1) c else c). split.
    + unfold recv_advance. rewrite Hz. reflexivity.
    + destruct (len =? 0); repeat split; assumption.
  - exists (advanced_connection u c h). split.
    + apply recv_advance_advanced; [lia|]. unfold data_acked.
      destruct (state c); try congruence; exact G1.
    + unfold snd_ordered, advanced_connection. fields. repeat split; assumption.
Qed.

Lemma goto_ack_returns (u : utcp) (c : utcp_connection) (p : Z) (err : option errno_t)
  (evs : list event) :
  0 < mtu u -> snd_ordered c -> exists res, goto_ack u c p err evs = Ret res.
Proof.
  intros Hm (H1 & H2 & H3). unfold goto_ack.
  destruct (ack_returns u c (negb (p =? rcv_nxt c)) Hm H2 H3) as (c' & out & ->).
  cbn [bind]. eexists. reflexivity.
Qed.

Lemma recv_fin_returns (e : environ) (u : utcp) (c : utcp_connection) (h : hdr)
  (len p : Z) (err : option errno_t) (evs : list event) :
  state c = ESTABLISHED \/ state c = FIN_WAIT_1 \/ state c = FIN_WAIT_2 ->
  0 < mtu u -> snd_ordered c ->
  exists res, recv_fin e u c h len p err evs = Ret res.
Proof.
  intros Hs Hm Ho. unfold recv_fin.
  destruct (has_flag FIN h); [|apply goto_ack_returns; assumption].
  destruct Hs as [E | [E | E]]; rewrite E; cbv beta iota zeta;
    rewrite set_state_other by discriminate;
    match goal with |- context [recv ?x] => destruct (recv x) end;
    apply goto_ack_returns; try assumption; exact Ho.
Qed.

Lemma recv_data_returns (e : environ) (u : utcp) (c : utcp_connection) (h : hdr)
  (data : list Z) (len p : Z) (err : option errno_t) (evs : list event) :
  state c = ESTABLISHED \/ state c = FIN_WAIT_1 \/ state c = FIN_WAIT_2 ->
  0 < mtu u -> snd_ordered c ->
  (len <> 0 -> forall f, recv c = Some f -> usize (f data) = len) ->
  exists res, recv_data e u c h data len p err evs = Ret res.
Proof.
  intros Hs Hm Ho Hf. unfold recv_data.
  destruct (Z.eqb_spec len 0) as [Hz|Hnz]; [apply recv_fin_returns; assumption|].
  assert (Hs' : forall x, state (with_rcv_nxt x c) = ESTABLISHED
                          \/ state (with_rcv_nxt x c) = FIN_WAIT_1
                          \/ state (with_rcv_nxt x c) = FIN_WAIT_2) by (intros x; exact Hs).
  assert (Ho' : forall x, snd_ordered (with_rcv_nxt x c)) by (intros x; exact Ho).
  specialize (Hf Hnz).
  destruct (recv c) as [f|].
  - rewrite (Hf f eq_refl), Z.eqb_refl.
    destruct Hs as [E | [E | E]]; rewrite E; cbv zeta; apply recv_fin_returns; auto.
  - destruct Hs as [E | [E | E]]; rewrite E; cbv zeta; apply recv_fin_returns; auto.
Qed.

(** A segment in sequence with a valid ACK, without RST and SYN, for a
    connection that is ESTABLISHED, FIN_WAIT_1 or FIN_WAIT_2: [utcp_recv]
    returns when the [recv] callback takes the payload. *)
Lemma recv_segment_returns (e : environ) (u : utcp) (c : utcp_connection) (h : hdr)
  (data : list Z) (len : Z) :
  state c = ESTABLISHED \/ state c = FIN_WAIT_1 \/ state c = FIN_WAIT_2 ->
  hdr_seq h = rcv_nxt c ->
  has_flag ACK h = true -> invalid_ack c h = false ->
  has_flag RST h = false -> has_flag SYN h = false ->
  0 < mtu u -> snd_ordered c ->
  (len <> 0 -> forall f, recv c = Some f -> usize (f data) = len) ->
  exists res, utcp_recv_conn e u c h data len = Ret res.
Proof.
  intros Hs Hseq Hack Hinv Hrst Hsyn Hm Ho Hf.
  assert (Hacc : acceptable c h = true).
  { unfold acceptable. destruct (state_eqb (state c) SYN_SENT); [reflexivity|].
    apply Z.eqb_eq. exact Hseq. }
  rewrite utcp_recv_conn_valid; try assumption;
    try (destruct Hs as [-> | [-> | ->]]; discriminate).
  destruct (recv_advance_returns e u (with_snd_wnd (hdr_wnd h) c) h len)
    as (c1 & Hadv & Ho1);
    [exact Ho | exact Hack | exact Hinv
     | fields; destruct Hs as [-> | [-> | ->]]; discriminate
     | fields; destruct Hs as [-> | [-> | ->]]; discriminate |].
  rewrite Hadv. cbn [bind].
  apply recv_advance_keeps in Hadv. fields_in Hadv.
  destruct Hadv as (_ & _ & _ & Hrecv & _ & _ & _ & _ & Hst).
  assert (Hs1 : state c1 = ESTABLISHED \/ state c1 = FIN_WAIT_1 \/ state c1 = FIN_WAIT_2).
  { rewrite Hst. unfold state_after_ack, acked_state. fields.
    destruct (uint32 _ =? 0); [exact Hs|].
    destruct Hs as [-> | [-> | ->]]; auto.
    destruct (hdr_ack h =? snd_last c); auto. }
  rewrite recv_syn_pass by exact Hsyn.
  rewrite recv_handshake_pass by (destruct Hs1 as [-> | [-> | ->]]; discriminate).
  apply recv_data_returns; try assumption. rewrite Hrecv. exact Hf.
Qed.

Lemma recv_data_result (e : environ) (u : utcp) (c : utcp_connection) (h : hdr)
  (data : list Z) (len : Z) (res : result (option utcp_connection)) :
  state c = ESTABLISHED \/ state c = FIN_WAIT_1 \/ state c = FIN_WAIT_2 ->
  hdr_seq h = rcv_nxt c -> 0 <= rcv_nxt c < 2 ^ 32 ->
  invalid_ack c h = false ->
  has_flag RST h = false -> has_flag SYN h = false -> has_flag FIN h = false ->
  0 < len < 2 ^ 32 ->
  utcp_recv_conn e u c h data len = Ret res ->
  r_val res = 0 /\ r_errno res = None
  /\ (forall f, recv c = Some f -> usize (f data) = len)
  /\ exists c' out,
       r_state res = Some c'
       /\ rcv_nxt c' = uint32 (rcv_nxt c + len)
       /\ r_trace res
          = match recv c with
            | Some _ => [EvRecvData (src c) (dst c) data]
            | None => []
            end ++ out
       /\ out <> []
       /\ Forall (acks (src c) (dst c) (uint32 (rcv_nxt c + len))) out.
Proof.
  intros Hs Hseq Hrange Hinv Hrst Hsyn Hfin Hlen H.
  assert (Hacc : acceptable c h = true).
  { unfold acceptable. destruct (state_eqb (state c) SYN_SENT); [reflexivity|].
    apply Z.eqb_eq. exact Hseq. }
  rewrite utcp_recv_conn_valid in H; try assumption;
    try (destruct Hs as [-> | [-> | ->]]; discriminate).
  destruct (recv_advance e u _ h len) as [c1| |] eqn:Hadv; try discriminate.
  cbn [bind] in H.
  apply recv_advance_keeps in Hadv. fields_in Hadv.
  destruct Hadv as (Hsrc & Hdst & Hnxt & Hrecv & _ & _ & _ & _ & Hst).
  assert (Hs1 : state c1 = ESTABLISHED \/ state c1 = FIN_WAIT_1 \/ state c1 = FIN_WAIT_2).
  { rewrite Hst. unfold state_after_ack, acked_state. fields.
    destruct (uint32 _ =? 0); [exact Hs|].
    destruct Hs as [-> | [-> | ->]]; auto.
    destruct (hdr_ack h =? snd_last c); auto. }
  unfold recv_syn in H. rewrite Hsyn in H.
  unfold recv_handshake in H.
  assert (Hnr : state_eqb (state c1) SYN_RECEIVED = false)
    by (destruct Hs1 as [-> | [-> | ->]]; reflexivity).
  rewrite Hnr in H. unfold recv_data in H.
  destruct (Z.eqb_spec len 0); [lia|].
  assert (Hgo : forall evs,
            recv_fin e u (with_rcv_nxt (uint32 (rcv_nxt c1 + len)) c1) h len (rcv_nxt c)
                     None evs = Ret res ->
            r_val res = 0 /\ r_errno res = None
            /\ exists c' out,
                 r_state res = Some c'
                 /\ rcv_nxt c' = uint32 (rcv_nxt c + len)
                 /\ r_trace res = evs ++ out /\ out <> []
                 /\ Forall (acks (src c) (dst c) (uint32 (rcv_nxt c + len))) out).
  { intros evs Hf. unfold recv_fin in Hf. rewrite Hfin in Hf.
    apply goto_ack_moved in Hf; [|fields; rewrite Hnxt; apply uint32_moves; assumption].
    fields_in Hf. rewrite Hsrc, Hdst, Hnxt in Hf.
    destruct Hf as (H1 & H2 & c' & out & H3 & H4 & H5 & H6 & H7).
    split; [exact H1|]. split; [exact H2|]. exists c', out.
    split; [exact H3|]. split; [rewrite H4; fields; rewrite ?Hnxt; reflexivity|].
    split; [exact H5|]. split; assumption. }
  rewrite Hrecv, Hsrc, Hdst in H. fields.
  destruct (recv c) as [f|].
  - assert (Hall : usize (f data) = len).
    { destruct (Z.eqb_spec (usize (f data)) len) as [E|E]; [exact E|].
      destruct Hs1 as [E1 | [E1 | E1]]; rewrite E1 in H; discriminate. }
    assert (Hf : recv_fin e u (with_rcv_nxt (uint32 (rcv_nxt c1 + len)) c1) h len
                   (rcv_nxt c) None ([] ++ [EvRecvData (src c) (dst c) data]) = Ret res).
    { rewrite <- Z.eqb_eq in Hall. rewrite Hall in H.
      destruct Hs1 as [E1 | [E1 | E1]]; rewrite E1 in H; exact H. }
    apply Hgo in Hf. destruct Hf as (H1 & H2 & H3).
    split; [exact H1|]. split; [exact H2|].
    split; [intros f0 [= <-]; exact Hall | exact H3].
  - assert (Hf : recv_fin e u (with_rcv_nxt (uint32 (rcv_nxt c1 + len)) c1) h len
                   (rcv_nxt c) None [] = Ret res).
    { destruct Hs1 as [E1 | [E1 | E1]]; rewrite E1 in H; exact H. }
    apply Hgo in Hf. destruct Hf as (H1 & H2 & H3).
    split; [exact H1|]. split; [exact H2|]. split; [discriminate | exact H3].
Qed.

(** In ESTABLISHED, FIN_WAIT_1 and FIN_WAIT_2, with the send sequence
    numbers in order, a segment in sequence with a payload and a valid ACK,
    without SYN, FIN or RST, is delivered when the [recv] callback, if
    there is one, takes all of it: [utcp_recv] returns 0, the callback is
    called once with the payload, [rcv.nxt] advances by the length, whether
    or not there is a callback, and at least one segment is sent back,
    everything sent acknowledging the new [rcv.nxt]. *)
Theorem recv_delivers (e : environ) (u : utcp) (c : utcp_connection) (h : hdr)
  (data : list Z) (len : Z) :
  state c = ESTABLISHED \/ state c = FIN_WAIT_1 \/ state c = FIN_WAIT_2 ->
  hdr_seq h = rcv_nxt c -> 0 <= rcv_nxt c < 2 ^ 32 ->
  has_flag ACK h = true -> invalid_ack c h = false ->
  has_flag RST h = false -> has_flag SYN h = false -> has_flag FIN h = false ->
  0 < len < 2 ^ 32 ->
  0 < mtu u -> snd_ordered c ->
  (forall f, recv c = Some f -> usize (f data) = len) ->
  exists res c' out,
    utcp_recv_conn e u c h data len = Ret res
    /\ r_val res = 0 /\ r_errno res = None
    /\ r_state res = Some c'
    /\ rcv_nxt c' = uint32 (rcv_nxt c + len)
    /\ r_trace res
       = match recv c with
         | Some _ => [EvRecvData (src c) (dst c) data]
         | None => []
         end ++ out
    /\ out <> []
    /\ Forall (acks (src c) (dst c) (uint32 (rcv_nxt c + len))) out.
Proof.
  intros Hs Hseq Hrange Hack Hinv Hrst Hsyn Hfin Hlen Hm Ho Hf.
  destruct (recv_segment_returns e u c h data len Hs Hseq Hack Hinv Hrst Hsyn Hm Ho
              (fun _ => Hf)) as [res H].
  destruct (recv_data_result e u c h data len res Hs Hseq Hrange Hinv Hrst Hsyn Hfin Hlen H)
    as (H1 & H2 & _ & c' & out & H3).
  exists res, c', out. split; [exact H|]. split; [exact H1|]. split; [exact H2 | exact H3].
Qed.

(** Three bytes in sequence for [receiving]. *)
Lemma recv_delivers_witness :
  exists res c' out,
    utcp_recv_conn sample_env sample_host receiving (from_peer 9001 101 ACK) [1; 2; 3] 3
    = Ret res
    /\ r_state res = Some c' /\ rcv_nxt c' = 9004
    /\ r_trace res = [EvRecvData 32769 7 [1; 2; 3]] ++ out /\ out <> [].
Proof.
  destruct (recv_delivers sample_env sample_host receiving (from_peer 9001 101 ACK)
              [1; 2; 3] 3) as (res & c' & out & H & _ & _ & H1 & H2 & H3 & H4 & _);
    try reflexivity.
  - left. reflexivity.
  - cbn. lia.
  - lia.
  - repeat split; vm_compute; (reflexivity || discriminate).
  - intros f [= <-]. reflexivity.
  - exists res, c', out. repeat split; assumption.
Defined.

Lemma recv_fin_result (e : environ) (u : utcp) (c : utcp_connection) (h : hdr)
  (data : list Z) (res : result (option utcp_connection)) :
  state c = ESTABLISHED \/ state c = FIN_WAIT_1 \/ state c = FIN_WAIT_2 ->
  hdr_seq h = rcv_nxt c -> 0 <= rcv_nxt c < 2 ^ 32 ->
  invalid_ack c h = false ->
  has_flag RST h = false -> has_flag SYN h = false -> has_flag FIN h = true ->
  utcp_recv_conn e u c h data 0 = Ret res ->
  r_val res = 0
  /\ r_errno res = match recv c with Some _ => Some E0 | None => None end
  /\ exists c' out,
       r_state res = Some c'
       /\ state c' = fin_received (state_after_ack c h)
       /\ rcv_nxt c' = uint32 (rcv_nxt c + 1)
       /\ (state c' = TIME_WAIT -> conn_timeout c' = add_sec (now e) 60)
       /\ r_trace res
          = match recv c with
            | Some _ => [EvRecvNull (src c) (dst c) E0]
            | None => []
            end ++ out
       /\ out <> []
       /\ Forall (acks (src c) (dst c) (uint32 (rcv_nxt c + 1))) out.
Proof.
  intros Hs Hseq Hrange Hinv Hrst Hsyn Hfin H.
  assert (Hacc : acceptable c h = true).
  { unfold acceptable. destruct (state_eqb (state c) SYN_SENT); [reflexivity|].
    apply Z.eqb_eq. exact Hseq. }
  rewrite utcp_recv_conn_valid in H; try assumption;
    try (destruct Hs as [-> | [-> | ->]]; discriminate).
  destruct (recv_advance e u _ h 0) as [c1| |] eqn:Hadv; try discriminate.
  cbn [bind] in H.
  apply recv_advance_keeps in Hadv. fields_in Hadv.
  destruct Hadv as (Hsrc & Hdst & Hnxt & Hrecv & _ & _ & _ & _ & Hst).
  change (state_after_ack (with_snd_wnd (hdr_wnd h) c) h) with (state_after_ack c h) in Hst.
  assert (Hs1 : state c1 = ESTABLISHED \/ state c1 = FIN_WAIT_1 \/ state c1 = FIN_WAIT_2).
  { rewrite Hst. unfold state_after_ack, acked_state.
    destruct (uint32 _ =? 0); [exact Hs|].
    destruct Hs as [-> | [-> | ->]]; auto.
    destruct (hdr_ack h =? snd_last c); auto. }
  unfold recv_syn in H. rewrite Hsyn in H.
  unfold recv_handshake in H.
  assert (Hnr : state_eqb (state c1) SYN_RECEIVED = false)
    by (destruct Hs1 as [-> | [-> | ->]]; reflexivity).
  rewrite Hnr in H. unfold recv_data in H. cbn [Z.eqb] in H.
  unfold recv_fin in H. rewrite Hfin in H. rewrite <- Hst.
  assert (Hgo : forall c2 : utcp_connection,
            src c2 = src c -> dst c2 = dst c -> rcv_nxt c2 = rcv_nxt c ->
            recv c2 = recv c -> state c2 = fin_received (state c1) ->
            (state c2 = TIME_WAIT -> conn_timeout c2 = add_sec (now e) 60) ->
            (let c3 := with_rcv_nxt (uint32 (rcv_nxt c2 + 1)) c2 in
             match recv c3 with
             | Some _ => goto_ack u c3 (rcv_nxt c) (Some E0)
                           ([] ++ [EvRecvNull (src c3) (dst c3) E0])
             | None => goto_ack u c3 (rcv_nxt c) None []
             end) = Ret res ->
            r_val res = 0
            /\ r_errno res = match recv c with Some _ => Some E0 | None => None end
            /\ exists c' out,
                 r_state res = Some c'
                 /\ state c' = fin_received (state c1)
                 /\ rcv_nxt c' = uint32 (rcv_nxt c + 1)
                 /\ (state c' = TIME_WAIT -> conn_timeout c' = add_sec (now e) 60)
                 /\ r_trace res
                    = match recv c with
                      | Some _ => [EvRecvNull (src c) (dst c) E0]
                      | None => []
                      end ++ out
                 /\ out <> []
                 /\ Forall (acks (src c) (dst c) (uint32 (rcv_nxt c + 1))) out).
  { intros c2 H1 H2 H3 H4 H5 H6 Hf. cbv zeta in Hf. fields_in Hf.
    rewrite H1, H2, H3, H4 in Hf.
    assert (Hmv : rcv_nxt c <> rcv_nxt (with_rcv_nxt (uint32 (rcv_nxt c + 1)) c2))
      by (fields; apply uint32_moves; [assumption | lia]).
    destruct (recv c);
      apply goto_ack_moved in Hf; try exact Hmv; fields_in Hf;
      rewrite H1, H2 in Hf;
      destruct Hf as (G1 & G2 & c' & out & G3 & G4 & G5 & G6 & G7);
      (split; [exact G1|]); (split; [exact G2|]); exists c', out;
      (split; [exact G3|]);
      (split; [rewrite G4; fields; exact H5|]);
      (split; [rewrite G4; fields; reflexivity|]);
      (split; [rewrite G4; fields; exact H6|]);
      (split; [exact G5|]); split; assumption. }
  destruct Hs1 as [E1 | [E1 | E1]]; rewrite E1 in H;
    [apply (Hgo (set_state c1 CLOSE_WAIT))
    |apply (Hgo (set_state c1 CLOSING))
    |apply (Hgo (set_state (with_conn_timeout (add_sec (now e) 60) c1) TIME_WAIT))];
    try exact H;
    rewrite ?set_state_other by discriminate; fields; rewrite ?E1;
    try assumption; try reflexivity; try discriminate.
Qed.

(** In ESTABLISHED, FIN_WAIT_1 and FIN_WAIT_2, with the send sequence
    numbers in order, a FIN in sequence with a valid ACK, without payload,
    SYN or RST, takes the connection to CLOSE_WAIT, CLOSING or TIME_WAIT
    (from the state the acknowledgement it carries has left); [rcv.nxt]
    advances by one; entering TIME_WAIT this way arms the user timeout 60
    seconds ahead; the [recv] callback, if there is one, is called with NULL
    after [errno] was set to 0; and at least one segment is sent back,
    everything sent acknowledging the new [rcv.nxt]. *)
Theorem recv_fin_closes (e : environ) (u : utcp) (c : utcp_connection) (h : hdr)
  (data : list Z) :
  state c = ESTABLISHED \/ state c = FIN_WAIT_1 \/ state c = FIN_WAIT_2 ->
  hdr_seq h = rcv_nxt c -> 0 <= rcv_nxt c < 2 ^ 32 ->
  has_flag ACK h = true -> invalid_ack c h = false ->
  has_flag RST h = false -> has_flag SYN h = false -> has_flag FIN h = true ->
  0 < mtu u -> snd_ordered c ->
  exists res c' out,
    utcp_recv_conn e u c h data 0 = Ret res
    /\ r_val res = 0
    /\ r_errno res = match recv c with Some _ => Some E0 | None => None end
    /\ r_state res = Some c'
    /\ state c' = fin_received (state_after_ack c h)
    /\ rcv_nxt c' = uint32 (rcv_nxt c + 1)
    /\ (state c' = TIME_WAIT -> conn_timeout c' = add_sec (now e) 60)
    /\ r_trace res
       = match recv c with
         | Some _ => [EvRecvNull (src c) (dst c) E0]
         | None => []
         end ++ out
    /\ out <> []
    /\ Forall (acks (src c) (dst c) (uint32 (rcv_nxt c + 1))) out.
Proof.
  intros Hs Hseq Hrange Hack Hinv Hrst Hsyn Hfin Hm Ho.
  destruct (recv_segment_returns e u c h data 0 Hs Hseq Hack Hinv Hrst Hsyn Hm Ho)
    as [res H]; [intros Hne; contradiction Hne; reflexivity|].
  destruct (recv_fin_result e u c h data res Hs Hseq Hrange Hinv Hrst Hsyn Hfin H)
    as (H1 & H2 & c' & out & H3).
  exists res, c', out. split; [exact H|]. split; [exact H1|]. split; [exact H2 | exact H3].
Qed.

(** The peer's FIN reaches a connection in FIN_WAIT_2: TIME_WAIT, with the
    timer at 1060 s. *)
Lemma recv_fin_closes_witness :
  exists res c',
    utcp_recv_conn sample_env sample_host fin_wait_2 (from_peer 9001 102 (ACK + FIN)) [] 0
    = Ret res
    /\ r_state res = Some c' /\ state c' = TIME_WAIT
    /\ conn_timeout c' = {| tv_sec := 1060; tv_usec := 0 |}.
Proof.
  destruct (recv_fin_closes sample_env sample_host fin_wait_2
              (from_peer 9001 102 (ACK + FIN)) [])
    as (res & c' & out & H & _ & _ & H1 & H2 & _ & H3 & _); try reflexivity.
  - right. right. reflexivity.
  - cbn. lia.
  - repeat split; vm_compute; (reflexivity || discriminate).
  - exists res, c'. split; [exact H|]. split; [exact H1|].
    split; [exact H2 | exact (H3 H2)].
Defined.

(** ** utcp_recv: what ends the process *)

Lemma recv_advance_no_loop (e : environ) (u : utcp) (c : utcp_connection) (h : hdr)
  (len : Z) : recv_advance e u c h len <> Diverges.
Proof.
  unfold recv_advance.
  destruct (negb (uint32 (seqdiff (hdr_ack h) (snd_una c)) =? 0)); [|discriminate].
  destruct (match state c with SYN_SENT | SYN_RECEIVED => _ | _ => _ end)
    as [d| |] eqn:E.
  - cbn [bind]. destruct (d <? 0); [discriminate|].
    destruct (d >? seqdiff (snd_last c) (snd_una c)); discriminate.
  - discriminate.
  - exfalso. destruct (state c);
      try discriminate;
      destruct (int32 (uint32 (seqdiff (hdr_ack h) (snd_una c))) =? - 2 ^ 31);
      discriminate.
Qed.

(** While a connection is in SYN_SENT, a segment without SYN and RST, with
    no invalid ACK, that carries a payload or FIN ends the process: the
    code reaches [abort ()] (or an assertion of stage 3 fails before). *)
Theorem syn_sent_segment_aborts (e : environ) (u : utcp) (c : utcp_connection) (h : hdr)
  (data : list Z) (len : Z) :
  state c = SYN_SENT ->
  has_flag RST h = false -> has_flag SYN h = false ->
  invalid_ack c h = false ->
  len <> 0 \/ has_flag FIN h = true ->
  utcp_recv_conn e u c h data len = Aborted.
Proof.
  intros Hs Hrst Hsyn Hinv Hbad.
  assert (Hacc : acceptable c h = true) by (unfold acceptable; rewrite Hs; reflexivity).
  rewrite utcp_recv_conn_valid; try assumption; try (rewrite Hs; discriminate).
  pose proof (recv_advance_no_loop e u (with_snd_wnd (hdr_wnd h) c) h len) as Hno.
  destruct (recv_advance e u _ h len) as [c1| |] eqn:Hadv;
    [|reflexivity | contradiction].
  cbn [bind]. apply recv_advance_keeps in Hadv.
  destruct Hadv as (_ & _ & _ & _ & _ & _ & _ & _ & Hst).
  assert (Hs1 : state c1 = SYN_SENT).
  { rewrite Hst. unfold state_after_ack, acked_state. fields. rewrite Hs.
    destruct (uint32 _ =? 0); reflexivity. }
  unfold recv_syn. rewrite Hsyn. unfold recv_handshake. rewrite Hs1.
  change (state_eqb SYN_SENT SYN_RECEIVED) with false. cbv iota.
  unfold recv_data. rewrite Hs1.
  destruct (Z.eqb_spec len 0) as [Hz|Hz]; [|reflexivity].
  destruct Hbad as [Hb | Hb]; [contradiction|].
  unfold recv_fin. rewrite Hb, Hs1. reflexivity.
Qed.

(** A connecting client is handed a datagram with three bytes and no flag
    at all. *)
Lemma syn_sent_segment_aborts_witness :
  utcp_recv_conn sample_env sample_host connecting
    {| hdr_src := 7; hdr_dst := 32769; hdr_seq := 0; hdr_ack := 0; hdr_wnd := 0;
       hdr_ctl := 0; hdr_aux := 0 |} [1; 2; 3] 3 = Aborted.
Proof.
  apply (syn_sent_segment_aborts sample_env sample_host connecting
           {| hdr_src := 7; hdr_dst := 32769; hdr_seq := 0; hdr_ack := 0; hdr_wnd := 0;
              hdr_ctl := 0; hdr_aux := 0 |} [1; 2; 3] 3);
    try reflexivity.
  left. discriminate.
Defined.

(** ** utcp_recv: reset by the peer *)

(** In ESTABLISHED, FIN_WAIT_1, FIN_WAIT_2 and CLOSE_WAIT a RST in sequence
    takes effect only if it does not carry ACK: the connection becomes
    CLOSED (it stays in the table, not reapable), [errno] is ECONNRESET and
    the [recv] callback, if there is one, is called with NULL.  A RST in
    sequence that carries ACK, whose acknowledgement is not out of range, is
    dropped.  Either way [snd.wnd] takes the window of the segment and
    nothing is sent. *)
Theorem recv_reset_closes (e : environ) (u : utcp) (c : utcp_connection) (h : hdr)
  (data : list Z) (len : Z) :
  state c = ESTABLISHED \/ state c = FIN_WAIT_1 \/ state c = FIN_WAIT_2
  \/ state c = CLOSE_WAIT ->
  hdr_seq h = rcv_nxt c ->
  has_flag RST h = true ->
  invalid_ack c h = false ->
  utcp_recv_conn e u c h data len
  = Ret (if has_flag ACK h
         then {| r_val := 0; r_errno := None;
                 r_state := Some (with_snd_wnd (hdr_wnd h) c); r_trace := [] |}
         else {| r_val := 0; r_errno := Some ECONNRESET;
                 r_state := Some (with_state CLOSED (with_snd_wnd (hdr_wnd h) c));
                 r_trace := match recv c with
                            | Some _ => [EvRecvNull (src c) (dst c) ECONNRESET]
                            | None => []
                            end |}).
Proof.
  intros Hs Hseq Hrst Hinv.
  assert (Hacc : acceptable c h = true).
  { unfold acceptable. destruct (state_eqb (state c) SYN_SENT); [reflexivity|].
    apply Z.eqb_eq. exact Hseq. }
  unfold utcp_recv_conn. rewrite Hacc. cbn [negb]. cbv zeta.
  change (invalid_ack (with_snd_wnd (hdr_wnd h) c) h) with (invalid_ack c h).
  rewrite Hinv, Hrst. unfold recv_rst. fields.
  rewrite set_state_other by discriminate. fields.
  destruct Hs as [-> | [-> | [-> | ->]]];
    destruct (has_flag ACK h); try reflexivity; destruct (recv c); reflexivity.
Qed.

(** The peer aborts [receiving]. *)
Lemma recv_reset_closes_witness :
  utcp_recv_conn sample_env sample_host receiving (from_peer 9001 0 RST) [] 0
  = Ret {| r_val := 0; r_errno := Some ECONNRESET;
           r_state := Some (with_state CLOSED receiving);
           r_trace := [EvRecvNull 32769 7 ECONNRESET] |}.
Proof.
  apply (recv_reset_closes sample_env sample_host receiving (from_peer 9001 0 RST) [] 0);
    try reflexivity.
  left. reflexivity.
Defined.

(** ** A handle that was closed or aborted *)

Lemma utcp_close_reapable (u : utcp) (c : utcp_connection) (r : result utcp_connection) :
  utcp_close u c = Ret r -> reapable (r_state r) = true.
Proof.
  unfold utcp_close, done. intros H.
  destruct (utcp_shutdown u c SHUT_RDWR) as [r0| |] eqn:Hsh; try discriminate.
  cbn [bind] in H. destruct (Z.eqb_spec (r_val r0) 0) as [Hz|Hz]; injection H as <-.
  - reflexivity.
  - cbn [r_state]. revert Hsh. unfold utcp_shutdown, done.
    destruct (reapable c) eqn:Hr; [intros [= <-]; exact Hr|].
    destruct (state c); try (intros [= <-]; cbn in Hz; contradiction);
      match goal with
      | |- bind (ack ?u0 ?c0 ?b0) _ = _ -> _ =>
          destruct (ack u0 c0 b0) as [[c4 evs]| |]; try discriminate;
            cbn [bind]; intros [= <-]; cbn in Hz; contradiction
      end.
Qed.

Lemma utcp_abort_reapable (e : environ) (c : utcp_connection) :
  reapable (r_state (utcp_abort e c)) = true.
Proof.
  unfold utcp_abort. destruct (reapable c) eqn:Hr; [exact Hr|]. fields.
  destruct (state c); cbn [r_state]; rewrite ?set_state_other by discriminate;
    reflexivity.
Qed.

(** Once [utcp_close] or [utcp_abort] has returned, the connection is
    reapable, and every later call on it is refused: [utcp_send],
    [utcp_shutdown], [utcp_close] and [utcp_abort] return -1 with EBADF,
    [utcp_accept] does nothing, and none of them changes the connection or
    sends anything. *)
Theorem released_handle_refused (u : utcp) (e : environ) (c c' : utcp_connection) :
  (exists r, utcp_close u c = Ret r /\ r_state r = c') \/ c' = r_state (utcp_abort e c) ->
  reapable c' = true
  /\ (forall e' u' data len,
        utcp_send e' u' c' data len
        = Ret {| r_val := -1; r_errno := Some EBADF; r_state := c'; r_trace := [] |})
  /\ (forall u' dir,
        utcp_shutdown u' c' dir
        = Ret {| r_val := -1; r_errno := Some EBADF; r_state := c'; r_trace := [] |})
  /\ (forall u',
        utcp_close u' c'
        = Ret {| r_val := -1; r_errno := Some EBADF; r_state := c'; r_trace := [] |})
  /\ (forall e',
        utcp_abort e' c'
        = {| r_val := -1; r_errno := Some EBADF; r_state := c'; r_trace := [] |})
  /\ (forall r p, utcp_accept c' r p = c').
Proof.
  intros H.
  assert (Hr : reapable c' = true).
  { destruct H as [(r & H & <-) | ->].
    - eapply utcp_close_reapable. exact H.
    - apply utcp_abort_reapable. }
  split; [exact Hr|].
  assert (Hsh : forall u' dir,
             utcp_shutdown u' c' dir
             = Ret {| r_val := -1; r_errno := Some EBADF; r_state := c'; r_trace := [] |}).
  { intros u' dir. unfold utcp_shutdown. rewrite Hr. reflexivity. }
  split; [intros; unfold utcp_send; rewrite Hr; reflexivity|].
  split; [exact Hsh|].
  split; [intros u'; unfold utcp_close; rewrite Hsh; reflexivity|].
  split; [intros e'; unfold utcp_abort; rewrite Hr; reflexivity|].
  intros r p. unfold utcp_accept. rewrite Hr. reflexivity.
Qed.

(** [established] is closed, then written to. *)
Lemma released_handle_refused_witness :
  exists r,
    utcp_close sample_host established = Ret r
    /\ utcp_send sample_env sample_host (r_state r) (Some [1]) 1
       = Ret {| r_val := -1; r_errno := Some EBADF; r_state := r_state r; r_trace := [] |}.
Proof.
  assert (H : { r : result utcp_connection | utcp_close sample_host established = Ret r }).
  { eexists. vm_compute. reflexivity. }
  destruct H as (r & H). exists r. split; [exact H|].
  destruct (released_handle_refused sample_host sample_env established (r_state r))
    as (_ & Hsend & _).
  - left. exists r. split; [exact H | reflexivity].
  - apply Hsend.
Defined.

(** ** utcp_abort, then the sweep *)

Lemma In_update_same (c c' : utcp_connection) (l : list utcp_connection) :
  In c l -> key c' = key c -> In c' (update_conn c' l).
Proof.
  intros Hin Hk. induction l as [|y r IH]; [destruct Hin|]. cbn [update_conn].
  destruct (same_key (src c') (dst c') y) eqn:E; [left; reflexivity|].
  destruct Hin as [-> | Hin].
  - apply same_key_false in E. unfold key in *. congruence.
  - right. apply IH. exact Hin.
Qed.

Lemma In_update_inv (c x : utcp_connection) (l : list utcp_connection) :
  In x (update_conn c l) -> x = c \/ In x l.
Proof.
  induction l as [|y r IH]; cbn [update_conn]; [intros []|].
  destruct (same_key (src c) (dst c) y); cbn [In]; intros [H | H]; auto.
  destruct (IH H); auto.
Qed.

Lemma utcp_abort_result (e : environ) (c : utcp_connection) :
  reapable c = false ->
  r_val (utcp_abort e c) = 0
  /\ r_state (utcp_abort e c) = with_state CLOSED (with_reapable true c)
  /\ r_trace (utcp_abort e c)
     = match state c with
       | SYN_RECEIVED | ESTABLISHED | FIN_WAIT_1 | FIN_WAIT_2 | CLOSE_WAIT =>
           [EvSend {| hdr_src := src c; hdr_dst := dst c; hdr_seq := snd_nxt c;
                      hdr_ack := 0; hdr_wnd := 0; hdr_ctl := RST;
                      hdr_aux := hdr_aux (uninit_hdr e) |} []]
       | _ => []
       end.
Proof.
  intros Hr. unfold utcp_abort. rewrite Hr. fields.
  destruct c as [c_priv c_reap c_nodelay c_keep c_src c_dst c_state c_una c_nxt c_wnd
                 c_iss c_last c_cwnd c_rnxt c_rwnd c_irs c_dup c_recv c_poll c_ct c_rt
                 c_buf c_size c_max].
  cbn [state]. destruct c_state; repeat split.
Qed.

(** [utcp_abort] on a connection that is not yet reapable returns 0 and
    leaves it CLOSED and reapable; it sends one RST, with sequence number
    [snd.nxt], from SYN_RECEIVED, ESTABLISHED, FIN_WAIT_1, FIN_WAIT_2 and
    CLOSE_WAIT and nothing from the other states; and the next sweep of
    [utcp_timeout] (which returns unless [retransmit] aborts for another
    connection) frees the connection: the table of a reachable host holds
    no connection with its ports any more. *)
Theorem utcp_abort_frees (sndbufsz maxsndbufsz : Z) (e e' : environ) (u : utcp)
  (c : utcp_connection) :
  reachable sndbufsz maxsndbufsz u ->
  In c (connections u) ->
  reapable c = false ->
  (forall x, In x (connections u) -> key x <> key c -> stuck e' x = false) ->
  r_val (utcp_abort e c) = 0
  /\ r_state (utcp_abort e c) = with_state CLOSED (with_reapable true c)
  /\ r_trace (utcp_abort e c)
     = match state c with
       | SYN_RECEIVED | ESTABLISHED | FIN_WAIT_1 | FIN_WAIT_2 | CLOSE_WAIT =>
           [EvSend {| hdr_src := src c; hdr_dst := dst c; hdr_seq := snd_nxt c;
                      hdr_ack := 0; hdr_wnd := 0; hdr_ctl := RST;
                      hdr_aux := hdr_aux (uninit_hdr e) |} []]
       | _ => []
       end
  /\ exists res,
       utcp_timeout e' (put_conn (r_state (utcp_abort e c)) u) = Ret res
       /\ forall x, In x (connections (r_state res)) -> key x <> key c.
Proof.
  intros Hreach Hin Hr Hok.
  destruct (utcp_abort_result e c Hr) as (H1 & H2 & H3).
  split; [exact H1|]. split; [exact H2|]. split; [exact H3|].
  rewrite H2. set (c' := with_state CLOSED (with_reapable true c)) in *.
  apply reachable_inv in Hreach. destruct Hreach as [Hsorted _].
  assert (Hc' : In c' (update_conn c' (connections u)))
    by (apply (In_update_same c c'); [exact Hin | reflexivity]).
  assert (Hsorted' : StronglySorted (fun a b => conn_lt a b = true)
                       (update_conn c' (connections u)))
    by (apply sorted_update; exact Hsorted).
  assert (Hret : exists res, utcp_timeout e' (put_conn c' u) = Ret res).
  { apply utcp_timeout_unstuck. intros x Hx.
    unfold put_conn in Hx. cbn [connections with_connections] in Hx.
    destruct (In_update_inv c' x _ Hx) as [-> | Hxu]; [reflexivity|].
    apply Hok; [exact Hxu|]. intros Hk.
    assert (x = c) by (apply (sorted_unique (connections u)); assumption).
    subst x.
    assert (Hcc : c = c')
      by (apply (sorted_unique (update_conn c' (connections u))); auto).
    assert (Hrc : reapable c' = true) by reflexivity.
    rewrite <- Hcc, Hr in Hrc. discriminate. }
  destruct Hret as [res Hsweep]. exists res. split; [exact Hsweep|].
  apply utcp_timeout_table in Hsweep. rewrite Hsweep.
  cbn [connections with_connections put_conn].
  intros x Hx Hk. apply in_map_iff in Hx. destruct Hx as (y & <- & Hy).
  apply filter_In in Hy. destruct Hy as [Hy Hlive].
  rewrite swept_key in Hk.
  assert (Hyc : y = c').
  { apply (sorted_unique (update_conn c' (connections u)));
      [exact Hsorted' | exact Hy | exact Hc' | exact Hk]. }
  subst y. discriminate Hlive.
Qed.

(** A client gives up on the connection it has just opened. *)
Lemma utcp_abort_frees_witness :
  exists u c res,
    reachable 4096 131072 u /\ connections u = [c]
    /\ utcp_timeout sample_env (put_conn (r_state (utcp_abort sample_env c)) u) = Ret res
    /\ r_trace (utcp_abort sample_env c) = []
    /\ forall x, In x (connections (r_state res)) -> key x <> key c.
Proof.
  assert (H : { x : utcp * utcp_connection |
                let '(u, c) := x in
                reachable 4096 131072 u /\ connections u = [c]
                /\ reapable c = false /\ state c = SYN_SENT }).
  { eexists (_, _). split; [|split; [|split]].
    - eapply reach_step.
      + apply (reach_init 4096 131072 None None 0).
      + eapply (step_connect 4096 131072 _ sample_env 7 None 0).
        vm_compute. reflexivity.
    - vm_compute. reflexivity.
    - reflexivity.
    - reflexivity. }
  destruct H as ([u c] & H1 & H2 & H4 & H5).
  assert (Hin : In c (connections u)) by (rewrite H2; left; reflexivity).
  assert (Hok : forall x, In x (connections u) -> key x <> key c ->
                          stuck sample_env x = false).
  { intros x Hx Hk. rewrite H2 in Hx. destruct Hx as [<- | []]. contradiction Hk.
    reflexivity. }
  destruct (utcp_abort_frees 4096 131072 sample_env sample_env u c H1 Hin H4 Hok)
    as (_ & _ & Ht & res & H3 & Hfree).
  exists u, c, res.
  split; [exact H1|]. split; [exact H2|]. split; [exact H3|].
  split; [rewrite Ht, H5; reflexivity | exact Hfree].
Defined.

(** ** The send buffer as a block of bytes *)

Lemma buf_realloc_length (buf : list Z) (n : Z) :
  length (buf_realloc buf n) = Z.to_nat n.
Proof.
  unfold buf_realloc. rewrite length_app, length_firstn, repeat_length. lia.
Qed.

Lemma buf_write_length (buf : list Z) (off : Z) (data : list Z) :
  (Z.to_nat off + length data <= length buf)%nat ->
  length (buf_write buf off data) = length buf.
Proof.
  intros H. unfold buf_write.
  rewrite !length_app, length_firstn, length_skipn. lia.
Qed.

Lemma buf_read_write (buf : list Z) (off : Z) (data : list Z) :
  (Z.to_nat off <= length buf)%nat ->
  buf_read (buf_write buf off data) off (Z.of_nat (length data)) = data.
Proof.
  intros H. unfold buf_read, buf_write. rewrite Nat2Z.id.
  rewrite skipn_app, length_firstn, Nat.min_l by exact H.
  rewrite skipn_all2 by (rewrite length_firstn; lia).
  rewrite Nat.sub_diag. cbn [skipn app].
  rewrite firstn_app, Nat.sub_diag. cbn [firstn]. rewrite app_nil_r.
  apply firstn_all.
Qed.

Lemma buf_read_before_write (buf : list Z) (off : Z) (data : list Z) :
  (Z.to_nat off <= length buf)%nat ->
  buf_read (buf_write buf off data) 0 off = buf_read buf 0 off.
Proof.
  intros H. unfold buf_read, buf_write. cbn [Z.to_nat skipn].
  rewrite firstn_app, length_firstn, Nat.min_l by exact H.
  rewrite Nat.sub_diag. cbn [firstn]. rewrite app_nil_r.
  apply firstn_firstn_id || (rewrite firstn_firstn; f_equal; lia).
Qed.

Lemma buf_read_realloc (buf : list Z) (n off : Z) :
  (Z.to_nat off <= length buf)%nat -> off <= n ->
  buf_read (buf_realloc buf n) 0 off = buf_read buf 0 off.
Proof.
  intros H Hn. unfold buf_read, buf_realloc. cbn [Z.to_nat skipn].
  rewrite firstn_app, firstn_firstn, length_firstn.
  replace (Nat.min (Z.to_nat off) (Z.to_nat n)) with (Z.to_nat off) by lia.
  replace (Z.to_nat off - Nat.min (Z.to_nat n) (length buf))%nat with 0%nat by lia.
  cbn [firstn]. apply app_nil_r.
Qed.

(** ** utcp_send: queueing *)

(** The buffer after the growth step of [utcp_send], for [b] bytes in
    flight and [len] bytes offered. *)
Lemma send_grow_facts (e : environ) (c : utcp_connection) (len b : Z) :
  0 < len < 2 ^ 32 ->
  0 <= maxsndbufsize c < 2 ^ 32 -> 0 <= sndbufsize c < 2 ^ 32 ->
  length (sndbuf c) = Z.to_nat (sndbufsize c) ->
  0 <= b <= sndbufsize c ->
  let c1 :=
    if (len >? uint32 (sndbufsize c - b)) && (sndbufsize c <? maxsndbufsize c)
    then
      let newbufsize :=
        if sndbufsize c >? maxsndbufsize c / 2 then maxsndbufsize c
        else uint32 (sndbufsize c * 2) in
      let newbufsize :=
        if usize (b + len) >? newbufsize then
          if usize (b + len) >? maxsndbufsize c then maxsndbufsize c
          else uint32 (b + len)
        else newbufsize in
      if realloc_ok e
      then with_sndbufsize newbufsize (with_sndbuf (buf_realloc (sndbuf c) newbufsize) c)
      else c
    else c in
  sndbufsize c <= sndbufsize c1 <= Z.max (sndbufsize c) (maxsndbufsize c)
  /\ (sndbufsize c1 = sndbufsize c \/ realloc_ok e = true)
  /\ length (sndbuf c1) = Z.to_nat (sndbufsize c1)
  /\ buf_read (sndbuf c1) 0 b = buf_read (sndbuf c) 0 b
  /\ (realloc_ok e = true -> b + len <= maxsndbufsize c -> len <= sndbufsize c1 - b)
  /\ snd_last c1 = snd_last c /\ snd_nxt c1 = snd_nxt c /\ snd_una c1 = snd_una c.
Proof.
  intros Hlen Hm Hs Hbuf Hb. cbv zeta.
  assert (H1 : uint32 (sndbufsize c - b) = sndbufsize c - b)
    by (unfold uint32; apply Z.mod_small; lia).
  assert (H2 : usize (b + len) = b + len) by (unfold usize; apply Z.mod_small; lia).
  rewrite H1, H2.
  destruct (Z.gtb_spec len (sndbufsize c - b)) as [Hbig|Hfit]; cbn [andb];
    [|repeat split; try lia; auto].
  destruct (Z.ltb_spec (sndbufsize c) (maxsndbufsize c)) as [Hroom|Hfull];
    [|repeat split; try lia; auto].
  destruct (realloc_ok e) eqn:Hre;
    [|repeat split; try lia; auto; discriminate].
  fields.
  set (n0 := if sndbufsize c >? maxsndbufsize c / 2 then maxsndbufsize c
             else uint32 (sndbufsize c * 2)).
  assert (Hn0 : sndbufsize c <= n0 <= maxsndbufsize c).
  { subst n0. destruct (Z.gtb_spec (sndbufsize c) (maxsndbufsize c / 2)) as [G|G]; [lia|].
    assert (sndbufsize c * 2 <= maxsndbufsize c)
      by (revert G; Z.div_mod_to_equations; lia).
    unfold uint32. rewrite Z.mod_small by lia. lia. }
  set (n := if b + len >? n0
            then if b + len >? maxsndbufsize c then maxsndbufsize c else uint32 (b + len)
            else n0).
  assert (Hn : sndbufsize c <= n <= maxsndbufsize c
               /\ (b + len <= maxsndbufsize c -> b + len <= n)).
  { subst n. destruct (Z.gtb_spec (b + len) n0) as [G|G]; [|lia].
    destruct (Z.gtb_spec (b + len) (maxsndbufsize c)) as [G'|G']; [lia|].
    unfold uint32. rewrite Z.mod_small by lia. lia. }
  destruct Hn as [Hn Hn'].
  split; [lia|]. split; [right; reflexivity|].
  split; [apply buf_realloc_length|].
  split; [apply buf_read_realloc; lia|].
  split; [intros _ Hle; specialize (Hn' Hle); lia|].
  repeat split.
Qed.

Lemma utcp_send_result (e : environ) (u : utcp) (c : utcp_connection)
  (bytes : list Z) (len : Z) (res : result utcp_connection) :
  reapable c = false ->
  state c = ESTABLISHED \/ state c = CLOSE_WAIT ->
  0 < len < 2 ^ 32 -> (Z.to_nat len <= length bytes)%nat ->
  0 <= maxsndbufsize c < 2 ^ 32 -> 0 <= sndbufsize c < 2 ^ 32 ->
  length (sndbuf c) = Z.to_nat (sndbufsize c) ->
  0 <= seqdiff (snd_nxt c) (snd_una c) <= sndbufsize c ->
  utcp_send e u c (Some bytes) len = Ret res ->
  r_errno res = None
  /\ sndbufsize c <= sndbufsize (r_state res)
     <= Z.max (sndbufsize c) (maxsndbufsize c)
  /\ (sndbufsize (r_state res) = sndbufsize c \/ realloc_ok e = true)
  /\ length (sndbuf (r_state res)) = Z.to_nat (sndbufsize (r_state res))
  /\ r_val res
     = Z.min len (sndbufsize (r_state res) - seqdiff (snd_nxt c) (snd_una c))
  /\ (realloc_ok e = true ->
      seqdiff (snd_nxt c) (snd_una c) + len <= maxsndbufsize c -> r_val res = len)
  /\ snd_last (r_state res)
     = (if r_val res =? 0 then snd_last c else uint32 (snd_last c + r_val res))
  /\ buf_read (sndbuf (r_state res)) 0 (seqdiff (snd_nxt c) (snd_una c))
     = buf_read (sndbuf c) 0 (seqdiff (snd_nxt c) (snd_una c))
  /\ buf_read (sndbuf (r_state res)) (seqdiff (snd_nxt c) (snd_una c)) (r_val res)
     = firstn (Z.to_nat (r_val res)) bytes.
Proof.
  intros Hr Hs Hlen Hbytes Hm Hsz Hbuf Hused H.
  set (used := seqdiff (snd_nxt c) (snd_una c)) in *.
  assert (Hu : uint32 used = used) by (unfold uint32; apply Z.mod_small; lia).
  pose proof (send_grow_facts e c len used Hlen Hm Hsz Hbuf Hused) as F.
  cbv zeta in F.
  set (c1 :=
         if (len >? uint32 (sndbufsize c - used)) && (sndbufsize c <? maxsndbufsize c)
         then
           if realloc_ok e
           then with_sndbufsize
                  (if usize (used + len) >?
                      (if sndbufsize c >? maxsndbufsize c / 2 then maxsndbufsize c
                       else uint32 (sndbufsize c * 2))
                   then if usize (used + len) >? maxsndbufsize c then maxsndbufsize c
                        else uint32 (used + len)
                   else if sndbufsize c >? maxsndbufsize c / 2 then maxsndbufsize c
                        else uint32 (sndbufsize c * 2))
                  (with_sndbuf
                     (buf_realloc (sndbuf c)
                        (if usize (used + len) >?
                            (if sndbufsize c >? maxsndbufsize c / 2 then maxsndbufsize c
                             else uint32 (sndbufsize c * 2))
                         then if usize (used + len) >? maxsndbufsize c then maxsndbufsize c
                              else uint32 (used + len)
                         else if sndbufsize c >? maxsndbufsize c / 2 then maxsndbufsize c
                              else uint32 (sndbufsize c * 2))) c)
           else c
         else c) in *.
  assert (Hb : (let len1 :=
                  if len >? uint32 (sndbufsize c1 - used)
                  then uint32 (sndbufsize c1 - used) else len in
                if len1 =? 0 then done 0 None c1 []
                else
                  let c2 := with_sndbuf
                              (buf_write (sndbuf c1) used (firstn (Z.to_nat len1) bytes))
                              c1 in
                  let c3 := with_snd_last (uint32 (snd_last c2 + len1)) c2 in
                  '(c4, evs) <- ack u c3 false ;;
                  done len1 None c4 evs) = Ret res).
  { unfold utcp_send in H. rewrite Hr in H.
    destruct (Z.eqb_spec len 0); [lia|].
    fold used in H. rewrite Hu in H.
    destruct Hs as [Hs | Hs]; rewrite Hs in H; exact H. }
  clear H. clearbody c1.
  destruct F as (F1 & F2 & F3 & F4 & F5 & F6 & _).
  assert (H1 : uint32 (sndbufsize c1 - used) = sndbufsize c1 - used)
    by (unfold uint32; apply Z.mod_small; lia).
  rewrite H1 in Hb. cbv zeta in Hb.
  assert (Hmin : (if len >? sndbufsize c1 - used then sndbufsize c1 - used else len)
                 = Z.min len (sndbufsize c1 - used))
    by (destruct (Z.gtb_spec len (sndbufsize c1 - used)); lia).
  rewrite Hmin in Hb. remember (Z.min len (sndbufsize c1 - used)) as r eqn:Er.
  assert (Hrr : 0 <= r <= len /\ r <= sndbufsize c1 - used) by lia.
  destruct (Z.eqb_spec r 0) as [Hz|Hnz].
  - injection Hb as <-. cbn [r_errno r_state r_val]. rewrite <- Er.
    split; [reflexivity|]. split; [exact F1|]. split; [exact F2|]. split; [exact F3|].
    split; [lia|].
    split; [intros G1 G2; specialize (F5 G1 G2); lia|].
    split; [cbn; exact F6|]. split; [exact F4 | reflexivity].
  - destruct (ack u _ false) as [[c4 evs]| |] eqn:Hack; try discriminate.
    cbn [bind] in Hb. injection Hb as <-. cbn [r_errno r_state r_val].
    apply ack_frame in Hack. destruct Hack as [Hc4 _].
    assert (Hfirst : length (firstn (Z.to_nat r) bytes) = Z.to_nat r)
      by (rewrite length_firstn; lia).
    assert (G : sndbufsize c4 = sndbufsize c1
                /\ sndbuf c4 = buf_write (sndbuf c1) used (firstn (Z.to_nat r) bytes)
                /\ snd_last c4 = uint32 (snd_last c1 + r)).
    { rewrite Hc4. fields. repeat split. }
    destruct G as (G1 & G2 & G3). rewrite G1, G2, G3, <- Er.
    destruct (Z.eqb_spec r 0); [contradiction|].
    split; [reflexivity|]. split; [exact F1|]. split; [exact F2|].
    split; [rewrite buf_write_length; [exact F3 | rewrite Hfirst, F3; lia]|].
    split; [reflexivity|].
    split; [intros K1 K2; specialize (F5 K1 K2); lia|].
    split; [rewrite F6; reflexivity|].
    split; [rewrite buf_read_before_write; [exact F4 | rewrite F3; lia]|].
    assert (Hoff : (Z.to_nat used <= length (sndbuf c1))%nat) by (rewrite F3; lia).
    pose proof (buf_read_write (sndbuf c1) used (firstn (Z.to_nat r) bytes) Hoff) as K.
    rewrite Hfirst, Z2Nat.id in K by lia. exact K.
Qed.

Lemma utcp_send_returns (e : environ) (u : utcp) (c : utcp_connection)
  (bytes : list Z) (len : Z) :
  reapable c = false ->
  state c = ESTABLISHED \/ state c = CLOSE_WAIT ->
  0 < len < 2 ^ 32 ->
  0 <= maxsndbufsize c < 2 ^ 32 -> 0 <= sndbufsize c < 2 ^ 32 ->
  length (sndbuf c) = Z.to_nat (sndbufsize c) ->
  0 <= seqdiff (snd_nxt c) (snd_una c) <= sndbufsize c ->
  0 < mtu u -> 0 <= seqdiff (snd_last c) (snd_nxt c) ->
  seqdiff (snd_nxt c) (snd_una c) + seqdiff (snd_last c) (snd_nxt c) + len < 2 ^ 31 ->
  exists res, utcp_send e u c (Some bytes) len = Ret res.
Proof.
  intros Hr Hs Hlen Hm Hsz Hbuf Hused Hmtu Hleft Hspan.
  set (used := seqdiff (snd_nxt c) (snd_una c)) in *.
  assert (Hu : uint32 used = used) by (unfold uint32; apply Z.mod_small; lia).
  pose proof (send_grow_facts e c len used Hlen Hm Hsz Hbuf Hused) as F.
  cbv zeta in F.
  set (c1 :=
         if (len >? uint32 (sndbufsize c - used)) && (sndbufsize c <? maxsndbufsize c)
         then
           if realloc_ok e
           then with_sndbufsize
                  (if usize (used + len) >?
                      (if sndbufsize c >? maxsndbufsize c / 2 then maxsndbufsize c
                       else uint32 (sndbufsize c * 2))
                   then if usize (used + len) >? maxsndbufsize c then maxsndbufsize c
                        else uint32 (used + len)
                   else if sndbufsize c >? maxsndbufsize c / 2 then maxsndbufsize c
                        else uint32 (sndbufsize c * 2))
                  (with_sndbuf
                     (buf_realloc (sndbuf c)
                        (if usize (used + len) >?
                            (if sndbufsize c >? maxsndbufsize c / 2 then maxsndbufsize c
                             else uint32 (sndbufsize c * 2))
                         then if usize (used + len) >? maxsndbufsize c then maxsndbufsize c
                              else uint32 (used + len)
                         else if sndbufsize c >? maxsndbufsize c / 2 then maxsndbufsize c
                              else uint32 (sndbufsize c * 2))) c)
           else c
         else c) in *.
  assert (Hb : exists res, (let len1 :=
                  if len >? uint32 (sndbufsize c1 - used)
                  then uint32 (sndbufsize c1 - used) else len in
                if len1 =? 0 then done 0 None c1 []
                else
                  let c2 := with_sndbuf
                              (buf_write (sndbuf c1) used (firstn (Z.to_nat len1) bytes))
                              c1 in
                  let c3 := with_snd_last (uint32 (snd_last c2 + len1)) c2 in
                  '(c4, evs) <- ack u c3 false ;;
                  done len1 None c4 evs) = Ret res).
  { clearbody c1. destruct F as (F1 & F2 & F3 & F4 & F5 & F6 & F7 & F8).
    assert (H1 : uint32 (sndbufsize c1 - used) = sndbufsize c1 - used)
      by (unfold uint32; apply Z.mod_small; lia).
    rewrite H1. cbv zeta.
    assert (Hmin : (if len >? sndbufsize c1 - used then sndbufsize c1 - used else len)
                   = Z.min len (sndbufsize c1 - used))
      by (destruct (Z.gtb_spec len (sndbufsize c1 - used)); lia).
    rewrite Hmin. remember (Z.min len (sndbufsize c1 - used)) as r eqn:Er.
    assert (Hrr : 0 <= r <= len) by lia.
    destruct (Z.eqb_spec r 0) as [Hz|Hnz]; [eexists; reflexivity|].
    match goal with
    | |- context [ack u ?c3 false] =>
        destruct (ack_returns u c3 false Hmtu) as (c4 & evs & Hack)
    end.
    - fields. rewrite F6, F7. rewrite seqdiff_advance; lia.
    - fields. rewrite F6, F7, F8. fold used. rewrite seqdiff_advance; lia.
    - rewrite Hack. cbn [bind]. eexists. reflexivity. }
  destruct Hb as [res Hb]. exists res.
  unfold utcp_send. rewrite Hr.
  destruct (Z.eqb_spec len 0); [lia|].
  fold used. rewrite Hu.
  destruct Hs as [Hs | Hs]; rewrite Hs; exact Hb.
Qed.

(** On a connection that is ESTABLISHED or CLOSE_WAIT, with its send
    sequence numbers in order and at most a buffer of bytes in flight,
    [utcp_send] returns and has queued the first [r] of the [len] bytes
    offered, where [r], the value returned, is the smaller of [len] and
    the room behind the bytes in flight in the buffer as it is after the
    call.  The buffer never shrinks and grows at most to [maxsndbufsize],
    and only if [realloc] succeeds; when it does and the bytes in flight
    and the bytes offered fit in [maxsndbufsize] together, all are queued.
    [snd.last] advances by [r]; the bytes in flight stay in place and the
    bytes queued are stored right behind them, at offset
    [snd.nxt - snd.una] of the buffer; [errno] is not assigned. *)
Theorem utcp_send_queues (e : environ) (u : utcp) (c : utcp_connection)
  (bytes : list Z) (len : Z) :
  reapable c = false ->
  state c = ESTABLISHED \/ state c = CLOSE_WAIT ->
  0 < len < 2 ^ 32 -> (Z.to_nat len <= length bytes)%nat ->
  0 <= maxsndbufsize c < 2 ^ 32 -> 0 <= sndbufsize c < 2 ^ 32 ->
  length (sndbuf c) = Z.to_nat (sndbufsize c) ->
  0 <= seqdiff (snd_nxt c) (snd_una c) <= sndbufsize c ->
  0 < mtu u -> 0 <= seqdiff (snd_last c) (snd_nxt c) ->
  seqdiff (snd_nxt c) (snd_una c) + seqdiff (snd_last c) (snd_nxt c) + len < 2 ^ 31 ->
  exists res,
    utcp_send e u c (Some bytes) len = Ret res
    /\ r_errno res = None
    /\ sndbufsize c <= sndbufsize (r_state res)
       <= Z.max (sndbufsize c) (maxsndbufsize c)
    /\ (sndbufsize (r_state res) = sndbufsize c \/ realloc_ok e = true)
    /\ length (sndbuf (r_state res)) = Z.to_nat (sndbufsize (r_state res))
    /\ r_val res
       = Z.min len (sndbufsize (r_state res) - seqdiff (snd_nxt c) (snd_una c))
    /\ (realloc_ok e = true ->
        seqdiff (snd_nxt c) (snd_una c) + len <= maxsndbufsize c -> r_val res = len)
    /\ snd_last (r_state res)
       = (if r_val res =? 0 then snd_last c else uint32 (snd_last c + r_val res))
    /\ buf_read (sndbuf (r_state res)) 0 (seqdiff (snd_nxt c) (snd_una c))
       = buf_read (sndbuf c) 0 (seqdiff (snd_nxt c) (snd_una c))
    /\ buf_read (sndbuf (r_state res)) (seqdiff (snd_nxt c) (snd_una c)) (r_val res)
       = firstn (Z.to_nat (r_val res)) bytes.
Proof.
  intros Hr Hs Hlen Hbytes Hm Hsz Hbuf Hused Hmtu Hleft Hspan.
  destruct (utcp_send_returns e u c bytes len Hr Hs Hlen Hm Hsz Hbuf Hused Hmtu Hleft Hspan)
    as [res H].
  exists res. split; [exact H|].
  exact (utcp_send_result e u c bytes len res Hr Hs Hlen Hbytes Hm Hsz Hbuf Hused H).
Qed.

(** [flushing] has 500 bytes queued that were not sent yet, and nothing in
    flight; three more bytes are written: they are stored at the start of
    the buffer. *)
Lemma utcp_send_queues_witness :
  seqdiff (snd_nxt flushing) (snd_una flushing) = 0
  /\ seqdiff (snd_last flushing) (snd_nxt flushing) = 500
  /\ exists res,
       utcp_send sample_env sample_host flushing (Some [7; 8; 9]) 3 = Ret res
       /\ r_val res = 3
       /\ buf_read (sndbuf (r_state res)) 0 3 = [7; 8; 9].
Proof.
  split; [reflexivity|]. split; [reflexivity|].
  assert (Hlen : 0 < 3 < 2 ^ 32) by (split; reflexivity).
  assert (Hbytes : (Z.to_nat 3 <= length [7; 8; 9])%nat) by (vm_compute; repeat constructor).
  assert (Hm : 0 <= maxsndbufsize flushing < 2 ^ 32)
    by (split; [vm_compute; discriminate | reflexivity]).
  assert (Hsz : 0 <= sndbufsize flushing < 2 ^ 32)
    by (split; [vm_compute; discriminate | reflexivity]).
  assert (Hused : 0 <= seqdiff (snd_nxt flushing) (snd_una flushing) <= sndbufsize flushing)
    by (split; vm_compute; discriminate).
  assert (Hmtu : 0 < mtu sample_host) by reflexivity.
  assert (Hleft : 0 <= seqdiff (snd_last flushing) (snd_nxt flushing))
    by (vm_compute; discriminate).
  assert (Hspan : seqdiff (snd_nxt flushing) (snd_una flushing)
                  + seqdiff (snd_last flushing) (snd_nxt flushing) + 3 < 2 ^ 31)
    by reflexivity.
  destruct (utcp_send_queues sample_env sample_host flushing [7; 8; 9] 3
              eq_refl (or_introl eq_refl) Hlen Hbytes Hm Hsz eq_refl Hused Hmtu Hleft Hspan)
    as (res & H1 & _ & _ & _ & _ & _ & Hall & _ & _ & Hstored).
  assert (H2 : r_val res = 3) by (apply Hall; [reflexivity | vm_compute; discriminate]).
  exists res. split; [exact H1|]. split; [exact H2|].
  rewrite H2 in Hstored. exact Hstored.
Defined.

(** ** The size of the send buffer *)

(** [utcp_set_sndbuf], for a member [maxsndbufsize] of any width from 1 to
    64 bits: a size that fits the member is stored as it is (the test
    after the assignment is then false; it is false for every size when the
    member is as wide as [size_t]), and a larger one as the largest value
    of the member, [2 ^ bits - 1]; [utcp_get_sndbuf] returns what was
    stored; the buffer itself and its current size are not touched. *)
Theorem utcp_set_sndbuf_clamps (bits : Z) (c : utcp_connection) (size : Z) :
  0 < bits <= 64 ->
  0 <= size < 2 ^ 64 ->
  utcp_set_sndbuf bits c size = with_maxsndbufsize (Z.min size (2 ^ bits - 1)) c
  /\ utcp_get_sndbuf (utcp_set_sndbuf bits c size) = Z.min size (2 ^ bits - 1)
  /\ (size < 2 ^ bits -> utcp_get_sndbuf (utcp_set_sndbuf bits c size) = size)
  /\ (bits = 64 -> utcp_get_sndbuf (utcp_set_sndbuf bits c size) = size)
  /\ sndbufsize (utcp_set_sndbuf bits c size) = sndbufsize c
  /\ sndbuf (utcp_set_sndbuf bits c size) = sndbuf c.
Proof.
  intros Hbits Hsize.
  assert (Hpow : 0 < 2 ^ bits) by (apply Z.pow_pos_nonneg; lia).
  assert (Hones : (-1) mod 2 ^ bits = 2 ^ bits - 1).
  { symmetry. apply (Z.mod_unique (-1) (2 ^ bits) (-1) (2 ^ bits - 1)); lia. }
  assert (H : utcp_set_sndbuf bits c size
              = with_maxsndbufsize (Z.min size (2 ^ bits - 1)) c).
  { unfold utcp_set_sndbuf. cbv zeta.
    change (maxsndbufsize (with_maxsndbufsize (size mod 2 ^ bits) c))
      with (size mod 2 ^ bits).
    destruct (Z.eqb_spec (size mod 2 ^ bits) size) as [E|E]; cbn [negb].
    - rewrite E. f_equal.
      pose proof (Z.mod_pos_bound size (2 ^ bits) Hpow). lia.
    - assert (Hbig : 2 ^ bits <= size).
      { destruct (Z.lt_ge_cases size (2 ^ bits)) as [Hlt|Hge]; [|exact Hge].
        exfalso. apply E. apply Z.mod_small. lia. }
      rewrite Hones.
      replace (Z.min size (2 ^ bits - 1)) with (2 ^ bits - 1) by lia.
      destruct c; reflexivity. }
  rewrite H. unfold utcp_get_sndbuf.
  change (maxsndbufsize (with_maxsndbufsize (Z.min size (2 ^ bits - 1)) c))
    with (Z.min size (2 ^ bits - 1)).
  split; [reflexivity|]. split; [reflexivity|].
  split; [intros Hfit; lia|].
  split; [intros ->; lia|].
  split; reflexivity.
Qed.

Lemma utcp_set_sndbuf_clamps_witness :
  utcp_get_sndbuf (utcp_set_sndbuf 32 established (2 ^ 40)) = 4294967295
  /\ utcp_get_sndbuf (utcp_set_sndbuf 64 established (2 ^ 40)) = 2 ^ 40.
Proof.
  assert (H32 : 0 < 32 <= 64) by (split; [reflexivity | discriminate]).
  assert (H64 : 0 < 64 <= 64) by (split; [reflexivity | discriminate]).
  assert (H : 0 <= 2 ^ 40 < 2 ^ 64) by (split; [discriminate | reflexivity]).
  split.
  - exact (proj1 (proj2 (utcp_set_sndbuf_clamps 32 established (2 ^ 40) H32 H))).
  - exact (proj1 (proj2 (proj2 (proj2
             (utcp_set_sndbuf_clamps 64 established (2 ^ 40) H64 H)))) eq_refl).
Defined.

(** ** ack: at most one segment's worth pending *)

(** Outside FIN_WAIT_1 and CLOSING, when what is pending fits one segment,
    [ack] sends exactly one segment with it (an empty one when nothing is
    pending and the caller insists) and moves [snd.nxt] past it. *)
Lemma ack_short (u : utcp) (c : utcp_connection) (b : bool) :
  0 <= seqdiff (snd_last c) (snd_nxt c) ->
  0 <= pending c <= mtu u ->
  pending c <> 0 \/ b = true ->
  fin_state c = false ->
  ack u c b
  = Ret (with_snd_nxt (uint32 (snd_nxt c + pending c)) c,
         [EvSend {| hdr_src := src c; hdr_dst := dst c; hdr_seq := snd_nxt c;
                    hdr_ack := rcv_nxt c; hdr_wnd := snd_wnd c; hdr_ctl := ACK;
                    hdr_aux := 0 |}
                 (buf_read (sndbuf c) (seqdiff (snd_nxt c) (snd_una c)) (pending c))]).
Proof.
  intros Hleft Hp Hgo Hfin. rewrite ack_unfold by exact Hleft.
  assert (Hcond : (pending c =? 0) && negb b = false).
  { destruct Hgo as [Hne | ->]; [|apply andb_false_r].
    destruct (Z.eqb_spec (pending c) 0); [contradiction | reflexivity]. }
  rewrite Hcond. cbn [ack_loop]. rewrite fin_test, Hfin. cbn [andb].
  destruct (Z.gtb_spec (pending c) (mtu u)); [lia|].
  rewrite Z.sub_diag. change (int32 0 =? 0) with true. cbv iota. reflexivity.
Qed.

Lemma ack_idle (u : utcp) (c : utcp_connection) :
  0 <= seqdiff (snd_last c) (snd_nxt c) -> pending c = 0 ->
  ack u c false = Ret (c, []).
Proof.
  intros Hleft Hp. rewrite ack_unfold by exact Hleft. rewrite Hp. reflexivity.
Qed.

Lemma pending_idle (c : utcp_connection) : snd_last c = snd_nxt c -> pending c = 0.
Proof.
  intros H. unfold pending. rewrite H, seqdiff_refl.
  destruct (int32 (snd_cwnd c - seqdiff (snd_nxt c) (snd_una c)) <=? 0) eqn:E;
    [reflexivity|].
  apply Z.leb_gt in E.
  destruct (Z.ltb_spec (int32 (snd_cwnd c - seqdiff (snd_nxt c) (snd_una c))) 0); lia.
Qed.

Lemma uint32_small (a : Z) : 0 <= a < 2 ^ 32 -> uint32 a = a.
Proof. intros H. unfold uint32. apply Z.mod_small. exact H. Qed.

Lemma uint32_range (a : Z) : 0 <= uint32 a < 2 ^ 32.
Proof. unfold uint32. apply Z.mod_pos_bound. lia. Qed.

Lemma seqdiff_succ (a : Z) : seqdiff (uint32 (a + 1)) a = 1.
Proof.
  unfold seqdiff, uint32, int32.
  Z.div_mod_to_equations. lia.
Qed.

(** ** The stages of utcp_recv that a segment passes untouched *)

Lemma recv_data_empty (e : environ) (u : utcp) (c : utcp_connection) (h : hdr)
  (data : list Z) (p : Z) (err : option errno_t) (evs : list event) :
  recv_data e u c h data 0 p err evs = recv_fin e u c h 0 p err evs.
Proof. reflexivity. Qed.

Lemma recv_fin_pass (e : environ) (u : utcp) (c : utcp_connection) (h : hdr)
  (len p : Z) (err : option errno_t) (evs : list event) :
  has_flag FIN h = false ->
  recv_fin e u c h len p err evs = goto_ack u c p err evs.
Proof. intros H. unfold recv_fin. rewrite H. reflexivity. Qed.

(** The label [ack:] when nothing is pending and the state is not
    FIN_WAIT_1 or CLOSING: a bare ACK if [rcv.nxt] has moved, nothing
    otherwise. *)
Lemma goto_ack_idle (u : utcp) (c : utcp_connection) (p : Z) (err : option errno_t)
  (evs : list event) :
  0 <= mtu u -> snd_last c = snd_nxt c -> uint32 (snd_nxt c) = snd_nxt c ->
  fin_state c = false ->
  goto_ack u c p err evs
  = Ret {| r_val := 0; r_errno := err; r_state := Some c;
           r_trace :=
             evs ++
             (if p =? rcv_nxt c then []
              else [EvSend {| hdr_src := src c; hdr_dst := dst c; hdr_seq := snd_nxt c;
                              hdr_ack := rcv_nxt c; hdr_wnd := snd_wnd c; hdr_ctl := ACK;
                              hdr_aux := 0 |}
                           (buf_read (sndbuf c) (seqdiff (snd_nxt c) (snd_una c)) 0)]) |}.
Proof.
  intros Hmtu Hlast Hn Hfin. unfold goto_ack.
  assert (Hleft : 0 <= seqdiff (snd_last c) (snd_nxt c))
    by (rewrite Hlast, seqdiff_refl; lia).
  assert (Hp : pending c = 0) by (apply pending_idle; exact Hlast).
  destruct (p =? rcv_nxt c); cbn [negb].
  - rewrite ack_idle by assumption. reflexivity.
  - rewrite ack_short; try assumption; [|lia | right; reflexivity].
    rewrite Hp, Z.add_0_r, Hn, with_snd_nxt_same. reflexivity.
Qed.

Lemma buf_read_none (buf : list Z) (off : Z) : buf_read buf off 0 = [].
Proof. reflexivity. Qed.

(** ** The handshake, segment by segment *)

(** The SYN that completes the handshake of the client, stage by stage. *)
Lemma recv_synack (e : environ) (u : utcp) (c : utcp_connection) (h : hdr)
  (data : list Z) :
  state c = SYN_SENT ->
  has_flag SYN h = true -> has_flag RST h = false -> has_flag FIN h = false ->
  snd_nxt c = uint32 (snd_una c + 1) -> snd_last c = snd_nxt c ->
  hdr_ack h = snd_nxt c ->
  0 <= mtu u ->
  exists c',
    utcp_recv_conn e u c h data 0
    = Ret {| r_val := 0; r_errno := None; r_state := Some c';
             r_trace :=
               if rcv_nxt c =? uint32 (hdr_seq h + 1) then []
               else [EvSend {| hdr_src := src c; hdr_dst := dst c; hdr_seq := snd_nxt c;
                               hdr_ack := uint32 (hdr_seq h + 1); hdr_wnd := hdr_wnd h;
                               hdr_ctl := ACK; hdr_aux := 0 |} []] |}
    /\ state c' = ESTABLISHED
    /\ src c' = src c /\ dst c' = dst c /\ recv c' = recv c /\ priv c' = priv c
    /\ reapable c' = reapable c
    /\ snd_una c' = snd_nxt c /\ snd_nxt c' = snd_nxt c /\ snd_last c' = snd_nxt c
    /\ snd_wnd c' = hdr_wnd h
    /\ rcv_irs c' = hdr_seq h /\ rcv_nxt c' = uint32 (hdr_seq h + 1)
    /\ sndbuf c' = sndbuf c /\ sndbufsize c' = sndbufsize c
    /\ conn_timeout c' = timerclear /\ rtrx_timeout c' = timerclear.
Proof.
  intros Hs Hsyn Hrst Hfin Hnxt Hlast Hack Hmtu.
  assert (Hadv1 : seqdiff (hdr_ack h) (snd_una c) = 1)
    by (rewrite Hack, Hnxt; apply seqdiff_succ).
  assert (Hacc : acceptable c h = true) by (unfold acceptable; rewrite Hs; reflexivity).
  assert (Hinv : invalid_ack c h = false).
  { unfold invalid_ack. rewrite Hadv1, Hack, seqdiff_refl.
    destruct (has_flag ACK h); reflexivity. }
  rewrite utcp_recv_conn_valid; try assumption; try (rewrite Hs; discriminate).
  assert (Hra : recv_advance e u (with_snd_wnd (hdr_wnd h) c) h 0
                = Ret (advanced_connection u (with_snd_wnd (hdr_wnd h) c) h)).
  { apply recv_advance_advanced.
    - fields. rewrite Hadv1. lia.
    - unfold data_acked. fields. rewrite Hs, Hadv1, Hlast, Hnxt, seqdiff_succ. lia. }
  rewrite Hra, Hadv1. clear Hra.
  generalize (eq_refl (advanced_connection u (with_snd_wnd (hdr_wnd h) c) h)).
  generalize (advanced_connection u (with_snd_wnd (hdr_wnd h) c) h) at 1 3.
  intros c1 Hc1. cbn [bind].
  assert (F : state c1 = SYN_SENT /\ src c1 = src c /\ dst c1 = dst c /\ recv c1 = recv c
              /\ priv c1 = priv c /\ reapable c1 = reapable c
              /\ snd_una c1 = snd_nxt c /\ snd_nxt c1 = snd_nxt c
              /\ snd_last c1 = snd_nxt c /\ snd_wnd c1 = hdr_wnd h
              /\ sndbuf c1 = sndbuf c /\ sndbufsize c1 = sndbufsize c
              /\ rtrx_timeout c1 = timerclear).
  { rewrite Hc1. unfold advanced_connection, acked_state, data_acked. fields.
    rewrite Hs, Hadv1, Hack, Hlast, !Z.eqb_refl. cbn [Z.sub Z.eqb negb andb].
    repeat split. }
  clear Hc1.
  destruct F as (F1 & F2 & F3 & F4 & F5 & F6 & F7 & F8 & F9 & F10 & F11 & F12 & F13).
  rewrite recv_syn_synack by (assumption || discriminate).
  generalize (eq_refl (with_rcv_nxt (uint32 (hdr_seq h + 1))
                         (with_conn_timeout timerclear
                            (with_state ESTABLISHED
                               (with_rcv_nxt (hdr_seq h) (with_rcv_irs (hdr_seq h) c1)))))).
  generalize (with_rcv_nxt (uint32 (hdr_seq h + 1))
                (with_conn_timeout timerclear
                   (with_state ESTABLISHED
                      (with_rcv_nxt (hdr_seq h) (with_rcv_irs (hdr_seq h) c1))))) at 1 3.
  intros c2 Hc2.
  assert (G : state c2 = ESTABLISHED /\ src c2 = src c /\ dst c2 = dst c
              /\ recv c2 = recv c /\ priv c2 = priv c /\ reapable c2 = reapable c
              /\ snd_una c2 = snd_nxt c /\ snd_nxt c2 = snd_nxt c
              /\ snd_last c2 = snd_nxt c /\ snd_wnd c2 = hdr_wnd h
              /\ rcv_irs c2 = hdr_seq h /\ rcv_nxt c2 = uint32 (hdr_seq h + 1)
              /\ sndbuf c2 = sndbuf c /\ sndbufsize c2 = sndbufsize c
              /\ conn_timeout c2 = timerclear /\ rtrx_timeout c2 = timerclear).
  { rewrite Hc2. fields. repeat split; assumption. }
  clear Hc2.
  destruct G as (G1 & G2 & G3 & G4 & G5 & G6 & G7 & G8 & G9 & G10 & G11 & G12 & G13
                 & G14 & G15 & G16).
  exists c2. split; [|repeat split; assumption].
  rewrite recv_handshake_pass by (rewrite G1; discriminate).
  rewrite recv_data_empty, recv_fin_pass by exact Hfin.
  rewrite goto_ack_idle;
    [|exact Hmtu | congruence | rewrite G8, Hnxt; apply uint32_idem
     | unfold fin_state; rewrite G1; reflexivity].
  rewrite G2, G3, G8, G7, G10, G12, seqdiff_refl, buf_read_none. reflexivity.
Qed.

(** In SYN_SENT with nothing but the SYN outstanding, a SYN without RST and
    FIN and without payload whose [ack] field is [snd.nxt] (the ACK flag
    itself is not looked at) completes the handshake on the client:
    the connection is ESTABLISHED with [rcv.irs = hdr.seq],
    [rcv.nxt = hdr.seq + 1], [snd.una = snd.nxt], the window of the segment,
    and both timers cleared.  One ACK is sent, with [seq = snd.nxt] and
    [ack = hdr.seq + 1], unless [hdr.seq + 1] happens to equal the value
    [rcv.nxt] had before: then nothing is sent. *)
Theorem recv_synack_establishes (e : environ) (u : utcp) (c : utcp_connection) (h : hdr)
  (data : list Z) :
  state c = SYN_SENT ->
  has_flag SYN h = true -> has_flag RST h = false -> has_flag FIN h = false ->
  snd_nxt c = uint32 (snd_una c + 1) -> snd_last c = snd_nxt c ->
  hdr_ack h = snd_nxt c ->
  0 <= mtu u ->
  exists c',
    utcp_recv_conn e u c h data 0
    = Ret {| r_val := 0; r_errno := None; r_state := Some c';
             r_trace :=
               if rcv_nxt c =? uint32 (hdr_seq h + 1) then []
               else [EvSend {| hdr_src := src c; hdr_dst := dst c; hdr_seq := snd_nxt c;
                               hdr_ack := uint32 (hdr_seq h + 1); hdr_wnd := hdr_wnd h;
                               hdr_ctl := ACK; hdr_aux := 0 |} []] |}
    /\ state c' = ESTABLISHED
    /\ src c' = src c /\ dst c' = dst c /\ recv c' = recv c /\ priv c' = priv c
    /\ reapable c' = reapable c
    /\ snd_una c' = snd_nxt c /\ snd_nxt c' = snd_nxt c /\ snd_last c' = snd_nxt c
    /\ snd_wnd c' = hdr_wnd h
    /\ rcv_irs c' = hdr_seq h /\ rcv_nxt c' = uint32 (hdr_seq h + 1)
    /\ sndbuf c' = sndbuf c /\ sndbufsize c' = sndbufsize c
    /\ conn_timeout c' = timerclear /\ rtrx_timeout c' = timerclear.
Proof.
  intros Hs Hsyn Hrst Hfin Hnxt Hlast Hack Hmtu.
  destruct (recv_synack e u c h data Hs Hsyn Hrst Hfin Hnxt Hlast Hack Hmtu)
    as (c' & H & F).
  exists c'. split; [exact H | exact F].
Qed.

(** The client of the samples is handed the server's SYN+ACK. *)
Lemma recv_synack_establishes_witness :
  exists c',
    utcp_recv_conn sample_env sample_host connecting (from_peer 9000 101 (SYN + ACK)) [] 0
    = Ret {| r_val := 0; r_errno := None; r_state := Some c';
             r_trace := [EvSend {| hdr_src := 32769; hdr_dst := 7; hdr_seq := 101;
                                   hdr_ack := 9001; hdr_wnd := 1000; hdr_ctl := ACK;
                                   hdr_aux := 0 |} []] |}
    /\ state c' = ESTABLISHED /\ rcv_nxt c' = 9001.
Proof.
  destruct (recv_synack_establishes sample_env sample_host connecting
              (from_peer 9000 101 (SYN + ACK)) [])
    as (c' & H & Hs & _ & _ & _ & _ & _ & _ & _ & _ & _ & _ & Hn & _);
    try reflexivity.
  - vm_compute. discriminate.
  - exists c'. split; [exact H|]. split; [exact Hs | exact Hn].
Defined.

Lemma recv_handshake_accept (e : environ) (u : utcp) (c : utcp_connection) (h : hdr)
  (data : list Z) (len adv p : Z) (err : option errno_t) (evs : list event) :
  state c = SYN_RECEIVED -> adv <> 0 ->
  recv_handshake e u c h data len adv p err evs
  = (let '(c, evs) :=
       match accept u with
       | Some f =>
           (match f (src c) (dst c) with
            | Some (r, p) => utcp_accept c r p
            | None => c
            end, evs ++ [EvAccept (src c) (dst c)])
       | None => (c, evs)
       end in
     if negb (state_eqb (state c) ESTABLISHED)
     then goto_reset (with_reapable true (set_state c CLOSED)) h len err evs
     else recv_data e u c h data len p err evs).
Proof.
  intros Hs Ha. unfold recv_handshake. rewrite Hs.
  change (state_eqb SYN_RECEIVED SYN_RECEIVED) with true. cbv iota.
  destruct (Z.eqb_spec adv 0); [contradiction|]. reflexivity.
Qed.

(** The ACK that completes the handshake of the server, stage by stage. *)
Lemma recv_handshake_ack (e : environ) (u : utcp) (c : utcp_connection) (h : hdr)
  (data : list Z) :
  state c = SYN_RECEIVED -> reapable c = false ->
  hdr_seq h = rcv_nxt c ->
  has_flag ACK h = true -> has_flag SYN h = false -> has_flag RST h = false ->
  has_flag FIN h = false ->
  snd_nxt c = uint32 (snd_una c + 1) -> snd_last c = snd_nxt c ->
  hdr_ack h = snd_nxt c ->
  0 <= mtu u ->
  exists c1,
    (src c1 = src c /\ dst c1 = dst c
     /\ snd_una c1 = snd_nxt c /\ snd_nxt c1 = snd_nxt c /\ snd_last c1 = snd_nxt c
     /\ snd_wnd c1 = hdr_wnd h /\ rcv_nxt c1 = rcv_nxt c
     /\ sndbuf c1 = sndbuf c /\ sndbufsize c1 = sndbufsize c
     /\ conn_timeout c1 = timerclear /\ rtrx_timeout c1 = timerclear)
    /\ utcp_recv_conn e u c h data 0
       = Ret (let called := match accept u with
                            | Some _ => [EvAccept (src c) (dst c)]
                            | None => []
                            end in
              match match accept u with Some f => f (src c) (dst c) | None => None end with
              | Some (r, p) =>
                  {| r_val := 0; r_errno := None;
                     r_state := Some (with_state ESTABLISHED (with_priv p (with_recv r c1)));
                     r_trace := called |}
              | None =>
                  {| r_val := 0; r_errno := None;
                     r_state := Some (with_reapable true (with_state CLOSED c1));
                     r_trace :=
                       called ++
                       [EvSend {| hdr_src := hdr_dst h; hdr_dst := hdr_src h;
                                  hdr_seq := hdr_ack h; hdr_ack := hdr_ack h;
                                  hdr_wnd := 0; hdr_ctl := RST; hdr_aux := hdr_aux h |}
                               []] |}
              end).
Proof.
  intros Hs Hreap Hseq Hackf Hsyn Hrst Hfin Hnxt Hlast Hack Hmtu.
  assert (Hadv1 : seqdiff (hdr_ack h) (snd_una c) = 1)
    by (rewrite Hack, Hnxt; apply seqdiff_succ).
  assert (Hacc : acceptable c h = true).
  { unfold acceptable. rewrite Hs. change (state_eqb SYN_RECEIVED SYN_SENT) with false.
    cbv iota. apply Z.eqb_eq. exact Hseq. }
  assert (Hinv : invalid_ack c h = false).
  { unfold invalid_ack. rewrite Hadv1, Hack, seqdiff_refl, Hackf. reflexivity. }
  rewrite utcp_recv_conn_valid; try assumption; try (rewrite Hs; discriminate).
  assert (Hra : recv_advance e u (with_snd_wnd (hdr_wnd h) c) h 0
                = Ret (advanced_connection u (with_snd_wnd (hdr_wnd h) c) h)).
  { apply recv_advance_advanced.
    - fields. rewrite Hadv1. lia.
    - unfold data_acked. fields. rewrite Hs, Hadv1, Hlast, Hnxt, seqdiff_succ. lia. }
  rewrite Hra, Hadv1. clear Hra.
  generalize (eq_refl (advanced_connection u (with_snd_wnd (hdr_wnd h) c) h)).
  generalize (advanced_connection u (with_snd_wnd (hdr_wnd h) c) h) at 1 3.
  intros c1 Hc1. cbn [bind].
  assert (F : state c1 = SYN_RECEIVED /\ reapable c1 = false
              /\ conn_timeout c1 = timerclear
              /\ src c1 = src c /\ dst c1 = dst c
              /\ snd_una c1 = snd_nxt c /\ snd_nxt c1 = snd_nxt c
              /\ snd_last c1 = snd_nxt c /\ snd_wnd c1 = hdr_wnd h
              /\ rcv_nxt c1 = rcv_nxt c
              /\ sndbuf c1 = sndbuf c /\ sndbufsize c1 = sndbufsize c
              /\ conn_timeout c1 = timerclear /\ rtrx_timeout c1 = timerclear).
  { rewrite Hc1. unfold advanced_connection, acked_state, data_acked. fields.
    rewrite Hs, Hadv1, Hack, Hlast, !Z.eqb_refl. cbn [Z.sub Z.eqb negb andb].
    repeat split. exact Hreap. }
  clear Hc1.
  destruct F as (F1 & F2 & F3 & F4 & F5 & F6 & F7 & F8 & F9 & F10 & F11 & F12 & F13 & F14).
  exists c1. split; [repeat split; assumption|].
  rewrite recv_syn_pass by exact Hsyn.
  rewrite recv_handshake_accept by (assumption || discriminate).
  assert (Hacpt : forall r p,
             utcp_accept c1 r p
             = with_conn_timeout timerclear (with_state ESTABLISHED (with_priv p (with_recv r c1)))).
  { intros r p. unfold utcp_accept. rewrite F2, F1. reflexivity. }
  assert (Hsame : forall r p,
             with_conn_timeout timerclear (with_state ESTABLISHED (with_priv p (with_recv r c1)))
             = with_state ESTABLISHED (with_priv p (with_recv r c1))).
  { intros r p. destruct c1. cbn in F3. subst. reflexivity. }
  assert (Hrefuse : forall evs,
             (if negb (state_eqb (state c1) ESTABLISHED)
              then goto_reset (with_reapable true (set_state c1 CLOSED)) h 0 None evs
              else recv_data e u c1 h data 0 (rcv_nxt c) None evs)
             = Ret {| r_val := 0; r_errno := None;
                      r_state := Some (with_reapable true (with_state CLOSED c1));
                      r_trace :=
                        evs ++
                        [EvSend {| hdr_src := hdr_dst h; hdr_dst := hdr_src h;
                                   hdr_seq := hdr_ack h; hdr_ack := hdr_ack h;
                                   hdr_wnd := 0; hdr_ctl := RST;
                                   hdr_aux := hdr_aux h |} []] |}).
  { intros evs. rewrite F1. change (state_eqb SYN_RECEIVED ESTABLISHED) with false.
    cbn [negb]. unfold goto_reset, reset_hdr, done.
    change (has_flag ACK (swap_ports h)) with (has_flag ACK h). rewrite Hackf.
    rewrite set_state_other by discriminate. reflexivity. }
  rewrite F4, F5.
  destruct (accept u) as [f|]; [|cbv zeta; apply Hrefuse].
  destruct (f (src c) (dst c)) as [[r p]|]; [|cbv zeta; apply Hrefuse].
  rewrite Hacpt, Hsame. cbv zeta.
  generalize (eq_refl (with_state ESTABLISHED (with_priv p (with_recv r c1)))).
  generalize (with_state ESTABLISHED (with_priv p (with_recv r c1))) at 1 3 4 5.
  intros c2 Hc2.
  assert (G : state c2 = ESTABLISHED /\ snd_last c2 = snd_nxt c2
              /\ snd_nxt c2 = snd_nxt c /\ rcv_nxt c2 = rcv_nxt c).
  { rewrite Hc2. fields. repeat split; congruence. }
  destruct G as (G1 & G2 & G3 & G4).
  rewrite G1. change (state_eqb ESTABLISHED ESTABLISHED) with true. cbn [negb].
  rewrite recv_data_empty, recv_fin_pass by exact Hfin.
  rewrite goto_ack_idle;
    [|exact Hmtu | exact G2 | rewrite G3, Hnxt; apply uint32_idem
     | unfold fin_state; rewrite G1; reflexivity].
  rewrite G4, Z.eqb_refl, app_nil_r, Hc2. reflexivity.
Qed.

(** In SYN_RECEIVED with nothing but the SYN|ACK outstanding, an ACK in
    sequence that acknowledges it, without payload, completes the handshake
    on the server: the [accept] callback is called; if the application
    calls [utcp_accept] from it, the connection is ESTABLISHED with the
    [recv] callback and [priv] it gave and nothing is sent; if it does not,
    or the host has no [accept] callback any more, the connection is closed
    and made reapable and a RST with [seq = hdr.ack] is sent. *)
Theorem recv_ack_accepts (e : environ) (u : utcp) (c : utcp_connection) (h : hdr)
  (data : list Z) :
  state c = SYN_RECEIVED -> reapable c = false ->
  hdr_seq h = rcv_nxt c ->
  has_flag ACK h = true -> has_flag SYN h = false -> has_flag RST h = false ->
  has_flag FIN h = false ->
  snd_nxt c = uint32 (snd_una c + 1) -> snd_last c = snd_nxt c ->
  hdr_ack h = snd_nxt c ->
  0 <= mtu u ->
  exists c1,
    (src c1 = src c /\ dst c1 = dst c
     /\ snd_una c1 = snd_nxt c /\ snd_nxt c1 = snd_nxt c /\ snd_last c1 = snd_nxt c
     /\ snd_wnd c1 = hdr_wnd h /\ rcv_nxt c1 = rcv_nxt c
     /\ sndbuf c1 = sndbuf c /\ sndbufsize c1 = sndbufsize c
     /\ conn_timeout c1 = timerclear /\ rtrx_timeout c1 = timerclear)
    /\ utcp_recv_conn e u c h data 0
       = Ret (let called := match accept u with
                            | Some _ => [EvAccept (src c) (dst c)]
                            | None => []
                            end in
              match match accept u with Some f => f (src c) (dst c) | None => None end with
              | Some (r, p) =>
                  {| r_val := 0; r_errno := None;
                     r_state := Some (with_state ESTABLISHED (with_priv p (with_recv r c1)));
                     r_trace := called |}
              | None =>
                  {| r_val := 0; r_errno := None;
                     r_state := Some (with_reapable true (with_state CLOSED c1));
                     r_trace :=
                       called ++
                       [EvSend {| hdr_src := hdr_dst h; hdr_dst := hdr_src h;
                                  hdr_seq := hdr_ack h; hdr_ack := hdr_ack h;
                                  hdr_wnd := 0; hdr_ctl := RST; hdr_aux := hdr_aux h |}
                               []] |}
              end).
Proof.
  intros Hs Hreap Hseq Hackf Hsyn Hrst Hfin Hnxt Hlast Hack Hmtu.
  destruct (recv_handshake_ack e u c h data Hs Hreap Hseq Hackf Hsyn Hrst Hfin Hnxt
              Hlast Hack Hmtu) as (c1 & F & H).
  exists c1. split; [exact F | exact H].
Qed.

(** ** Datagrams between two hosts *)

Lemma hdr_bytes_length (h : hdr) : length (hdr_bytes h) = 20%nat.
Proof. reflexivity. Qed.

(** What [utcp_recv] reads back from a datagram the library sent. *)
Lemma datagram_decodes (h : hdr) (payload : list Z) :
  hdr_in_range h ->
  parse_hdr (hdr_bytes h ++ payload) = h
  /\ buf_read (hdr_bytes h ++ payload) sizeof_hdr (Z.of_nat (length payload)) = payload.
Proof.
  intros (H1 & H2 & H3 & H4 & H5 & H6 & H7). split.
  - destruct h as [s d sq ak wn ct ax].
    cbn [hdr_src hdr_dst hdr_seq hdr_ack hdr_wnd hdr_ctl hdr_aux] in *.
    unfold parse_hdr, hdr_bytes.
    cbn [hdr_src hdr_dst hdr_seq hdr_ack hdr_wnd hdr_ctl hdr_aux].
    repeat rewrite <- app_assoc.
    change (buf_read (le_encode 2 s ++ le_encode 2 d ++ le_encode 4 sq ++ le_encode 4 ak
                      ++ le_encode 4 wn ++ le_encode 2 ct ++ le_encode 2 ax ++ payload) 0 2)
      with (le_encode 2 s).
    change (buf_read (le_encode 2 s ++ le_encode 2 d ++ le_encode 4 sq ++ le_encode 4 ak
                      ++ le_encode 4 wn ++ le_encode 2 ct ++ le_encode 2 ax ++ payload) 2 2)
      with (le_encode 2 d).
    change (buf_read (le_encode 2 s ++ le_encode 2 d ++ le_encode 4 sq ++ le_encode 4 ak
                      ++ le_encode 4 wn ++ le_encode 2 ct ++ le_encode 2 ax ++ payload) 4 4)
      with (le_encode 4 sq).
    change (buf_read (le_encode 2 s ++ le_encode 2 d ++ le_encode 4 sq ++ le_encode 4 ak
                      ++ le_encode 4 wn ++ le_encode 2 ct ++ le_encode 2 ax ++ payload) 8 4)
      with (le_encode 4 ak).
    change (buf_read (le_encode 2 s ++ le_encode 2 d ++ le_encode 4 sq ++ le_encode 4 ak
                      ++ le_encode 4 wn ++ le_encode 2 ct ++ le_encode 2 ax ++ payload) 12 4)
      with (le_encode 4 wn).
    change (buf_read (le_encode 2 s ++ le_encode 2 d ++ le_encode 4 sq ++ le_encode 4 ak
                      ++ le_encode 4 wn ++ le_encode 2 ct ++ le_encode 2 ax ++ payload) 16 2)
      with (le_encode 2 ct).
    change (buf_read (le_encode 2 s ++ le_encode 2 d ++ le_encode 4 sq ++ le_encode 4 ak
                      ++ le_encode 4 wn ++ le_encode 2 ct ++ le_encode 2 ax ++ payload) 18 2)
      with (le_encode 2 ax).
    rewrite !le_decode_encode by (cbn; lia). reflexivity.
  - unfold buf_read, sizeof_hdr. rewrite Nat2Z.id.
    change (skipn (Z.to_nat 20) (hdr_bytes h ++ payload)) with payload.
    apply firstn_all.
Qed.

(** A datagram that matches a connection. *)
Lemma utcp_recv_found (sndbufsz maxsndbufsz : Z) (e : environ) (u : utcp) (bytes : list Z)
  (len : Z) (c : utcp_connection) :
  sizeof_hdr <= len ->
  known_flags (parse_hdr bytes) = true ->
  find_connection u (hdr_dst (parse_hdr bytes)) (hdr_src (parse_hdr bytes)) = Ret (Some c) ->
  utcp_recv sndbufsz maxsndbufsz e u (Some bytes) len
  = (r <- utcp_recv_conn e u c (parse_hdr bytes)
            (buf_read bytes sizeof_hdr (len - sizeof_hdr)) (len - sizeof_hdr) ;;
     done (r_val r) (r_errno r) (store u c (r_state r)) (r_trace r)).
Proof.
  intros Hlen Hk Hf. unfold utcp_recv, sizeof_hdr in *.
  destruct (Z.eqb_spec len 0); [lia|].
  destruct (Z.ltb_spec len 20); [lia|].
  cbv zeta. rewrite Hk. cbn [negb]. rewrite Hf. reflexivity.
Qed.

(** The same for a datagram made of a header and a payload. *)
Lemma utcp_recv_datagram (sndbufsz maxsndbufsz : Z) (e : environ) (u : utcp) (h : hdr)
  (payload : list Z) (c : utcp_connection) :
  hdr_in_range h -> known_flags h = true ->
  find_connection u (hdr_dst h) (hdr_src h) = Ret (Some c) ->
  utcp_recv sndbufsz maxsndbufsz e u (Some (hdr_bytes h ++ payload))
    (Z.of_nat (length (hdr_bytes h ++ payload)))
  = (r <- utcp_recv_conn e u c h payload (Z.of_nat (length payload)) ;;
     done (r_val r) (r_errno r) (store u c (r_state r)) (r_trace r)).
Proof.
  intros Hr Hk Hf. destruct (datagram_decodes h payload Hr) as [Hp Hd].
  assert (Hlen : Z.of_nat (length (hdr_bytes h ++ payload)) - sizeof_hdr
                 = Z.of_nat (length payload)).
  { rewrite length_app, hdr_bytes_length. unfold sizeof_hdr. lia. }
  rewrite (utcp_recv_found _ _ e u _ _ c); rewrite ?Hp; try assumption.
  - rewrite Hlen, Hd. reflexivity.
  - rewrite length_app, hdr_bytes_length. unfold sizeof_hdr. lia.
Qed.

Lemma find_connection_put (u : utcp) (s d : Z) (x c : utcp_connection) :
  find_connection u s d = Ret (Some x) -> src c = s -> dst c = d ->
  find_connection (put_conn c u) s d = Ret (Some c).
Proof.
  intros Hf Hs Hd. pose proof (find_connection_some _ _ _ _ Hf) as (_ & _ & Hne).
  rewrite find_connection_found in Hf by exact Hne. injection Hf as Hf.
  rewrite find_connection_found by exact Hne. f_equal.
  unfold put_conn. cbn [connections with_connections]. subst s d.
  apply (find_update_same c x). exact Hf.
Qed.

Lemma deliver_one (sndbufsz maxsndbufsz : Z) (e : environ) (u : utcp) (d : list Z) :
  deliver sndbufsz maxsndbufsz e u [d]
  = (r <- utcp_recv sndbufsz maxsndbufsz e u (Some d) (Z.of_nat (length d)) ;;
     Ret (r_state r, datagrams (r_trace r) ++ [])).
Proof. reflexivity. Qed.

(** ** The three-way handshake between two hosts *)

(** A client that connects to port [d] of a server whose application
    accepts the connection, the datagrams being carried between the two
    hosts as they are sent: after the SYN, the SYN|ACK and the ACK both
    hosts hold the connection ESTABLISHED under mirrored ports, each with
    nothing unacknowledged and expecting the sequence number the other will
    send next, the client's user timeout is cleared, and nothing is left to
    deliver.  (The server must not have drawn the initial sequence number
    2^32 - 1: the client, whose [rcv.nxt] starts at 0, would not answer
    its SYN|ACK.) *)
Theorem handshake_completes (sndbufsz maxsndbufsz : Z) (ec es : environ) (uc us : utcp)
  (d : Z) (r : option utcp_recv_t) (p : Z) (c : utcp_connection) (err : option errno_t)
  (uc1 : utcp) (evs : list event) (f : utcp_accept_t) (r' : option utcp_recv_t) (p' : Z) :
  utcp_connect sndbufsz maxsndbufsz ec uc d r p = Ret (Some c, err, uc1, evs) ->
  0 < d < 2 ^ 16 -> 0 <= mtu uc < 2 ^ 16 -> 0 <= mtu us ->
  accept us = Some f -> f d (src c) = Some (r', p') ->
  (forall g, pre_accept us = Some g -> g d = true) ->
  find_connection us d (src c) = Ret None ->
  uint32 (uint32 (rand_iss es) + 1) <> 0 ->
  exists uc' us' cc cs,
    handshake sndbufsz maxsndbufsz ec es uc us d r p = Ret (Some c, uc', us', [])
    /\ find_connection uc' (src c) d = Ret (Some cc)
    /\ find_connection us' d (src c) = Ret (Some cs)
    /\ state cc = ESTABLISHED /\ state cs = ESTABLISHED
    /\ snd_una cc = snd_nxt cc /\ snd_last cc = snd_nxt cc
    /\ snd_una cs = snd_nxt cs /\ snd_last cs = snd_nxt cs
    /\ snd_nxt cc = uint32 (uint32 (rand_iss ec) + 1) /\ rcv_nxt cs = snd_nxt cc
    /\ snd_nxt cs = uint32 (uint32 (rand_iss es) + 1) /\ rcv_nxt cc = snd_nxt cs
    /\ recv cc = r /\ recv cs = r'
    /\ conn_timeout cc = timerclear /\ conn_timeout cs = timerclear.
Proof.
  intros Hconn Hd Hmc Hms Hacc Hf Hpre Hnone Hiss.
  (* the client's SYN *)
  pose proof (utcp_connect_result _ _ _ _ _ _ _ _ _ _ _ Hconn)
    as (_ & Hc & Hevs & Hfindc & _ & _ & Hport & _ & _ & _ & _ & Hmtu1).
  pose proof (first_port_range ec) as Hfp.
  set (issc := uint32 (rand_iss ec)) in *.
  set (isss := uint32 (rand_iss es)) in *.
  assert (Hrc : 0 <= issc < 2 ^ 32) by apply uint32_range.
  assert (Hrs : 0 <= isss < 2 ^ 32) by apply uint32_range.
  assert (Fc : state c = SYN_SENT /\ dst c = d /\ rcv_nxt c = 0 /\ recv c = r
               /\ snd_una c = issc /\ snd_nxt c = uint32 (issc + 1)
               /\ snd_last c = uint32 (issc + 1)).
  { rewrite Hc. repeat split. }
  destruct Fc as (Fc1 & Fc2 & Fc3 & Fc4 & Fc5 & Fc6 & Fc7). clear Hc.
  set (syn := {| hdr_src := src c; hdr_dst := d; hdr_seq := issc; hdr_ack := 0;
                 hdr_wnd := mtu uc; hdr_ctl := SYN; hdr_aux := 0 |}) in *.
  assert (Hsynr : hdr_in_range syn).
  { unfold hdr_in_range, syn, SYN. cbn [hdr_src hdr_dst hdr_seq hdr_ack hdr_wnd hdr_ctl
                                          hdr_aux]. lia. }
  destruct (datagram_decodes syn [] Hsynr) as [Hpsyn _].
  (* the server's SYN|ACK *)
  pose proof (utcp_recv_passive_open sndbufsz maxsndbufsz es us (hdr_bytes syn ++ []) 20)
    as L.
  cbv zeta in L. rewrite Hpsyn in L.
  assert (H20 : sizeof_hdr <= 20) by (unfold sizeof_hdr; lia).
  assert (Hacc' : accept us <> None) by (rewrite Hacc; discriminate).
  assert (Hd0 : hdr_dst syn <> 0) by (cbn; lia).
  specialize (L H20 eq_refl eq_refl eq_refl eq_refl Hacc' Hpre Hd0 Hnone).
  destruct L as (res1 & Hr1 & _ & _ & Hfinds & _ & Ht1 & Hacc1 & Hmtus1).
  cbn [hdr_src hdr_dst hdr_seq hdr_ack hdr_wnd hdr_ctl hdr_aux syn] in Hfinds, Ht1.
  fold isss in Ht1.
  set (synack := {| hdr_src := d; hdr_dst := src c; hdr_seq := isss;
                    hdr_ack := uint32 (issc + 1); hdr_wnd := mtu uc;
                    hdr_ctl := Z.lor SYN ACK; hdr_aux := 0 |}) in *.
  set (cs0 := with_state SYN_RECEIVED
                 (with_rcv_nxt (uint32 (issc + 1))
                    (with_rcv_irs issc
                       (with_snd_wnd (mtu uc)
                          (fresh_connection sndbufsz maxsndbufsz es us d (src c)))))) in *.
  assert (Fs : state cs0 = SYN_RECEIVED /\ reapable cs0 = false
               /\ src cs0 = d /\ dst cs0 = src c
               /\ rcv_nxt cs0 = uint32 (issc + 1)
               /\ snd_nxt cs0 = uint32 (snd_una cs0 + 1) /\ snd_last cs0 = snd_nxt cs0
               /\ snd_nxt cs0 = uint32 (isss + 1)).
  { repeat split. }
  clearbody cs0.
  destruct Fs as (Fs1 & Fs2 & Fs3 & Fs4 & Fs5 & Fs6 & Fs7 & Fs8).
  (* the client's ACK *)
  assert (Hsynackr : hdr_in_range synack).
  { unfold hdr_in_range, synack, SYN, ACK.
    cbn [hdr_src hdr_dst hdr_seq hdr_ack hdr_wnd hdr_ctl hdr_aux Z.lor Pos.lor].
    pose proof (uint32_range (issc + 1)).
    clearbody issc isss.
    change (2 ^ 16) with 65536 in *. change (2 ^ 32) with 4294967296 in *. lia. }
  assert (Hmtu1' : 0 <= mtu uc1) by (rewrite Hmtu1; lia).
  destruct (recv_synack ec uc1 c synack [] Fc1 eq_refl eq_refl eq_refl)
    as (cc & Hr2 & Gc1 & Gc2 & Gc3 & Gc4 & _ & _ & Gc5 & Gc6 & Gc7 & _ & _ & Gc8 & _ & _
        & Gc9 & _);
    [rewrite Fc6, Fc5; reflexivity | rewrite Fc7, Fc6; reflexivity
    | rewrite Fc6; reflexivity | exact Hmtu1' |].
  cbn [hdr_seq hdr_wnd synack] in Hr2, Gc8. rewrite Fc3 in Hr2.
  assert (Hne : (0 =? uint32 (isss + 1)) = false).
  { apply Z.eqb_neq. intros E. apply Hiss. symmetry. exact E. }
  rewrite Hne in Hr2. rewrite Fc6 in Hr2.
  set (ackh := {| hdr_src := src c; hdr_dst := dst c; hdr_seq := uint32 (issc + 1);
                  hdr_ack := uint32 (isss + 1); hdr_wnd := mtu uc; hdr_ctl := ACK;
                  hdr_aux := 0 |}) in *.
  assert (Hackr : hdr_in_range ackh).
  { unfold hdr_in_range, ackh, ACK.
    cbn [hdr_src hdr_dst hdr_seq hdr_ack hdr_wnd hdr_ctl hdr_aux]. rewrite Fc2.
    pose proof (uint32_range (issc + 1)). pose proof (uint32_range (isss + 1)).
    clearbody issc isss.
    change (2 ^ 16) with 65536 in *. change (2 ^ 32) with 4294967296 in *. lia. }
  (* the server accepts *)
  assert (Hmtus1' : 0 <= mtu (r_state res1)) by (rewrite Hmtus1; exact Hms).
  destruct (recv_handshake_ack es (r_state res1) cs0 ackh [] Fs1 Fs2)
    as (cs1 & (Gs1 & Gs2 & Gs3 & Gs4 & Gs5 & _ & Gs6 & _ & _ & Gs7 & _) & Hr3);
    try reflexivity;
    [rewrite Fs5; reflexivity | exact Fs6 | exact Fs7 | rewrite Fs8; reflexivity
    | exact Hmtus1' |].
  rewrite Hacc1, Hacc, Fs3, Fs4, Hf in Hr3. cbv zeta in Hr3.
  cbv beta iota in Hr3.
  exists (put_conn cc uc1),
         (put_conn (with_state ESTABLISHED (with_priv p' (with_recv r' cs1)))
            (r_state res1)),
         cc, (with_state ESTABLISHED (with_priv p' (with_recv r' cs1))).
  split.
  { unfold handshake. rewrite Hconn. cbn [bind]. rewrite Hevs.
    cbn [datagrams]. rewrite deliver_one.
    change (Z.of_nat (length (hdr_bytes syn ++ []))) with 20.
    rewrite Hr1. cbn [bind]. rewrite Ht1. cbn [datagrams app].
    rewrite deliver_one.
    rewrite (utcp_recv_datagram _ _ ec uc1 synack [] c Hsynackr eq_refl Hfindc).
    change (Z.of_nat (length (@nil Z))) with 0.
    rewrite Hr2. cbn [bind done r_state r_trace store datagrams app].
    rewrite deliver_one.
    assert (Hfa : find_connection (r_state res1) (hdr_dst ackh) (hdr_src ackh)
                  = Ret (Some cs0)).
    { cbn [hdr_dst hdr_src ackh]. rewrite Fc2. exact Hfinds. }
    rewrite (utcp_recv_datagram _ _ es (r_state res1) ackh [] cs0 Hackr eq_refl Hfa).
    change (Z.of_nat (length (@nil Z))) with 0.
    rewrite Hr3. cbn [bind done r_state r_trace store datagrams app]. reflexivity. }
  split; [apply (find_connection_put uc1 (src c) d c cc Hfindc); congruence|].
  split.
  { apply (find_connection_put (r_state res1) d (src c) cs0 _ Hfinds); fields; congruence. }
  fields.
  split; [exact Gc1|]. split; [reflexivity|].
  split; [congruence|]. split; [congruence|].
  split; [congruence|]. split; [congruence|].
  split; [congruence|]. split; [congruence|].
  split; [congruence|]. split; [congruence|].
  split; [congruence|]. split; [reflexivity|].
  split; [exact Gc9 | exact Gs7].
Qed.

(** The connection [half_open] of a host that accepts everything is handed
    the ACK of its SYN+ACK. *)
Lemma recv_ack_accepts_witness :
  exists c1,
    snd_una c1 = 101
    /\ utcp_recv_conn sample_env sample_host half_open (from_peer 9001 101 ACK) [] 0
       = Ret {| r_val := 0; r_errno := None;
                r_state := Some (with_state ESTABLISHED (with_priv 0 (with_recv None c1)));
                r_trace := [EvAccept 32769 7] |}.
Proof.
  destruct (recv_ack_accepts sample_env sample_host half_open (from_peer 9001 101 ACK) [])
    as (c1 & F & H); try reflexivity.
  - cbn. lia.
  - exists c1. split; [apply F | exact H].
Defined.

(** The client of the samples connects to port 7 of the server of the
    samples. *)
Lemma handshake_completes_witness :
  exists c uc' us' cc cs,
    handshake 4096 131072 sample_env server_env client_host server_host 7 None 0
    = Ret (Some c, uc', us', [])
    /\ find_connection uc' 32769 7 = Ret (Some cc)
    /\ find_connection us' 7 32769 = Ret (Some cs)
    /\ state cc = ESTABLISHED /\ state cs = ESTABLISHED
    /\ snd_nxt cc = 101 /\ rcv_nxt cs = 101 /\ snd_nxt cs = 9001 /\ rcv_nxt cc = 9001.
Proof.
  assert (Hc : exists c uc1 evs,
             utcp_connect 4096 131072 sample_env client_host 7 None 0
             = Ret (Some c, None, uc1, evs) /\ src c = 32769).
  { do 3 eexists. split; reflexivity. }
  destruct Hc as (c & uc1 & evs & Hc & Hsrc).
  destruct (handshake_completes 4096 131072 sample_env server_env client_host server_host
              7 None 0 c None uc1 evs (fun _ _ => Some (None, 0)) None 0 Hc)
    as (uc' & us' & cc & cs & Hrun & Hfc & Hfs & Hsc & Hss & _ & _ & _ & _ & Hnc & Hrs
        & Hns & Hrc & _); try reflexivity.
  - lia.
  - cbn. lia.
  - cbn. lia.
  - intros g Hg. discriminate Hg.
  - vm_compute. discriminate.
  - rewrite Hsrc in Hfc, Hfs.
    exists c, uc', us', cc, cs.
    split; [exact Hrun|]. split; [exact Hfc|]. split; [exact Hfs|].
    split; [exact Hsc|]. split; [exact Hss|].
    split; [exact Hnc|]. split; [rewrite Hrs; exact Hnc|].
    split; [exact Hns|]. rewrite Hrc. exact Hns.
Defined.

(** ** Data from one end of a connection to the other *)

Lemma pure_ack_flags (h : hdr) :
  hdr_ctl h = ACK ->
  has_flag ACK h = true /\ has_flag SYN h = false /\ has_flag RST h = false
  /\ has_flag FIN h = false /\ known_flags h = true.
Proof. unfold has_flag, known_flags. intros ->. repeat split. Qed.

(** [utcp_send] on an idle connection, for bytes that fit the buffer, the
    congestion window and one segment. *)
Lemma utcp_send_idle (e : environ) (u : utcp) (c : utcp_connection) (bytes : list Z)
  (len : Z) :
  idle c ->
  0 < len -> len <= mtu u -> len <= snd_cwnd c < 2 ^ 31 -> len <= sndbufsize c < 2 ^ 32 ->
  (Z.to_nat len <= length bytes)%nat ->
  utcp_send e u c (Some bytes) len
  = Ret {| r_val := len; r_errno := None;
           r_state :=
             with_snd_nxt (uint32 (snd_nxt c + len))
               (with_snd_last (uint32 (snd_last c + len))
                  (with_sndbuf (buf_write (sndbuf c) 0 (firstn (Z.to_nat len) bytes)) c));
           r_trace :=
             [EvSend {| hdr_src := src c; hdr_dst := dst c; hdr_seq := snd_nxt c;
                        hdr_ack := rcv_nxt c; hdr_wnd := snd_wnd c; hdr_ctl := ACK;
                        hdr_aux := 0 |} (firstn (Z.to_nat len) bytes)] |}.
Proof.
  intros (Hs & Hr & Huna & Hlast) Hlen Hmtu Hcwnd Hbuf Hbytes.
  unfold utcp_send. rewrite Hr, Hs.
  destruct (Z.eqb_spec len 0); [lia|].
  rewrite Huna, seqdiff_refl. change (uint32 0) with 0. cbv zeta.
  rewrite !Z.sub_0_r, (uint32_small (sndbufsize c)) by lia.
  destruct (Z.gtb_spec len (sndbufsize c)); [lia|]. cbn [andb].
  rewrite (uint32_small (sndbufsize c)) by lia.
  destruct (Z.gtb_spec len (sndbufsize c)); [lia|].
  destruct (Z.eqb_spec len 0); [lia|].
  set (data := firstn (Z.to_nat len) bytes).
  assert (Hdata : Z.of_nat (length data) = len).
  { subst data. rewrite length_firstn. lia. }
  generalize (eq_refl (with_snd_last (uint32 (snd_last (with_sndbuf (buf_write (sndbuf c) 0 data) c) + len))
                         (with_sndbuf (buf_write (sndbuf c) 0 data) c))).
  generalize (with_snd_last (uint32 (snd_last (with_sndbuf (buf_write (sndbuf c) 0 data) c) + len))
                (with_sndbuf (buf_write (sndbuf c) 0 data) c)) at 1 3.
  intros c3 Hc3.
  assert (F : snd_una c3 = snd_nxt c /\ snd_nxt c3 = snd_nxt c
              /\ snd_last c3 = uint32 (snd_nxt c + len) /\ snd_cwnd c3 = snd_cwnd c
              /\ state c3 = ESTABLISHED /\ sndbuf c3 = buf_write (sndbuf c) 0 data
              /\ src c3 = src c /\ dst c3 = dst c /\ rcv_nxt c3 = rcv_nxt c
              /\ snd_wnd c3 = snd_wnd c).
  { rewrite Hc3. fields. rewrite Hlast. repeat split; assumption. }
  destruct F as (F1 & F2 & F3 & F4 & F5 & F6 & F7 & F8 & F9 & F10).
  assert (Hleft : seqdiff (snd_last c3) (snd_nxt c3) = len)
    by (rewrite F3, F2; apply seqdiff_step; lia).
  assert (Hp : pending c3 = len).
  { unfold pending. rewrite Hleft, F2, F1, seqdiff_refl, Z.sub_0_r, F4.
    rewrite int32_small by lia.
    destruct (Z.leb_spec (snd_cwnd c) 0); [lia|].
    destruct (Z.ltb_spec (snd_cwnd c) len); [lia | reflexivity]. }
  rewrite (ack_short u c3 false);
    [|rewrite Hleft; lia | rewrite Hp; lia | left; rewrite Hp; lia
     | unfold fin_state; rewrite F5; reflexivity].
  cbn [bind]. unfold done. rewrite Hp, F2, F1, seqdiff_refl, F6, F7, F8, F9, F10.
  assert (K : buf_read (buf_write (sndbuf c) 0 data) 0 len = data).
  { pose proof (buf_read_write (sndbuf c) 0 data) as K. rewrite Hdata in K.
    apply K. cbn. lia. }
  rewrite K.
  rewrite Hc3. fields. reflexivity.
Qed.

(** Stage 3 for an acknowledgement that does not advance, on a segment
    with a payload. *)
Lemma recv_advance_same (e : environ) (u : utcp) (c : utcp_connection) (h : hdr)
  (len : Z) :
  seqdiff (hdr_ack h) (snd_una c) = 0 -> len <> 0 -> recv_advance e u c h len = Ret c.
Proof.
  intros Hz Hlen. unfold recv_advance. rewrite Hz. change (uint32 0 =? 0) with true.
  cbn [negb]. destruct (Z.eqb_spec len 0); [contradiction | reflexivity].
Qed.

Lemma recv_data_established (e : environ) (u : utcp) (c : utcp_connection) (h : hdr)
  (data : list Z) (len p : Z) (err : option errno_t) (evs : list event)
  (f : utcp_recv_t) :
  state c = ESTABLISHED -> len <> 0 -> recv c = Some f -> usize (f data) = len ->
  recv_data e u c h data len p err evs
  = recv_fin e u (with_rcv_nxt (uint32 (rcv_nxt c + len)) c) h len p err
      (evs ++ [EvRecvData (src c) (dst c) data]).
Proof.
  intros Hs Hlen Hr Hf. unfold recv_data.
  destruct (Z.eqb_spec len 0); [contradiction|].
  rewrite Hs, Hr, Hf, Z.eqb_refl. reflexivity.
Qed.

(** A data segment in sequence for an idle connection whose callback
    takes it. *)
Lemma recv_data_idle (e : environ) (u : utcp) (c : utcp_connection) (h : hdr)
  (data : list Z) (len : Z) (f : utcp_recv_t) :
  idle c -> 0 <= snd_nxt c < 2 ^ 32 -> 0 <= rcv_nxt c < 2 ^ 32 ->
  hdr_seq h = rcv_nxt c -> hdr_ack h = snd_nxt c -> hdr_ctl h = ACK ->
  0 < len < 2 ^ 32 -> 0 <= mtu u ->
  recv c = Some f -> usize (f data) = len ->
  utcp_recv_conn e u c h data len
  = Ret {| r_val := 0; r_errno := None;
           r_state := Some (with_rcv_nxt (uint32 (rcv_nxt c + len))
                              (with_snd_wnd (hdr_wnd h) c));
           r_trace :=
             [EvRecvData (src c) (dst c) data;
              EvSend {| hdr_src := src c; hdr_dst := dst c; hdr_seq := snd_nxt c;
                        hdr_ack := uint32 (rcv_nxt c + len); hdr_wnd := hdr_wnd h;
                        hdr_ctl := ACK; hdr_aux := 0 |} []] |}.
Proof.
  intros (Hs & Hr & Huna & Hlast) Hnxt Hrcv Hseq Hack Hctl Hlen Hmtu Hrecv Hf.
  destruct (pure_ack_flags h Hctl) as (Hfa & Hfs & Hfr & Hff & _).
  assert (Hacc : acceptable c h = true).
  { unfold acceptable. rewrite Hs. change (state_eqb ESTABLISHED SYN_SENT) with false.
    cbv iota. apply Z.eqb_eq. exact Hseq. }
  assert (Hinv : invalid_ack c h = false).
  { unfold invalid_ack. rewrite Hack, Huna, seqdiff_refl, Hfa. reflexivity. }
  rewrite utcp_recv_conn_valid; try assumption; try (rewrite Hs; discriminate).
  rewrite recv_advance_same; [|fields; rewrite Hack, Huna; apply seqdiff_refl | lia].
  cbn [bind].
  rewrite recv_syn_pass by exact Hfs.
  rewrite recv_handshake_pass by (fields; rewrite Hs; discriminate).
  rewrite (recv_data_established e u _ h data len _ _ _ f);
    [|exact Hs | lia | exact Hrecv | exact Hf].
  rewrite recv_fin_pass by exact Hff.
  rewrite goto_ack_idle;
    [|exact Hmtu | exact Hlast | fields; apply uint32_small; exact Hnxt
     | unfold fin_state; fields; rewrite Hs; reflexivity].
  fields. rewrite buf_read_none.
  destruct (Z.eqb_spec (rcv_nxt c) (uint32 (rcv_nxt c + len))) as [E|E].
  - exfalso. revert E. apply uint32_moves; assumption.
  - reflexivity.
Qed.

(** The acknowledgement of everything in flight, on a connection with
    nothing else queued: of the data in ESTABLISHED, of the FIN in
    FIN_WAIT_1 and CLOSING. *)
Lemma recv_ack_all (e : environ) (u : utcp) (c : utcp_connection) (h : hdr) :
  state c = ESTABLISHED \/ state c = FIN_WAIT_1 \/ state c = CLOSING ->
  snd_last c = snd_nxt c -> 0 < seqdiff (snd_nxt c) (snd_una c) ->
  0 <= snd_nxt c < 2 ^ 32 ->
  hdr_seq h = rcv_nxt c -> hdr_ack h = snd_nxt c -> hdr_ctl h = ACK ->
  0 <= mtu u ->
  exists c1,
    utcp_recv_conn e u c h [] 0
    = Ret {| r_val := 0; r_errno := None; r_state := Some c1; r_trace := [] |}
    /\ state c1 = match state c with
                  | FIN_WAIT_1 => FIN_WAIT_2
                  | CLOSING => TIME_WAIT
                  | s => s
                  end
    /\ reapable c1 = reapable c
    /\ src c1 = src c /\ dst c1 = dst c
    /\ snd_una c1 = snd_nxt c /\ snd_nxt c1 = snd_nxt c /\ snd_last c1 = snd_nxt c
    /\ rcv_nxt c1 = rcv_nxt c /\ snd_wnd c1 = hdr_wnd h /\ recv c1 = recv c
    /\ rtrx_timeout c1 = timerclear /\ conn_timeout c1 = timerclear.
Proof.
  intros Hs Hlast Hfly Hnxt Hseq Hack Hctl Hmtu.
  destruct (pure_ack_flags h Hctl) as (Hfa & Hfs & Hfr & Hff & _).
  assert (Hacc : acceptable c h = true).
  { unfold acceptable. destruct (state_eqb (state c) SYN_SENT); [reflexivity|].
    apply Z.eqb_eq. exact Hseq. }
  assert (Hinv : invalid_ack c h = false).
  { unfold invalid_ack. rewrite Hack, seqdiff_refl, Hfa. cbn [andb Z.gtb Z.compare orb].
    destruct (Z.ltb_spec (seqdiff (snd_nxt c) (snd_una c)) 0); [lia | reflexivity]. }
  rewrite utcp_recv_conn_valid; try assumption;
    try (destruct Hs as [-> | [-> | ->]]; discriminate).
  assert (Hra : recv_advance e u (with_snd_wnd (hdr_wnd h) c) h 0
                = Ret (advanced_connection u (with_snd_wnd (hdr_wnd h) c) h)).
  { apply recv_advance_advanced.
    - fields. rewrite Hack. exact Hfly.
    - unfold data_acked. fields. rewrite Hack, Hlast.
      destruct Hs as [-> | [-> | ->]]; lia. }
  rewrite Hra. clear Hra.
  generalize (eq_refl (advanced_connection u (with_snd_wnd (hdr_wnd h) c) h)).
  generalize (advanced_connection u (with_snd_wnd (hdr_wnd h) c) h) at 1 3.
  intros c1 Hc1. cbn [bind].
  assert (F : state c1 = match state c with
                         | FIN_WAIT_1 => FIN_WAIT_2
                         | CLOSING => TIME_WAIT
                         | s => s
                         end
              /\ reapable c1 = reapable c
              /\ src c1 = src c /\ dst c1 = dst c
              /\ snd_una c1 = snd_nxt c /\ snd_nxt c1 = snd_nxt c
              /\ snd_last c1 = snd_nxt c
              /\ rcv_nxt c1 = rcv_nxt c /\ snd_wnd c1 = hdr_wnd h /\ recv c1 = recv c
              /\ rtrx_timeout c1 = timerclear /\ conn_timeout c1 = timerclear).
  { rewrite Hc1. unfold advanced_connection, acked_state. fields.
    rewrite Hack, Hlast, !Z.eqb_refl.
    destruct Hs as [-> | [-> | ->]]; repeat split. }
  clear Hc1.
  destruct F as (F1 & F2 & F3 & F4 & F5 & F6 & F7 & F8 & F9 & F10 & F11 & F12).
  exists c1. split; [|repeat split; assumption].
  rewrite recv_syn_pass by exact Hfs.
  rewrite recv_handshake_pass
    by (rewrite F1; destruct Hs as [-> | [-> | ->]]; discriminate).
  rewrite recv_data_empty, recv_fin_pass by exact Hff.
  rewrite goto_ack_idle;
    [|exact Hmtu | rewrite F7, F6; reflexivity | rewrite F6; apply uint32_small; exact Hnxt
     | unfold fin_state; rewrite F1; destruct Hs as [-> | [-> | ->]]; reflexivity].
  rewrite F8, Z.eqb_refl. reflexivity.
Qed.

Lemma find_connection_key (u : utcp) (s d : Z) (c : utcp_connection) :
  find_connection u s d = Ret (Some c) -> src c = s /\ dst c = d.
Proof.
  intros H. apply find_connection_some in H. destruct H as (_ & Hk & _).
  unfold key in Hk. injection Hk as -> ->. split; reflexivity.
Qed.

(** Two hosts hold the two ends of an established, idle connection.  The
    application of one end sends [len] bytes that fit one segment, the
    congestion window and the send buffer; the datagram is carried to the
    other host, whose [recv] callback takes what it is given, and the reply
    of that host is carried back.  Then [utcp_send] has returned [len] and
    sent one segment with the bytes; the [recv] callback of the other end
    was called once, with exactly these bytes, and one empty ACK was sent
    back ([ctl] is ACK alone, [ack] is [snd.nxt] of the sender past the
    bytes); the sender answered nothing; and both ends are idle again and
    still agree, [len] sequence numbers further on: everything sent is
    acknowledged. *)
Theorem data_transfer (sndbufsz maxsndbufsz : Z) (ea ea' eb : environ) (ua ub : utcp)
  (a b : utcp_connection) (bytes : list Z) (len : Z) (f : utcp_recv_t) :
  find_connection ua (src a) (dst a) = Ret (Some a) ->
  find_connection ub (src b) (dst b) = Ret (Some b) ->
  idle a -> idle b -> peers a b -> in_range a ->
  0 < len -> len <= mtu ua -> 0 <= mtu ub ->
  len <= snd_cwnd a < 2 ^ 31 -> len <= sndbufsize a < 2 ^ 32 ->
  (Z.to_nat len <= length bytes)%nat ->
  recv b = Some f -> usize (f (firstn (Z.to_nat len) bytes)) = len ->
  exists a1 seg rb ackseg ra a2 b2,
    utcp_send ea ua a (Some bytes) len
    = Ret {| r_val := len; r_errno := None; r_state := a1;
             r_trace := [EvSend seg (firstn (Z.to_nat len) bytes)] |}
    /\ utcp_recv sndbufsz maxsndbufsz eb ub
         (Some (hdr_bytes seg ++ firstn (Z.to_nat len) bytes)) (sizeof_hdr + len) = Ret rb
    /\ r_trace rb
       = [EvRecvData (src b) (dst b) (firstn (Z.to_nat len) bytes); EvSend ackseg []]
    /\ utcp_recv sndbufsz maxsndbufsz ea' (put_conn a1 ua) (Some (hdr_bytes ackseg))
         sizeof_hdr = Ret ra
    /\ r_trace ra = []
    /\ find_connection (r_state ra) (src a) (dst a) = Ret (Some a2)
    /\ find_connection (r_state rb) (src b) (dst b) = Ret (Some b2)
    /\ idle a2 /\ idle b2 /\ peers a2 b2
    /\ snd_nxt a2 = uint32 (snd_nxt a + len) /\ snd_nxt b2 = snd_nxt b
    /\ recv a2 = recv a /\ recv b2 = recv b
    /\ hdr_ctl ackseg = ACK /\ hdr_ack ackseg = uint32 (snd_nxt a + len).
Proof.
  intros Hfa Hfb Ia Ib (P1 & P2 & P3 & P4) (R1 & R2 & R3 & R4 & R5)
    Hlen Hmtua Hmtub Hcwnd Hbuf Hbytes Hrecv Hf.
  set (data := firstn (Z.to_nat len) bytes) in *.
  assert (Hdata : Z.of_nat (length data) = len).
  { subst data. rewrite length_firstn. lia. }
  pose proof (utcp_send_idle ea ua a bytes len Ia Hlen Hmtua Hcwnd Hbuf Hbytes) as H1.
  fold data in H1.
  destruct Ia as (As & Ar & Aun & Al). pose proof Ib as (Bs & Br & Bun & Bl).
  remember (with_snd_nxt (uint32 (snd_nxt a + len))
              (with_snd_last (uint32 (snd_last a + len))
                 (with_sndbuf (buf_write (sndbuf a) 0 data) a))) as a1 eqn:Ea1.
  assert (Fa : state a1 = ESTABLISHED /\ reapable a1 = false
               /\ src a1 = src a /\ dst a1 = dst a
               /\ snd_una a1 = snd_nxt a /\ snd_nxt a1 = uint32 (snd_nxt a + len)
               /\ snd_last a1 = uint32 (snd_nxt a + len) /\ rcv_nxt a1 = rcv_nxt a
               /\ recv a1 = recv a).
  { rewrite Ea1. fields. rewrite Al. repeat split; assumption. }
  clear Ea1. destruct Fa as (A1 & A2 & A3 & A4 & A5 & A6 & A7 & A8 & A9).
  remember {| hdr_src := src a; hdr_dst := dst a; hdr_seq := snd_nxt a;
              hdr_ack := rcv_nxt a; hdr_wnd := snd_wnd a; hdr_ctl := ACK;
              hdr_aux := 0 |} as seg eqn:Eseg.
  assert (Fs : hdr_src seg = src a /\ hdr_dst seg = dst a /\ hdr_seq seg = snd_nxt a
               /\ hdr_ack seg = rcv_nxt a /\ hdr_wnd seg = snd_wnd a
               /\ hdr_ctl seg = ACK /\ hdr_aux seg = 0)
    by (rewrite Eseg; repeat split).
  clear Eseg. destruct Fs as (S1 & S2 & S3 & S4 & S5 & S6 & S7).
  (* the datagram reaches the other host *)
  assert (Hseg : hdr_in_range seg).
  { unfold hdr_in_range. rewrite S1, S2, S3, S4, S5, S6, S7.
    repeat split; try tauto; try lia; try (vm_compute; congruence); reflexivity. }
  pose proof (utcp_recv_datagram sndbufsz maxsndbufsz eb ub seg data b Hseg) as H2.
  rewrite length_app, hdr_bytes_length, Nat2Z.inj_add, Hdata in H2.
  change (Z.of_nat 20) with sizeof_hdr in H2.
  rewrite S1, S2, <- P1, <- P2 in H2.
  specialize (H2 (proj2 (proj2 (proj2 (proj2 (pure_ack_flags seg S6))))) Hfb).
  rewrite (recv_data_idle eb ub b seg data len f) in H2;
    [|exact Ib | rewrite <- P4; exact R4 | rewrite P3; exact R3
     | rewrite S3, P3; reflexivity | rewrite S4, P4; reflexivity | exact S6
     | lia | exact Hmtub | exact Hrecv | exact Hf].
  cbn [bind r_val r_errno r_state r_trace store] in H2. unfold done in H2.
  rewrite S5 in H2.
  remember (with_rcv_nxt (uint32 (rcv_nxt b + len)) (with_snd_wnd (snd_wnd a) b))
    as b1 eqn:Eb1.
  assert (Fb : idle b1 /\ src b1 = src b /\ dst b1 = dst b
               /\ snd_nxt b1 = snd_nxt b /\ rcv_nxt b1 = uint32 (snd_nxt a + len)
               /\ recv b1 = recv b).
  { rewrite Eb1. unfold idle. fields. rewrite P3. repeat split; assumption. }
  clear Eb1. destruct Fb as (Ib1 & B1 & B2 & B3 & B4 & B5).
  remember {| hdr_src := src b; hdr_dst := dst b; hdr_seq := snd_nxt b;
              hdr_ack := uint32 (rcv_nxt b + len); hdr_wnd := snd_wnd a;
              hdr_ctl := ACK; hdr_aux := 0 |} as ackseg eqn:Eack.
  assert (Fk : hdr_src ackseg = src b /\ hdr_dst ackseg = dst b
               /\ hdr_seq ackseg = snd_nxt b
               /\ hdr_ack ackseg = uint32 (snd_nxt a + len)
               /\ hdr_wnd ackseg = snd_wnd a
               /\ hdr_ctl ackseg = ACK /\ hdr_aux ackseg = 0)
    by (rewrite Eack, P3; repeat split).
  clear Eack. destruct Fk as (K1 & K2 & K3 & K4 & K5 & K6 & K7).
  (* the acknowledgement comes back *)
  assert (Hackseg : hdr_in_range ackseg).
  { unfold hdr_in_range. rewrite K1, K2, K3, K4, K5, K6, K7, P1, P2, <- P4.
    pose proof (uint32_range (snd_nxt a + len)).
    repeat split; try tauto; try lia; try (vm_compute; congruence); reflexivity. }
  assert (Hfa1 : find_connection (put_conn a1 ua) (src a) (dst a) = Ret (Some a1))
    by (apply (find_connection_put ua _ _ a a1); assumption).
  pose proof (utcp_recv_datagram sndbufsz maxsndbufsz ea' (put_conn a1 ua) ackseg [] a1
                Hackseg) as H3.
  rewrite app_nil_r, hdr_bytes_length in H3.
  change (Z.of_nat 20) with sizeof_hdr in H3. change (Z.of_nat (length [])) with 0 in H3.
  rewrite K1, K2, P1, P2 in H3.
  specialize (H3 (proj2 (proj2 (proj2 (proj2 (pure_ack_flags ackseg K6))))) Hfa1).
  destruct (recv_ack_all ea' (put_conn a1 ua) a1 ackseg) as (a2 & H4 & G);
    [left; exact A1 | rewrite A7, A6; reflexivity
     | rewrite A6, A5, seqdiff_step; lia
     | rewrite A6; apply uint32_range
     | rewrite K3, A8, P4; reflexivity | rewrite K4, A6; reflexivity | exact K6
     | cbn [mtu put_conn with_connections]; lia |].
  destruct G as (G1 & G2 & G3 & G4 & G5 & G6 & G7 & G8 & G9 & G10 & _).
  rewrite A1 in G1.
  rewrite H4 in H3. cbn [bind r_val r_errno r_state r_trace store] in H3.
  unfold done in H3.
  exists a1, seg. eexists. exists ackseg. eexists. exists a2, b1.
  split; [exact H1|]. split; [exact H2|]. split; [reflexivity|].
  split; [exact H3|]. split; [reflexivity|].
  cbn [r_state].
  split; [apply (find_connection_put _ _ _ a1 a2); [exact Hfa1 | congruence | congruence]|].
  split; [apply (find_connection_put _ _ _ b b1); assumption|].
  split; [unfold idle; repeat split; congruence|].
  split; [exact Ib1|].
  split; [unfold peers; repeat split; congruence|].
  split; [congruence|]. split; [exact B3|]. split; [congruence|].
  split; [exact B5|]. split; [exact K6 | exact K4].
Qed.

(** Three bytes from [established] to [far_end]. *)
Lemma data_transfer_witness :
  exists a1 seg rb ackseg a2 b2,
    utcp_send sample_env (host_of established) established (Some [10; 20; 30]) 3
    = Ret {| r_val := 3; r_errno := None; r_state := a1;
             r_trace := [EvSend seg [10; 20; 30]] |}
    /\ utcp_recv 4096 131072 server_env (host_of far_end)
         (Some (hdr_bytes seg ++ [10; 20; 30])) 23 = Ret rb
    /\ r_trace rb = [EvRecvData 7 32769 [10; 20; 30]; EvSend ackseg []]
    /\ idle a2 /\ idle b2 /\ snd_nxt a2 = 104 /\ rcv_nxt b2 = 104.
Proof.
  destruct (data_transfer 4096 131072 sample_env sample_env server_env
              (host_of established) (host_of far_end) established far_end
              [10; 20; 30] 3 (fun data => Z.of_nat (length data)))
    as (a1 & seg & rb & ackseg & ra & a2 & b2 & H1 & H2 & H3 & _ & _ & _ & _ & Ia & Ib
        & (_ & _ & Hp & _) & Hn & _);
    [reflexivity | reflexivity | repeat split | repeat split | repeat split
     | repeat split; vm_compute; (reflexivity || discriminate)
     | reflexivity | vm_compute; discriminate | vm_compute; discriminate
     | split; [vm_compute; discriminate | reflexivity]
     | split; [vm_compute; discriminate | reflexivity]
     | reflexivity | reflexivity | reflexivity |].
  exists a1, seg, rb, ackseg, a2, b2.
  split; [exact H1|]. split; [exact H2|]. split; [exact H3|].
  split; [exact Ia|]. split; [exact Ib|]. split; [exact Hn|].
  rewrite Hp. exact Hn.
Defined.

(** ** Closing a connection, between two hosts *)

Lemma fin_ack_flags (h : hdr) :
  hdr_ctl h = Z.lor ACK FIN ->
  has_flag ACK h = true /\ has_flag SYN h = false /\ has_flag RST h = false
  /\ has_flag FIN h = true /\ known_flags h = true.
Proof. unfold has_flag, known_flags. intros ->. repeat split. Qed.

(** In FIN_WAIT_1 and CLOSING, when nothing but the FIN is pending, [ack]
    sends it in a segment of its own. *)
Lemma ack_fin (u : utcp) (c : utcp_connection) (b : bool) :
  0 <= seqdiff (snd_last c) (snd_nxt c) -> pending c = 1 -> 1 <= mtu u ->
  fin_state c = true ->
  ack u c b
  = Ret (with_snd_nxt (uint32 (snd_nxt c + 1)) c,
         [EvSend {| hdr_src := src c; hdr_dst := dst c; hdr_seq := snd_nxt c;
                    hdr_ack := rcv_nxt c; hdr_wnd := snd_wnd c;
                    hdr_ctl := Z.lor ACK FIN; hdr_aux := 0 |} []]).
Proof.
  intros Hleft Hp Hm Hfin. rewrite ack_unfold by exact Hleft. rewrite Hp.
  change ((1 =? 0) && negb b) with false. cbv iota.
  cbn [ack_loop]. rewrite fin_test, Hfin.
  destruct (Z.gtb_spec 1 (mtu u)); [lia|]. reflexivity.
Qed.

(** [utcp_shutdown] on a quiet connection that is ESTABLISHED or
    CLOSE_WAIT. *)
Lemma utcp_shutdown_quiet (u : utcp) (c : utcp_connection) (dir : Z) :
  state c = ESTABLISHED \/ state c = CLOSE_WAIT -> quiet c ->
  1 <= mtu u -> 1 <= snd_cwnd c < 2 ^ 31 ->
  utcp_shutdown u c dir
  = Ret {| r_val := 0; r_errno := None;
           r_state :=
             with_snd_nxt (uint32 (snd_nxt c + 1))
               (with_snd_last (uint32 (snd_last c + 1))
                  (with_state (match state c with
                               | ESTABLISHED => FIN_WAIT_1
                               | _ => CLOSING
                               end) c));
           r_trace :=
             [EvSend {| hdr_src := src c; hdr_dst := dst c; hdr_seq := snd_nxt c;
                        hdr_ack := rcv_nxt c; hdr_wnd := snd_wnd c;
                        hdr_ctl := Z.lor ACK FIN; hdr_aux := 0 |} []] |}.
Proof.
  intros Hs (Hr & Hu & Hl) Hm Hcw.
  assert (Hp : forall s, pending (with_snd_last (uint32 (snd_last c + 1)) (with_state s c))
                         = 1).
  { intros s. unfold pending. fields.
    rewrite Hl, seqdiff_succ, Hu, seqdiff_refl, Z.sub_0_r, int32_small by lia.
    destruct (Z.leb_spec (snd_cwnd c) 0); [lia|].
    destruct (Z.ltb_spec (snd_cwnd c) 1); [lia | reflexivity]. }
  assert (Hleft : forall s,
             0 <= seqdiff (snd_last (with_snd_last (uint32 (snd_last c + 1))
                                       (with_state s c)))
                          (snd_nxt (with_snd_last (uint32 (snd_last c + 1))
                                      (with_state s c)))).
  { intros s. fields. rewrite Hl, seqdiff_succ. lia. }
  unfold utcp_shutdown. rewrite Hr.
  destruct Hs as [Hs | Hs]; rewrite Hs; cbv beta iota zeta;
    rewrite set_state_other by discriminate;
    rewrite ack_fin by (try apply Hleft; try apply Hp; try exact Hm; reflexivity);
    reflexivity.
Qed.

(** Stage 3 for an acknowledgement that does not advance, on a segment
    without payload. *)
Lemma recv_advance_dup (e : environ) (u : utcp) (c : utcp_connection) (h : hdr) :
  seqdiff (hdr_ack h) (snd_una c) = 0 ->
  recv_advance e u c h 0 = Ret (with_dupack (dupack c + 1) c).
Proof. intros Hz. unfold recv_advance. rewrite Hz. reflexivity. Qed.

(** The FIN of the peer, in sequence, for a quiet connection. *)
Lemma recv_fin_quiet (e : environ) (u : utcp) (c : utcp_connection) (h : hdr)
  (data : list Z) :
  state c = ESTABLISHED \/ state c = FIN_WAIT_2 -> quiet c ->
  0 <= snd_nxt c < 2 ^ 32 -> 0 <= rcv_nxt c < 2 ^ 32 ->
  hdr_seq h = rcv_nxt c -> hdr_ack h = snd_nxt c -> hdr_ctl h = Z.lor ACK FIN ->
  0 <= mtu u ->
  exists c1,
    utcp_recv_conn e u c h data 0
    = Ret {| r_val := 0;
             r_errno := match recv c with Some _ => Some E0 | None => None end;
             r_state := Some c1;
             r_trace :=
               match recv c with
               | Some _ => [EvRecvNull (src c) (dst c) E0]
               | None => []
               end
               ++ [EvSend {| hdr_src := src c; hdr_dst := dst c; hdr_seq := snd_nxt c;
                             hdr_ack := uint32 (rcv_nxt c + 1); hdr_wnd := hdr_wnd h;
                             hdr_ctl := ACK; hdr_aux := 0 |} []] |}
    /\ state c1 = fin_received (state c) /\ quiet c1
    /\ src c1 = src c /\ dst c1 = dst c /\ snd_nxt c1 = snd_nxt c
    /\ rcv_nxt c1 = uint32 (rcv_nxt c + 1) /\ recv c1 = recv c
    /\ snd_wnd c1 = hdr_wnd h /\ snd_cwnd c1 = snd_cwnd c
    /\ (state c1 = TIME_WAIT -> conn_timeout c1 = add_sec (now e) 60).
Proof.
  intros Hs (Hr & Hu & Hl) Hnxt Hrcv Hseq Hack Hctl Hmtu.
  destruct (fin_ack_flags h Hctl) as (Hfa & Hfs & Hfr & Hff & _).
  assert (Hacc : acceptable c h = true).
  { unfold acceptable. destruct (state_eqb (state c) SYN_SENT); [reflexivity|].
    apply Z.eqb_eq. exact Hseq. }
  assert (Hinv : invalid_ack c h = false).
  { unfold invalid_ack. rewrite Hack, Hu, seqdiff_refl, Hfa. reflexivity. }
  rewrite utcp_recv_conn_valid; try assumption;
    try (destruct Hs as [-> | ->]; discriminate).
  rewrite recv_advance_dup by (fields; rewrite Hack, Hu; apply seqdiff_refl).
  cbn [bind].
  generalize (eq_refl (with_dupack (dupack (with_snd_wnd (hdr_wnd h) c) + 1)
                         (with_snd_wnd (hdr_wnd h) c))).
  generalize (with_dupack (dupack (with_snd_wnd (hdr_wnd h) c) + 1)
                (with_snd_wnd (hdr_wnd h) c)) at 1 3.
  intros c0 Hc0.
  assert (F : state c0 = state c /\ reapable c0 = false
              /\ snd_una c0 = snd_nxt c /\ snd_nxt c0 = snd_nxt c
              /\ snd_last c0 = snd_nxt c
              /\ src c0 = src c /\ dst c0 = dst c /\ rcv_nxt c0 = rcv_nxt c
              /\ recv c0 = recv c /\ snd_wnd c0 = hdr_wnd h
              /\ snd_cwnd c0 = snd_cwnd c).
  { rewrite Hc0. fields. repeat split; assumption. }
  clear Hc0. destruct F as (F1 & F2 & F3 & F4 & F5 & F6 & F7 & F8 & F9 & F10 & F11).
  rewrite recv_syn_pass by exact Hfs.
  rewrite recv_handshake_pass by (rewrite F1; destruct Hs as [-> | ->]; discriminate).
  rewrite recv_data_empty.
  assert (Hgo : forall c2 : utcp_connection,
             state c2 = fin_received (state c) -> reapable c2 = false ->
             snd_una c2 = snd_nxt c -> snd_nxt c2 = snd_nxt c -> snd_last c2 = snd_nxt c ->
             src c2 = src c -> dst c2 = dst c -> rcv_nxt c2 = rcv_nxt c ->
             recv c2 = recv c -> snd_wnd c2 = hdr_wnd h -> snd_cwnd c2 = snd_cwnd c ->
             (state c2 = TIME_WAIT -> conn_timeout c2 = add_sec (now e) 60) ->
             exists c1,
               (let c3 := with_rcv_nxt (uint32 (rcv_nxt c2 + 1)) c2 in
                match recv c3 with
                | Some _ => goto_ack u c3 (rcv_nxt c) (Some E0)
                              ([] ++ [EvRecvNull (src c3) (dst c3) E0])
                | None => goto_ack u c3 (rcv_nxt c) None []
                end)
               = Ret {| r_val := 0;
                        r_errno := match recv c with Some _ => Some E0 | None => None end;
                        r_state := Some c1;
                        r_trace :=
                          match recv c with
                          | Some _ => [EvRecvNull (src c) (dst c) E0]
                          | None => []
                          end
                          ++ [EvSend {| hdr_src := src c; hdr_dst := dst c;
                                        hdr_seq := snd_nxt c;
                                        hdr_ack := uint32 (rcv_nxt c + 1);
                                        hdr_wnd := hdr_wnd h;
                                        hdr_ctl := ACK; hdr_aux := 0 |} []] |}
               /\ state c1 = fin_received (state c) /\ quiet c1
               /\ src c1 = src c /\ dst c1 = dst c /\ snd_nxt c1 = snd_nxt c
               /\ rcv_nxt c1 = uint32 (rcv_nxt c + 1) /\ recv c1 = recv c
               /\ snd_wnd c1 = hdr_wnd h /\ snd_cwnd c1 = snd_cwnd c
               /\ (state c1 = TIME_WAIT -> conn_timeout c1 = add_sec (now e) 60)).
  { intros c2 G1 G2 G3 G4 G5 G6 G7 G8 G9 G10 G12 G11.
    exists (with_rcv_nxt (uint32 (rcv_nxt c2 + 1)) c2). cbv zeta. fields.
    split; [|unfold quiet; fields; rewrite G8; repeat split; (congruence || exact G11)].
    assert (Hfs2 : fin_state (with_rcv_nxt (uint32 (rcv_nxt c2 + 1)) c2) = false).
    { unfold fin_state. fields. rewrite G1. destruct Hs as [-> | ->]; reflexivity. }
    assert (Hmv : (rcv_nxt c =? uint32 (rcv_nxt c2 + 1)) = false).
    { apply Z.eqb_neq. rewrite G8. apply uint32_moves; [exact Hrcv | lia]. }
    rewrite G9, G6, G7.
    destruct (recv c);
      (rewrite goto_ack_idle;
       [|exact Hmtu | fields; congruence | fields; rewrite G4; apply uint32_small; exact Hnxt
        | exact Hfs2]);
      fields; rewrite Hmv, buf_read_none, G6, G7, G4, G8, G10; reflexivity. }
  unfold recv_fin. rewrite Hff, F1.
  destruct Hs as [Hs | Hs]; rewrite Hs; rewrite Hs in Hgo;
    [apply (Hgo (set_state c0 CLOSE_WAIT))
    |apply (Hgo (set_state (with_conn_timeout (add_sec (now e) 60) c0) TIME_WAIT))];
    rewrite ?set_state_other by discriminate; fields;
    try assumption; try reflexivity; try discriminate.
Qed.

(** One end of a quiet connection shuts down, its FIN is carried to the
    other host and the reply of that host is carried back. *)
Lemma shutdown_steps (sndbufsz maxsndbufsz : Z) (ea' eb : environ) (ua ub : utcp)
  (a b : utcp_connection) (dir : Z) :
  find_connection ua (src a) (dst a) = Ret (Some a) ->
  find_connection ub (src b) (dst b) = Ret (Some b) ->
  (state a = ESTABLISHED /\ state b = ESTABLISHED)
  \/ (state a = CLOSE_WAIT /\ state b = FIN_WAIT_2) ->
  quiet a -> quiet b -> peers a b -> in_range a ->
  1 <= mtu ua -> 0 <= mtu ub -> 1 <= snd_cwnd a < 2 ^ 31 ->
  exists a1 fin rb ackseg ra a2 b2,
    utcp_shutdown ua a dir
    = Ret {| r_val := 0; r_errno := None; r_state := a1; r_trace := [EvSend fin []] |}
    /\ has_flag FIN fin = true
    /\ hdr_ctl ackseg = ACK /\ hdr_ack ackseg = uint32 (snd_nxt a + 1)
    /\ utcp_recv sndbufsz maxsndbufsz eb ub (Some (hdr_bytes fin)) sizeof_hdr = Ret rb
    /\ r_trace rb
       = match recv b with
         | Some _ => [EvRecvNull (src b) (dst b) E0]
         | None => []
         end ++ [EvSend ackseg []]
    /\ utcp_recv sndbufsz maxsndbufsz ea' (put_conn a1 ua) (Some (hdr_bytes ackseg))
         sizeof_hdr = Ret ra
    /\ r_trace ra = []
    /\ find_connection (r_state ra) (src a) (dst a) = Ret (Some a2)
    /\ find_connection (r_state rb) (src b) (dst b) = Ret (Some b2)
    /\ state a2 = match state a with ESTABLISHED => FIN_WAIT_2 | _ => TIME_WAIT end
    /\ state b2 = fin_received (state b)
    /\ quiet a2 /\ quiet b2 /\ peers a2 b2 /\ in_range a2 /\ in_range b2
    /\ snd_cwnd b2 = snd_cwnd b
    /\ mtu (r_state ra) = mtu ua /\ mtu (r_state rb) = mtu ub
    /\ conn_timeout a2 = timerclear
    /\ (state b2 = TIME_WAIT -> conn_timeout b2 = add_sec (now eb) 60).
Proof.
  intros Hfa Hfb Hst Qa Qb (P1 & P2 & P3 & P4) (R1 & R2 & R3 & R4 & R5) Hmtua Hmtub Hcwnd.
  assert (Hsa : state a = ESTABLISHED \/ state a = CLOSE_WAIT) by tauto.
  assert (Hsb : state b = ESTABLISHED \/ state b = FIN_WAIT_2) by tauto.
  pose proof (utcp_shutdown_quiet ua a dir Hsa Qa Hmtua Hcwnd) as H1.
  pose proof Qa as (Ar & Aun & Al).
  remember (with_snd_nxt (uint32 (snd_nxt a + 1))
              (with_snd_last (uint32 (snd_last a + 1))
                 (with_state (match state a with
                              | ESTABLISHED => FIN_WAIT_1
                              | _ => CLOSING
                              end) a))) as a1 eqn:Ea1.
  assert (Fa : state a1 = match state a with ESTABLISHED => FIN_WAIT_1 | _ => CLOSING end
               /\ reapable a1 = false
               /\ src a1 = src a /\ dst a1 = dst a
               /\ snd_una a1 = snd_nxt a /\ snd_nxt a1 = uint32 (snd_nxt a + 1)
               /\ snd_last a1 = uint32 (snd_nxt a + 1) /\ rcv_nxt a1 = rcv_nxt a).
  { rewrite Ea1. fields. rewrite Al. repeat split; assumption. }
  clear Ea1. destruct Fa as (A1 & A2 & A3 & A4 & A5 & A6 & A7 & A8).
  remember {| hdr_src := src a; hdr_dst := dst a; hdr_seq := snd_nxt a;
              hdr_ack := rcv_nxt a; hdr_wnd := snd_wnd a; hdr_ctl := Z.lor ACK FIN;
              hdr_aux := 0 |} as fin eqn:Efin.
  assert (Fs : hdr_src fin = src a /\ hdr_dst fin = dst a /\ hdr_seq fin = snd_nxt a
               /\ hdr_ack fin = rcv_nxt a /\ hdr_wnd fin = snd_wnd a
               /\ hdr_ctl fin = Z.lor ACK FIN /\ hdr_aux fin = 0)
    by (rewrite Efin; repeat split).
  clear Efin. destruct Fs as (S1 & S2 & S3 & S4 & S5 & S6 & S7).
  destruct (fin_ack_flags fin S6) as (_ & _ & _ & Hfin & Hknown).
  (* the FIN reaches the other host *)
  assert (Hseg : hdr_in_range fin).
  { unfold hdr_in_range. rewrite S1, S2, S3, S4, S5, S6, S7.
    repeat split; try tauto; try lia; try (vm_compute; congruence); reflexivity. }
  pose proof (utcp_recv_datagram sndbufsz maxsndbufsz eb ub fin [] b Hseg Hknown) as H2.
  rewrite app_nil_r, hdr_bytes_length in H2.
  change (Z.of_nat 20) with sizeof_hdr in H2. change (Z.of_nat (length [])) with 0 in H2.
  rewrite S1, S2, <- P1, <- P2 in H2. specialize (H2 Hfb).
  destruct (recv_fin_quiet eb ub b fin [] Hsb Qb) as (b1 & H2' & B);
    [rewrite <- P4; exact R4 | rewrite P3; exact R3
     | rewrite S3, P3; reflexivity | rewrite S4, P4; reflexivity | exact S6
     | exact Hmtub |].
  destruct B as (B1 & Qb1 & B2 & B3 & B4 & B5 & B6 & B7 & B8 & B9).
  rewrite H2' in H2. cbn [bind r_val r_errno r_state r_trace store] in H2.
  unfold done in H2. rewrite S5 in H2.
  remember {| hdr_src := src b; hdr_dst := dst b; hdr_seq := snd_nxt b;
              hdr_ack := uint32 (rcv_nxt b + 1); hdr_wnd := snd_wnd a;
              hdr_ctl := ACK; hdr_aux := 0 |} as ackseg eqn:Eack.
  assert (Fk : hdr_src ackseg = src b /\ hdr_dst ackseg = dst b
               /\ hdr_seq ackseg = snd_nxt b
               /\ hdr_ack ackseg = uint32 (snd_nxt a + 1)
               /\ hdr_wnd ackseg = snd_wnd a
               /\ hdr_ctl ackseg = ACK /\ hdr_aux ackseg = 0)
    by (rewrite Eack, P3; repeat split).
  clear Eack. destruct Fk as (K1 & K2 & K3 & K4 & K5 & K6 & K7).
  (* the acknowledgement comes back *)
  pose proof (uint32_range (snd_nxt a + 1)) as Hur.
  assert (Hackseg : hdr_in_range ackseg).
  { unfold hdr_in_range. rewrite K1, K2, K3, K4, K5, K6, K7, P1, P2, <- P4.
    repeat split; try tauto; try lia; try (vm_compute; congruence); reflexivity. }
  assert (Hfa1 : find_connection (put_conn a1 ua) (src a) (dst a) = Ret (Some a1))
    by (apply (find_connection_put ua _ _ a a1); assumption).
  pose proof (utcp_recv_datagram sndbufsz maxsndbufsz ea' (put_conn a1 ua) ackseg [] a1
                Hackseg) as H3.
  rewrite app_nil_r, hdr_bytes_length in H3.
  change (Z.of_nat 20) with sizeof_hdr in H3. change (Z.of_nat (length [])) with 0 in H3.
  rewrite K1, K2, P1, P2 in H3.
  specialize (H3 (proj2 (proj2 (proj2 (proj2 (pure_ack_flags ackseg K6))))) Hfa1).
  destruct (recv_ack_all ea' (put_conn a1 ua) a1 ackseg) as (a2 & H4 & G);
    [rewrite A1; destruct Hsa as [-> | ->]; auto
     | rewrite A7, A6; reflexivity
     | rewrite A6, A5, seqdiff_succ; lia
     | rewrite A6; exact Hur
     | rewrite K3, A8, P4; reflexivity | rewrite K4, A6; reflexivity | exact K6
     | cbn [mtu put_conn with_connections]; lia |].
  destruct G as (G1 & G2 & G3 & G4 & G5 & G6 & G7 & G8 & G9 & G10 & _ & G12).
  rewrite H4 in H3. cbn [bind r_val r_errno r_state r_trace store] in H3.
  unfold done in H3.
  exists a1, fin. eexists. exists ackseg. eexists. exists a2, b1.
  split; [exact H1|]. split; [exact Hfin|]. split; [exact K6|]. split; [exact K4|].
  split; [exact H2|]. split; [reflexivity|].
  split; [exact H3|]. split; [reflexivity|].
  cbn [r_state].
  split; [apply (find_connection_put _ _ _ a1 a2); [exact Hfa1 | congruence | congruence]|].
  split; [apply (find_connection_put _ _ _ b b1); assumption|].
  split; [rewrite G1, A1; destruct Hsa as [-> | ->]; reflexivity|].
  split; [exact B1|].
  split; [unfold quiet; repeat split; congruence|].
  split; [exact Qb1|].
  split; [unfold peers; repeat split; congruence|].
  split; [unfold in_range; rewrite G3, G4, A3, A4, G6, A6, G8, A8, G9, K5; tauto|].
  split; [unfold in_range; rewrite B2, B3, B4, B5, B7, S5, P1, P2, P3, <- P4; tauto|].
  split; [exact B8|].
  split; [reflexivity|]. split; [reflexivity|].
  split; [exact G12 | exact B9].
Qed.

(** The same, with the datagrams carried by [shutdown_round]. *)
Lemma shutdown_round_steps (sndbufsz maxsndbufsz : Z) (ea' eb : environ) (ua ub : utcp)
  (a b : utcp_connection) (dir : Z) :
  find_connection ua (src a) (dst a) = Ret (Some a) ->
  find_connection ub (src b) (dst b) = Ret (Some b) ->
  (state a = ESTABLISHED /\ state b = ESTABLISHED)
  \/ (state a = CLOSE_WAIT /\ state b = FIN_WAIT_2) ->
  quiet a -> quiet b -> peers a b -> in_range a ->
  1 <= mtu ua -> 0 <= mtu ub -> 1 <= snd_cwnd a < 2 ^ 31 ->
  exists ua' ub' a2 b2,
    shutdown_round sndbufsz maxsndbufsz ea' eb ua ub a dir = Ret (0, ua', ub', [])
    /\ find_connection ua' (src a) (dst a) = Ret (Some a2)
    /\ find_connection ub' (src b) (dst b) = Ret (Some b2)
    /\ state a2 = match state a with ESTABLISHED => FIN_WAIT_2 | _ => TIME_WAIT end
    /\ state b2 = fin_received (state b)
    /\ quiet a2 /\ quiet b2 /\ peers a2 b2 /\ in_range a2 /\ in_range b2
    /\ snd_cwnd b2 = snd_cwnd b
    /\ mtu ua' = mtu ua /\ mtu ub' = mtu ub
    /\ conn_timeout a2 = timerclear
    /\ (state b2 = TIME_WAIT -> conn_timeout b2 = add_sec (now eb) 60).
Proof.
  intros Hfa Hfb Hst Qa Qb Hp Hr Hmtua Hmtub Hcwnd.
  destruct (shutdown_steps sndbufsz maxsndbufsz ea' eb ua ub a b dir
              Hfa Hfb Hst Qa Qb Hp Hr Hmtua Hmtub Hcwnd)
    as (a1 & fin & rb & ackseg & ra & a2 & b2 & H1 & _ & _ & _ & H2 & H3 & H4 & H5 & H).
  exists (r_state ra), (r_state rb), a2, b2. split; [|exact H].
  unfold shutdown_round. rewrite H1. cbn [bind r_trace r_state r_val datagrams].
  rewrite deliver_one, app_nil_r, hdr_bytes_length.
  change (Z.of_nat 20) with sizeof_hdr. rewrite H2. cbn [bind].
  assert (Hback : datagrams (r_trace rb) = [hdr_bytes ackseg ++ []])
    by (rewrite H3; destruct (recv b); reflexivity).
  rewrite Hback. cbn [app].
  rewrite deliver_one, app_nil_r, hdr_bytes_length.
  change (Z.of_nat 20) with sizeof_hdr. rewrite H4. cbn [bind]. rewrite H5. reflexivity.
Qed.

(** One end of a quiet connection shuts down, its FIN is carried to the
    other host and the reply of that host is carried back.  From
    ESTABLISHED on both sides: [utcp_shutdown] returns 0 and sends one
    empty segment with FIN; the other end becomes CLOSE_WAIT, its [recv]
    callback, if there is one, is called with NULL, and it answers with one
    empty ACK ([ctl] is ACK alone, [ack] is [snd.nxt] of the first end past
    its FIN); on that ACK the first end becomes FIN_WAIT_2 and answers
    nothing.  From CLOSE_WAIT, with the other end in FIN_WAIT_2, the same
    exchange takes the first end through CLOSING to TIME_WAIT, with its
    user timeout cleared, and the other end to TIME_WAIT with its user
    timeout 60 seconds ahead.  Either way both ends are quiet again and
    agree on the sequence numbers. *)
Theorem shutdown_exchange (sndbufsz maxsndbufsz : Z) (ea' eb : environ) (ua ub : utcp)
  (a b : utcp_connection) (dir : Z) :
  find_connection ua (src a) (dst a) = Ret (Some a) ->
  find_connection ub (src b) (dst b) = Ret (Some b) ->
  (state a = ESTABLISHED /\ state b = ESTABLISHED)
  \/ (state a = CLOSE_WAIT /\ state b = FIN_WAIT_2) ->
  quiet a -> quiet b -> peers a b -> in_range a ->
  1 <= mtu ua -> 0 <= mtu ub -> 1 <= snd_cwnd a < 2 ^ 31 ->
  exists a1 fin rb ackseg ra a2 b2,
    utcp_shutdown ua a dir
    = Ret {| r_val := 0; r_errno := None; r_state := a1; r_trace := [EvSend fin []] |}
    /\ has_flag FIN fin = true
    /\ utcp_recv sndbufsz maxsndbufsz eb ub (Some (hdr_bytes fin)) sizeof_hdr = Ret rb
    /\ r_trace rb
       = match recv b with
         | Some _ => [EvRecvNull (src b) (dst b) E0]
         | None => []
         end ++ [EvSend ackseg []]
    /\ utcp_recv sndbufsz maxsndbufsz ea' (put_conn a1 ua) (Some (hdr_bytes ackseg))
         sizeof_hdr = Ret ra
    /\ r_trace ra = []
    /\ find_connection (r_state ra) (src a) (dst a) = Ret (Some a2)
    /\ find_connection (r_state rb) (src b) (dst b) = Ret (Some b2)
    /\ state a2 = match state a with ESTABLISHED => FIN_WAIT_2 | _ => TIME_WAIT end
    /\ state b2 = fin_received (state b)
    /\ quiet a2 /\ quiet b2 /\ peers a2 b2
    /\ conn_timeout a2 = timerclear
    /\ (state b2 = TIME_WAIT -> conn_timeout b2 = add_sec (now eb) 60)
    /\ hdr_ctl ackseg = ACK /\ hdr_ack ackseg = uint32 (snd_nxt a + 1).
Proof.
  intros Hfa Hfb Hst Qa Qb Hp Hr Hmtua Hmtub Hcwnd.
  destruct (shutdown_steps sndbufsz maxsndbufsz ea' eb ua ub a b dir
              Hfa Hfb Hst Qa Qb Hp Hr Hmtua Hmtub Hcwnd)
    as (a1 & fin & rb & ackseg & ra & a2 & b2 & H1 & H2 & K1 & K2 & H3 & H4 & H5 & H6
        & H7 & H8 & H9 & H10 & H11 & H12 & H13 & _ & _ & _ & _ & _ & H14 & H15).
  exists a1, fin, rb, ackseg, ra, a2, b2. tauto.
Qed.

(** [established] shuts down; [far_end] is told. *)
Lemma shutdown_exchange_witness :
  exists a1 fin rb ackseg a2 b2,
    utcp_shutdown (host_of established) established 1
    = Ret {| r_val := 0; r_errno := None; r_state := a1; r_trace := [EvSend fin []] |}
    /\ utcp_recv 4096 131072 server_env (host_of far_end) (Some (hdr_bytes fin)) 20 = Ret rb
    /\ r_trace rb = [EvRecvNull 7 32769 E0; EvSend ackseg []]
    /\ state a2 = FIN_WAIT_2 /\ state b2 = CLOSE_WAIT.
Proof.
  destruct (shutdown_exchange 4096 131072 sample_env server_env
              (host_of established) (host_of far_end) established far_end 1)
    as (a1 & fin & rb & ackseg & ra & a2 & b2 & H1 & _ & H2 & H3 & _ & _ & _ & _ & Ha & Hb
        & _);
    [reflexivity | reflexivity | left; split; reflexivity
     | repeat split | repeat split | repeat split
     | repeat split; vm_compute; (reflexivity || discriminate)
     | vm_compute; discriminate | vm_compute; discriminate
     | split; [vm_compute; discriminate | reflexivity] |].
  exists a1, fin, rb, ackseg, a2, b2.
  split; [exact H1|]. split; [exact H2|]. split; [exact H3|].
  split; [exact Ha | exact Hb].
Defined.

Lemma peers_sym (a b : utcp_connection) : peers a b -> peers b a.
Proof. unfold peers. intros (H1 & H2 & H3 & H4). repeat split; congruence. Qed.

(** Both applications close an established, quiet connection, one after the
    other, the datagrams being carried between the two hosts as they are
    sent: after the first [utcp_shutdown] and its exchange the other end is
    in CLOSE_WAIT; after the second both ends are in TIME_WAIT and nothing
    is left to deliver.  The end that closed first has its user timeout 60
    seconds ahead; the end that closed last has none. *)
Theorem close_completes (sndbufsz maxsndbufsz : Z) (ea ea' eb eb' : environ)
  (ua ub : utcp) (a b : utcp_connection) (dir dir' : Z) :
  find_connection ua (src a) (dst a) = Ret (Some a) ->
  find_connection ub (src b) (dst b) = Ret (Some b) ->
  idle a -> idle b -> peers a b -> in_range a ->
  1 <= mtu ua -> 1 <= mtu ub -> 1 <= snd_cwnd a < 2 ^ 31 -> 1 <= snd_cwnd b < 2 ^ 31 ->
  exists ua1 ub1 b1 ua2 ub2 a2 b2,
    shutdown_round sndbufsz maxsndbufsz ea eb ua ub a dir = Ret (0, ua1, ub1, [])
    /\ find_connection ub1 (src b) (dst b) = Ret (Some b1)
    /\ state b1 = CLOSE_WAIT
    /\ shutdown_round sndbufsz maxsndbufsz eb' ea' ub1 ua1 b1 dir' = Ret (0, ub2, ua2, [])
    /\ find_connection ua2 (src a) (dst a) = Ret (Some a2)
    /\ find_connection ub2 (src b) (dst b) = Ret (Some b2)
    /\ state a2 = TIME_WAIT /\ state b2 = TIME_WAIT
    /\ conn_timeout a2 = add_sec (now ea') 60 /\ conn_timeout b2 = timerclear.
Proof.
  intros Hfa Hfb (As & Qa) (Bs & Qb) Hp Hr Hmtua Hmtub Hca Hcb.
  destruct (shutdown_round_steps sndbufsz maxsndbufsz ea eb ua ub a b dir Hfa Hfb)
    as (ua1 & ub1 & a1 & b1 & H1 & Hfa1 & Hfb1 & Sa1 & Sb1 & Qa1 & Qb1 & Hp1 & Ra1 & Rb1
        & Hcb1 & Hm1 & Hm2 & _);
    try assumption; [left; split; assumption | lia |].
  rewrite As in Sa1. rewrite Bs in Sb1. cbn [fin_received] in Sb1.
  destruct (find_connection_key _ _ _ _ Hfa1) as [Ka1 Ka2].
  destruct (find_connection_key _ _ _ _ Hfb1) as [Kb1 Kb2].
  rewrite <- Ka1, <- Ka2 in Hfa1. rewrite <- Kb1, <- Kb2 in Hfb1.
  destruct (shutdown_round_steps sndbufsz maxsndbufsz eb' ea' ub1 ua1 b1 a1 dir'
              Hfb1 Hfa1)
    as (ub2 & ua2 & b2 & a2 & H2 & Hfb2 & Hfa2 & Sb2 & Sa2 & _ & _ & _ & _ & _ & _ & _ & _
        & Tb2 & Ta2);
    try assumption;
    [right; split; assumption | apply peers_sym; exact Hp1 | lia | lia | lia |].
  rewrite Sb1 in Sb2. rewrite Sa1 in Sa2. cbn [fin_received] in Sa2.
  rewrite Ka1, Ka2 in Hfa2. rewrite Kb1, Kb2 in Hfb2, Hfb1.
  exists ua1, ub1, b1, ua2, ub2, a2, b2.
  split; [exact H1|]. split; [exact Hfb1|]. split; [exact Sb1|].
  split; [exact H2|]. split; [exact Hfa2|]. split; [exact Hfb2|].
  split; [exact Sa2|]. split; [exact Sb2|]. split; [exact (Ta2 Sa2) | exact Tb2].
Qed.

(** [established] and [far_end] close, [established] first. *)
Lemma close_completes_witness :
  exists ua1 ub1 b1 ua2 ub2 a2 b2,
    shutdown_round 4096 131072 sample_env server_env (host_of established)
      (host_of far_end) established 1 = Ret (0, ua1, ub1, [])
    /\ find_connection ub1 7 32769 = Ret (Some b1)
    /\ shutdown_round 4096 131072 server_env sample_env ub1 ua1 b1 1
       = Ret (0, ub2, ua2, [])
    /\ find_connection ua2 32769 7 = Ret (Some a2)
    /\ find_connection ub2 7 32769 = Ret (Some b2)
    /\ state a2 = TIME_WAIT /\ state b2 = TIME_WAIT
    /\ conn_timeout a2 = {| tv_sec := 1060; tv_usec := 0 |}
    /\ conn_timeout b2 = timerclear.
Proof.
  destruct (close_completes 4096 131072 sample_env sample_env server_env server_env
              (host_of established) (host_of far_end) established far_end 1 1)
    as (ua1 & ub1 & b1 & ua2 & ub2 & a2 & b2 & H1 & H2 & _ & H3 & H4 & H5 & H6 & H7
        & H8 & H9);
    [reflexivity | reflexivity | repeat split | repeat split | repeat split
     | repeat split; vm_compute; (reflexivity || discriminate)
     | vm_compute; discriminate | vm_compute; discriminate
     | split; [vm_compute; discriminate | reflexivity]
     | split; [vm_compute; discriminate | reflexivity] |].
  exists ua1, ub1, b1, ua2, ub2, a2, b2.
  split; [exact H1|]. split; [exact H2|]. split; [exact H3|]. split; [exact H4|].
  split; [exact H5|]. split; [exact H6|]. split; [exact H7|].
  split; [exact H8 | exact H9].
Defined.

(** ** utcp_recv: a datagram for port 0 *)

Lemma allocate_connection_any (sndbufsz maxsndbufsz : Z) (e : environ) (u : utcp)
  (d q : Z) :
  nconnections u < 32767 -> first_port e <= q < 65536 ->
  (forall x, In x (connections u) -> key x <> (q, d)) ->
  exists c u', allocate_connection sndbufsz maxsndbufsz e u 0 d = Ret (Some c, None, u').
Proof.
  intros Hn Hq Hfree. pose proof (first_port_range e) as Hfp.
  destruct (free_port_returns u d q Hfree (proj2 Hq) (Z.to_nat 65537) (first_port e))
    as [s' Hs']; [lia | lia |].
  unfold allocate_connection. change (0 =? 0) with true. cbn [negb].
  destruct (Z.geb_spec (nconnections u) 32767); [lia|].
  fold (first_port e). rewrite Hs'. cbn [bind]. eexists _, _. reflexivity.
Qed.

(** A datagram for port 0, with a full header and known flags.  On a host
    that has a connection it ends the process: [find_connection] searches
    the table for source port 0 and [compare] asserts that no source port
    is 0.  On a host that has none, [find_connection] does not search, and
    a plain SYN that the callbacks accept opens a connection on the port
    [allocate_connection] picks for source port 0, [rand () | 0x8000]; the
    SYN|ACK is sent from that port. *)
Theorem utcp_recv_port_zero (sndbufsz maxsndbufsz : Z) (e : environ) (u : utcp)
  (bytes : list Z) (len : Z) :
  let h := parse_hdr bytes in
  sizeof_hdr <= len -> known_flags h = true -> hdr_dst h = 0 ->
  (connections u <> [] -> utcp_recv sndbufsz maxsndbufsz e u (Some bytes) len = Aborted)
  /\ (connections u = [] ->
      has_flag RST h = false -> has_flag SYN h = true -> has_flag ACK h = false ->
      accept u <> None -> (forall f, pre_accept u = Some f -> f 0 = true) ->
      exists res c,
        utcp_recv sndbufsz maxsndbufsz e u (Some bytes) len = Ret res
        /\ r_val res = 0
        /\ connections (r_state res) = [c]
        /\ src c = first_port e /\ dst c = hdr_src h /\ state c = SYN_RECEIVED
        /\ r_trace res
           = [EvSend {| hdr_src := first_port e; hdr_dst := hdr_src h;
                        hdr_seq := uint32 (rand_iss e);
                        hdr_ack := uint32 (hdr_seq h + 1);
                        hdr_wnd := hdr_wnd h; hdr_ctl := Z.lor SYN ACK;
                        hdr_aux := hdr_aux h |} []]).
Proof.
  intros h Hlen Hk Hdst. split.
  - intros Hne. unfold utcp_recv, sizeof_hdr in *.
    destruct (Z.eqb_spec len 0); [lia|].
    destruct (Z.ltb_spec len 20); [lia|].
    cbv zeta. fold h. rewrite Hk. cbn [negb]. rewrite Hdst.
    unfold find_connection.
    destruct (Z.eqb_spec (nconnections u) 0) as [E|E];
      [apply nconnections_zero in E; contradiction|].
    reflexivity.
  - intros Hempty Hrst Hsyn Hack Hacc Hpre.
    assert (Hn0 : nconnections u = 0) by (apply nconnections_zero; exact Hempty).
    assert (Hf : find_connection u (hdr_dst h) (hdr_src h) = Ret None)
      by (unfold find_connection; rewrite Hn0; reflexivity).
    pose proof (first_port_range e) as Hfp.
    destruct (allocate_connection_any sndbufsz maxsndbufsz e u (hdr_src h) (first_port e))
      as (c0 & u0 & Ha); [lia | lia | rewrite Hempty; intros x [] |].
    pose proof (allocate_connection_spec _ _ _ _ _ _ _ _ _ Ha)
      as (_ & Hc & Hl & _ & _ & _ & _ & _ & _ & _ & _ & Hs).
    destruct (Hs eq_refl) as (_ & Hport & Hused). clear Hs.
    assert (Hsrc : src c0 = first_port e).
    { destruct (Z.eq_dec (src c0) (first_port e)) as [E|E]; [exact E|].
      destruct (Hused (first_port e)) as (x & Hx & _); [lia|].
      rewrite Hempty in Hx. destruct Hx. }
    assert (Hd : dst c0 = hdr_src h) by (rewrite Hc; reflexivity).
    assert (Hiss : snd_iss c0 = uint32 (rand_iss e)) by (rewrite Hc; reflexivity).
    unfold utcp_recv, done, sizeof_hdr in *.
    destruct (Z.eqb_spec len 0); [lia|].
    destruct (Z.ltb_spec len 20); [lia|].
    cbv zeta. fold h. rewrite Hk. cbn [negb]. rewrite Hf. cbn [bind].
    rewrite Hrst, Hsyn, Hack. cbn [negb andb].
    destruct (accept u) as [fa|]; [|contradiction].
    assert (Hp : match pre_accept u with
                 | Some f => negb (f (hdr_dst h))
                 | None => false
                 end = false).
    { destruct (pre_accept u) as [g|]; [|reflexivity].
      rewrite Hdst, (Hpre g eq_refl). reflexivity. }
    rewrite Hp, Hdst, Ha. cbn [bind]. rewrite set_state_other by discriminate.
    eexists. eexists. split; [reflexivity|]. cbn [r_val r_state r_trace].
    split; [reflexivity|].
    split.
    { unfold put_conn. cbn [connections with_connections]. rewrite Hl, Hempty.
      cbn [insert_conn update_conn]. fields.
      assert (Hsame : same_key (src c0) (dst c0) c0 = true)
        by (apply same_key_key; reflexivity).
      rewrite Hsame. reflexivity. }
    fields. rewrite Hsrc, Hd, Hiss. repeat split.
Qed.

(** A datagram for port 0 reaches the host that holds [established]. *)
Lemma utcp_recv_port_zero_witness :
  utcp_recv 4096 131072 sample_env (host_of established)
    (Some (hdr_bytes {| hdr_src := 7; hdr_dst := 0; hdr_seq := 0; hdr_ack := 0;
                        hdr_wnd := 0; hdr_ctl := SYN; hdr_aux := 0 |})) 20 = Aborted.
Proof.
  assert (Hlen : sizeof_hdr <= 20) by (vm_compute; discriminate).
  apply (proj1 (utcp_recv_port_zero 4096 131072 sample_env (host_of established)
                  (hdr_bytes {| hdr_src := 7; hdr_dst := 0; hdr_seq := 0; hdr_ack := 0;
                                hdr_wnd := 0; hdr_ctl := SYN; hdr_aux := 0 |}) 20
                  Hlen eq_refl eq_refl)).
  discriminate.
Defined.
